(** * LifeLink: the donation / request approval workflow

    A shallow embedding of the Express routes [routes/donations.js],
    [routes/requests.js], the registration and login routes of the auth
    router, and of the Mongoose models [Donation], [Request], [Stats] and
    [User], followed by the properties of the workflow.

    Conventions of the embedding
    - a Mongoose collection is a finite map from [ObjectId] to documents:
      the key is the document's [_id], so [findById] is a lookup and [save]
      an insert at that key;
    - JavaScript [undefined]/[null] is [None]; [a || b] is [js_or];
    - a handler is a function from the store to a new store and a response;
      an exception thrown inside [try] is the [inl] of [Exn + _] and is
      turned into a response by the handler's [catch];
    - the clock ([Date.now()], [new Date()]) is an explicit argument [now];
      all reads of the clock within one HTTP request see the same instant;
    - request payloads are well typed: ids are [ObjectId]s, numbers are
      integers (cast errors of ill-typed JSON are outside the model). *)

From stdpp Require Import base option list gmap strings sorting.
From Stdlib Require Import ZArith String Ascii.

Open Scope string_scope.

(** ** JavaScript values *)

Definition ObjectId := N.
Definition Time := Z.
Bind Scope N_scope with ObjectId.
Bind Scope Z_scope with Time.

(** Truthiness of an optional string: [undefined] and [''] are falsy. *)
Definition truthy (o : option string) : bool :=
  match o with
  | Some s => negb (s =? "")
  | None => false
  end.

(** [a || b] on optional strings. *)
Definition js_or (a b : option string) : option string :=
  if truthy a then a else b.

(** [a || 'literal'] : the result is always a string. *)
Definition js_or_lit (a : option string) (lit : string) : string :=
  match a with
  | Some s => if s =? "" then lit else s
  | None => lit
  end.

(** [x === 'literal'] for a possibly undefined [x]. *)
Definition is_lit (x : option string) (lit : string) : bool :=
  match x with
  | Some s => s =? lit
  | None => false
  end.

(** [[...].includes(x)] on an array of string literals. *)
Definition includes (l : list string) (x : option string) : bool :=
  match x with
  | Some s => existsb (String.eqb s) l
  | None => false
  end.

(** A path with an [enum] validator: an absent value passes. *)
Definition enum_ok (allowed : list string) (v : option string) : bool :=
  match v with
  | Some s => existsb (String.eqb s) allowed
  | None => true
  end.

(** A value that is not [undefined]: objects such as a [Date], an
    [ObjectId] or a subdocument are truthy whenever they are present. *)
Definition defined {A} (o : option A) : bool :=
  match o with
  | Some _ => true
  | None => false
  end.

(** Exceptions that reach a handler's [catch]. A [ValidationError] of
    Mongoose carries the name of the model and, in [errors], the failing
    paths, each with the message of its validator. *)
Inductive Exn :=
| Error (message : string)
| TypeError (message : string)
| ValidationError (model : string) (errors : list (string * string))
| MongoServerError (code : N).

(** [error.message]; for a [ValidationError] it is
    ["<Model> validation failed: <path>: <message>, ..."]. *)
Definition message_of (e : Exn) : string :=
  match e with
  | Error m => m
  | TypeError m => m
  | ValidationError model errors =>
      model ++ " validation failed: "
      ++ String.concat ", " ((fun pm => fst pm ++ ": " ++ snd pm) <$> errors)
  | MongoServerError _ => "MongoServerError"
  end.

(** The default messages of the [required] and [enum] validators. *)
Definition required_message (path : string) : string :=
  "Path `" ++ path ++ "` is required.".
Definition enum_message (value path : string) : string :=
  "`" ++ value ++ "` is not a valid enum value for path `" ++ path ++ "`.".

Definition throws (A : Type) := (Exn + A)%type.

Definition bindE {A B} (x : throws A) (k : A -> throws B) : throws B :=
  match x with
  | inl e => inl e
  | inr a => k a
  end.

Notation "'let!' x := c 'in' k" := (bindE c (fun x => k))
  (at level 10, x name, c at level 100, k at level 200).

(** An HTTP response: status code and either an error body or a payload. *)
Record Response (A : Type) := mkResponse {
  code : nat;
  body : string + A
}.
Arguments mkResponse {A} _ _.
Arguments code {A} _.
Arguments body {A} _.

(** ** Strings and regular expressions of the auth router

    Strings are sequences of ASCII characters. A regular expression literal
    is a term of [Regex]; [test] is the anchored match ([^...$]) by
    derivatives. *)

Definition in_range (lo hi c : ascii) : bool :=
  (nat_of_ascii lo <=? nat_of_ascii c)%nat
  && (nat_of_ascii c <=? nat_of_ascii hi)%nat.

Definition is_digit (c : ascii) : bool := in_range "0" "9" c.
Definition is_upper (c : ascii) : bool := in_range "A" "Z" c.
Definition is_lower (c : ascii) : bool := in_range "a" "z" c.

(** [\w] *)
Definition is_word (c : ascii) : bool :=
  is_upper c || is_lower c || is_digit c || Ascii.eqb c "_".

(** White space that [trim] removes: tab, line feed, vertical tab, form
    feed, carriage return and space. *)
Definition is_space (c : ascii) : bool :=
  in_range "009" "013" c || Ascii.eqb c " ".

Definition lower_char (c : ascii) : ascii :=
  if is_upper c then ascii_of_nat (nat_of_ascii c + 32) else c.

(** [s.toLowerCase()] *)
Fixpoint toLowerCase (s : string) : string :=
  match s with
  | EmptyString => EmptyString
  | String c s => String (lower_char c) (toLowerCase s)
  end.

Fixpoint trimStart (s : string) : string :=
  match s with
  | EmptyString => EmptyString
  | String c s' => if is_space c then trimStart s' else s
  end.

(** The string without its trailing white space. *)
Fixpoint trimEnd (s : string) : string :=
  match s with
  | EmptyString => EmptyString
  | String c s' =>
      match trimEnd s' with
      | EmptyString => if is_space c then EmptyString else String c EmptyString
      | t => String c t
      end
  end.

(** [s.trim()] *)
Definition trim (s : string) : string := trimEnd (trimStart s).

(** The setters of the [email] path of the User schema ([trim] and
    [lowercase]). Mongoose runs the setters of a path on a value that is
    assigned to the path and also on a value that a query filter compares
    the path with. *)
Definition cast_email (s : string) : string := toLowerCase (trim s).

Inductive Regex :=
| RNone
| REps
| RClass (p : ascii -> bool)
| RCat (r1 r2 : Regex)
| RAlt (r1 r2 : Regex)
| RStar (r : Regex).

Fixpoint nullable (r : Regex) : bool :=
  match r with
  | RNone => false
  | REps => true
  | RClass _ => false
  | RCat r1 r2 => nullable r1 && nullable r2
  | RAlt r1 r2 => nullable r1 || nullable r2
  | RStar _ => true
  end.

Fixpoint deriv (c : ascii) (r : Regex) : Regex :=
  match r with
  | RNone => RNone
  | REps => RNone
  | RClass p => if p c then REps else RNone
  | RCat r1 r2 =>
      if nullable r1
      then RAlt (RCat (deriv c r1) r2) (deriv c r2)
      else RCat (deriv c r1) r2
  | RAlt r1 r2 => RAlt (deriv c r1) (deriv c r2)
  | RStar r1 => RCat (deriv c r1) (RStar r1)
  end.

(** [/^r$/.test(s)] *)
Fixpoint test (r : Regex) (s : string) : bool :=
  match s with
  | EmptyString => nullable r
  | String c s => test (deriv c r) s
  end.

Definition RChar (c : ascii) : Regex := RClass (Ascii.eqb c).
(** [r+], [r?] *)
Definition RPlus (r : Regex) : Regex := RCat r (RStar r).
Definition ROpt (r : Regex) : Regex := RAlt r REps.

(** [/^\w+([.-]?\w+)*@\w+([.-]?\w+)*(\.\w{2,3})+$/] *)
Definition emailRegex : Regex :=
  let w := RClass is_word in
  let dot_or_dash := RClass (fun c => Ascii.eqb c "." || Ascii.eqb c "-") in
  let words := RCat (RPlus w) (RStar (RCat (ROpt dot_or_dash) (RPlus w))) in
  RCat words
    (RCat (RChar "@")
       (RCat words
          (RPlus (RCat (RChar ".") (RCat w (RCat w (ROpt w))))))).

(** [/^[0-9]{10}$/] *)
Definition phoneRegex : Regex :=
  let d := RClass is_digit in
  RCat d (RCat d (RCat d (RCat d (RCat d
    (RCat d (RCat d (RCat d (RCat d d)))))))).

Definition bloodGroups : list string :=
  ["A+"; "A-"; "B+"; "B-"; "AB+"; "AB-"; "O+"; "O-"].

(** ** models/User.js *)

Module User.

Record Profile := mkProfile {
  name : option string;
  phone : option string;
  address : option string;
  bloodGroup : option string;
  dateOfBirth : option Time;
  gender : option string
}.

Record t := mk {
  email : string;
  password : option string;
  googleId : option string;
  type : string;
  status : string;
  profile : Profile;
  data : gmap string string;
  lastLogin : option Time;
  loginAttempts : Z;
  accountLocked : bool;
  lockUntil : option Time;
  emailVerified : bool;
  passwordResetToken : option string;
  passwordResetExpires : option Time;
  createdAt : Time;
  updatedAt : Time
}.

Definition types : list string := ["admin"; "donor"; "hospital"; "patient"].
Definition statuses : list string := ["active"; "deactivated"; "pending"].
Definition genders : list string := ["male"; "female"; "other"].

(** Field assignments and updates of stored documents. *)
Definition set_profile (p : Profile) (u : t) : t :=
mk (email u) (password u) (googleId u) (type u) (status u) p (data u)
   (lastLogin u) (loginAttempts u) (accountLocked u) (lockUntil u)
   (emailVerified u) (passwordResetToken u) (passwordResetExpires u)
   (createdAt u) (updatedAt u).
Definition set_updatedAt (now : Time) (u : t) : t :=
mk (email u) (password u) (googleId u) (type u) (status u) (profile u)
   (data u) (lastLogin u) (loginAttempts u) (accountLocked u) (lockUntil u)
   (emailVerified u) (passwordResetToken u) (passwordResetExpires u)
   (createdAt u) now.
Definition set_lastLogin (l : option Time) (u : t) : t :=
mk (email u) (password u) (googleId u) (type u) (status u) (profile u)
   (data u) l (loginAttempts u) (accountLocked u) (lockUntil u)
   (emailVerified u) (passwordResetToken u) (passwordResetExpires u)
   (createdAt u) (updatedAt u).
Definition set_lock (attempts : Z) (locked : bool) (until : option Time)
  (u : t) : t :=
mk (email u) (password u) (googleId u) (type u) (status u) (profile u)
   (data u) (lastLogin u) attempts locked until
   (emailVerified u) (passwordResetToken u) (passwordResetExpires u)
   (createdAt u) (updatedAt u).
(** The hashed password replaces the submitted one and the reset fields
    are cleared. *)
Definition set_hashed (h : string) (u : t) : t :=
mk (email u) (Some h) (googleId u) (type u) (status u) (profile u)
   (data u) (lastLogin u) (loginAttempts u) (accountLocked u) (lockUntil u)
   (emailVerified u) None None (createdAt u) (updatedAt u).

(** A [required] string path: absent and empty values fail. *)
Definition required_then (msg : string) (v : option string)
  (rest : string -> list string) : list string :=
match v with
| Some s => if s =? "" then [msg] else rest s
| None => [msg]
end.

(** Schema validation: per path, the message of the first validator that
    fails. *)
Definition validate (u : t) : list string :=
(if email u =? "" then ["Email is required"]
 else if test emailRegex (email u) then []
 else ["Please enter a valid email"])
++ (let required := negb (truthy (googleId u)) in
    match password u with
    | Some p =>
        if (p =? "") && required then ["Path `password` is required."]
        else if (String.length p <? 8)%nat
        then ["Password must be at least 8 characters long"] else []
    | None =>
        if required then ["Path `password` is required."] else []
    end)
++ (if type u =? "" then ["User type is required"]
    else if existsb (String.eqb (type u)) types then []
    else ["User type must be admin, donor, hospital, or patient"])
++ (if existsb (String.eqb (status u)) statuses then []
    else [enum_message (status u) "status"])
++ required_then "Name is required" (name (profile u))
     (fun s => if (String.length s <? 2)%nat
               then ["Name must be at least 2 characters long"] else [])
++ required_then "Phone number is required" (phone (profile u))
     (fun s => if test phoneRegex s then []
               else ["Phone number must be 10 digits"])
++ (if (type u =? "hospital") && negb (truthy (address (profile u)))
    then ["Path `profile.address` is required."] else [])
++ (match bloodGroup (profile u) with
    | Some g =>
        if (g =? "") && (type u =? "donor")
        then ["Path `profile.bloodGroup` is required."]
        else if existsb (String.eqb g) bloodGroups then []
        else [enum_message g "profile.bloodGroup"]
    | None =>
        if type u =? "donor"
        then ["Path `profile.bloodGroup` is required."] else []
    end)
++ (if enum_ok genders (gender (profile u)) then []
    else [enum_message (default "" (gender (profile u))) "profile.gender"]).

(** The paths of the failing validators, in the order of [validate]. *)
Definition error_paths (u : t) : list string :=
(if (email u =? "") || negb (test emailRegex (email u))
 then ["email"] else [])
++ (let required := negb (truthy (googleId u)) in
    match password u with
    | Some p =>
        if (p =? "") && required || (String.length p <? 8)%nat
        then ["password"] else []
    | None => if required then ["password"] else []
    end)
++ (if (type u =? "") || negb (existsb (String.eqb (type u)) types)
    then ["type"] else [])
++ (if existsb (String.eqb (status u)) statuses then [] else ["status"])
++ (if required_then "" (name (profile u))
         (fun s => if (String.length s <? 2)%nat then [""] else [])
    is [] then [] else ["profile.name"])
++ (if required_then "" (phone (profile u))
         (fun s => if test phoneRegex s then [] else [""])
    is [] then [] else ["profile.phone"])
++ (if (type u =? "hospital") && negb (truthy (address (profile u)))
    then ["profile.address"] else [])
++ (match bloodGroup (profile u) with
    | Some g =>
        if (g =? "") && (type u =? "donor")
           || negb (existsb (String.eqb g) bloodGroups)
        then ["profile.bloodGroup"] else []
    | None => if type u =? "donor" then ["profile.bloodGroup"] else []
    end)
++ (if enum_ok genders (gender (profile u)) then []
    else ["profile.gender"]).

(** The first [pre('save')] hook: refresh [updatedAt] and, when the profile
    has no name, fill the profile from the legacy [data]. *)
Definition pre_save_profile (now : Time) (u : t) : t :=
let u := set_updatedAt now u in
if negb (truthy (name (profile u))) then
  let typePrefix := type u ++ "-" in
  let p := profile u in
  let p :=
    mkProfile
      (js_or (data u !! (typePrefix ++ "name")) (data u !! "name"))
      (js_or (data u !! (typePrefix ++ "phone")) (data u !! "phone"))
      (if type u =? "hospital"
       then js_or (data u !! (typePrefix ++ "address")) (data u !! "address")
       else address p)
      (if type u =? "donor"
       then js_or (data u !! (typePrefix ++ "blood-group"))
                  (data u !! "bloodGroup")
       else bloodGroup p)
      (dateOfBirth p) (gender p) in
  set_profile p u
else u.

Section Bcrypt.

(** [bcrypt.hash(password, 12)] with the salt it draws, and
    [bcrypt.compare(candidate, hash)]. *)
Variable bcrypt_hash : string -> string -> string.
Variable bcrypt_compare : string -> string -> bool.

(** The second [pre('save')] hook: hash the password when it was modified.
    [passwordModified] is [this.isModified('password')]. *)
Definition pre_save_password (salt : string) (passwordModified : bool)
  (u : t) : throws t :=
if truthy (googleId u) && negb (truthy (password u)) then inr u
else if negb passwordModified then inr u
else match password u with
     | Some p => inr (set_hashed (bcrypt_hash salt p) u)
     | None => inl (Error "Illegal arguments: undefined, number")
     end.

(** [await user.save()]: validation, then the two hooks in order. *)
Definition save (now : Time) (salt : string) (passwordModified : bool)
  (u : t) : throws t :=
match validate u with
| [] => pre_save_password salt passwordModified (pre_save_profile now u)
| errs => inl (ValidationError "User" (zip (error_paths u) errs))
end.

(** [userSchema.methods.comparePassword] *)
Definition comparePassword (candidatePassword : string) (u : t)
  : throws bool :=
if truthy (googleId u) && negb (truthy (password u)) then inr false
else match password u with
     | Some h => inr (bcrypt_compare candidatePassword h)
     | None => inl (Error "Illegal arguments: string, undefined")
     end.

End Bcrypt.

(** [userSchema.methods.isLocked] *)
Definition isLocked (now : Time) (u : t) : bool :=
accountLocked u
&& match lockUntil u with
   | Some t => (now <? t)%Z
   | None => false
   end.

(** [userSchema.methods.incLoginAttempts]: the stored document after the
    [updateOne]. The schema has [timestamps: true], so the update also sets
    [updatedAt] to the time at which it runs. *)
Definition incLoginAttempts (now : Time) (u : t) : t :=
set_updatedAt now
  (match lockUntil u with
   | Some t =>
       if (t <? now)%Z then set_lock 1 (accountLocked u) None u
       else if (5 <=? loginAttempts u + 1)%Z && negb (isLocked now u)
       then set_lock (loginAttempts u + 1) true
              (Some (now + 2 * 60 * 60 * 1000)%Z) u
       else set_lock (loginAttempts u + 1) (accountLocked u) (lockUntil u) u
   | None =>
       if (5 <=? loginAttempts u + 1)%Z && negb (isLocked now u)
       then set_lock (loginAttempts u + 1) true
              (Some (now + 2 * 60 * 60 * 1000)%Z) u
       else set_lock (loginAttempts u + 1) (accountLocked u) (lockUntil u) u
   end).

(** [userSchema.methods.resetLoginAttempts]: the stored document after
    the [updateOne], which sets [updatedAt] as well; an unset
    [loginAttempts] reads as its default 0. *)
Definition resetLoginAttempts (now : Time) (u : t) : t :=
set_updatedAt now (set_lastLogin (Some now) (set_lock 0 false None u)).

End User.

(** [req.user.profile?.name || req.user.data[req.user.type + '-name']] *)
Definition callerName (u : User.t) : option string :=
  js_or (User.name (User.profile u))
        (User.data u !! (User.type u ++ "-name")).

(** ** models/Donation.js *)

(** One element of [rejectedByHospitals]. Every element the routes push
    carries the rejecting hospital's id. *)
Record Rejection := mkRejection {
  rej_hospitalId : ObjectId;
  rej_hospitalName : option string;
  rej_rejectionReason : string;
  rej_rejectedAt : Time
}.

Definition bloodTypes : list string :=
  ["A+"; "A-"; "B+"; "B-"; "AB+"; "AB-"; "O+"; "O-"].
Definition medicineTypes : list string :=
  ["tablet"; "capsule"; "syrup"; "injection"; "cream"; "drops"].
Definition urgencies : list string := ["low"; "medium"; "high"; "critical"].

Module Donation.

Record Details := mkDetails {
  bloodType : option string;
  bloodUnits : option Z;
  weight : option Z;
  healthStatus : option string;
  lastDonationDate : option string;
  medications : option string;
  medicineName : option string;
  medicineType : option string;
  quantity : option Z;
  expiryDate : option Time;
  availability : option string;
  contactPreference : option string;
  contactDetails : option string;
  address : option string;
  urgency : option string;
  notes : option string
}.

Record t := mk {
  donorId : ObjectId;
  donorName : option string;
  donorEmail : option string;
  donorPhone : option string;
  type : option string;
  details : Details;
  status : string;
  hospitalId : option ObjectId;
  hospitalName : option string;
  patientId : option ObjectId;
  patientName : option string;
  rejectionReason : option string;
  approvedBy : option ObjectId;
  rejectedByHospitals : list Rejection;
  createdAt : Time;
  updatedAt : Time;
  approvedAt : option Time;
  completedAt : option Time
}.

Definition types : list string := ["blood"; "medicine"].
Definition statuses : list string :=
  ["pending"; "approved"; "rejected"; "completed"; "expired"].

(** Field assignments [donation.f = v]. *)
Definition set_status (s : string) (d : t) : t :=
  mk (donorId d) (donorName d) (donorEmail d) (donorPhone d) (type d)
     (details d) s (hospitalId d) (hospitalName d) (patientId d)
     (patientName d) (rejectionReason d) (approvedBy d)
     (rejectedByHospitals d) (createdAt d) (updatedAt d) (approvedAt d)
     (completedAt d).
Definition set_hospitalId (h : option ObjectId) (d : t) : t :=
  mk (donorId d) (donorName d) (donorEmail d) (donorPhone d) (type d)
     (details d) (status d) h (hospitalName d) (patientId d)
     (patientName d) (rejectionReason d) (approvedBy d)
     (rejectedByHospitals d) (createdAt d) (updatedAt d) (approvedAt d)
     (completedAt d).
Definition set_hospitalName (n : option string) (d : t) : t :=
  mk (donorId d) (donorName d) (donorEmail d) (donorPhone d) (type d)
     (details d) (status d) (hospitalId d) n (patientId d)
     (patientName d) (rejectionReason d) (approvedBy d)
     (rejectedByHospitals d) (createdAt d) (updatedAt d) (approvedAt d)
     (completedAt d).
Definition set_patientId (p : option ObjectId) (d : t) : t :=
  mk (donorId d) (donorName d) (donorEmail d) (donorPhone d) (type d)
     (details d) (status d) (hospitalId d) (hospitalName d) p
     (patientName d) (rejectionReason d) (approvedBy d)
     (rejectedByHospitals d) (createdAt d) (updatedAt d) (approvedAt d)
     (completedAt d).
Definition set_approvedBy (a : option ObjectId) (d : t) : t :=
  mk (donorId d) (donorName d) (donorEmail d) (donorPhone d) (type d)
     (details d) (status d) (hospitalId d) (hospitalName d) (patientId d)
     (patientName d) (rejectionReason d) a
     (rejectedByHospitals d) (createdAt d) (updatedAt d) (approvedAt d)
     (completedAt d).
Definition set_rejectedByHospitals (l : list Rejection) (d : t) : t :=
  mk (donorId d) (donorName d) (donorEmail d) (donorPhone d) (type d)
     (details d) (status d) (hospitalId d) (hospitalName d) (patientId d)
     (patientName d) (rejectionReason d) (approvedBy d)
     l (createdAt d) (updatedAt d) (approvedAt d)
     (completedAt d).
Definition set_updatedAt (u : Time) (d : t) : t :=
  mk (donorId d) (donorName d) (donorEmail d) (donorPhone d) (type d)
     (details d) (status d) (hospitalId d) (hospitalName d) (patientId d)
     (patientName d) (rejectionReason d) (approvedBy d)
     (rejectedByHospitals d) (createdAt d) u (approvedAt d)
     (completedAt d).
Definition set_approvedAt (a : option Time) (d : t) : t :=
  mk (donorId d) (donorName d) (donorEmail d) (donorPhone d) (type d)
     (details d) (status d) (hospitalId d) (hospitalName d) (patientId d)
     (patientName d) (rejectionReason d) (approvedBy d)
     (rejectedByHospitals d) (createdAt d) (updatedAt d) a
     (completedAt d).
Definition set_completedAt (c : option Time) (d : t) : t :=
  mk (donorId d) (donorName d) (donorEmail d) (donorPhone d) (type d)
     (details d) (status d) (hospitalId d) (hospitalName d) (patientId d)
     (patientName d) (rejectionReason d) (approvedBy d)
     (rejectedByHospitals d) (createdAt d) (updatedAt d) (approvedAt d)
     c.

(** Schema validation run by [save()] before the [pre('save')] hooks:
    [required] and [enum] validators, one message per failing path. *)
Definition validate (d : t) : list string :=
  (if type d is Some ty
   then if existsb (String.eqb ty) types then [] else ["type"]
   else ["type"])
  ++ (if enum_ok bloodTypes (bloodType (details d)) then []
      else ["details.bloodType"])
  ++ (if enum_ok medicineTypes (medicineType (details d)) then []
      else ["details.medicineType"])
  ++ (if enum_ok urgencies (urgency (details d)) then []
      else ["details.urgency"])
  ++ (if existsb (String.eqb (status d)) statuses then [] else ["status"]).

(** [donationSchema.pre('save', ...)]; [statusModified] is
    [this.isModified('status')]. *)
Definition pre_save (now : Time) (statusModified : bool) (d : t) : t :=
  let d := set_updatedAt now d in
  if statusModified then
    let d :=
      if (status d =? "approved") && negb (defined (approvedAt d))
      then set_approvedAt (Some now) d else d in
    if (status d =? "completed") && negb (defined (completedAt d))
    then set_completedAt (Some now) d else d
  else d.

(** The message of the validator that fails on a path of [validate]. *)
Definition error_message (d : t) (path : string) : string :=
  if path =? "type" then
    match type d with
    | Some ty =>
        if ty =? "" then required_message path else enum_message ty path
    | None => required_message path
    end
  else
    enum_message
      (if path =? "details.bloodType"
       then default "" (bloodType (details d))
       else if path =? "details.medicineType"
       then default "" (medicineType (details d))
       else if path =? "details.urgency"
       then default "" (urgency (details d))
       else status d)
      path.

(** [await donation.save()]: the document that is written, or the
    validation error that rejects the promise. *)
Definition save (now : Time) (statusModified : bool) (d : t) : throws t :=
  match validate d with
  | [] => inr (pre_save now statusModified d)
  | errs =>
      inl (ValidationError "Donation"
             ((fun p => (p, error_message d p)) <$> errs))
  end.

End Donation.

Module Request.

Record Details := mkDetails {
  bloodType : option string;
  bloodUnits : option Z;
  medicineName : option string;
  medicineType : option string;
  quantity : option Z;
  bedType : option string;
  duration : option Z;
  doctorSpecialty : option string;
  appointmentDate : option Time;
  urgency : option string;
  medicalHistory : option string;
  additionalNotes : option string
}.

Record t := mk {
  patientId : ObjectId;
  patientName : option string;
  patientEmail : option string;
  patientPhone : option string;
  type : option string;
  details : Details;
  status : string;
  hospitalId : option ObjectId;
  hospitalName : option string;
  fulfilledBy_donationId : option ObjectId;
  fulfilledBy_resourceId : option string;
  fulfilledBy_assignedAt : option Time;
  rejectionReason : option string;
  approvedBy : option ObjectId;
  rejectedByHospitals : list Rejection;
  createdAt : Time;
  updatedAt : Time;
  approvedAt : option Time;
  completedAt : option Time
}.

Definition types : list string := ["blood"; "medicine"; "bed"; "doctor"].
Definition statuses : list string :=
  ["pending"; "approved"; "rejected"; "completed"; "cancelled"].
Definition bedTypes : list string :=
  ["general"; "icu"; "emergency"; "maternity"; "pediatric"].
Definition doctorSpecialties : list string :=
  ["general"; "cardiology"; "neurology"; "orthopedic"; "pediatric";
   "emergency"].

Definition set_status (s : string) (r : t) : t :=
  mk (patientId r) (patientName r) (patientEmail r) (patientPhone r)
     (type r) (details r) s (hospitalId r) (hospitalName r)
     (fulfilledBy_donationId r) (fulfilledBy_resourceId r)
     (fulfilledBy_assignedAt r) (rejectionReason r) (approvedBy r)
     (rejectedByHospitals r) (createdAt r) (updatedAt r) (approvedAt r)
     (completedAt r).
Definition set_hospitalId (h : option ObjectId) (r : t) : t :=
  mk (patientId r) (patientName r) (patientEmail r) (patientPhone r)
     (type r) (details r) (status r) h (hospitalName r)
     (fulfilledBy_donationId r) (fulfilledBy_resourceId r)
     (fulfilledBy_assignedAt r) (rejectionReason r) (approvedBy r)
     (rejectedByHospitals r) (createdAt r) (updatedAt r) (approvedAt r)
     (completedAt r).
Definition set_hospitalName (n : option string) (r : t) : t :=
  mk (patientId r) (patientName r) (patientEmail r) (patientPhone r)
     (type r) (details r) (status r) (hospitalId r) n
     (fulfilledBy_donationId r) (fulfilledBy_resourceId r)
     (fulfilledBy_assignedAt r) (rejectionReason r) (approvedBy r)
     (rejectedByHospitals r) (createdAt r) (updatedAt r) (approvedAt r)
     (completedAt r).
Definition set_approvedBy (a : option ObjectId) (r : t) : t :=
  mk (patientId r) (patientName r) (patientEmail r) (patientPhone r)
     (type r) (details r) (status r) (hospitalId r) (hospitalName r)
     (fulfilledBy_donationId r) (fulfilledBy_resourceId r)
     (fulfilledBy_assignedAt r) (rejectionReason r) a
     (rejectedByHospitals r) (createdAt r) (updatedAt r) (approvedAt r)
     (completedAt r).
Definition set_rejectedByHospitals (l : list Rejection) (r : t) : t :=
  mk (patientId r) (patientName r) (patientEmail r) (patientPhone r)
     (type r) (details r) (status r) (hospitalId r) (hospitalName r)
     (fulfilledBy_donationId r) (fulfilledBy_resourceId r)
     (fulfilledBy_assignedAt r) (rejectionReason r) (approvedBy r)
     l (createdAt r) (updatedAt r) (approvedAt r)
     (completedAt r).
Definition set_updatedAt (u : Time) (r : t) : t :=
  mk (patientId r) (patientName r) (patientEmail r) (patientPhone r)
     (type r) (details r) (status r) (hospitalId r) (hospitalName r)
     (fulfilledBy_donationId r) (fulfilledBy_resourceId r)
     (fulfilledBy_assignedAt r) (rejectionReason r) (approvedBy r)
     (rejectedByHospitals r) (createdAt r) u (approvedAt r)
     (completedAt r).
Definition set_approvedAt (a : option Time) (r : t) : t :=
  mk (patientId r) (patientName r) (patientEmail r) (patientPhone r)
     (type r) (details r) (status r) (hospitalId r) (hospitalName r)
     (fulfilledBy_donationId r) (fulfilledBy_resourceId r)
     (fulfilledBy_assignedAt r) (rejectionReason r) (approvedBy r)
     (rejectedByHospitals r) (createdAt r) (updatedAt r) a
     (completedAt r).
Definition set_completedAt (c : option Time) (r : t) : t :=
  mk (patientId r) (patientName r) (patientEmail r) (patientPhone r)
     (type r) (details r) (status r) (hospitalId r) (hospitalName r)
     (fulfilledBy_donationId r) (fulfilledBy_resourceId r)
     (fulfilledBy_assignedAt r) (rejectionReason r) (approvedBy r)
     (rejectedByHospitals r) (createdAt r) (updatedAt r) (approvedAt r)
     c.

Definition validate (r : t) : list string :=
  (if type r is Some ty
   then if existsb (String.eqb ty) types then [] else ["type"]
   else ["type"])
  ++ (if enum_ok bloodTypes (bloodType (details r)) then []
      else ["details.bloodType"])
  ++ (if enum_ok medicineTypes (medicineType (details r)) then []
      else ["details.medicineType"])
  ++ (if enum_ok bedTypes (bedType (details r)) then []
      else ["details.bedType"])
  ++ (if enum_ok doctorSpecialties (doctorSpecialty (details r)) then []
      else ["details.doctorSpecialty"])
  ++ (if enum_ok urgencies (urgency (details r)) then []
      else ["details.urgency"])
  ++ (if existsb (String.eqb (status r)) statuses then [] else ["status"]).

(** [requestSchema.pre('save', ...)] *)
Definition pre_save (now : Time) (statusModified : bool) (r : t) : t :=
  let r := set_updatedAt now r in
  if statusModified then
    let r :=
      if (status r =? "approved") && negb (defined (approvedAt r))
      then set_approvedAt (Some now) r else r in
    if (status r =? "completed") && negb (defined (completedAt r))
    then set_completedAt (Some now) r else r
  else r.

(** The message of the validator that fails on a path of [validate]. *)
Definition error_message (r : t) (path : string) : string :=
  if path =? "type" then
    match type r with
    | Some ty =>
        if ty =? "" then required_message path else enum_message ty path
    | None => required_message path
    end
  else
    enum_message
      (if path =? "details.bloodType"
       then default "" (bloodType (details r))
       else if path =? "details.medicineType"
       then default "" (medicineType (details r))
       else if path =? "details.bedType"
       then default "" (bedType (details r))
       else if path =? "details.doctorSpecialty"
       then default "" (doctorSpecialty (details r))
       else if path =? "details.urgency"
       then default "" (urgency (details r))
       else status r)
      path.

Definition save (now : Time) (statusModified : bool) (r : t) : throws t :=
  match validate r with
  | [] => inr (pre_save now statusModified r)
  | errs =>
      inl (ValidationError "Request"
             ((fun p => (p, error_message r p)) <$> errs))
  end.

End Request.

(** ** models/Stats.js

    The schema declares five counters and [lastUpdated]; it has no
    [totalRequests] path. *)
Module Stats.

Record t := mk {
  totalUsers : Z;
  totalDonors : Z;
  totalHospitals : Z;
  totalPatients : Z;
  totalDonations : Z;
  lastUpdated : Time
}.

(** A document held by a handler: the schema paths, and the properties
    assigned on the object that are not paths of the schema. The schema is
    strict (the Mongoose default), so the constructor drops unknown keys
    and [save()] writes the schema paths only. *)
Record Doc := mkDoc {
  paths : t;
  adhoc : gmap string Z
}.

Definition hydrate (s : t) : Doc := mkDoc s ∅.

(** [new Stats({ totalUsers: 0, ..., totalDonations: 0, ... })]: keys that
    are not in the schema are dropped. *)
Definition new (now : Time) : Doc := mkDoc (mk 0 0 0 0 0 now) ∅.

(** [statsSchema.pre('save', ...)] *)
Definition pre_save (now : Time) (s : t) : t :=
  mk (totalUsers s) (totalDonors s) (totalHospitals s) (totalPatients s)
     (totalDonations s) now.

End Stats.

(** ** The store *)

Record DB := mkDB {
  users : gmap ObjectId User.t;
  donations : gmap ObjectId Donation.t;
  requests : gmap ObjectId Request.t;
  (** the Stats collection in natural order; [findOne({})] is its head *)
  stats : list Stats.t
}.

Definition with_users (u : gmap ObjectId User.t) (db : DB) : DB :=
  mkDB u (donations db) (requests db) (stats db).
Definition with_donations (d : gmap ObjectId Donation.t) (db : DB) : DB :=
  mkDB (users db) d (requests db) (stats db).
Definition with_requests (r : gmap ObjectId Request.t) (db : DB) : DB :=
  mkDB (users db) (donations db) r (stats db).
Definition with_stats (s : list Stats.t) (db : DB) : DB :=
  mkDB (users db) (donations db) (requests db) s.

(** Handlers run in a state monad over the store in which a thrown
    exception keeps the writes made before it. *)
Definition M (A : Type) : Type := DB -> DB * throws A.

Definition ret {A} (a : A) : M A := fun db => (db, inr a).
Definition throw {A} (e : Exn) : M A := fun db => (db, inl e).
Definition bindM {A B} (c : M A) (k : A -> M B) : M B :=
  fun db =>
    match c db with
    | (db', inl e) => (db', inl e)
    | (db', inr a) => k a db'
    end.
Definition gets {A} (f : DB -> A) : M A := fun db => (db, inr (f db)).
Definition modify (f : DB -> DB) : M unit := fun db => (f db, inr tt).
Definition liftE {A} (x : throws A) : M A := fun db => (db, x).

Notation "'do!' x := c 'in' k" := (bindM c (fun x => k))
  (at level 10, x name, c at level 100, k at level 200).
Notation "c ;;! k" := (bindM c (fun _ => k))
  (at level 100, k at level 200, right associativity).

(** [try { ... } catch (error) { ... }] around a handler body. *)
Definition try_catch {A} (body : M (Response A)) (catch : Exn -> Response A)
  : DB -> DB * Response A :=
  fun db =>
    match body db with
    | (db', inl e) => (db', catch e)
    | (db', inr r) => (db', r)
    end.

(** The [auth] middleware: [token] is the [userId] claim of a bearer token
    that verifies, [None] when the header is missing or verification
    throws. The result is [req.user] with its [_id]. *)
Definition auth (token : option ObjectId) (db : DB)
  : option (ObjectId * User.t) :=
  match token with
  | Some uid =>
      match users db !! uid with
      | Some u => Some (uid, u)
      | None => None
      end
  | None => None
  end.

Definition unauthenticated {A} : Response A :=
  mkResponse 401 (inl "Please authenticate").

(** A write to the store can fail in the driver; [fault] is the error it
    raises, [None] when the write goes through. *)
Definition write_fault (fault : option Exn) : M unit :=
  match fault with
  | Some e => throw e
  | None => ret tt
  end.

(** [await stats.save()] for a document found by [findOne({})]. *)
Definition save_found_stats (now : Time) (fault : option Exn)
  (s : Stats.Doc) : M unit :=
  write_fault fault ;;!
  modify (fun db =>
    with_stats (Stats.pre_save now (Stats.paths s) :: tail (stats db)) db).

(** [await stats.save()] for a document made by [new Stats(...)]. *)
Definition save_new_stats (now : Time) (fault : option Exn)
  (s : Stats.Doc) : M unit :=
  write_fault fault ;;!
  modify (fun db =>
    with_stats (stats db ++ [Stats.pre_save now (Stats.paths s)]) db).

(** ** Queries of [find]

    The filters the routes build: an object of field conditions is their
    conjunction, [$or] a disjunction of such objects, [{}] matches all. On
    the array path ['rejectedByHospitals.hospitalId'], equality holds when
    some element has that id and [$ne] when no element has it. *)
Inductive Cond :=
| StatusIs (s : string)
| HospitalIdIs (h : ObjectId)
| DonorIdIs (u : ObjectId)
| PatientIdIs (u : ObjectId)
| RejectedByIs (h : ObjectId)
| RejectedByNe (h : ObjectId).

Inductive Query :=
| QFields (cs : list Cond)
| QOr (alts : list (list Cond)).

(** What the conditions read from a ledger entry. *)
Class Entry (A : Type) := {
  entry_status : A -> string;
  entry_hospitalId : A -> option ObjectId;
  entry_donorId : A -> option ObjectId;
  entry_patientId : A -> option ObjectId;
  entry_rejections : A -> list Rejection;
  entry_createdAt : A -> Time
}.

#[export] Instance donation_entry : Entry Donation.t := {
  entry_status := Donation.status;
  entry_hospitalId := Donation.hospitalId;
  entry_donorId d := Some (Donation.donorId d);
  entry_patientId := Donation.patientId;
  entry_rejections := Donation.rejectedByHospitals;
  entry_createdAt := Donation.createdAt
}.

#[export] Instance request_entry : Entry Request.t := {
  entry_status := Request.status;
  entry_hospitalId := Request.hospitalId;
  entry_donorId _ := None;
  entry_patientId r := Some (Request.patientId r);
  entry_rejections := Request.rejectedByHospitals;
  entry_createdAt := Request.createdAt
}.

Definition id_is (o : option ObjectId) (x : ObjectId) : bool :=
  match o with
  | Some y => N.eqb y x
  | None => false
  end.

(** [rejectedByHospitals.find(r => r.hospitalId.toString() === id.toString())] *)
Definition find_rejection (h : ObjectId) (l : list Rejection)
  : option Rejection :=
  List.find (fun r => N.eqb (rej_hospitalId r) h) l.

Definition rejected_by (h : ObjectId) (l : list Rejection) : bool :=
  existsb (fun r => N.eqb (rej_hospitalId r) h) l.

Definition cond_holds `{Entry A} (c : Cond) (e : A) : bool :=
  match c with
  | StatusIs s => entry_status e =? s
  | HospitalIdIs h => id_is (entry_hospitalId e) h
  | DonorIdIs u => id_is (entry_donorId e) u
  | PatientIdIs u => id_is (entry_patientId e) u
  | RejectedByIs h => rejected_by h (entry_rejections e)
  | RejectedByNe h => negb (rejected_by h (entry_rejections e))
  end.

Definition matches `{Entry A} (q : Query) (e : A) : bool :=
  match q with
  | QFields cs => forallb (fun c => cond_holds c e) cs
  | QOr alts => existsb (forallb (fun c => cond_holds c e)) alts
  end.

(** [Model.find(query)]: the matching documents with their ids. *)
Definition find `{Entry A} (q : Query) (coll : gmap ObjectId A)
  : list (ObjectId * A) :=
  List.filter (fun kd => matches q (snd kd)) (map_to_list coll).

(** The [$or] filter both list routes build for a hospital. *)
Definition hospital_query (h : ObjectId) : Query :=
  QOr [ [StatusIs "pending"; RejectedByNe h];
        [StatusIs "approved"; HospitalIdIs h];
        [StatusIs "rejected"; HospitalIdIs h];
        [RejectedByIs h] ].

(** [.sort({ createdAt: -1 })] *)
Definition newer_first `{Entry A} (x y : ObjectId * A) : Prop :=
  (entry_createdAt (snd y) <= entry_createdAt (snd x))%Z.

#[export] Instance newer_first_dec `{Entry A} (x y : ObjectId * A)
  : Decision (newer_first x y).
Proof. unfold newer_first. apply _. Defined.

Definition sort_newest_first `{Entry A} (l : list (ObjectId * A))
  : list (ObjectId * A) :=
  merge_sort newer_first l.

(** ** routes/donations.js

    The bodies of the requests. A field is [None] when the body does not
    have it, so that it reads as [undefined]. An explicit JSON [null] is
    not represented: on a path with a default Mongoose stores such a [null]
    where it fills in the default for a missing value, so the bodies of
    these types are the bodies without [null] fields. *)

Record PatchBody := mkPatchBody {
  pb_status : option string;
  pb_rejectionReason : option string;
  pb_patientId : option ObjectId
}.

Record DonationPost := mkDonationPost {
  dp_type : option string;
  dp_details : option Donation.Details
}.

(** Schema defaults of the nested [details] of a new donation, applied to
    the paths the body leaves out. *)
Definition donation_details_defaults (d : option Donation.Details)
  : Donation.Details :=
  match d with
  | Some d =>
      Donation.mkDetails
        (Donation.bloodType d)
        (Some (default 1%Z (Donation.bloodUnits d)))
        (Donation.weight d) (Donation.healthStatus d)
        (Donation.lastDonationDate d) (Donation.medications d)
        (Donation.medicineName d) (Donation.medicineType d)
        (Donation.quantity d) (Donation.expiryDate d)
        (Donation.availability d) (Donation.contactPreference d)
        (Donation.contactDetails d) (Donation.address d)
        (Some (default "medium" (Donation.urgency d)))
        (Donation.notes d)
  | None =>
      Donation.mkDetails None (Some 1%Z) None None None None None None None
        None None None None None (Some "medium") None
  end.

(** [details?.f] *)
Definition opt_field {D} (f : D -> option string) (d : option D)
  : option string :=
  match d with
  | Some d => f d
  | None => None
  end.

(** [new Donation({...})] as the POST handler builds it from [req.body]
    and the donor's profile. *)
Definition new_donation (now : Time) (uid : ObjectId) (donor : User.t)
  (b : DonationPost) : Donation.t :=
  let details := dp_details b in
  let contactDetails := opt_field Donation.contactDetails details in
  let contactPreference := opt_field Donation.contactPreference details in
  let donorEmail :=
    if truthy contactDetails && is_lit contactPreference "email"
    then contactDetails
    else js_or (Some (User.email donor))
               (js_or None (User.data donor !! "email")) in
  let donorPhone :=
    if truthy contactDetails &&
       (is_lit contactPreference "phone" || is_lit contactPreference "sms")
    then contactDetails
    else js_or (User.phone (User.profile donor))
               (js_or (User.data donor !! "phone")
                      (User.data donor !! (User.type donor ++ "-phone"))) in
  Donation.mk
    uid
    (Some (js_or_lit
             (js_or (User.name (User.profile donor))
                    (js_or (User.data donor !! (User.type donor ++ "-name"))
                           None))
             "Unknown Donor"))
    (Some (js_or_lit donorEmail "No Email"))
    (Some (js_or_lit donorPhone "No Phone"))
    (dp_type b)
    (donation_details_defaults details)
    "pending"
    None None None None None None
    []
    now now None None.

(** [await donation.save()] of a new document: validation, hooks, insert.
    An [_id] that is already in the collection is a duplicate-key error. *)
Definition insert_donation (now : Time) (id : ObjectId) (d : Donation.t)
  : M Donation.t :=
  do! saved := liftE (Donation.save now true d) in
  do! existing := gets (fun db => donations db !! id) in
  match existing with
  | Some _ => throw (MongoServerError 11000%N)
  | None =>
      modify (fun db => with_donations (<[id := saved]> (donations db)) db) ;;!
      ret saved
  end.

(** [router.post('/')]. [newId] is the [_id] the driver generates for the
    new document, [fault] the outcome of the write of the statistics. *)
Definition donations_post (now : Time) (newId : ObjectId)
  (fault : option Exn) (token : option ObjectId) (b : DonationPost)
  : DB -> DB * Response (ObjectId * Donation.t) :=
  fun db =>
    match auth token db with
    | None => (db, unauthenticated)
    | Some (uid, user) =>
        try_catch
          (if negb (User.type user =? "donor")
           then throw (Error "Only donors can create donations")
           else
             do! donor := gets (fun db => users db !! uid) in
             match donor with
             | None =>
                 throw (TypeError "Cannot read properties of null (reading 'email')")
             | Some donor =>
                 do! donation :=
                   insert_donation now newId (new_donation now uid donor b) in
                 do! found := gets (fun db => head (stats db)) in
                 match found with
                 | None =>
                     throw (TypeError
                       "Cannot read properties of null (reading 'totalDonations')")
                 | Some s =>
                     let s :=
                       Stats.mk (Stats.totalUsers s) (Stats.totalDonors s)
                         (Stats.totalHospitals s) (Stats.totalPatients s)
                         (Stats.totalDonations s + 1) (Stats.lastUpdated s) in
                     save_found_stats now fault (Stats.hydrate s) ;;!
                     ret (mkResponse 201 (inr (newId, donation)))
                 end
             end)
          (fun e => mkResponse 400 (inl (message_of e)))
          db
    end.

(** The filter of [router.get('/')] for each user type; an unknown type
    throws. *)
Definition donations_query (uid : ObjectId) (user : User.t) : throws Query :=
  let ty := User.type user in
  if ty =? "donor" then inr (QFields [DonorIdIs uid])
  else if ty =? "hospital" then inr (hospital_query uid)
  else if ty =? "patient" then inr (QFields [PatientIdIs uid])
  else if ty =? "admin" then inr (QFields [])
  else inl (Error "Invalid user type").

(** [router.get('/')]. The populated references do not change which
    documents are returned and are left as ids. *)
Definition donations_get (token : option ObjectId)
  : DB -> DB * Response (list (ObjectId * Donation.t)) :=
  fun db =>
    match auth token db with
    | None => (db, unauthenticated)
    | Some (uid, user) =>
        try_catch
          (do! query := liftE (donations_query uid user) in
           do! found := gets (fun db => find query (donations db)) in
           ret (mkResponse 200 (inr found)))
          (fun e => mkResponse 400 (inl (message_of e)))
          db
    end.

(** The element a rejection pushes on [rejectedByHospitals]. *)
Definition new_rejection (now : Time) (uid : ObjectId) (user : User.t)
  (reason : option string) : Rejection :=
  mkRejection uid (callerName user) (js_or_lit reason "No reason provided")
    now.

(** The body of the [rejected] branch, on the array it mutates. *)
Definition reject_push (now : Time) (uid : ObjectId) (user : User.t)
  (reason : option string) (l : list Rejection) : list Rejection :=
  let existingRejection := find_rejection uid l in
  if negb (defined existingRejection)
  then l ++ [new_rejection now uid user reason]
  else l.

(** The [approved] branch of the donation route. *)
Definition donation_approve (uid : ObjectId) (user : User.t)
  (d : Donation.t) : Donation.t :=
  let d := Donation.set_status "approved" d in
  let d := Donation.set_hospitalId (Some uid) d in
  let d := Donation.set_hospitalName (callerName user) d in
  Donation.set_approvedBy (Some uid) d.

(** The [rejected] branch of the donation route. *)
Definition donation_reject (now : Time) (uid : ObjectId) (user : User.t)
  (b : PatchBody) (d : Donation.t) : Donation.t :=
  Donation.set_rejectedByHospitals
    (reject_push now uid user (pb_rejectionReason b)
       (Donation.rejectedByHospitals d))
    d.

(** The authorization and update part of [router.patch('/:id')], from the
    check of the user type to the assignment of [patientId]. *)
Definition donation_apply (now : Time) (uid : ObjectId) (user : User.t)
  (b : PatchBody) (d : Donation.t) : throws Donation.t :=
  let ty := User.type user in
  let! d1 :=
    if ty =? "hospital" then
      if negb (includes ["approved"; "rejected"; "completed"] (pb_status b))
      then inl (Error "Invalid status update")
      else if is_lit (pb_status b) "approved"
      then inr (donation_approve uid user d)
      else if is_lit (pb_status b) "rejected"
      then inr (donation_reject now uid user b d)
      else if is_lit (pb_status b) "completed"
      then inr (Donation.set_status "completed" d)
      else inr d
    else if ty =? "donor" then
      if negb (N.eqb (Donation.donorId d) uid)
         || negb (includes ["cancelled"] (pb_status b))
      then inl (Error "Not authorized")
      else inr (match pb_status b with
                | Some s => Donation.set_status s d
                | None => d
                end)
    else if negb (ty =? "admin") then inl (Error "Not authorized")
    else inr d in
  inr (if defined (pb_patientId b)
       then Donation.set_patientId (pb_patientId b) d1
       else d1).

(** The update and [await donation.save()] of a loaded document [d]:
    [isModified('status')] compares the new value with the loaded one. *)
Definition donation_transition (now : Time) (uid : ObjectId) (user : User.t)
  (b : PatchBody) (d : Donation.t) : throws Donation.t :=
  let! d' := donation_apply now uid user b d in
  Donation.save now (negb (Donation.status d' =? Donation.status d)) d'.

(** [router.patch('/:id')] *)
Definition donations_patch (now : Time) (token : option ObjectId)
  (id : ObjectId) (b : PatchBody)
  : DB -> DB * Response (ObjectId * Donation.t) :=
  fun db =>
    match auth token db with
    | None => (db, unauthenticated)
    | Some (uid, user) =>
        try_catch
          (do! found := gets (fun db => donations db !! id) in
           match found with
           | None => throw (Error "Donation not found")
           | Some d =>
               do! d' := liftE (donation_transition now uid user b d) in
               modify (fun db =>
                 with_donations (<[id := d']> (donations db)) db) ;;!
               ret (mkResponse 200 (inr (id, d')))
           end)
          (fun e => mkResponse 400 (inl (message_of e)))
          db
    end.

(** [router.delete('/:id')]; the payload of a success is [deletedId]. *)
Definition donations_delete (token : option ObjectId) (id : ObjectId)
  : DB -> DB * Response ObjectId :=
  fun db =>
    match auth token db with
    | None => (db, unauthenticated)
    | Some (uid, user) =>
        try_catch
          (do! found := gets (fun db => donations db !! id) in
           match found with
           | None => ret (mkResponse 404 (inl "Donation not found"))
           | Some d =>
               let denied : option (Response ObjectId) :=
                 if User.type user =? "donor" then
                   if negb (N.eqb (Donation.donorId d) uid)
                   then Some (mkResponse 403
                                (inl "You can only delete your own donations"))
                   else None
                 else if User.type user =? "admin" then None
                 else Some (mkResponse 403
                              (inl "Not authorized to delete donations")) in
               match denied with
               | Some r => ret r
               | None =>
                   modify (fun db =>
                     with_donations (delete id (donations db)) db) ;;!
                   ret (mkResponse 200 (inr id))
               end
           end)
          (fun e => mkResponse 500 (inl "Failed to delete donation"))
          db
    end.

(** ** routes/requests.js *)

Record RequestPost := mkRequestPost {
  rp_type : option string;
  rp_details : option Request.Details
}.

(** The [request] object of the 201 response. *)
Record RequestCreated := mkRequestCreated {
  rc_id : ObjectId;
  rc_type : option string;
  rc_details : Request.Details;
  rc_status : string;
  rc_patientName : option string;
  rc_createdAt : Time
}.

(** The [request] object of the response to an update. *)
Record RequestUpdated := mkRequestUpdated {
  ru_id : ObjectId;
  ru_status : string;
  ru_hospitalName : option string;
  ru_updatedAt : Time
}.

(** Schema defaults of the nested [details] of a new request, applied to
    the paths the body leaves out. *)
Definition request_details_defaults (d : option Request.Details)
  : Request.Details :=
  match d with
  | Some d =>
      Request.mkDetails
        (Request.bloodType d)
        (Some (default 1%Z (Request.bloodUnits d)))
        (Request.medicineName d) (Request.medicineType d)
        (Request.quantity d) (Request.bedType d) (Request.duration d)
        (Request.doctorSpecialty d) (Request.appointmentDate d)
        (Some (default "medium" (Request.urgency d)))
        (Request.medicalHistory d) (Request.additionalNotes d)
  | None =>
      Request.mkDetails None (Some 1%Z) None None None None None None None
        (Some "medium") None None
  end.

(** [new Request({...})] as the POST handler builds it. *)
Definition new_request (now : Time) (uid : ObjectId) (patient : User.t)
  (b : RequestPost) : Request.t :=
  Request.mk
    uid
    (js_or (User.name (User.profile patient))
           (User.data patient !! (User.type patient ++ "-name")))
    (Some (User.email patient))
    (js_or (User.phone (User.profile patient))
           (User.data patient !! (User.type patient ++ "-phone")))
    (rp_type b)
    (request_details_defaults (rp_details b))
    "pending"
    None None None None None None None
    []
    now now None None.

Definition insert_request (now : Time) (id : ObjectId) (r : Request.t)
  : M Request.t :=
  do! saved := liftE (Request.save now true r) in
  do! existing := gets (fun db => requests db !! id) in
  match existing with
  | Some _ => throw (MongoServerError 11000%N)
  | None =>
      modify (fun db => with_requests (<[id := saved]> (requests db)) db) ;;!
      ret saved
  end.

(** [stats.totalRequests = (stats.totalRequests || 0) + 1]: [totalRequests]
    is not a path of the Stats schema, so the assignment lands on the
    object and not in the document. *)
Definition bump_totalRequests (s : Stats.Doc) : Stats.Doc :=
  Stats.mkDoc (Stats.paths s)
    (<["totalRequests" :=
        (default 0 (Stats.adhoc s !! "totalRequests") + 1)%Z]>
       (Stats.adhoc s)).

(** [router.post('/')] *)
Definition requests_post (now : Time) (newId : ObjectId)
  (fault : option Exn) (token : option ObjectId) (b : RequestPost)
  : DB -> DB * Response RequestCreated :=
  fun db =>
    match auth token db with
    | None => (db, unauthenticated)
    | Some (uid, user) =>
        try_catch
          (if negb (User.type user =? "patient")
           then ret (mkResponse 403 (inl "Only patients can create requests"))
           else
             do! patient := gets (fun db => users db !! uid) in
             match patient with
             | None =>
                 throw (TypeError
                   "Cannot read properties of null (reading 'profile')")
             | Some patient =>
                 do! request :=
                   insert_request now newId
                     (new_request now uid patient b) in
                 do! found := gets (fun db => head (stats db)) in
                 match found with
                 | Some s =>
                     save_found_stats now fault
                       (bump_totalRequests (Stats.hydrate s))
                 | None =>
                     save_new_stats now fault
                       (bump_totalRequests (Stats.new now))
                 end ;;!
                 ret (mkResponse 201
                        (inr (mkRequestCreated newId (Request.type request)
                                (Request.details request)
                                (Request.status request)
                                (Request.patientName request)
                                (Request.createdAt request))))
             end)
          (fun e =>
             mkResponse 400
               (inl (js_or_lit (Some (message_of e))
                       "Failed to create request")))
          db
    end.

(** [router.get('/')]: a user type without a case gets a 403. *)
Definition requests_query (uid : ObjectId) (user : User.t) : option Query :=
  let ty := User.type user in
  if ty =? "patient" then Some (QFields [PatientIdIs uid])
  else if ty =? "hospital" then Some (hospital_query uid)
  else if ty =? "admin" then Some (QFields [])
  else None.

Definition requests_get (token : option ObjectId)
  : DB -> DB * Response (list (ObjectId * Request.t)) :=
  fun db =>
    match auth token db with
    | None => (db, unauthenticated)
    | Some (uid, user) =>
        try_catch
          (match requests_query uid user with
           | None => ret (mkResponse 403 (inl "Not authorized to view requests"))
           | Some query =>
               do! found := gets (fun db =>
                 sort_newest_first (find query (requests db))) in
               ret (mkResponse 200 (inr found))
           end)
          (fun e => mkResponse 400 (inl (message_of e)))
          db
    end.

(** The [approved] branch. *)
Definition request_approve (uid : ObjectId) (user : User.t) (r : Request.t)
  : Request.t :=
  let r := Request.set_status "approved" r in
  let r := Request.set_hospitalId (Some uid) r in
  let r := Request.set_hospitalName (callerName user) r in
  Request.set_approvedBy (Some uid) r.

(** The [rejected] branch. *)
Definition request_reject (now : Time) (uid : ObjectId) (user : User.t)
  (reason : option string) (r : Request.t) : Request.t :=
  Request.set_rejectedByHospitals
    (reject_push now uid user reason (Request.rejectedByHospitals r)) r.

(** The final [else] branch ("other statuses (completed, etc.)"). *)
Definition request_other (status : string) (uid : ObjectId) (user : User.t)
  (r : Request.t) : Request.t :=
  let r := Request.set_status status r in
  let r := Request.set_hospitalId (Some uid) r in
  let r := Request.set_hospitalName (callerName user) r in
  Request.set_approvedBy (Some uid) r.

(** "Update request based on status", for a [status] that passed the
    check against the three allowed values. *)
Definition request_apply (now : Time) (uid : ObjectId) (user : User.t)
  (status : string) (reason : option string) (r : Request.t) : Request.t :=
  if status =? "approved" then request_approve uid user r
  else if status =? "rejected" then request_reject now uid user reason r
  else request_other status uid user r.

(** The update and [await request.save()] of a loaded document. *)
Definition request_transition (now : Time) (uid : ObjectId) (user : User.t)
  (status : string) (reason : option string) (r : Request.t)
  : throws Request.t :=
  let r' := request_apply now uid user status reason r in
  Request.save now (negb (Request.status r' =? Request.status r)) r'.

(** [router.patch('/:id')] *)
Definition requests_patch (now : Time) (token : option ObjectId)
  (id : ObjectId) (b : PatchBody)
  : DB -> DB * Response RequestUpdated :=
  fun db =>
    match auth token db with
    | None => (db, unauthenticated)
    | Some (uid, user) =>
        try_catch
          (if negb (includes ["hospital"; "admin"] (Some (User.type user)))
           then ret (mkResponse 403
                       (inl "Only hospitals and admins can update request status"))
           else
             do! found := gets (fun db => requests db !! id) in
             match found with
             | None => ret (mkResponse 404 (inl "Request not found"))
             | Some r =>
                 match pb_status b with
                 | Some status =>
                     if negb (includes ["approved"; "rejected"; "completed"]
                                (Some status))
                     then ret (mkResponse 400
                                 (inl "Invalid status. Must be approved, rejected, or completed"))
                     else
                       do! r' := liftE (request_transition now uid user status
                                          (pb_rejectionReason b) r) in
                       modify (fun db =>
                         with_requests (<[id := r']> (requests db)) db) ;;!
                       ret (mkResponse 200
                              (inr (mkRequestUpdated id (Request.status r')
                                      (Request.hospitalName r')
                                      (Request.updatedAt r'))))
                 | None =>
                     ret (mkResponse 400
                            (inl "Invalid status. Must be approved, rejected, or completed"))
                 end
             end)
          (fun e => mkResponse 400 (inl (message_of e)))
          db
    end.

(** [router.delete('/:id')] *)
Definition requests_delete (token : option ObjectId) (id : ObjectId)
  : DB -> DB * Response ObjectId :=
  fun db =>
    match auth token db with
    | None => (db, unauthenticated)
    | Some (uid, user) =>
        try_catch
          (do! found := gets (fun db => requests db !! id) in
           match found with
           | None => ret (mkResponse 404 (inl "Request not found"))
           | Some r =>
               let denied : option (Response ObjectId) :=
                 if User.type user =? "patient" then
                   if negb (N.eqb (Request.patientId r) uid)
                   then Some (mkResponse 403
                                (inl "You can only delete your own requests"))
                   else None
                 else if User.type user =? "admin" then None
                 else Some (mkResponse 403
                              (inl "Not authorized to delete requests")) in
               match denied with
               | Some resp => ret resp
               | None =>
                   modify (fun db =>
                     with_requests (delete id (requests db)) db) ;;!
                   ret (mkResponse 200 (inr id))
               end
           end)
          (fun e => mkResponse 500 (inl "Failed to delete request"))
          db
    end.

(** ** The auth router: [/register] and [/login] *)

Record RegisterBody := mkRegisterBody {
  rb_type : option string;
  rb_name : option string;
  rb_email : option string;
  rb_phone : option string;
  rb_password : option string;
  rb_address : option string;
  rb_bloodGroup : option string;
  rb_dateOfBirth : option Time;
  rb_gender : option string
}.

Record LoginBody := mkLoginBody {
  lb_email : option string;
  lb_password : option string;
  lb_type : option string
}.

(** The [user] object of the two responses and the token. [uv_lastLogin]
    is part of the login response only. *)
Record UserView := mkUserView {
  uv_id : ObjectId;
  uv_email : string;
  uv_type : string;
  uv_status : string;
  uv_profile : User.Profile;
  uv_data : gmap string string;
  uv_lastLogin : option Time;
  uv_emailVerified : bool;
  uv_createdAt : Time
}.

Record AuthOk := mkAuthOk {
  ao_user : UserView;
  (** the [userId] claim of the signed token *)
  ao_token : ObjectId
}.

(** [User.findOne(filter)]: the first document that matches. *)
Definition findOne_user (filter : User.t -> bool)
  (coll : gmap ObjectId User.t) : option (ObjectId * User.t) :=
  List.find (fun kd => filter (snd kd)) (map_to_list coll).

(** "Set legacy data fields for backward compatibility" *)
Definition legacy_data (type name email phone password : string)
  (address bloodGroup : option string) : gmap string string :=
  if type =? "patient" then
    {[ "patient-name" := name;
       "patient-email" := toLowerCase email;
       "patient-phone" := phone;
       "patient-password" := password ]}
  else if type =? "hospital" then
    let d : gmap string string :=
      {[ "hospital-name" := name;
         "hospital-email" := toLowerCase email;
         "hospital-phone" := phone;
         "hospital-password" := password ]} in
    match address with
    | Some a => <["hospital-address" := a]> d
    | None => d
    end
  else if type =? "donor" then
    let d : gmap string string :=
      {[ "donor-name" := name;
         "donor-email" := toLowerCase email;
         "donor-phone" := phone;
         "donor-password" := password ]} in
    match bloodGroup with
    | Some g => <["donor-blood-group" := g]> d
    | None => d
    end
  else if type =? "admin" then
    {[ "admin-name" := name;
       "admin-email" := toLowerCase email;
       "admin-password" := password ]}
  else ∅.

(** [new User(userData)]: the document of a registration, with the schema
    setters ([trim], [lowercase]) and defaults applied. *)
Definition new_user (now : Time) (type name email phone password : string)
  (b : RegisterBody) : User.t :=
  let profile :=
    User.mkProfile
      (Some (trim (trim name)))
      (Some (trim phone))
      (if type =? "hospital" then option_map trim (rb_address b) else None)
      (if type =? "donor" then rb_bloodGroup b else None)
      (rb_dateOfBirth b)
      (if truthy (rb_gender b) then rb_gender b else None) in
  User.mk
    (toLowerCase (trim (toLowerCase email)))
    (Some password) None type "active" profile
    (legacy_data type name email phone password (rb_address b)
       (rb_bloodGroup b))
    None 0 false None false None None now now.

(** "Update stats" of the registration. *)
Definition count_user (type : string) (s : Stats.t) : Stats.t :=
  let s :=
    Stats.mk (Stats.totalUsers s + 1) (Stats.totalDonors s)
      (Stats.totalHospitals s) (Stats.totalPatients s)
      (Stats.totalDonations s) (Stats.lastUpdated s) in
  if type =? "donor" then
    Stats.mk (Stats.totalUsers s) (Stats.totalDonors s + 1)
      (Stats.totalHospitals s) (Stats.totalPatients s)
      (Stats.totalDonations s) (Stats.lastUpdated s)
  else if type =? "hospital" then
    Stats.mk (Stats.totalUsers s) (Stats.totalDonors s)
      (Stats.totalHospitals s + 1) (Stats.totalPatients s)
      (Stats.totalDonations s) (Stats.lastUpdated s)
  else if type =? "patient" then
    Stats.mk (Stats.totalUsers s) (Stats.totalDonors s)
      (Stats.totalHospitals s) (Stats.totalPatients s + 1)
      (Stats.totalDonations s) (Stats.lastUpdated s)
  else s.

Definition bad_request {A} (msg : string) : M (Response A) :=
  ret (mkResponse 400 (inl msg)).

Definition user_view (id : ObjectId) (u : User.t) (lastLogin : option Time)
  : UserView :=
  mkUserView id (User.email u) (User.type u) (User.status u)
    (User.profile u) (User.data u) lastLogin (User.emailVerified u)
    (User.createdAt u).

Section AuthRoutes.

Variable bcrypt_hash : string -> string -> string.
Variable bcrypt_compare : string -> string -> bool.

(** [await user.save()] of a new user: validation, hooks, insert. The
    unique index on [email] rejects a duplicate with error 11000. *)
Definition insert_user (now : Time) (salt : string) (id : ObjectId)
  (u : User.t) : M User.t :=
  do! saved := liftE (User.save bcrypt_hash now salt true u) in
  do! clash := gets (fun db =>
    defined (users db !! id)
    || defined (findOne_user
                  (fun v => User.email v =? User.email saved) (users db))) in
  if clash then throw (MongoServerError 11000%N)
  else
    modify (fun db => with_users (<[id := saved]> (users db)) db) ;;!
    ret saved.

(** The [catch] of the registration. *)
Definition register_catch (e : Exn) : Response AuthOk :=
  match e with
  | MongoServerError 11000 =>
      mkResponse 400 (inl "An account with this email already exists")
  | ValidationError _ errors =>
      mkResponse 400 (inl (String.concat ". " (snd <$> errors)))
  | _ => mkResponse 500 (inl "Registration failed. Please try again.")
  end.

(** [router.post('/register')]. [newId] is the [_id] of the new document,
    [salt] the salt bcrypt draws, [fault] the outcome of the write of the
    statistics. *)
Definition register (now : Time) (newId : ObjectId) (salt : string)
  (fault : option Exn) (b : RegisterBody) : DB -> DB * Response AuthOk :=
  try_catch
    (match rb_email b with
     | None =>
         throw (TypeError
           "Cannot read properties of undefined (reading 'toLowerCase')")
     | Some email =>
     do! existingUser := gets (fun db =>
       findOne_user (fun u => User.email u =? cast_email (toLowerCase email))
         (users db)) in
     if defined existingUser
     then bad_request "Account already exists with this email address"
     else
     match rb_type b, rb_name b, rb_password b, rb_phone b with
     | Some type, Some name, Some password, Some phone =>
       if negb (truthy (rb_type b)) || negb (truthy (rb_name b))
          || negb (truthy (rb_email b)) || negb (truthy (rb_password b))
          || negb (truthy (rb_phone b))
       then bad_request
              "Missing required fields: type, name, email, phone, password"
       else if negb (test emailRegex email)
       then bad_request "Please enter a valid email address"
       else if negb (test phoneRegex phone)
       then bad_request "Phone number must be exactly 10 digits"
       else if (String.length password <? 8)%nat
       then bad_request "Password must be at least 8 characters long"
       else if (type =? "hospital") && negb (truthy (rb_address b))
       then bad_request "Address is required for hospital registration"
       else if (type =? "donor") && negb (truthy (rb_bloodGroup b))
       then bad_request "Blood group is required for donor registration"
       else if (type =? "donor")
               && negb (includes bloodGroups (rb_bloodGroup b))
       then bad_request
              "Invalid blood group. Must be one of: A+, A-, B+, B-, AB+, AB-, O+, O-"
       else
         do! user := insert_user now salt newId
                       (new_user now type name email phone password b) in
         do! found := gets (fun db => head (stats db)) in
         match found with
         | Some s =>
             save_found_stats now fault
               (Stats.hydrate (count_user (User.type user) s))
         | None =>
             save_new_stats now fault
               (Stats.hydrate
                  (count_user (User.type user) (Stats.paths (Stats.new now))))
         end ;;!
         ret (mkResponse 201
                (inr (mkAuthOk (user_view newId user None) newId)))
     | _, _, _, _ =>
       bad_request
         "Missing required fields: type, name, email, phone, password"
     end
     end)
    register_catch.

(** The write of [await user.save()] in the login: the modified paths of
    the in-memory document ([lastLogin], [updatedAt], and the profile the
    first hook may have filled) go onto the stored document. *)
Definition write_login (saved stored : User.t) : User.t :=
  User.set_profile (User.profile saved)
    (User.set_updatedAt (User.updatedAt saved)
       (User.set_lastLogin (User.lastLogin saved) stored)).

(** [router.post('/login')] *)
Definition login (now : Time) (b : LoginBody)
  : DB -> DB * Response AuthOk :=
  try_catch
    (match lb_email b, lb_password b, lb_type b with
     | Some email, Some password, Some type =>
       if negb (truthy (lb_email b)) || negb (truthy (lb_password b))
          || negb (truthy (lb_type b))
       then bad_request "Missing required fields: email, password, type"
       else
       do! found := gets (fun db =>
         findOne_user
           (fun u => (User.email u =? cast_email (toLowerCase email))
                     && (User.type u =? toLowerCase type))
           (users db)) in
       match found with
       | None => bad_request "Invalid login credentials"
       | Some (id, user) =>
         if User.isLocked now user
         then ret (mkResponse 423
                (inl "Account is temporarily locked due to too many failed login attempts. Please try again later."))
         else if User.status user =? "deactivated"
         then ret (mkResponse 403
                (inl "Account has been deactivated. Please contact support."))
         else
           do! isPasswordValid :=
             liftE (User.comparePassword bcrypt_compare password user) in
           if negb isPasswordValid then
             modify (fun db =>
               with_users
                 (<[id := User.incLoginAttempts now user]> (users db)) db) ;;!
             bad_request "Invalid login credentials"
           else
             (if (0 <? User.loginAttempts user)%Z
              then modify (fun db =>
                     with_users
                       (<[id := User.resetLoginAttempts now user]> (users db))
                       db)
              else ret tt) ;;!
             let user := User.set_lastLogin (Some now) user in
             do! saved := liftE (User.save bcrypt_hash now "" false user) in
             modify (fun db =>
               with_users (alter (write_login saved) id (users db)) db) ;;!
             ret (mkResponse 200
                    (inr (mkAuthOk
                            (user_view id saved (User.lastLogin saved)) id)))
       end
     | _, _, _ =>
       bad_request "Missing required fields: email, password, type"
     end)
    (fun e => mkResponse 500 (inl "Login failed. Please try again.")).

End AuthRoutes.

(** ** The workflow as a transition system

    One step is one handled request of a route that writes to the ledger.
    The environment (clock, generated id, driver fault, token, payload) is
    arbitrary at every step. *)
Inductive step : DB -> DB -> Prop :=
| step_donations_post now newId fault token b db :
    step db (fst (donations_post now newId fault token b db))
| step_donations_patch now token id b db :
    step db (fst (donations_patch now token id b db))
| step_donations_delete token id db :
    step db (fst (donations_delete token id db))
| step_requests_post now newId fault token b db :
    step db (fst (requests_post now newId fault token b db))
| step_requests_patch now token id b db :
    step db (fst (requests_patch now token id b db))
| step_requests_delete token id db :
    step db (fst (requests_delete token id db)).

(** A store whose ledger holds no entry yet. *)
Definition empty_ledger (db : DB) : Prop :=
  donations db = ∅ /\ requests db = ∅.

(** The stores the workflow can reach from an empty ledger. *)
Definition reachable (db : DB) : Prop :=
  exists db0, empty_ledger db0 /\ rtc step db0 db.

(** [rejectedByHospitals] holds at most one element per hospital id. *)
Definition unique_rejections (l : list Rejection) : Prop :=
  NoDup (rej_hospitalId <$> l).

Definition donation_unique (d : Donation.t) : Prop :=
  unique_rejections (Donation.rejectedByHospitals d).
Definition request_unique (r : Request.t) : Prop :=
  unique_rejections (Request.rejectedByHospitals r).

(** The statuses under which the specification has an entry assigned. *)
Definition claimed (s : string) : Prop := s = "approved" \/ s = "completed".

(** The part of the assignment rule that donations satisfy: an assigned
    donation is approved or completed, and an approved donation is
    assigned. *)
Definition donation_assignment (d : Donation.t) : Prop :=
  (is_Some (Donation.hospitalId d) -> claimed (Donation.status d))
  /\ (Donation.status d = "approved" -> is_Some (Donation.hospitalId d)).

(** The assignment rule of the specification, which requests satisfy. *)
Definition request_assignment (r : Request.t) : Prop :=
  is_Some (Request.hospitalId r) <-> claimed (Request.status r).

(** The visibility rule of the specification for a hospital [h]: (a) pending
    and not rejected by [h], (b) approved or rejected and assigned to [h],
    (c) rejected by [h] whatever the status. An entry is rejected by [h]
    when [h] is the [hospitalId] of an element of its
    [rejectedByHospitals]. *)
Definition visible_to_hospital `{Entry A} (h : ObjectId) (e : A) : Prop :=
  (entry_status e = "pending" /\ h ∉ rej_hospitalId <$> entry_rejections e)
  \/ ((entry_status e = "approved" \/ entry_status e = "rejected")
      /\ entry_hospitalId e = Some h)
  \/ h ∈ rej_hospitalId <$> entry_rejections e.

(** ** Sample data

    A small store used to run the routes on concrete inputs: a donor, two
    hospitals, an admin and a patient, one statistics document and an
    empty ledger. *)
Definition sample_user (type name email : string) : User.t :=
  User.mk email (Some "$2a$12$N9qo8uLOickgx2ZMRZoMye") None type "active"
    (User.mkProfile (Some name) (Some "5551234567") None None None None)
    ∅ None 0 false None false None None 0 0.

Definition donor1 : User.t := sample_user "donor" "Dana" "dana@example.com".
Definition hospitalA : User.t :=
  sample_user "hospital" "City Hospital" "city@example.com".
Definition hospitalB : User.t :=
  sample_user "hospital" "Lake Clinic" "lake@example.com".
Definition admin1 : User.t := sample_user "admin" "Root" "admin@lifelink.com".
Definition patient1 : User.t :=
  sample_user "patient" "Pat" "pat@example.com".

Definition sample_users : gmap ObjectId User.t :=
  {[ 1%N := donor1; 2%N := hospitalA; 3%N := hospitalB; 4%N := admin1;
     5%N := patient1 ]}.

Definition sample_db : DB :=
  mkDB sample_users ∅ ∅ [Stats.mk 5 1 2 1 0 0].

(** A pending blood donation of the donor, as the POST route stores it at
    time 1000. *)
Definition pending_donation : Donation.t :=
  Donation.pre_save 1000 true
    (new_donation 1000 1%N donor1 (mkDonationPost (Some "blood") None)).

(** The same donation after hospital A (id 2) rejected it at time 2000. *)
Definition rejected_donation : Donation.t :=
  Donation.set_rejectedByHospitals
    [new_rejection 2000 2%N hospitalA (Some "no stock")] pending_donation.

(** A pending blood request of the patient, stored at time 1000. *)
Definition pending_request : Request.t :=
  Request.pre_save 1000 true
    (new_request 1000 5%N patient1 (mkRequestPost (Some "blood") None)).

(** The store after the donor (id 1) has posted a blood donation, stored
    under id 10, and hospital A (id 2) has then set it to [completed]. *)
Definition posted_db : DB :=
  fst (donations_post 1000 10 None (Some 1%N)
         (mkDonationPost (Some "blood") None) sample_db).

Definition completed_unassigned_db : DB :=
  fst (donations_patch 2000 (Some 2%N) 10
         (mkPatchBody (Some "completed") None None) posted_db).

(** The donation of [completed_unassigned_db]. *)
Definition completed_donation : Donation.t :=
  Donation.set_completedAt (Some 2000%Z)
    (Donation.set_updatedAt 2000
       (Donation.set_status "completed" pending_donation)).

(** A donation whose stored status is [cancelled]. *)
Definition cancelled_donation : Donation.t :=
  Donation.set_status "cancelled" pending_donation.

(** The donation after hospital A (id 2) approved it at time 2000. *)
Definition approved_donation : Donation.t :=
  Donation.set_approvedAt (Some 2000%Z)
    (Donation.set_updatedAt 2000 (donation_approve 2 hospitalA pending_donation)).

Definition approve_body : PatchBody := mkPatchBody (Some "approved") None None.
Definition complete_body : PatchBody :=
  mkPatchBody (Some "completed") None None.

(** A ledger grown by the routes: the donor (id 1) posts the donations 10,
    11 and 12; hospital A (id 2) rejects donation 10; hospital B (id 3)
    then approves the donations 10 and 11. Donation 12 stays pending. *)
Definition visibility_db : DB :=
  let post now id db :=
    fst (donations_post now id None (Some 1%N)
           (mkDonationPost (Some "blood") None) db) in
  let db := post 1002%Z 12%N (post 1001%Z 11%N (post 1000%Z 10%N sample_db)) in
  let db := fst (donations_patch 2000 (Some 2%N) 10
                   (mkPatchBody (Some "rejected") (Some "no stock") None)
                   db) in
  let db := fst (donations_patch 2100 (Some 3%N) 10 approve_body db) in
  fst (donations_patch 2200 (Some 3%N) 11 approve_body db).

(** A stand-in for bcrypt on which the routes can be run: the "hash" is the
    salt and the password behind a prefix, and a candidate compares equal
    when it hashes to the stored value under one of the known salts. *)
Definition sample_hash (salt password : string) : string :=
  "$2a$12$" ++ salt ++ password.
Definition sample_compare (candidate hash : string) : bool :=
  existsb (fun salt => sample_hash salt candidate =? hash) ["s1"; "s2"].

(** A hospital registering with the password ["hunter2hunter2"]. *)
Definition sample_registration : RegisterBody :=
  mkRegisterBody (Some "hospital") (Some " Hill Hospital ")
    (Some "Hill@Example.org") (Some "5550001111") (Some "hunter2hunter2")
    (Some "1 Main St") None None None.

(** Every entry of the ledger satisfies [P] (donations) or [Q]
    (requests). *)
Definition ledger_all (P : Donation.t -> Prop) (Q : Request.t -> Prop)
  (db : DB) : Prop :=
  map_Forall (fun _ => P) (donations db)
  /\ map_Forall (fun _ => Q) (requests db).

(** ** Statements about strings and regular expressions *)

(** Every character of [s] satisfies [p]. *)
Fixpoint string_forall (p : ascii -> bool) (s : string) : bool :=
  match s with
  | EmptyString => true
  | String c s => p c && string_forall p s
  end.

(** The characters the email expression mentions. *)
Definition email_char (c : ascii) : bool :=
  is_word c || Ascii.eqb c "." || Ascii.eqb c "-" || Ascii.eqb c "@".

(** An expression that syntactically matches nothing. *)
Fixpoint is_void (r : Regex) : bool :=
  match r with
  | RNone => true
  | REps => false
  | RClass _ => false
  | RCat r1 r2 => is_void r1 || is_void r2
  | RAlt r1 r2 => is_void r1 && is_void r2
  | RStar _ => false
  end.

(** Every character class of [r] lies within [P]. *)
Fixpoint classes_within (P : ascii -> bool) (r : Regex) : Prop :=
  match r with
  | RNone => True
  | REps => True
  | RClass p => forall c, p c = true -> P c = true
  | RCat r1 r2 => classes_within P r1 /\ classes_within P r2
  | RAlt r1 r2 => classes_within P r1 /\ classes_within P r2
  | RStar r1 => classes_within P r1
  end.

(** ** The ledger statistics routes *)

(** [Model.countDocuments(filter)] *)
Definition countDocuments {A} (filter : A -> bool) (coll : gmap ObjectId A)
  : nat :=
  List.length (List.filter (fun kd => filter (snd kd)) (map_to_list coll)).

Record DonationStats := mkDonationStats {
  ds_total : nat;
  ds_pending : nat;
  ds_approved : nat;
  ds_completed : nat;
  ds_cancelled : nat;
  ds_blood : nat;
  ds_medicine : nat;
  ds_myDonations : option nat;
  ds_myApprovals : option nat
}.

Record RequestStats := mkRequestStats {
  rs_total : nat;
  rs_pending : nat;
  rs_approved : nat;
  rs_rejected : nat;
  rs_completed : nat;
  rs_blood : nat;
  rs_medicine : nat;
  rs_bed : nat;
  rs_doctor : nat;
  rs_myRequests : option nat;
  rs_myApprovals : option nat
}.

(** [router.get('/stats')] of routes/donations.js *)
Definition donations_stats (token : option ObjectId)
  : DB -> DB * Response DonationStats :=
  fun db =>
    match auth token db with
    | None => (db, unauthenticated)
    | Some (uid, user) =>
        try_catch
          (do! coll := gets donations in
           let status_is s := fun d => Donation.status d =? s in
           let type_is s := fun d => is_lit (Donation.type d) s in
           ret (mkResponse 200
                  (inr (mkDonationStats
                          (countDocuments (fun _ => true) coll)
                          (countDocuments (status_is "pending") coll)
                          (countDocuments (status_is "approved") coll)
                          (countDocuments (status_is "completed") coll)
                          (countDocuments (status_is "cancelled") coll)
                          (countDocuments (type_is "blood") coll)
                          (countDocuments (type_is "medicine") coll)
                          (if User.type user =? "donor"
                           then Some (countDocuments
                                        (fun d => N.eqb (Donation.donorId d) uid)
                                        coll)
                           else None)
                          (if User.type user =? "donor" then None
                           else if User.type user =? "hospital"
                           then Some (countDocuments
                                        (fun d => id_is (Donation.hospitalId d) uid)
                                        coll)
                           else None)))))
          (fun e => mkResponse 400 (inl (message_of e)))
          db
    end.

(** [router.get('/stats')] of routes/requests.js *)
Definition requests_stats (token : option ObjectId)
  : DB -> DB * Response RequestStats :=
  fun db =>
    match auth token db with
    | None => (db, unauthenticated)
    | Some (uid, user) =>
        try_catch
          (do! coll := gets requests in
           let status_is s := fun r => Request.status r =? s in
           let type_is s := fun r => is_lit (Request.type r) s in
           ret (mkResponse 200
                  (inr (mkRequestStats
                          (countDocuments (fun _ => true) coll)
                          (countDocuments (status_is "pending") coll)
                          (countDocuments (status_is "approved") coll)
                          (countDocuments (status_is "rejected") coll)
                          (countDocuments (status_is "completed") coll)
                          (countDocuments (type_is "blood") coll)
                          (countDocuments (type_is "medicine") coll)
                          (countDocuments (type_is "bed") coll)
                          (countDocuments (type_is "doctor") coll)
                          (if User.type user =? "patient"
                           then Some (countDocuments
                                        (fun r => N.eqb (Request.patientId r) uid)
                                        coll)
                           else None)
                          (if User.type user =? "patient" then None
                           else if User.type user =? "hospital"
                           then Some (countDocuments
                                        (fun r => id_is (Request.hospitalId r) uid)
                                        coll)
                           else None)))))
          (fun e => mkResponse 400 (inl (message_of e)))
          db
    end.

(** ** The rest of the auth router *)

(** A user document as [res.json] sends it: the [toJSON] transform of the
    schema deletes [password] and the reset and verification tokens. *)
Record UserJson := mkUserJson {
  uj_id : ObjectId;
  uj_email : string;
  uj_googleId : option string;
  uj_type : string;
  uj_status : string;
  uj_profile : User.Profile;
  uj_data : gmap string string;
  uj_lastLogin : option Time;
  uj_loginAttempts : Z;
  uj_accountLocked : bool;
  uj_lockUntil : option Time;
  uj_emailVerified : bool;
  uj_passwordResetExpires : option Time;
  uj_createdAt : Time;
  uj_updatedAt : Time
}.

Definition toJSON (id : ObjectId) (u : User.t) : UserJson :=
  mkUserJson id (User.email u) (User.googleId u) (User.type u)
    (User.status u) (User.profile u) (User.data u) (User.lastLogin u)
    (User.loginAttempts u) (User.accountLocked u) (User.lockUntil u)
    (User.emailVerified u) (User.passwordResetExpires u) (User.createdAt u)
    (User.updatedAt u).

Definition main_admin : string := "admin@lifelink.com".

(** The [mainAdminAuth] middleware: the response that ends the request, if
    any. *)
Definition mainAdminAuth {A} (user : User.t) : option (Response A) :=
  if negb (User.email user =? main_admin)
  then Some (mkResponse 403 (inl "Only main admin can perform this action"))
  else None.

Record CreateAdminBody := mkCreateAdminBody {
  ca_email : option string;
  ca_password : option string;
  ca_name : option string
}.

(** The [user] object of the 201 response of [/create-admin]. *)
Record AdminCreated := mkAdminCreated {
  ac_id : ObjectId;
  ac_email : string;
  ac_type : string;
  ac_profile : User.Profile;
  ac_data : gmap string string;
  ac_createdAt : Time
}.

(** [new User({...})] of [/create-admin]. *)
Definition new_admin (now : Time) (name email password : string) : User.t :=
  User.mk
    (toLowerCase (trim (toLowerCase email)))
    (Some password) None "admin" "active"
    (User.mkProfile (Some (trim (trim name))) (Some "0000000000") None None
       None None)
    {[ "admin-name" := trim name;
       "admin-email" := toLowerCase email;
       "admin-password" := password ]}
    None 0 false None false None None now now.

Record GoogleSignupBody := mkGoogleSignupBody {
  gs_email : option string;
  gs_name : option string;
  gs_googleId : option string;
  gs_type : option string;
  gs_phone : option string;
  gs_address : option string;
  gs_bloodGroup : option string
}.

(** The legacy fields of a Google signup: no password, and no case for
    admin. *)
Definition google_legacy_data (type name email phone : string)
  (address bloodGroup : option string) : gmap string string :=
  if type =? "patient" then
    {[ "patient-name" := name;
       "patient-email" := toLowerCase email;
       "patient-phone" := phone ]}
  else if type =? "hospital" then
    let d : gmap string string :=
      {[ "hospital-name" := name;
         "hospital-email" := toLowerCase email;
         "hospital-phone" := phone ]} in
    match address with
    | Some a => <["hospital-address" := a]> d
    | None => d
    end
  else if type =? "donor" then
    let d : gmap string string :=
      {[ "donor-name" := name;
         "donor-email" := toLowerCase email;
         "donor-phone" := phone ]} in
    match bloodGroup with
    | Some g => <["donor-blood-group" := g]> d
    | None => d
    end
  else ∅.

(** [new User(userData)] of [/complete-google-signup]. *)
Definition new_google_user (now : Time)
  (type name email phone googleId : string) (b : GoogleSignupBody)
  : User.t :=
  User.mk
    (toLowerCase (trim (toLowerCase email)))
    None (Some googleId) type "active"
    (User.mkProfile
       (Some (trim (trim name)))
       (Some (trim phone))
       (if type =? "hospital" then option_map trim (gs_address b) else None)
       (if type =? "donor" then gs_bloodGroup b else None)
       None None)
    (google_legacy_data type name email phone (gs_address b)
       (gs_bloodGroup b))
    None 0 false None true None None now now.

(** An assignment [req.user[key] = req.body[key]] of [PATCH /profile].
    The route assigns every key of the body: there is one constructor for
    each top-level path that [User.t] has, carrying the value of the body
    cast to the type of the path ([None] for a date that the body gives as
    [null]), and [UOther] for every other key. Such a key is no path of the
    schema, so that the assignment lands on the object and not in the
    document, or it is [emailVerificationToken], which [User.t] leaves out:
    no route reads it and [toJSON] removes it. A body with the key [_id],
    or with a value that cannot be cast to the type of its path, is not
    among these lists. *)
Inductive ProfileUpdate :=
| UEmail (v : string)
| UPassword (v : string)
| UType (v : string)
| UStatus (v : string)
| UProfile (v : User.Profile)
| UData (v : gmap string string)
| UGoogleId (v : string)
| ULastLogin (v : option Time)
| ULoginAttempts (v : Z)
| UAccountLocked (v : bool)
| ULockUntil (v : option Time)
| UEmailVerified (v : bool)
| UPasswordResetToken (v : string)
| UPasswordResetExpires (v : option Time)
| UCreatedAt (v : Time)
| UUpdatedAt (v : Time)
| UOther (key : string).

Definition set_user_path (u : User.t) (a : ProfileUpdate) : User.t :=
  match a with
  | UEmail v =>
      User.mk (toLowerCase (trim v)) (User.password u) (User.googleId u)
        (User.type u) (User.status u) (User.profile u) (User.data u)
        (User.lastLogin u) (User.loginAttempts u) (User.accountLocked u)
        (User.lockUntil u) (User.emailVerified u)
        (User.passwordResetToken u) (User.passwordResetExpires u)
        (User.createdAt u) (User.updatedAt u)
  | UPassword v =>
      User.mk (User.email u) (Some v) (User.googleId u)
        (User.type u) (User.status u) (User.profile u) (User.data u)
        (User.lastLogin u) (User.loginAttempts u) (User.accountLocked u)
        (User.lockUntil u) (User.emailVerified u)
        (User.passwordResetToken u) (User.passwordResetExpires u)
        (User.createdAt u) (User.updatedAt u)
  | UType v =>
      User.mk (User.email u) (User.password u) (User.googleId u)
        v (User.status u) (User.profile u) (User.data u)
        (User.lastLogin u) (User.loginAttempts u) (User.accountLocked u)
        (User.lockUntil u) (User.emailVerified u)
        (User.passwordResetToken u) (User.passwordResetExpires u)
        (User.createdAt u) (User.updatedAt u)
  | UStatus v =>
      User.mk (User.email u) (User.password u) (User.googleId u)
        (User.type u) v (User.profile u) (User.data u)
        (User.lastLogin u) (User.loginAttempts u) (User.accountLocked u)
        (User.lockUntil u) (User.emailVerified u)
        (User.passwordResetToken u) (User.passwordResetExpires u)
        (User.createdAt u) (User.updatedAt u)
  | UProfile v =>
      User.set_profile
        (User.mkProfile (option_map trim (User.name v)) (User.phone v)
           (User.address v) (User.bloodGroup v) (User.dateOfBirth v)
           (User.gender v))
        u
  | UData v =>
      User.mk (User.email u) (User.password u) (User.googleId u)
        (User.type u) (User.status u) (User.profile u) v
        (User.lastLogin u) (User.loginAttempts u) (User.accountLocked u)
        (User.lockUntil u) (User.emailVerified u)
        (User.passwordResetToken u) (User.passwordResetExpires u)
        (User.createdAt u) (User.updatedAt u)
  | UGoogleId v =>
      User.mk (User.email u) (User.password u) (Some v)
        (User.type u) (User.status u) (User.profile u) (User.data u)
        (User.lastLogin u) (User.loginAttempts u) (User.accountLocked u)
        (User.lockUntil u) (User.emailVerified u)
        (User.passwordResetToken u) (User.passwordResetExpires u)
        (User.createdAt u) (User.updatedAt u)
  | ULastLogin v => User.set_lastLogin v u
  | ULoginAttempts v =>
      User.set_lock v (User.accountLocked u) (User.lockUntil u) u
  | UAccountLocked v =>
      User.set_lock (User.loginAttempts u) v (User.lockUntil u) u
  | ULockUntil v =>
      User.set_lock (User.loginAttempts u) (User.accountLocked u) v u
  | UEmailVerified v =>
      User.mk (User.email u) (User.password u) (User.googleId u)
        (User.type u) (User.status u) (User.profile u) (User.data u)
        (User.lastLogin u) (User.loginAttempts u) (User.accountLocked u)
        (User.lockUntil u) v
        (User.passwordResetToken u) (User.passwordResetExpires u)
        (User.createdAt u) (User.updatedAt u)
  | UPasswordResetToken v =>
      User.mk (User.email u) (User.password u) (User.googleId u)
        (User.type u) (User.status u) (User.profile u) (User.data u)
        (User.lastLogin u) (User.loginAttempts u) (User.accountLocked u)
        (User.lockUntil u) (User.emailVerified u)
        (Some v) (User.passwordResetExpires u)
        (User.createdAt u) (User.updatedAt u)
  | UPasswordResetExpires v =>
      User.mk (User.email u) (User.password u) (User.googleId u)
        (User.type u) (User.status u) (User.profile u) (User.data u)
        (User.lastLogin u) (User.loginAttempts u) (User.accountLocked u)
        (User.lockUntil u) (User.emailVerified u)
        (User.passwordResetToken u) v
        (User.createdAt u) (User.updatedAt u)
  | UCreatedAt v =>
      User.mk (User.email u) (User.password u) (User.googleId u)
        (User.type u) (User.status u) (User.profile u) (User.data u)
        (User.lastLogin u) (User.loginAttempts u) (User.accountLocked u)
        (User.lockUntil u) (User.emailVerified u)
        (User.passwordResetToken u) (User.passwordResetExpires u)
        v (User.updatedAt u)
  | UUpdatedAt v => User.set_updatedAt v u
  | UOther _ => u
  end.

(** [updates.forEach(update => req.user[update] = req.body[update])] *)
Definition apply_updates (updates : list ProfileUpdate) (u : User.t)
  : User.t :=
  fold_left set_user_path updates u.

Definition option_string_eqb (a b : option string) : bool :=
  match a, b with
  | Some x, Some y => x =? y
  | None, None => true
  | _, _ => false
  end.

(** "Update stats" of the deletion of a user. *)
Definition uncount_user (type : string) (s : Stats.t) : Stats.t :=
  let s :=
    Stats.mk (Stats.totalUsers s - 1) (Stats.totalDonors s)
      (Stats.totalHospitals s) (Stats.totalPatients s)
      (Stats.totalDonations s) (Stats.lastUpdated s) in
  if type =? "donor" then
    Stats.mk (Stats.totalUsers s) (Stats.totalDonors s - 1)
      (Stats.totalHospitals s) (Stats.totalPatients s)
      (Stats.totalDonations s) (Stats.lastUpdated s)
  else if type =? "hospital" then
    Stats.mk (Stats.totalUsers s) (Stats.totalDonors s)
      (Stats.totalHospitals s - 1) (Stats.totalPatients s)
      (Stats.totalDonations s) (Stats.lastUpdated s)
  else if type =? "patient" then
    Stats.mk (Stats.totalUsers s) (Stats.totalDonors s)
      (Stats.totalHospitals s) (Stats.totalPatients s - 1)
      (Stats.totalDonations s) (Stats.lastUpdated s)
  else s.

(** [router.get('/profile')] *)
Definition users_get_profile (token : option ObjectId)
  : DB -> DB * Response UserJson :=
  fun db =>
    match auth token db with
    | None => (db, unauthenticated)
    | Some (uid, user) => (db, mkResponse 200 (inr (toJSON uid user)))
    end.

(** [router.get('/all')] *)
Definition users_get_all (token : option ObjectId)
  : DB -> DB * Response (list UserJson) :=
  fun db =>
    match auth token db with
    | None => (db, unauthenticated)
    | Some (uid, user) =>
        try_catch
          (if negb (User.type user =? "admin")
           then throw (Error "Not authorized")
           else
             do! all := gets (fun db => map_to_list (users db)) in
             ret (mkResponse 200
                    (inr (List.map (fun kd => toJSON (fst kd) (snd kd)) all))))
          (fun e => mkResponse 400 (inl (message_of e)))
          db
    end.

(** [router.delete('/:userId')]; the payload of a success is the message. *)
Definition users_delete (now : Time) (fault : option Exn)
  (token : option ObjectId) (userId : ObjectId)
  : DB -> DB * Response string :=
  fun db =>
    match auth token db with
    | None => (db, unauthenticated)
    | Some (uid, user) =>
        try_catch
          (if negb (User.type user =? "admin")
           then throw (Error "Not authorized")
           else
             do! userToDelete := gets (fun db => users db !! userId) in
             match userToDelete with
             | None => throw (Error "User not found")
             | Some target =>
                 if (User.type target =? "admin")
                    && negb (User.email user =? main_admin)
                 then throw (Error "Only main admin can delete admin users")
                 else if User.email target =? main_admin
                 then throw (Error "Main admin cannot be deleted")
                 else
                   modify (fun db =>
                     with_users (delete userId (users db)) db) ;;!
                   do! found := gets (fun db => head (stats db)) in
                   match found with
                   | None =>
                       throw (TypeError
                         "Cannot read properties of null (reading 'totalUsers')")
                   | Some s =>
                       save_found_stats now fault
                         (Stats.hydrate (uncount_user (User.type target) s)) ;;!
                       ret (mkResponse 200 (inr "User deleted successfully"))
                   end
             end)
          (fun e => mkResponse 400 (inl (message_of e)))
          db
    end.

(** [router.get('/stats')] of the auth router: no authentication; the
    payload is the Stats document, [null] when there is none. *)
Definition users_get_stats : DB -> DB * Response (option Stats.t) :=
  fun db => (db, mkResponse 200 (inr (head (stats db)))).

(** [router.get('/cleanup-google-users')]: [deleteMany] of the documents
    in which [googleId] exists; the payload is [deletedCount]. *)
Definition cleanup_google_users : DB -> DB * Response nat :=
  fun db =>
    let kept :=
      filter (fun kv : ObjectId * User.t => User.googleId (snd kv) = None)
        (users db) in
    (with_users kept db,
     mkResponse 200 (inr (size (users db) - size kept))).

(** [stats.totalUsers += 1] *)
Definition count_one_user (s : Stats.t) : Stats.t :=
  Stats.mk (Stats.totalUsers s + 1) (Stats.totalDonors s)
    (Stats.totalHospitals s) (Stats.totalPatients s)
    (Stats.totalDonations s) (Stats.lastUpdated s).

Section AccountRoutes.

Variable bcrypt_hash : string -> string -> string.

(** The first of the two [router.post('/create-admin')] handlers; it always
    answers, so the second one, registered later on the same path, is never
    reached. [fault] is the outcome of the write of the statistics. *)
Definition create_admin (now : Time) (newId : ObjectId) (salt : string)
  (fault : option Exn) (token : option ObjectId) (b : CreateAdminBody)
  : DB -> DB * Response AdminCreated :=
  fun db =>
    match auth token db with
    | None => (db, unauthenticated)
    | Some (uid, user) =>
    match mainAdminAuth user with
    | Some denied => (db, denied)
    | None =>
        try_catch
          (match ca_email b, ca_password b, ca_name b with
           | Some email, Some password, Some name =>
             if negb (truthy (ca_email b)) || negb (truthy (ca_password b))
                || negb (truthy (ca_name b))
             then bad_request "Missing required fields: email, password, name"
             else if negb (test emailRegex email)
             then bad_request "Please enter a valid email address"
             else if (String.length password <? 8)%nat
             then bad_request "Password must be at least 8 characters long"
             else
               do! existingUser := gets (fun db =>
                 findOne_user
                   (fun u => User.email u =? cast_email (toLowerCase email))
                   (users db)) in
               if defined existingUser
               then bad_request "User with this email already exists"
               else
                 do! adminUser := insert_user bcrypt_hash now salt newId
                                    (new_admin now name email password) in
                 do! found := gets (fun db => head (stats db)) in
                 match found with
                 | Some s =>
                     save_found_stats now fault
                       (Stats.hydrate (count_one_user s))
                 | None =>
                     save_new_stats now fault
                       (Stats.hydrate
                          (count_one_user (Stats.paths (Stats.new now))))
                 end ;;!
                 ret (mkResponse 201
                        (inr (mkAdminCreated newId (User.email adminUser)
                                (User.type adminUser) (User.profile adminUser)
                                (User.data adminUser)
                                (User.createdAt adminUser))))
           | _, _, _ =>
             bad_request "Missing required fields: email, password, name"
           end)
          (fun e =>
             match e with
             | ValidationError _ errors =>
                 mkResponse 400 (inl (String.concat ". " (snd <$> errors)))
             | _ => mkResponse 500
                      (inl "Failed to create admin user. Please try again.")
             end)
          db
    end
    end.

(** [await req.user.save()] of a loaded user: validation, hooks, and the
    write, which the unique index on [email] rejects when another document
    has the address, and the sparse unique index on [googleId] when the
    [googleId] was changed to one that another document has. *)
Definition save_user (now : Time) (salt : string) (id : ObjectId)
  (loaded u : User.t) : M User.t :=
  do! saved := liftE
    (User.save bcrypt_hash now salt
       (negb (option_string_eqb (User.password u) (User.password loaded)))
       u) in
  do! clash := gets (fun db =>
    defined (findOne_user (fun v => User.email v =? User.email saved)
               (delete id (users db)))
    || negb (option_string_eqb (User.googleId saved) (User.googleId loaded))
       && defined (findOne_user
                     (fun v => defined (User.googleId v)
                               && option_string_eqb (User.googleId v)
                                    (User.googleId saved))
                     (delete id (users db)))) in
  if clash then throw (MongoServerError 11000%N)
  else
    modify (fun db => with_users (<[id := saved]> (users db)) db) ;;!
    ret saved.

(** [router.patch('/profile')]. [salt] is drawn when the password is
    hashed. *)
Definition users_patch_profile (now : Time) (salt : string)
  (token : option ObjectId) (updates : list ProfileUpdate)
  : DB -> DB * Response UserJson :=
  fun db =>
    match auth token db with
    | None => (db, unauthenticated)
    | Some (uid, user) =>
        try_catch
          (do! saved := save_user now salt uid user
                          (apply_updates updates user) in
           ret (mkResponse 200 (inr (toJSON uid saved))))
          (fun e => mkResponse 400 (inl (message_of e)))
          db
    end.

(** [await user.save()] of a Google signup: as [insert_user], and the
    sparse unique index on [googleId] rejects a second document with the
    same id. *)
Definition insert_google_user (now : Time) (id : ObjectId) (u : User.t)
  : M User.t :=
  do! saved := liftE (User.save bcrypt_hash now "" false u) in
  do! clash := gets (fun db =>
    defined (users db !! id)
    || defined (findOne_user
                  (fun v => User.email v =? User.email saved) (users db))
    || defined (findOne_user
                  (fun v => defined (User.googleId v)
                            && option_string_eqb (User.googleId v)
                                 (User.googleId saved))
                  (users db))) in
  if clash then throw (MongoServerError 11000%N)
  else
    modify (fun db => with_users (<[id := saved]> (users db)) db) ;;!
    ret saved.

(** [router.post('/complete-google-signup')]; the payload of a success is
    the message, [fault] the outcome of the write of the statistics. *)
Definition complete_google_signup (now : Time) (newId : ObjectId)
  (fault : option Exn) (b : GoogleSignupBody) : DB -> DB * Response string :=
  try_catch
    (match gs_email b, gs_name b, gs_googleId b, gs_type b, gs_phone b with
     | Some email, Some name, Some googleId, Some type, Some phone =>
       if negb (truthy (gs_email b)) || negb (truthy (gs_name b))
          || negb (truthy (gs_googleId b)) || negb (truthy (gs_type b))
          || negb (truthy (gs_phone b))
       then bad_request "Missing required fields"
       else if negb (test phoneRegex phone)
       then bad_request "Phone number must be exactly 10 digits"
       else if (type =? "hospital") && negb (truthy (gs_address b))
       then bad_request "Address is required for hospital registration"
       else if (type =? "donor") && negb (truthy (gs_bloodGroup b))
       then bad_request "Blood group is required for donor registration"
       else
         do! existingUser := gets (fun db =>
           findOne_user
             (fun u => User.email u =? cast_email (toLowerCase email))
             (users db)) in
         if defined existingUser
         then bad_request "User already exists with this email"
         else
           do! user := insert_google_user now newId
                         (new_google_user now type name email phone googleId
                            b) in
           do! found := gets (fun db => head (stats db)) in
           match found with
           | Some s =>
               save_found_stats now fault
                 (Stats.hydrate (count_user (User.type user) s))
           | None =>
               save_new_stats now fault
                 (Stats.hydrate
                    (count_user (User.type user)
                       (Stats.paths (Stats.new now))))
           end ;;!
           ret (mkResponse 200 (inr "Google signup completed successfully"))
     | _, _, _, _, _ => bad_request "Missing required fields"
     end)
    (fun e =>
       mkResponse 500
         (inl "Failed to complete registration. Please try again.")).

End AccountRoutes.

(** ** Statements about accounts *)

(** No two stored users have the same email address, which is what the
    unique index on [email] maintains. *)
Definition unique_emails (coll : gmap ObjectId User.t) : Prop :=
  forall i j u v,
    coll !! i = Some u -> coll !! j = Some v ->
    User.email u = User.email v -> i = j.

(** The filter of the [findOne] of the login. *)
Definition login_filter (email type : string) (u : User.t) : bool :=
  (User.email u =? cast_email (toLowerCase email))
  && (User.type u =? toLowerCase type).

(** The store after [sample_registration] at time 5000 under id 9, and the
    login of that hospital. *)
Definition registered_db : DB :=
  fst (register sample_hash 5000 9 "s1" None sample_registration sample_db).

Definition sample_login : LoginBody :=
  mkLoginBody (Some "hill@example.org") (Some "hunter2hunter2")
    (Some "hospital").

Definition wrong_login : LoginBody :=
  mkLoginBody (Some "hill@example.org") (Some "letmein-letmein")
    (Some "hospital").

(** The same login with the address in capitals and between blanks. *)
Definition padded_login : LoginBody :=
  mkLoginBody (Some "  HILL@Example.org ") (Some "hunter2hunter2")
    (Some "hospital").

(** A Google signup of a patient. *)
Definition sample_google_signup : GoogleSignupBody :=
  mkGoogleSignupBody (Some "Gina@Example.org") (Some "Gina") (Some "g-1017")
    (Some "patient") (Some "5550002222") None None.

(** The account that [sample_registration] stores. *)
Definition registered_hospital : User.t :=
  User.set_hashed (sample_hash "s1" "hunter2hunter2")
    (User.pre_save_profile 5000
       (new_user 5000 "hospital" " Hill Hospital " "Hill@Example.org"
          "5550001111" "hunter2hunter2" sample_registration)).

(** The store after four logins with a wrong password, at times 6001 to
    6004. *)
Definition four_failures_db : DB :=
  fold_left
    (fun db now => fst (login sample_hash sample_compare now wrong_login db))
    [6001; 6002; 6003; 6004]%Z registered_db.

(** The store after [sample_google_signup] at time 5000 under id 12. *)
Definition google_db : DB :=
  fst (complete_google_signup sample_hash 5000 12 None sample_google_signup
         sample_db).

(** * Properties *)

(** ** Strings and ids *)

Lemma is_lit_true x lit : is_lit x lit = true <-> x = Some lit.
Proof.
  destruct x as [s|]; simpl.
  - rewrite String.eqb_eq. split; [intros ->; reflexivity | congruence].
  - split; discriminate.
Qed.

Lemma id_is_true o x : id_is o x = true <-> o = Some x.
Proof.
  destruct o as [y|]; simpl.
  - rewrite N.eqb_eq. split; congruence.
  - split; discriminate.
Qed.

(** ** The rejection list *)

Lemma rejected_by_elem h l :
  rejected_by h l = true <-> h ∈ rej_hospitalId <$> l.
Proof.
  unfold rejected_by. induction l as [|r l IH]; simpl.
  - split; [discriminate | intros H; inversion H].
  - rewrite orb_true_iff, IH, N.eqb_eq, elem_of_cons. intuition congruence.
Qed.

Lemma find_rejection_defined h l :
  defined (find_rejection h l) = rejected_by h l.
Proof.
  unfold find_rejection, rejected_by.
  induction l as [|r l IH]; simpl; [reflexivity|].
  destruct (N.eqb (rej_hospitalId r) h); simpl; [reflexivity | exact IH].
Qed.

Lemma reject_push_present now uid user reason l :
  rejected_by uid l = true -> reject_push now uid user reason l = l.
Proof.
  intros H. unfold reject_push. rewrite find_rejection_defined, H.
  reflexivity.
Qed.

Lemma reject_push_absent now uid user reason l :
  rejected_by uid l = false ->
  reject_push now uid user reason l
  = (l ++ [new_rejection now uid user reason])%list.
Proof.
  intros H. unfold reject_push. rewrite find_rejection_defined, H.
  reflexivity.
Qed.

Lemma reject_push_unique now uid user reason l :
  unique_rejections l ->
  unique_rejections (reject_push now uid user reason l).
Proof.
  unfold unique_rejections. intros Hl.
  destruct (rejected_by uid l) eqn:E.
  - rewrite reject_push_present by exact E. exact Hl.
  - rewrite reject_push_absent by exact E.
    rewrite fmap_app. apply NoDup_app. split; [exact Hl|]. split.
    + intros x Hx Hin. simpl in Hin. apply list_elem_of_singleton in Hin.
      subst x. apply rejected_by_elem in Hx. congruence.
    + simpl. apply NoDup_singleton.
Qed.

Lemma reject_push_rejected now uid user reason l :
  rejected_by uid (reject_push now uid user reason l) = true.
Proof.
  destruct (rejected_by uid l) eqn:E.
  - rewrite reject_push_present by exact E. exact E.
  - rewrite reject_push_absent by exact E.
    apply rejected_by_elem. rewrite fmap_app. apply elem_of_app. right.
    simpl. apply list_elem_of_singleton. reflexivity.
Qed.

(** ** Saving a document *)

Lemma donation_save_inr now m d d' :
  Donation.save now m d = inr d' <->
  Donation.validate d = [] /\ d' = Donation.pre_save now m d.
Proof.
  unfold Donation.save. destruct (Donation.validate d); split.
  - intros [= <-]. split; reflexivity.
  - intros [_ ->]. reflexivity.
  - discriminate.
  - intros [[=] _].
Qed.

Lemma request_save_inr now m r r' :
  Request.save now m r = inr r' <->
  Request.validate r = [] /\ r' = Request.pre_save now m r.
Proof.
  unfold Request.save. destruct (Request.validate r); split.
  - intros [= <-]. split; reflexivity.
  - intros [_ ->]. reflexivity.
  - discriminate.
  - intros [[=] _].
Qed.

(** The hooks touch the three timestamps and nothing else. *)
Lemma donation_pre_save_frame now m d :
  let d' := Donation.pre_save now m d in
  Donation.status d' = Donation.status d
  /\ Donation.hospitalId d' = Donation.hospitalId d
  /\ Donation.hospitalName d' = Donation.hospitalName d
  /\ Donation.approvedBy d' = Donation.approvedBy d
  /\ Donation.patientId d' = Donation.patientId d
  /\ Donation.rejectedByHospitals d' = Donation.rejectedByHospitals d
  /\ Donation.updatedAt d' = now.
Proof.
  unfold Donation.pre_save. destruct m; simpl;
    repeat match goal with |- context [if ?c then _ else _] =>
      destruct c; simpl end; repeat split; reflexivity.
Qed.

Lemma request_pre_save_frame now m r :
  let r' := Request.pre_save now m r in
  Request.status r' = Request.status r
  /\ Request.hospitalId r' = Request.hospitalId r
  /\ Request.hospitalName r' = Request.hospitalName r
  /\ Request.approvedBy r' = Request.approvedBy r
  /\ Request.rejectedByHospitals r' = Request.rejectedByHospitals r
  /\ Request.updatedAt r' = now.
Proof.
  unfold Request.pre_save. destruct m; simpl;
    repeat match goal with |- context [if ?c then _ else _] =>
      destruct c; simpl end; repeat split; reflexivity.
Qed.

(** When the status was not modified the hooks only refresh [updatedAt]. *)
Lemma donation_pre_save_unmodified now d :
  Donation.pre_save now false d = Donation.set_updatedAt now d.
Proof. reflexivity. Qed.

Lemma request_pre_save_unmodified now r :
  Request.pre_save now false r = Request.set_updatedAt now r.
Proof. reflexivity. Qed.

(** ** What one request does to the store *)

#[local] Arguments includes : simpl never.
#[local] Arguments is_lit : simpl never.
#[local] Arguments donation_transition : simpl never.
#[local] Arguments request_transition : simpl never.
#[local] Arguments new_donation : simpl never.
#[local] Arguments new_request : simpl never.
#[local] Arguments Donation.save : simpl never.
#[local] Arguments Request.save : simpl never.

Ltac run_handler :=
  cbv [try_catch bindM gets modify liftE ret throw write_fault
       save_found_stats save_new_stats insert_donation insert_request
       unauthenticated]; simpl.

Ltac distinct := let H := fresh in intros H; discriminate H.

Lemma donations_patch_effect now token id b db :
  let db' := fst (donations_patch now token id b db) in
  db' = db
  \/ exists uid user d d',
       auth token db = Some (uid, user)
       /\ donations db !! id = Some d
       /\ donation_transition now uid user b d = inr d'
       /\ db' = with_donations (<[id := d']> (donations db)) db.
Proof.
  unfold donations_patch. destruct (auth token db) as [[uid user]|] eqn:Ha;
    [|left; reflexivity].
  run_handler. destruct (donations db !! id) as [d|] eqn:Hd;
    [|left; reflexivity].
  destruct (donation_transition now uid user b d) as [e|d'] eqn:Ht;
    [left; reflexivity|].
  right. exists uid, user, d, d'. simpl. auto.
Qed.

Lemma requests_patch_effect now token id b db :
  let db' := fst (requests_patch now token id b db) in
  db' = db
  \/ exists uid user status r r',
       auth token db = Some (uid, user)
       /\ includes ["hospital"; "admin"] (Some (User.type user)) = true
       /\ requests db !! id = Some r
       /\ pb_status b = Some status
       /\ includes ["approved"; "rejected"; "completed"] (Some status) = true
       /\ request_transition now uid user status (pb_rejectionReason b) r
          = inr r'
       /\ db' = with_requests (<[id := r']> (requests db)) db.
Proof.
  unfold requests_patch. destruct (auth token db) as [[uid user]|] eqn:Ha;
    [|left; reflexivity].
  run_handler.
  destruct (includes ["hospital"; "admin"] (Some (User.type user))) eqn:Hr;
    [|left; reflexivity].
  simpl. destruct (requests db !! id) as [r|] eqn:Hd; [|left; reflexivity].
  destruct (pb_status b) as [status|] eqn:Hs; [|left; reflexivity].
  destruct (includes ["approved"; "rejected"; "completed"] (Some status))
    eqn:Hi; [|left; reflexivity].
  simpl.
  destruct (request_transition now uid user status (pb_rejectionReason b) r)
    as [e|r'] eqn:Ht; [left; reflexivity|].
  right. exists uid, user, status, r, r'. simpl. auto 10.
Qed.

Lemma auth_Some token db uid user :
  auth token db = Some (uid, user) ->
  token = Some uid /\ users db !! uid = Some user.
Proof.
  unfold auth. destruct token as [t|]; [|discriminate].
  destruct (users db !! t) as [u|] eqn:E; [|discriminate].
  intros [= <- <-]. auto.
Qed.

Lemma donations_patch_run now token id b db uid user d :
  auth token db = Some (uid, user) ->
  donations db !! id = Some d ->
  donations_patch now token id b db
  = match donation_transition now uid user b d with
    | inl e => (db, mkResponse 400 (inl (message_of e)))
    | inr d' =>
        (with_donations (<[id := d']> (donations db)) db,
         mkResponse 200 (inr (id, d')))
    end.
Proof.
  intros Ha Hd. unfold donations_patch. rewrite Ha. run_handler. rewrite Hd.
  destruct (donation_transition now uid user b d); reflexivity.
Qed.

Lemma requests_patch_run now token id b db uid user r status :
  auth token db = Some (uid, user) ->
  includes ["hospital"; "admin"] (Some (User.type user)) = true ->
  requests db !! id = Some r ->
  pb_status b = Some status ->
  includes ["approved"; "rejected"; "completed"] (Some status) = true ->
  requests_patch now token id b db
  = match request_transition now uid user status (pb_rejectionReason b) r with
    | inl e => (db, mkResponse 400 (inl (message_of e)))
    | inr r' =>
        (with_requests (<[id := r']> (requests db)) db,
         mkResponse 200
           (inr (mkRequestUpdated id (Request.status r')
                   (Request.hospitalName r') (Request.updatedAt r'))))
    end.
Proof.
  intros Ha Hrole Hr Hs Hi. unfold requests_patch. rewrite Ha. run_handler.
  rewrite Hrole. simpl. rewrite Hr, Hs, Hi. simpl.
  destruct (request_transition now uid user status (pb_rejectionReason b) r);
    reflexivity.
Qed.

(** The caller's name as the routes compute it: the name of the profile,
    and the legacy [data[<type>-name]] when that is missing or empty. *)
Lemma callerName_eq u :
  callerName u
  = match User.name (User.profile u) with
    | Some n =>
        if n =? "" then User.data u !! (User.type u ++ "-name") else Some n
    | None => User.data u !! (User.type u ++ "-name")
    end.
Proof.
  unfold callerName, js_or, truthy.
  destruct (User.name (User.profile u)) as [n|]; [|reflexivity].
  destruct (n =? ""); reflexivity.
Qed.

Lemma donations_post_effect now newId fault token b db :
  let db' := fst (donations_post now newId fault token b db) in
  users db' = users db /\ requests db' = requests db
  /\ (donations db' = donations db
      \/ exists uid donor,
           auth token db = Some (uid, donor)
           /\ User.type donor = "donor"
           /\ donations db !! newId = None
           /\ Donation.validate (new_donation now uid donor b) = []
           /\ donations db'
              = <[newId := Donation.pre_save now true
                             (new_donation now uid donor b)]> (donations db)).
Proof.
  unfold donations_post.
  destruct (auth token db) as [[uid user]|] eqn:Ha; [|simpl; auto].
  destruct (auth_Some _ _ _ _ Ha) as [_ Hu].
  run_handler. destruct (String.eqb_spec (User.type user) "donor") as [Hty|];
    simpl; [|auto].
  rewrite Hu.
  destruct (Donation.save now true (new_donation now uid user b))
    as [e|saved] eqn:Hs; simpl; [auto|].
  apply donation_save_inr in Hs as [Hv ->].
  destruct (donations db !! newId) eqn:Hn; simpl; [auto|].
  destruct (stats db) as [|s ss]; [|destruct fault]; simpl;
    (split; [reflexivity|]; split; [reflexivity|];
     right; exists uid, user; auto).
Qed.

Lemma requests_post_effect now newId fault token b db :
  let db' := fst (requests_post now newId fault token b db) in
  users db' = users db /\ donations db' = donations db
  /\ (requests db' = requests db
      \/ exists uid patient,
           auth token db = Some (uid, patient)
           /\ User.type patient = "patient"
           /\ requests db !! newId = None
           /\ Request.validate (new_request now uid patient b) = []
           /\ requests db'
              = <[newId := Request.pre_save now true
                             (new_request now uid patient b)]> (requests db)).
Proof.
  unfold requests_post.
  destruct (auth token db) as [[uid user]|] eqn:Ha; [|simpl; auto].
  destruct (auth_Some _ _ _ _ Ha) as [_ Hu].
  run_handler. destruct (String.eqb_spec (User.type user) "patient") as [Hty|];
    simpl; [|auto].
  rewrite Hu.
  destruct (Request.save now true (new_request now uid user b))
    as [e|saved] eqn:Hs; simpl; [auto|].
  apply request_save_inr in Hs as [Hv ->].
  destruct (requests db !! newId) eqn:Hn; simpl; [auto|].
  destruct (stats db) as [|s ss]; destruct fault; simpl;
    (split; [reflexivity|]; split; [reflexivity|];
     right; exists uid, user; auto).
Qed.

Lemma donations_delete_effect token id db :
  let db' := fst (donations_delete token id db) in
  users db' = users db /\ requests db' = requests db
  /\ (donations db' = donations db
      \/ donations db' = delete id (donations db)).
Proof.
  unfold donations_delete.
  destruct (auth token db) as [[uid user]|]; [|simpl; auto].
  run_handler. destruct (donations db !! id) as [d|]; simpl; [|auto].
  destruct (User.type user =? "donor"); simpl.
  - destruct (N.eqb (Donation.donorId d) uid); simpl; auto.
  - destruct (User.type user =? "admin"); simpl; auto.
Qed.

Lemma requests_delete_effect token id db :
  let db' := fst (requests_delete token id db) in
  users db' = users db /\ donations db' = donations db
  /\ (requests db' = requests db
      \/ requests db' = delete id (requests db)).
Proof.
  unfold requests_delete.
  destruct (auth token db) as [[uid user]|]; [|simpl; auto].
  run_handler. destruct (requests db !! id) as [r|]; simpl; [|auto].
  destruct (User.type user =? "patient"); simpl.
  - destruct (N.eqb (Request.patientId r) uid); simpl; auto.
  - destruct (User.type user =? "admin"); simpl; auto.
Qed.

(** ** Invariants of the ledger

    A property of entries that new entries have and that every successful
    update keeps holds of all entries, along every run of the workflow. *)
Section LedgerInvariant.

Variable P : Donation.t -> Prop.
Variable Q : Request.t -> Prop.

Hypothesis P_new : forall now uid donor b,
  Donation.validate (new_donation now uid donor b) = [] ->
  P (Donation.pre_save now true (new_donation now uid donor b)).
Hypothesis P_update : forall now uid user b d d',
  P d -> donation_transition now uid user b d = inr d' -> P d'.
Hypothesis Q_new : forall now uid patient b,
  Request.validate (new_request now uid patient b) = [] ->
  Q (Request.pre_save now true (new_request now uid patient b)).
Hypothesis Q_update : forall now uid user status reason r r',
  includes ["approved"; "rejected"; "completed"] (Some status) = true ->
  Q r -> request_transition now uid user status reason r = inr r' -> Q r'.

Lemma step_ledger_all db db' :
  step db db' -> ledger_all P Q db -> ledger_all P Q db'.
Proof.
  intros Hstep [HP HQ]. unfold ledger_all.
  destruct Hstep as [now newId fault token b db|now token id b db
                    |token id db|now newId fault token b db
                    |now token id b db|token id db].
  - destruct (donations_post_effect now newId fault token b db)
      as (_ & -> & [-> | (uid & donor & _ & _ & _ & Hv & ->)]);
      split; auto.
    apply map_Forall_insert_2; auto.
  - destruct (donations_patch_effect now token id b db)
      as [-> | (uid & user & d & d' & _ & Hd & Ht & ->)]; [auto|].
    split; [|exact HQ]. simpl. apply map_Forall_insert_2; [|exact HP].
    eapply P_update; [|exact Ht]. exact (HP _ _ Hd).
  - destruct (donations_delete_effect token id db)
      as (_ & -> & [-> | ->]); split; auto.
    apply map_Forall_delete. exact HP.
  - destruct (requests_post_effect now newId fault token b db)
      as (_ & -> & [-> | (uid & patient & _ & _ & _ & Hv & ->)]);
      split; auto.
    apply map_Forall_insert_2; auto.
  - destruct (requests_patch_effect now token id b db)
      as [-> | (uid & user & status & r & r' & _ & _ & Hr & _ & Hi & Ht
                & ->)]; [auto|].
    split; [exact HP|]. simpl. apply map_Forall_insert_2; [|exact HQ].
    eapply Q_update; [exact Hi| |exact Ht]. exact (HQ _ _ Hr).
  - destruct (requests_delete_effect token id db)
      as (_ & -> & [-> | ->]); split; auto.
    apply map_Forall_delete. exact HQ.
Qed.

Lemma rtc_ledger_all db db' :
  rtc step db db' -> ledger_all P Q db -> ledger_all P Q db'.
Proof.
  induction 1 as [|db db1 db2 Hstep _ IH]; [auto|].
  intros H. apply IH. eapply step_ledger_all; eauto.
Qed.

Lemma reachable_ledger_all db : reachable db -> ledger_all P Q db.
Proof.
  intros (db0 & [Hd Hr] & Hrun). eapply rtc_ledger_all; [exact Hrun|].
  unfold ledger_all. rewrite Hd, Hr. split; apply map_Forall_empty.
Qed.

End LedgerInvariant.

(** ** The branches of the update routes *)

Lemma includes_elem l x :
  includes l x = true <-> exists s, x = Some s /\ s ∈ l.
Proof.
  unfold includes. destruct x as [s|].
  - rewrite existsb_exists. split.
    + intros (y & Hy & E). apply String.eqb_eq in E. subst y.
      exists s. split; [reflexivity|]. apply list_elem_of_In. exact Hy.
    + intros (y & [= <-] & Hy). exists s. split.
      * apply list_elem_of_In. exact Hy.
      * apply String.eqb_refl.
  - split; [discriminate | intros (s & [=] & _)].
Qed.

Lemma allowed_status x :
  includes ["approved"; "rejected"; "completed"] x = true ->
  x = Some "approved" \/ x = Some "rejected" \/ x = Some "completed".
Proof.
  intros H. apply includes_elem in H as (s & -> & Hs).
  repeat (apply elem_of_cons in Hs as [-> | Hs]); auto.
  inversion Hs.
Qed.

(** [if (req.body.patientId) donation.patientId = req.body.patientId] *)
Lemma donation_apply_inr now uid user b d d1 :
  donation_apply now uid user b d = inr d1 ->
  exists d0,
    d1 = (if defined (pb_patientId b)
          then Donation.set_patientId (pb_patientId b) d0 else d0)
    /\ ((User.type user = "hospital" /\ pb_status b = Some "approved"
         /\ d0 = donation_approve uid user d)
        \/ (User.type user = "hospital" /\ pb_status b = Some "rejected"
            /\ d0 = donation_reject now uid user b d)
        \/ (User.type user = "hospital" /\ pb_status b = Some "completed"
            /\ d0 = Donation.set_status "completed" d)
        \/ (User.type user = "donor" /\ Donation.donorId d = uid
            /\ pb_status b = Some "cancelled"
            /\ d0 = Donation.set_status "cancelled" d)
        \/ (User.type user = "admin" /\ d0 = d)).
Proof.
  unfold donation_apply.
  destruct (String.eqb_spec (User.type user) "hospital") as [Hh|Hh].
  - destruct (includes ["approved"; "rejected"; "completed"] (pb_status b))
      eqn:Hi; simpl; [|discriminate].
    apply allowed_status in Hi as [Hs | [Hs | Hs]]; rewrite Hs; simpl;
      intros [= <-]; eexists; (split; [reflexivity|]); auto 10.
  - destruct (String.eqb_spec (User.type user) "donor") as [Hd|Hd].
    + destruct (N.eqb_spec (Donation.donorId d) uid) as [Ho|Ho]; simpl;
        [|discriminate].
      destruct (includes ["cancelled"] (pb_status b)) eqn:Hi; simpl;
        [|discriminate].
      apply includes_elem in Hi as (s & Hs & Hin).
      apply list_elem_of_singleton in Hin. subst s. rewrite Hs.
      intros [= <-]. eexists; (split; [reflexivity|]); auto 10.
    + destruct (String.eqb_spec (User.type user) "admin") as [Ha|Ha]; simpl;
        [|discriminate].
      intros [= <-]. eexists; (split; [reflexivity|]); auto 10.
Qed.

Lemma request_apply_cases now uid user status reason r :
  includes ["approved"; "rejected"; "completed"] (Some status) = true ->
  (status = "approved"
   /\ request_apply now uid user status reason r = request_approve uid user r)
  \/ (status = "rejected"
      /\ request_apply now uid user status reason r
         = request_reject now uid user reason r)
  \/ (status = "completed"
      /\ request_apply now uid user status reason r
         = request_other "completed" uid user r).
Proof.
  intros H. apply allowed_status in H as [[= ->] | [[= ->] | [= ->]]]; auto.
Qed.

(** Validation reads [type], [details] and [status] only. *)
Lemma donation_validate_ext d1 d2 :
  Donation.type d1 = Donation.type d2 ->
  Donation.details d1 = Donation.details d2 ->
  Donation.status d1 = Donation.status d2 ->
  Donation.validate d1 = Donation.validate d2.
Proof. unfold Donation.validate. intros -> -> ->. reflexivity. Qed.

Lemma request_validate_ext r1 r2 :
  Request.type r1 = Request.type r2 ->
  Request.details r1 = Request.details r2 ->
  Request.status r1 = Request.status r2 ->
  Request.validate r1 = Request.validate r2.
Proof. unfold Request.validate. intros -> -> ->. reflexivity. Qed.

(** A document whose only possibly invalid path is [status] validates once
    its status is one of the enum. *)
Lemma donation_validate_status d d' :
  (forall p, p ∈ Donation.validate d -> p = "status") ->
  Donation.type d' = Donation.type d ->
  Donation.details d' = Donation.details d ->
  Donation.status d' ∈ Donation.statuses ->
  Donation.validate d' = [].
Proof.
  unfold Donation.validate. intros H -> -> Hs.
  assert (existsb (String.eqb (Donation.status d')) Donation.statuses = true)
    as ->.
  { apply existsb_exists. exists (Donation.status d'). split.
    - apply list_elem_of_In. exact Hs.
    - apply String.eqb_refl. }
  repeat match goal with
  | |- context [match ?c with _ => _ end] =>
      destruct c eqn:?; simpl in H |- *
  end; try reflexivity;
  exfalso;
  match goal with
  | H : forall p, p ∈ ?l -> p = "status" |- _ =>
      match l with
      | context [?x :: _] =>
          assert (x = "status") as Hx
            by (apply H; rewrite ?elem_of_app, ?elem_of_cons; auto 10);
          discriminate Hx
      end
  end.
Qed.

Lemma request_validate_status r r' :
  (forall p, p ∈ Request.validate r -> p = "status") ->
  Request.type r' = Request.type r ->
  Request.details r' = Request.details r ->
  Request.status r' ∈ Request.statuses ->
  Request.validate r' = [].
Proof.
  unfold Request.validate. intros H -> -> Hs.
  assert (existsb (String.eqb (Request.status r')) Request.statuses = true)
    as ->.
  { apply existsb_exists. exists (Request.status r'). split.
    - apply list_elem_of_In. exact Hs.
    - apply String.eqb_refl. }
  repeat match goal with
  | |- context [match ?c with _ => _ end] =>
      destruct c eqn:?; simpl in H |- *
  end; try reflexivity;
  exfalso;
  match goal with
  | H : forall p, p ∈ ?l -> p = "status" |- _ =>
      match l with
      | context [?x :: _] =>
          assert (x = "status") as Hx
            by (apply H; rewrite ?elem_of_app, ?elem_of_cons; auto 10);
          discriminate Hx
      end
  end.
Qed.

Lemma valid_only_status (l : list string) :
  l = [] -> forall p, p ∈ l -> p = "status".
Proof. intros -> p Hp. inversion Hp. Qed.

(** ** Rejection *)

Lemma donation_set_rejections_id d :
  Donation.set_rejectedByHospitals (Donation.rejectedByHospitals d) d = d.
Proof. destruct d; reflexivity. Qed.

Lemma request_set_rejections_id r :
  Request.set_rejectedByHospitals (Request.rejectedByHospitals r) r = r.
Proof. destruct r; reflexivity. Qed.

(** A donation update whose target is [rejected] writes, if it writes at
    all, the loaded document with a new rejection list, [patientId] and
    [updatedAt]. *)
Lemma donation_transition_rejected now uid user b d d' :
  pb_status b = Some "rejected" ->
  donation_transition now uid user b d = inr d' ->
  exists l,
    (l = Donation.rejectedByHospitals d
     \/ (User.type user = "hospital"
         /\ l = reject_push now uid user (pb_rejectionReason b)
                  (Donation.rejectedByHospitals d)))
    /\ d' = Donation.set_updatedAt now
              (let d0 := Donation.set_rejectedByHospitals l d in
               if defined (pb_patientId b)
               then Donation.set_patientId (pb_patientId b) d0 else d0).
Proof.
  intros Hs. unfold donation_transition.
  destruct (donation_apply now uid user b d) as [e|d1] eqn:Ha; simpl;
    [discriminate|].
  apply donation_apply_inr in Ha as (d0 & -> & Hcase).
  assert (exists l,
    (l = Donation.rejectedByHospitals d
     \/ (User.type user = "hospital"
         /\ l = reject_push now uid user (pb_rejectionReason b)
                  (Donation.rejectedByHospitals d)))
    /\ d0 = Donation.set_rejectedByHospitals l d) as (l & Hl & ->).
  { destruct Hcase as [(_ & H & _) | [(Hh & _ & ->) | [(_ & H & _)
      | [(_ & _ & H & _) | (_ & ->)]]]]; try congruence.
    - eexists. split; [right; split; [exact Hh|reflexivity]|reflexivity].
    - exists (Donation.rejectedByHospitals d). split; [left; reflexivity|].
      symmetry. apply donation_set_rejections_id. }
  intros Hsave. exists l. split; [exact Hl|].
  apply donation_save_inr in Hsave as [_ ->].
  destruct (defined (pb_patientId b)); simpl;
    rewrite String.eqb_refl; reflexivity.
Qed.

Lemma request_transition_rejected now uid user reason r r' :
  request_transition now uid user "rejected" reason r = inr r' ->
  r' = Request.set_updatedAt now
         (Request.set_rejectedByHospitals
            (reject_push now uid user reason (Request.rejectedByHospitals r))
            r).
Proof.
  unfold request_transition. simpl. intros H.
  apply request_save_inr in H as [_ ->].
  unfold request_reject. simpl. rewrite String.eqb_refl. reflexivity.
Qed.

(** Whatever the update, the rejection list is kept or is the result of
    one [reject_push]. *)
Lemma donation_transition_rejections now uid user b d d' :
  donation_transition now uid user b d = inr d' ->
  Donation.rejectedByHospitals d' = Donation.rejectedByHospitals d
  \/ Donation.rejectedByHospitals d'
     = reject_push now uid user (pb_rejectionReason b)
         (Donation.rejectedByHospitals d).
Proof.
  unfold donation_transition.
  destruct (donation_apply now uid user b d) as [e|d1] eqn:Ha; simpl;
    [discriminate|].
  apply donation_apply_inr in Ha as (d0 & -> & Hcase). intros Hsave.
  apply donation_save_inr in Hsave as [_ ->].
  destruct (donation_pre_save_frame now
    (negb (Donation.status
             (if defined (pb_patientId b)
              then Donation.set_patientId (pb_patientId b) d0 else d0)
           =? Donation.status d))
    (if defined (pb_patientId b)
     then Donation.set_patientId (pb_patientId b) d0 else d0))
    as (_ & _ & _ & _ & _ & -> & _).
  assert (Donation.rejectedByHospitals
            (if defined (pb_patientId b)
             then Donation.set_patientId (pb_patientId b) d0 else d0)
          = Donation.rejectedByHospitals d0) as ->
    by (destruct (defined (pb_patientId b)); reflexivity).
  destruct Hcase as [(_ & _ & ->) | [(_ & _ & ->) | [(_ & _ & ->)
    | [(_ & _ & _ & ->) | (_ & ->)]]]]; simpl; auto.
Qed.

Lemma request_transition_rejections now uid user status reason r r' :
  includes ["approved"; "rejected"; "completed"] (Some status) = true ->
  request_transition now uid user status reason r = inr r' ->
  Request.rejectedByHospitals r' = Request.rejectedByHospitals r
  \/ Request.rejectedByHospitals r'
     = reject_push now uid user reason (Request.rejectedByHospitals r).
Proof.
  intros Hi. unfold request_transition. intros Hsave.
  apply request_save_inr in Hsave as [_ ->].
  destruct (request_pre_save_frame now
    (negb (Request.status (request_apply now uid user status reason r)
           =? Request.status r))
    (request_apply now uid user status reason r))
    as (_ & _ & _ & _ & -> & _).
  destruct (request_apply_cases now uid user status reason r Hi)
    as [(_ & ->) | [(_ & ->) | (_ & ->)]]; simpl; auto.
Qed.

Lemma ledger_unique_rtc db db' :
  rtc step db db' ->
  ledger_all donation_unique request_unique db ->
  ledger_all donation_unique request_unique db'.
Proof.
  apply rtc_ledger_all.
  - intros now uid donor b _. unfold donation_unique.
    destruct (donation_pre_save_frame now true (new_donation now uid donor b))
      as (_ & _ & _ & _ & _ & -> & _).
    apply NoDup_nil_2.
  - intros now uid user b d d' Hd Ht. unfold donation_unique in *.
    destruct (donation_transition_rejections _ _ _ _ _ _ Ht) as [-> | ->];
      [exact Hd | apply reject_push_unique; exact Hd].
  - intros now uid patient b _. unfold request_unique.
    destruct (request_pre_save_frame now true (new_request now uid patient b))
      as (_ & _ & _ & _ & -> & _).
    apply NoDup_nil_2.
  - intros now uid user status reason r r' Hi Hr Ht.
    unfold request_unique in *.
    destruct (request_transition_rejections _ _ _ _ _ _ _ Hi Ht)
      as [-> | ->]; [exact Hr | apply reject_push_unique; exact Hr].
Qed.

(** C1 (as amended). Along every run of the workflow the rejection list of
    every entry keeps at most one element per hospital id, and entries
    reached from an empty ledger have that property. A reject by a caller
    whose id is already in the list succeeds and leaves a request unchanged
    apart from [updatedAt]; it leaves a donation unchanged apart from
    [updatedAt] and, when the payload carries a [patientId], [patientId]. *)
Theorem rejections_one_per_hospital :
  (forall db db',
     rtc step db db' ->
     ledger_all donation_unique request_unique db ->
     ledger_all donation_unique request_unique db')
  /\ (forall db,
        reachable db -> ledger_all donation_unique request_unique db)
  /\ (forall now uid user reason r,
        rejected_by uid (Request.rejectedByHospitals r) = true ->
        Request.validate r = [] ->
        request_transition now uid user "rejected" reason r
        = inr (Request.set_updatedAt now r))
  /\ (forall now uid user b d,
        User.type user = "hospital" ->
        pb_status b = Some "rejected" ->
        rejected_by uid (Donation.rejectedByHospitals d) = true ->
        Donation.validate d = [] ->
        donation_transition now uid user b d
        = inr (Donation.set_updatedAt now
                 (if defined (pb_patientId b)
                  then Donation.set_patientId (pb_patientId b) d else d))).
Proof.
  split; [exact ledger_unique_rtc|]. split; [|split].
  - intros db (db0 & [Hd Hr] & Hrun). eapply ledger_unique_rtc; [exact Hrun|].
    unfold ledger_all. rewrite Hd, Hr. split; apply map_Forall_empty.
  - intros now uid user reason r Hin Hv.
    unfold request_transition.
    change (request_apply now uid user "rejected" reason r)
      with (request_reject now uid user reason r).
    unfold request_reject.
    rewrite reject_push_present by exact Hin.
    rewrite request_set_rejections_id, String.eqb_refl. simpl.
    apply request_save_inr. split; [exact Hv | reflexivity].
  - intros now uid user b d Hty Hs Hin Hv.
    unfold donation_transition, donation_apply. rewrite Hty, Hs.
    change (is_lit (Some "rejected") "approved") with false.
    change (is_lit (Some "rejected") "rejected") with true.
    change (includes ["approved"; "rejected"; "completed"] (Some "rejected"))
      with true.
    cbv beta iota delta [negb String.eqb Ascii.eqb Bool.eqb bindE].
    unfold donation_reject. rewrite reject_push_present by exact Hin.
    rewrite donation_set_rejections_id.
    apply donation_save_inr.
    destruct (defined (pb_patientId b)); simpl; rewrite String.eqb_refl;
      (split; [exact Hv | reflexivity]).
Qed.

Lemma rejections_one_per_hospital_witness :
  User.type hospitalA = "hospital"
  /\ rejected_by 2 (Donation.rejectedByHospitals rejected_donation) = true
  /\ Donation.validate rejected_donation = []
  /\ donation_transition 3000 2 hospitalA
       (mkPatchBody (Some "rejected") None None) rejected_donation
     = inr (Donation.set_updatedAt 3000 rejected_donation).
Proof.
  split; [reflexivity|]. split; [reflexivity|]. split; [reflexivity|].
  apply (proj2 (proj2 (proj2 rejections_one_per_hospital)) 3000%Z 2%N
           hospitalA (mkPatchBody (Some "rejected") None None)
           rejected_donation); reflexivity.
Defined.

(** C1 as stated fails on donations: hospital A, already in the rejection
    list, rejects again with a payload that carries [patientId]; the update
    succeeds and the stored entry differs from the loaded one in
    [patientId], not only in [updatedAt]. *)
Lemma reject_again_with_patientId_changes_entry :
  rejected_by 2 (Donation.rejectedByHospitals rejected_donation) = true
  /\ exists d',
       donation_transition 3000 2 hospitalA
         (mkPatchBody (Some "rejected") None (Some 5%N)) rejected_donation
       = inr d'
       /\ d' <> Donation.set_updatedAt 3000 rejected_donation
       /\ Donation.patientId rejected_donation = None
       /\ Donation.patientId d' = Some 5%N.
Proof.
  split; [reflexivity|]. eexists. split; [vm_compute; reflexivity|].
  split; [|split; reflexivity].
  intros H. apply (f_equal Donation.patientId) in H. vm_compute in H.
  discriminate H.
Qed.

(** C2 (as amended). A status update whose target is [rejected] leaves the
    entry's [status], [hospitalId], [hospitalName] and [approvedBy] (and the
    audit timestamps) as they were, for every caller and whether or not the
    update is written: a pending entry stays pending. Where the stored
    entry differs from the loaded one, it is in the rejection list and
    [updatedAt] and, on a donation whose payload carries a [patientId], in
    the [patientId], which the handler assigns after the branch. *)
Theorem reject_keeps_status_and_assignment now token id b db :
  pb_status b = Some "rejected" ->
  (forall d, donations db !! id = Some d ->
     exists d',
       donations (fst (donations_patch now token id b db)) !! id = Some d'
       /\ Donation.status d' = Donation.status d
       /\ Donation.hospitalId d' = Donation.hospitalId d
       /\ Donation.hospitalName d' = Donation.hospitalName d
       /\ Donation.approvedBy d' = Donation.approvedBy d
       /\ Donation.approvedAt d' = Donation.approvedAt d
       /\ Donation.completedAt d' = Donation.completedAt d
       /\ (d' = d
           \/ exists l,
                d' = Donation.set_updatedAt now
                       (let d0 := Donation.set_rejectedByHospitals l d in
                        if defined (pb_patientId b)
                        then Donation.set_patientId (pb_patientId b) d0
                        else d0)))
  /\ (forall r, requests db !! id = Some r ->
        exists r',
          requests (fst (requests_patch now token id b db)) !! id = Some r'
          /\ Request.status r' = Request.status r
          /\ Request.hospitalId r' = Request.hospitalId r
          /\ Request.hospitalName r' = Request.hospitalName r
          /\ Request.approvedBy r' = Request.approvedBy r
          /\ Request.approvedAt r' = Request.approvedAt r
          /\ Request.completedAt r' = Request.completedAt r
          /\ (r' = r
              \/ exists l, r' = Request.set_updatedAt now
                                 (Request.set_rejectedByHospitals l r))).
Proof.
  intros Hs. split.
  - intros d Hd.
    destruct (donations_patch_effect now token id b db)
      as [-> | (uid & user & d0 & d' & _ & Hd0 & Ht & ->)].
    + exists d. auto 10.
    + rewrite Hd in Hd0. injection Hd0 as <-.
      exists d'. split; [simpl; apply lookup_insert_eq|].
      apply (donation_transition_rejected _ _ _ _ _ _ Hs) in Ht
        as (l & _ & ->).
      repeat (split; [destruct (defined (pb_patientId b)); reflexivity|]).
      right. exists l. reflexivity.
  - intros r Hr.
    destruct (requests_patch_effect now token id b db)
      as [-> | (uid & user & status & r0 & r' & _ & _ & Hr0 & Hst & _ & Ht
                & ->)].
    + exists r. auto 10.
    + rewrite Hr in Hr0. injection Hr0 as <-.
      rewrite Hs in Hst. injection Hst as <-.
      exists r'. split; [simpl; apply lookup_insert_eq|].
      apply request_transition_rejected in Ht. subst r'. simpl.
      repeat (split; [reflexivity|]). right. eexists. reflexivity.
Qed.

Lemma reject_keeps_status_and_assignment_witness :
  pb_status (mkPatchBody (Some "rejected") (Some "no stock") None)
  = Some "rejected"
  /\ exists d',
       donations
         (fst (donations_patch 2000 (Some 2%N) 10
                 (mkPatchBody (Some "rejected") (Some "no stock") None)
                 (with_donations {[ 10%N := pending_donation ]} sample_db)))
       !! 10%N = Some d'
       /\ Donation.status d' = "pending"
       /\ Donation.hospitalId d' = None.
Proof.
  split; [reflexivity|].
  assert (donations
            (with_donations {[ 10%N := pending_donation ]} sample_db)
          !! 10%N = Some pending_donation) as Hd by (vm_compute; reflexivity).
  destruct (proj1 (reject_keeps_status_and_assignment 2000 (Some 2%N) 10
                     (mkPatchBody (Some "rejected") (Some "no stock") None)
                     (with_donations {[ 10%N := pending_donation ]} sample_db)
                     eq_refl)
              pending_donation Hd)
    as (d' & H & Hst & Hh & _).
  exists d'. split; [exact H|]. split; [exact Hst | exact Hh].
Defined.

(** C2 as stated fails on donations: hospital A (id 2) rejects the pending
    donation that the donor has posted, with a payload that carries
    [patientId]. The route answers 200, the status is still [pending] and A
    is in the rejection list, but the stored entry also has the [patientId]
    of the payload: it differs from the loaded one in more than the
    rejection list and [updatedAt]. *)
Lemma reject_with_patientId_sets_patient :
  let out := donations_patch 2000 (Some 2%N) 10
               (mkPatchBody (Some "rejected") (Some "no stock") (Some 5%N))
               posted_db in
  donations posted_db !! 10%N = Some pending_donation
  /\ code (snd out) = 200
  /\ exists d',
       donations (fst out) !! 10%N = Some d'
       /\ Donation.status d' = "pending"
       /\ rej_hospitalId <$> Donation.rejectedByHospitals d' = [2%N]
       /\ Donation.patientId pending_donation = None
       /\ Donation.patientId d' = Some 5%N
       /\ forall l,
            d' <> Donation.set_updatedAt 2000
                    (Donation.set_rejectedByHospitals l pending_donation).
Proof.
  cbv zeta. split; [vm_compute; reflexivity|].
  split; [vm_compute; reflexivity|].
  eexists. split; [vm_compute; reflexivity|].
  split; [reflexivity|]. split; [reflexivity|]. split; [reflexivity|].
  split; [reflexivity|].
  intros l H. apply (f_equal Donation.patientId) in H. vm_compute in H.
  discriminate H.
Qed.

(** ** Status and assignment after an update *)

Lemma donation_validate_nil_status d :
  Donation.validate d = [] -> Donation.status d ∈ Donation.statuses.
Proof.
  unfold Donation.validate. intros H.
  repeat (apply app_eq_nil in H as [_ H]).
  destruct (existsb (String.eqb (Donation.status d)) Donation.statuses)
    eqn:E; [|discriminate].
  apply existsb_exists in E as (s & Hs & E). apply String.eqb_eq in E.
  subst s. apply list_elem_of_In. exact Hs.
Qed.

Lemma donation_patient_frame (p : option ObjectId) d0 :
  let d1 := if defined p then Donation.set_patientId p d0 else d0 in
  Donation.status d1 = Donation.status d0
  /\ Donation.hospitalId d1 = Donation.hospitalId d0
  /\ Donation.hospitalName d1 = Donation.hospitalName d0
  /\ Donation.approvedBy d1 = Donation.approvedBy d0
  /\ Donation.approvedAt d1 = Donation.approvedAt d0
  /\ Donation.completedAt d1 = Donation.completedAt d0
  /\ Donation.type d1 = Donation.type d0
  /\ Donation.details d1 = Donation.details d0.
Proof. destruct (defined p); simpl; auto 10. Qed.

(** The three things a written donation update can have done to status
    and assignment: claim the entry for the calling hospital, complete it
    with the assignment untouched, or leave both as they were. *)
Lemma donation_transition_status now uid user b d d' :
  donation_transition now uid user b d = inr d' ->
  (User.type user = "hospital" /\ pb_status b = Some "approved"
   /\ Donation.status d' = "approved"
   /\ Donation.hospitalId d' = Some uid
   /\ Donation.hospitalName d' = callerName user
   /\ Donation.approvedBy d' = Some uid)
  \/ (User.type user = "hospital" /\ pb_status b = Some "completed"
      /\ Donation.status d' = "completed"
      /\ Donation.hospitalId d' = Donation.hospitalId d
      /\ Donation.hospitalName d' = Donation.hospitalName d
      /\ Donation.approvedBy d' = Donation.approvedBy d)
  \/ (Donation.status d' = Donation.status d
      /\ Donation.hospitalId d' = Donation.hospitalId d
      /\ Donation.hospitalName d' = Donation.hospitalName d
      /\ Donation.approvedBy d' = Donation.approvedBy d).
Proof.
  unfold donation_transition.
  destruct (donation_apply now uid user b d) as [e|d1] eqn:Ha; simpl;
    [discriminate|].
  apply donation_apply_inr in Ha as (d0 & -> & Hcase). intros Hsave.
  apply donation_save_inr in Hsave as [Hv ->].
  apply donation_validate_nil_status in Hv.
  destruct (donation_patient_frame (pb_patientId b) d0)
    as (Es & Eh & En & Ea & _).
  cbv zeta in Es, Eh, En, Ea. rewrite Es in Hv.
  match goal with |- context [Donation.pre_save now ?m ?x] =>
    destruct (donation_pre_save_frame now m x) as (-> & -> & -> & -> & _)
  end.
  rewrite Es, Eh, En, Ea.
  destruct Hcase as [(Hh & Hb & ->) | [(_ & _ & ->) | [(Hh & Hb & ->)
    | [(_ & _ & _ & ->) | (_ & ->)]]]]; simpl; auto 10.
  exfalso. simpl in Hv. unfold Donation.statuses in Hv.
  repeat (apply elem_of_cons in Hv as [Hv | Hv]; [discriminate Hv|]).
  inversion Hv.
Qed.

Lemma request_transition_status now uid user status reason r r' :
  includes ["approved"; "rejected"; "completed"] (Some status) = true ->
  request_transition now uid user status reason r = inr r' ->
  ((status = "approved" \/ status = "completed")
   /\ Request.status r' = status
   /\ Request.hospitalId r' = Some uid
   /\ Request.hospitalName r' = callerName user
   /\ Request.approvedBy r' = Some uid)
  \/ (status = "rejected"
      /\ Request.status r' = Request.status r
      /\ Request.hospitalId r' = Request.hospitalId r
      /\ Request.hospitalName r' = Request.hospitalName r
      /\ Request.approvedBy r' = Request.approvedBy r).
Proof.
  intros Hi. unfold request_transition. intros Hsave.
  apply request_save_inr in Hsave as [_ ->].
  match goal with |- context [Request.pre_save now ?m ?x] =>
    destruct (request_pre_save_frame now m x) as (-> & -> & -> & -> & _)
  end.
  destruct (request_apply_cases now uid user status reason r Hi)
    as [(-> & ->) | [(-> & ->) | (-> & ->)]]; simpl; auto 10.
Qed.

(** ** Assignment and status *)

(** C3 (as amended). In every store reached from an empty ledger, a
    donation or request with [hospitalId] set has status [approved] or
    [completed], so no pending or cancelled entry is assigned; an approved
    donation has [hospitalId] set; and for requests the whole converse
    holds: an approved or completed request has [hospitalId] set. *)
Theorem assignment_follows_status db :
  reachable db ->
  ledger_all donation_assignment request_assignment db.
Proof.
  apply reachable_ledger_all.
  - intros now uid donor b _. unfold donation_assignment.
    destruct (donation_pre_save_frame now true (new_donation now uid donor b))
      as (-> & -> & _).
    split; [intros [x Hx]; discriminate Hx | intros Hs; discriminate Hs].
  - intros now uid user b d d' Hh Ht. unfold donation_assignment, claimed in *.
    destruct (donation_transition_status _ _ _ _ _ _ Ht)
      as [(_ & _ & -> & -> & _) | [(_ & _ & -> & -> & _) | (-> & -> & _)]];
      [split; eauto | split; [auto | intros Hs; discriminate Hs] | exact Hh].
  - intros now uid patient b _. unfold request_assignment, claimed.
    destruct (request_pre_save_frame now true (new_request now uid patient b))
      as (-> & -> & _).
    split.
    + intros [x Hx]. discriminate Hx.
    + intros [H|H]; discriminate H.
  - intros now uid user status reason r r' Hi Hh Ht.
    unfold request_assignment, claimed in *.
    destruct (request_transition_status _ _ _ _ _ _ _ Hi Ht)
      as [(Hst & -> & -> & _) | (_ & -> & -> & _)]; [|exact Hh].
    split; [intros _; exact Hst | eauto].
Qed.

Lemma sample_db_reaches_completed : rtc step sample_db completed_unassigned_db.
Proof.
  eapply rtc_l; [apply step_donations_post|].
  eapply rtc_l; [apply step_donations_patch|].
  apply rtc_refl.
Qed.

Lemma assignment_follows_status_witness :
  reachable completed_unassigned_db
  /\ ledger_all donation_assignment request_assignment completed_unassigned_db.
Proof.
  assert (reachable completed_unassigned_db) as H.
  { exists sample_db. split; [split; reflexivity|].
    exact sample_db_reaches_completed. }
  split; [exact H|]. exact (assignment_follows_status _ H).
Defined.

(** C3 as stated fails on donations: the donor posts a donation and a
    hospital sets it to [completed] at once; the route writes the status and
    never the assignment, so the reachable store holds a completed donation
    whose [hospitalId] is not set. *)
Lemma completed_donation_without_hospital :
  reachable completed_unassigned_db
  /\ exists d,
       donations completed_unassigned_db !! 10%N = Some d
       /\ Donation.status d = "completed"
       /\ Donation.hospitalId d = None
       /\ ~ (is_Some (Donation.hospitalId d) <-> claimed (Donation.status d)).
Proof.
  split.
  { exists sample_db. split; [split; reflexivity|].
    exact sample_db_reaches_completed. }
  eexists. split; [vm_compute; reflexivity|].
  split; [reflexivity|]. split; [reflexivity|].
  intros [_ H]. destruct H as [x Hx]; [right; reflexivity|]. discriminate Hx.
Qed.

(** The owner's cancel of a pending donation does not reach the store:
    [cancelled] is not among the statuses of the Donation schema, so
    [save()] rejects the document and the route answers 400. *)
Example donor_cancel_is_rejected_by_the_schema :
  let db := with_donations {[ 10%N := pending_donation ]} sample_db in
  let out := donations_patch 2000 (Some 1%N) 10
               (mkPatchBody (Some "cancelled") None None) db in
  code (snd out) = 400 /\ donations (fst out) !! 10%N = Some pending_donation.
Proof. cbv zeta. split; vm_compute; reflexivity. Qed.

(** ** The audit timestamps *)

Lemma donation_pre_save_timestamps now m d :
  let d' := Donation.pre_save now m d in
  Donation.approvedAt d'
  = (if m && (Donation.status d =? "approved")
        && negb (defined (Donation.approvedAt d))
     then Some now else Donation.approvedAt d)
  /\ Donation.completedAt d'
     = (if m && (Donation.status d =? "completed")
           && negb (defined (Donation.completedAt d))
        then Some now else Donation.completedAt d).
Proof.
  unfold Donation.pre_save. destruct m; simpl; [|auto].
  destruct (Donation.status d =? "approved");
    destruct (defined (Donation.approvedAt d)); simpl;
    destruct (Donation.status d =? "completed");
    destruct (defined (Donation.completedAt d)); simpl; auto.
Qed.

Lemma request_pre_save_timestamps now m r :
  let r' := Request.pre_save now m r in
  Request.approvedAt r'
  = (if m && (Request.status r =? "approved")
        && negb (defined (Request.approvedAt r))
     then Some now else Request.approvedAt r)
  /\ Request.completedAt r'
     = (if m && (Request.status r =? "completed")
           && negb (defined (Request.completedAt r))
        then Some now else Request.completedAt r).
Proof.
  unfold Request.pre_save. destruct m; simpl; [|auto].
  destruct (Request.status r =? "approved");
    destruct (defined (Request.approvedAt r)); simpl;
    destruct (Request.status r =? "completed");
    destruct (defined (Request.completedAt r)); simpl; auto.
Qed.

(** The timestamps after a written update, in terms of the loaded
    document: each is set to [now] when the status changed to its state and
    it was not set, and is kept otherwise. *)
Lemma donation_transition_timestamps now uid user b d d' :
  donation_transition now uid user b d = inr d' ->
  Donation.approvedAt d'
  = (if negb (Donation.status d' =? Donation.status d)
        && (Donation.status d' =? "approved")
        && negb (defined (Donation.approvedAt d))
     then Some now else Donation.approvedAt d)
  /\ Donation.completedAt d'
     = (if negb (Donation.status d' =? Donation.status d)
           && (Donation.status d' =? "completed")
           && negb (defined (Donation.completedAt d))
        then Some now else Donation.completedAt d).
Proof.
  unfold donation_transition.
  destruct (donation_apply now uid user b d) as [e|d1] eqn:Ha; simpl;
    [discriminate|].
  apply donation_apply_inr in Ha as (d0 & -> & Hcase). intros Hsave.
  apply donation_save_inr in Hsave as [_ ->].
  match goal with |- context [Donation.pre_save now ?m ?x] =>
    destruct (donation_pre_save_frame now m x) as (-> & _);
    destruct (donation_pre_save_timestamps now m x) as (-> & ->)
  end.
  destruct (donation_patient_frame (pb_patientId b) d0)
    as (Es & _ & _ & _ & Ea & Ec & _).
  cbv zeta in Es, Ea, Ec. rewrite Es, Ea, Ec.
  assert (Donation.approvedAt d0 = Donation.approvedAt d
          /\ Donation.completedAt d0 = Donation.completedAt d) as [-> ->].
  { destruct Hcase as [(_ & _ & ->) | [(_ & _ & ->) | [(_ & _ & ->)
      | [(_ & _ & _ & ->) | (_ & ->)]]]]; simpl; auto. }
  auto.
Qed.

Lemma request_transition_timestamps now uid user status reason r r' :
  includes ["approved"; "rejected"; "completed"] (Some status) = true ->
  request_transition now uid user status reason r = inr r' ->
  Request.approvedAt r'
  = (if negb (Request.status r' =? Request.status r)
        && (Request.status r' =? "approved")
        && negb (defined (Request.approvedAt r))
     then Some now else Request.approvedAt r)
  /\ Request.completedAt r'
     = (if negb (Request.status r' =? Request.status r)
           && (Request.status r' =? "completed")
           && negb (defined (Request.completedAt r))
        then Some now else Request.completedAt r).
Proof.
  intros Hi. unfold request_transition. intros Hsave.
  apply request_save_inr in Hsave as [_ ->].
  match goal with |- context [Request.pre_save now ?m ?x] =>
    destruct (request_pre_save_frame now m x) as (-> & _);
    destruct (request_pre_save_timestamps now m x) as (-> & ->)
  end.
  assert (Request.approvedAt (request_apply now uid user status reason r)
          = Request.approvedAt r
          /\ Request.completedAt (request_apply now uid user status reason r)
             = Request.completedAt r) as [-> ->].
  { destruct (request_apply_cases now uid user status reason r Hi)
      as [(_ & ->) | [(_ & ->) | (_ & ->)]]; simpl; auto. }
  auto.
Qed.

Lemma kept_when_defined {A} (c : bool) (now : A) (o : option A) :
  is_Some o -> (if c && negb (defined o) then Some now else o) = o.
Proof. intros [x ->]. simpl. rewrite andb_false_r. reflexivity. Qed.

(** ** Approve and complete, branch by branch *)

Lemma donation_transition_approve now uid user b d :
  User.type user = "hospital" ->
  pb_status b = Some "approved" ->
  donation_transition now uid user b d
  = let d1 := donation_approve uid user d in
    let d2 := if defined (pb_patientId b)
              then Donation.set_patientId (pb_patientId b) d1 else d1 in
    Donation.save now (negb (Donation.status d2 =? Donation.status d)) d2.
Proof.
  intros Hty Hs. unfold donation_transition, donation_apply.
  rewrite Hty, Hs. reflexivity.
Qed.

Lemma donation_transition_complete now uid user b d :
  User.type user = "hospital" ->
  pb_status b = Some "completed" ->
  donation_transition now uid user b d
  = let d1 := Donation.set_status "completed" d in
    let d2 := if defined (pb_patientId b)
              then Donation.set_patientId (pb_patientId b) d1 else d1 in
    Donation.save now (negb (Donation.status d2 =? Donation.status d)) d2.
Proof.
  intros Hty Hs. unfold donation_transition, donation_apply.
  rewrite Hty, Hs. reflexivity.
Qed.

Lemma donation_transition_admin now uid user b d :
  User.type user = "admin" ->
  donation_transition now uid user b d
  = let d2 := if defined (pb_patientId b)
              then Donation.set_patientId (pb_patientId b) d else d in
    Donation.save now (negb (Donation.status d2 =? Donation.status d)) d2.
Proof.
  intros Hty. unfold donation_transition, donation_apply.
  rewrite Hty. reflexivity.
Qed.

(** A hospital's approve or complete of a donation is written whenever the
    loaded document has no invalid path other than, possibly, [status]. *)
Lemma donation_claim_succeeds now uid user b d s :
  User.type user = "hospital" ->
  pb_status b = Some s ->
  s = "approved" \/ s = "completed" ->
  (forall p, p ∈ Donation.validate d -> p = "status") ->
  exists d', donation_transition now uid user b d = inr d'
             /\ Donation.status d' = s.
Proof.
  intros Hty Hs Hcase Hv.
  assert (forall d1,
    Donation.type d1 = Donation.type d ->
    Donation.details d1 = Donation.details d ->
    Donation.status d1 = s ->
    let d2 := if defined (pb_patientId b)
              then Donation.set_patientId (pb_patientId b) d1 else d1 in
    exists d',
      Donation.save now (negb (Donation.status d2 =? Donation.status d)) d2
      = inr d' /\ Donation.status d' = s) as Hsave.
  { intros d1 Et Ed Es d2.
    destruct (donation_patient_frame (pb_patientId b) d1)
      as (Es2 & _ & _ & _ & _ & _ & Et2 & Ed2).
    fold d2 in Es2, Et2, Ed2. eexists. split.
    - apply donation_save_inr. split; [|reflexivity].
      apply (donation_validate_status d); [exact Hv|congruence|congruence|].
      rewrite Es2, Es. unfold Donation.statuses.
      destruct Hcase as [-> | ->]; rewrite !elem_of_cons; auto 10.
    - destruct (donation_pre_save_frame now
        (negb (Donation.status d2 =? Donation.status d)) d2) as (-> & _).
      congruence. }
  destruct Hcase as [-> | ->].
  - rewrite donation_transition_approve by assumption.
    apply Hsave; reflexivity.
  - rewrite donation_transition_complete by assumption.
    apply Hsave; reflexivity.
Qed.

Lemma request_claim_succeeds now uid user reason r s :
  s = "approved" \/ s = "completed" ->
  (forall p, p ∈ Request.validate r -> p = "status") ->
  exists r', request_transition now uid user s reason r = inr r'
             /\ Request.status r' = s.
Proof.
  intros Hcase Hv. unfold request_transition. eexists. split.
  - apply request_save_inr. split; [|reflexivity].
    apply (request_validate_status r); [exact Hv| | |];
      destruct Hcase as [-> | ->]; try reflexivity;
      unfold Request.statuses; simpl; rewrite !elem_of_cons; auto 10.
  - match goal with |- context [Request.pre_save now ?m ?x] =>
      destruct (request_pre_save_frame now m x) as (-> & _)
    end.
    destruct Hcase as [-> | ->]; reflexivity.
Qed.

(** ** Terminal states *)

(** C4 (as amended). The update routes do not look at the current status.
    A written update of a completed entry keeps [completedAt] and leaves
    the status [completed] unless it is an approve (by a hospital on a
    donation, by a hospital or admin on a request), which sets the status
    back to [approved]. An approve succeeds in every state of the entry,
    [completed] and [cancelled] included, and sets the status to
    [approved]. *)
Theorem completed_left_only_by_approve :
  (forall now uid user b d d',
     Donation.status d = "completed" ->
     donation_transition now uid user b d = inr d' ->
     (Donation.status d' = "completed"
      \/ (Donation.status d' = "approved" /\ User.type user = "hospital"
          /\ pb_status b = Some "approved"))
     /\ (is_Some (Donation.completedAt d) ->
         Donation.completedAt d' = Donation.completedAt d))
  /\ (forall now uid user status reason r r',
        includes ["approved"; "rejected"; "completed"] (Some status) = true ->
        Request.status r = "completed" ->
        request_transition now uid user status reason r = inr r' ->
        (Request.status r' = "completed"
         \/ (Request.status r' = "approved" /\ status = "approved"))
        /\ (is_Some (Request.completedAt r) ->
            Request.completedAt r' = Request.completedAt r))
  /\ (forall now uid user b d,
        User.type user = "hospital" ->
        pb_status b = Some "approved" ->
        (forall p, p ∈ Donation.validate d -> p = "status") ->
        exists d', donation_transition now uid user b d = inr d'
                   /\ Donation.status d' = "approved")
  /\ (forall now uid user reason r,
        (forall p, p ∈ Request.validate r -> p = "status") ->
        exists r', request_transition now uid user "approved" reason r = inr r'
                   /\ Request.status r' = "approved").
Proof.
  split; [|split; [|split]].
  - intros now uid user b d d' Hc Ht. split.
    + destruct (donation_transition_status _ _ _ _ _ _ Ht)
        as [(Hh & Hb & -> & _) | [(_ & _ & -> & _) | (-> & _)]]; auto.
    + intros Hsome.
      destruct (donation_transition_timestamps _ _ _ _ _ _ Ht) as [_ ->].
      apply kept_when_defined. exact Hsome.
  - intros now uid user status reason r r' Hi Hc Ht. split.
    + destruct (request_transition_status _ _ _ _ _ _ _ Hi Ht)
        as [([-> | ->] & -> & _) | (_ & -> & _)]; auto.
    + intros Hsome.
      destruct (request_transition_timestamps _ _ _ _ _ _ _ Hi Ht) as [_ ->].
      apply kept_when_defined. exact Hsome.
  - intros now uid user b d Hty Hs Hv.
    apply (donation_claim_succeeds now uid user b d "approved"); auto.
  - intros now uid user reason r Hv.
    apply request_claim_succeeds; auto.
Qed.

Lemma completed_left_only_by_approve_witness :
  User.type hospitalB = "hospital"
  /\ pb_status approve_body = Some "approved"
  /\ Donation.validate cancelled_donation = ["status"]
  /\ exists d',
       donation_transition 3000 3 hospitalB approve_body cancelled_donation
       = inr d'
       /\ Donation.status d' = "approved".
Proof.
  split; [reflexivity|]. split; [reflexivity|]. split; [reflexivity|].
  apply (proj1 (proj2 (proj2 completed_left_only_by_approve)) 3000%Z 3%N
           hospitalB approve_body cancelled_donation);
    [reflexivity | reflexivity |].
  intros p Hp. vm_compute in Hp. apply list_elem_of_singleton in Hp.
  exact Hp.
Defined.

(** C4 as stated fails: hospital B approves the completed donation and the
    update is written with status [approved] and a new assignment; the same
    approve of a donation whose status is [cancelled] succeeds too. *)
Lemma approve_reopens_completed_and_cancelled :
  (Donation.status completed_donation = "completed"
   /\ exists d',
        donation_transition 3000 3 hospitalB approve_body completed_donation
        = inr d'
        /\ Donation.status d' = "approved"
        /\ Donation.hospitalId d' = Some 3%N)
  /\ (Donation.status cancelled_donation = "cancelled"
      /\ exists d',
           donation_transition 3000 3 hospitalB approve_body
             cancelled_donation = inr d'
           /\ Donation.status d' = "approved").
Proof.
  split; (split; [reflexivity|]); eexists;
    (split; [vm_compute; reflexivity|]); repeat split; reflexivity.
Qed.

(** ** Completion *)

(** C5 (as amended). A complete by a hospital is written whether or not
    that hospital is the one the entry is assigned to. On a donation it sets
    the status to [completed] and leaves [hospitalId], [hospitalName] and
    [approvedBy] as they were; on a request a complete, by a hospital or an
    admin, sets the status to [completed] and makes the caller the assigned
    hospital. *)
Theorem complete_ignores_assignment :
  (forall now uid user b d,
     User.type user = "hospital" ->
     pb_status b = Some "completed" ->
     (forall p, p ∈ Donation.validate d -> p = "status") ->
     exists d',
       donation_transition now uid user b d = inr d'
       /\ Donation.status d' = "completed"
       /\ Donation.hospitalId d' = Donation.hospitalId d
       /\ Donation.hospitalName d' = Donation.hospitalName d
       /\ Donation.approvedBy d' = Donation.approvedBy d)
  /\ (forall now uid user reason r,
        (forall p, p ∈ Request.validate r -> p = "status") ->
        exists r',
          request_transition now uid user "completed" reason r = inr r'
          /\ Request.status r' = "completed"
          /\ Request.hospitalId r' = Some uid).
Proof.
  split.
  - intros now uid user b d Hty Hs Hv.
    destruct (donation_claim_succeeds now uid user b d "completed")
      as (d' & Ht & Hst); auto.
    exists d'. split; [exact Ht|]. split; [exact Hst|].
    destruct (donation_transition_status _ _ _ _ _ _ Ht)
      as [(_ & Hb & _) | [(_ & _ & _ & H) | (_ & H)]]; [congruence| |]; exact H.
  - intros now uid user reason r Hv.
    destruct (request_claim_succeeds now uid user reason r "completed")
      as (r' & Ht & Hst); auto.
    exists r'. split; [exact Ht|]. split; [exact Hst|].
    destruct (request_transition_status now uid user "completed" reason r r'
                eq_refl Ht) as [(_ & _ & H & _) | (H & _)];
      [exact H | discriminate H].
Qed.

Lemma complete_ignores_assignment_witness :
  User.type hospitalB = "hospital"
  /\ pb_status complete_body = Some "completed"
  /\ Donation.validate approved_donation = []
  /\ exists d',
       donation_transition 3000 3 hospitalB complete_body approved_donation
       = inr d'
       /\ Donation.status d' = "completed"
       /\ Donation.hospitalId d' = Some 2%N.
Proof.
  split; [reflexivity|]. split; [reflexivity|]. split; [reflexivity|].
  destruct (proj1 complete_ignores_assignment 3000%Z 3%N hospitalB
              complete_body approved_donation eq_refl eq_refl
              (valid_only_status _ eq_refl))
    as (d' & Ht & Hs & Hh & _).
  exists d'. split; [exact Ht|]. split; [exact Hs | exact Hh].
Defined.

(** C5 as stated fails: the donation is assigned to hospital A (id 2);
    hospital B (id 3) completes it and the route answers 200 and stores the
    entry with status [completed]. *)
Lemma unassigned_hospital_completes :
  let db := with_donations {[ 10%N := approved_donation ]} sample_db in
  let out := donations_patch 3000 (Some 3%N) 10 complete_body db in
  Donation.hospitalId approved_donation = Some 2%N
  /\ code (snd out) = 200
  /\ exists d',
       donations (fst out) !! 10%N = Some d'
       /\ Donation.status d' = "completed"
       /\ d' <> approved_donation.
Proof.
  cbv zeta. split; [reflexivity|]. split; [vm_compute; reflexivity|].
  eexists. split; [vm_compute; reflexivity|]. split; [reflexivity|].
  intros H. apply (f_equal Donation.status) in H. vm_compute in H.
  discriminate H.
Qed.

(** ** Approval *)

Lemma approvedAt_after (c : bool) (now : Time) (o : option Time) :
  (o = None -> c = true -> (if c && negb (defined o) then Some now else o)
                           = Some now)
  /\ (is_Some o -> (if c && negb (defined o) then Some now else o) = o).
Proof.
  split.
  - intros -> ->. reflexivity.
  - apply kept_when_defined.
Qed.

(** An admin's update of a valid donation is written. *)
Lemma donation_admin_update now uid user b d :
  User.type user = "admin" ->
  Donation.validate d = [] ->
  exists d', donation_transition now uid user b d = inr d'.
Proof.
  intros Hty Hv. unfold donation_transition, donation_apply. rewrite Hty.
  change ("admin" =? "hospital") with false.
  change ("admin" =? "donor") with false.
  change (negb ("admin" =? "admin")) with false.
  cbv beta iota delta [bindE].
  destruct (donation_patient_frame (pb_patientId b) d)
    as (_ & _ & _ & _ & _ & _ & Et & Ed).
  cbv zeta in Et, Ed.
  eexists. apply donation_save_inr. split; [|reflexivity].
  rewrite <- Hv. apply donation_validate_ext; [exact Et | exact Ed|].
  destruct (defined (pb_patientId b)); reflexivity.
Qed.

(** C6 (as amended). An approve by a hospital (on a request: by a hospital
    or an admin) is written and answered 200. It sets the status to
    [approved], [hospitalId] and [approvedBy] to the caller and
    [hospitalName] to the caller's name: the name of the caller's profile,
    or the legacy [data[<type>-name]] when that name is missing or empty.
    It sets [approvedAt] to the current time when the entry was not approved
    and had none, keeps an [approvedAt] that is set, and a second approve,
    by the same or another caller, keeps the value the first one left. On a
    donation the status branches are for hospitals only: an admin's update
    of a valid donation is answered 200 and written, and changes neither
    status, assignment nor [approvedAt]. *)
Theorem approve_assigns_caller_once :
  (forall now uid user b d,
     User.type user = "hospital" ->
     pb_status b = Some "approved" ->
     (forall p, p ∈ Donation.validate d -> p = "status") ->
     exists d',
       donation_transition now uid user b d = inr d'
       /\ Donation.status d' = "approved"
       /\ Donation.hospitalId d' = Some uid
       /\ Donation.hospitalName d'
          = match User.name (User.profile user) with
            | Some n =>
                if n =? "" then User.data user !! (User.type user ++ "-name")
                else Some n
            | None => User.data user !! (User.type user ++ "-name")
            end
       /\ Donation.approvedBy d' = Some uid
       /\ (Donation.approvedAt d = None -> Donation.status d <> "approved" ->
           Donation.approvedAt d' = Some now)
       /\ (is_Some (Donation.approvedAt d) ->
           Donation.approvedAt d' = Donation.approvedAt d)
       /\ (forall now2 uid2 user2 b2,
             User.type user2 = "hospital" ->
             pb_status b2 = Some "approved" ->
             exists d'',
               donation_transition now2 uid2 user2 b2 d' = inr d''
               /\ Donation.hospitalId d'' = Some uid2
               /\ Donation.approvedAt d'' = Donation.approvedAt d'))
  /\ (forall now uid user reason r,
        (forall p, p ∈ Request.validate r -> p = "status") ->
        exists r',
          request_transition now uid user "approved" reason r = inr r'
          /\ Request.status r' = "approved"
          /\ Request.hospitalId r' = Some uid
          /\ Request.hospitalName r'
             = match User.name (User.profile user) with
               | Some n =>
                   if n =? ""
                   then User.data user !! (User.type user ++ "-name")
                   else Some n
               | None => User.data user !! (User.type user ++ "-name")
               end
          /\ Request.approvedBy r' = Some uid
          /\ (Request.approvedAt r = None -> Request.status r <> "approved" ->
              Request.approvedAt r' = Some now)
          /\ (is_Some (Request.approvedAt r) ->
              Request.approvedAt r' = Request.approvedAt r)
          /\ (forall now2 uid2 user2 reason2,
                exists r'',
                  request_transition now2 uid2 user2 "approved" reason2 r'
                  = inr r''
                  /\ Request.hospitalId r'' = Some uid2
                  /\ Request.approvedAt r'' = Request.approvedAt r'))
  /\ (forall now uid user b d d',
        User.type user = "admin" ->
        donation_transition now uid user b d = inr d' ->
        Donation.status d' = Donation.status d
        /\ Donation.hospitalId d' = Donation.hospitalId d
        /\ Donation.hospitalName d' = Donation.hospitalName d
        /\ Donation.approvedBy d' = Donation.approvedBy d
        /\ Donation.approvedAt d' = Donation.approvedAt d)
  /\ (forall now token id b db uid user d,
        auth token db = Some (uid, user) ->
        donations db !! id = Some d ->
        (User.type user = "hospital" ->
         pb_status b = Some "approved" ->
         (forall p, p ∈ Donation.validate d -> p = "status") ->
         exists d',
           donation_transition now uid user b d = inr d'
           /\ donations_patch now token id b db
              = (with_donations (<[id := d']> (donations db)) db,
                 mkResponse 200 (inr (id, d')))
           /\ Donation.status d' = "approved"
           /\ Donation.hospitalId d' = Some uid
           /\ Donation.hospitalName d'
              = match User.name (User.profile user) with
                | Some n =>
                    if n =? ""
                    then User.data user !! (User.type user ++ "-name")
                    else Some n
                | None => User.data user !! (User.type user ++ "-name")
                end
           /\ Donation.approvedBy d' = Some uid)
        /\ (User.type user = "admin" ->
            Donation.validate d = [] ->
            exists d',
              donations_patch now token id b db
              = (with_donations (<[id := d']> (donations db)) db,
                 mkResponse 200 (inr (id, d')))
              /\ Donation.status d' = Donation.status d
              /\ Donation.hospitalId d' = Donation.hospitalId d
              /\ Donation.hospitalName d' = Donation.hospitalName d
              /\ Donation.approvedBy d' = Donation.approvedBy d
              /\ Donation.approvedAt d' = Donation.approvedAt d))
  /\ (forall now token id b db uid user r,
        auth token db = Some (uid, user) ->
        User.type user = "hospital" \/ User.type user = "admin" ->
        requests db !! id = Some r ->
        pb_status b = Some "approved" ->
        (forall p, p ∈ Request.validate r -> p = "status") ->
        exists r',
          request_transition now uid user "approved" (pb_rejectionReason b) r
          = inr r'
          /\ requests_patch now token id b db
             = (with_requests (<[id := r']> (requests db)) db,
                mkResponse 200
                  (inr (mkRequestUpdated id "approved"
                          (Request.hospitalName r') now)))
          /\ Request.status r' = "approved"
          /\ Request.hospitalId r' = Some uid
          /\ Request.hospitalName r'
             = match User.name (User.profile user) with
               | Some n =>
                   if n =? ""
                   then User.data user !! (User.type user ++ "-name")
                   else Some n
               | None => User.data user !! (User.type user ++ "-name")
               end
          /\ Request.approvedBy r' = Some uid).
Proof.
  assert (forall now uid user b d d',
    User.type user = "hospital" -> pb_status b = Some "approved" ->
    donation_transition now uid user b d = inr d' ->
    Donation.status d' = "approved"
    /\ Donation.hospitalId d' = Some uid
    /\ Donation.hospitalName d' = callerName user
    /\ Donation.approvedBy d' = Some uid) as Hfields.
  { intros now uid user b d d' Hty Hs Ht.
    pose proof Ht as Ht'. rewrite donation_transition_approve in Ht' by auto.
    cbv zeta in Ht'. apply donation_save_inr in Ht' as [_ ->].
    match goal with |- context [Donation.pre_save now ?m ?x] =>
      destruct (donation_pre_save_frame now m x) as (-> & -> & -> & -> & _)
    end.
    destruct (defined (pb_patientId b)); simpl; auto. }
  assert (forall now uid user b d d',
    User.type user = "admin" ->
    donation_transition now uid user b d = inr d' ->
    Donation.status d' = Donation.status d
    /\ Donation.hospitalId d' = Donation.hospitalId d
    /\ Donation.hospitalName d' = Donation.hospitalName d
    /\ Donation.approvedBy d' = Donation.approvedBy d
    /\ Donation.approvedAt d' = Donation.approvedAt d) as Hadmin.
  { intros now uid user b d d' Hty Ht.
    destruct (donation_transition_timestamps _ _ _ _ _ _ Ht) as [Hat _].
    destruct (donation_transition_status _ _ _ _ _ _ Ht)
      as [(Hh & _) | [(Hh & _) | (Hs & Hh & Hn & Ha)]]; try congruence.
    rewrite Hs, String.eqb_refl in Hat. simpl in Hat. auto. }
  split; [|split; [|split; [exact Hadmin|split]]].
  - intros now uid user b d Hty Hs Hv.
    destruct (donation_claim_succeeds now uid user b d "approved")
      as (d' & Ht & Hst); auto.
    destruct (Hfields _ _ _ _ _ _ Hty Hs Ht) as (_ & Hh & Hn & Ha).
    rewrite callerName_eq in Hn.
    destruct (donation_transition_timestamps _ _ _ _ _ _ Ht) as [Hat _].
    rewrite Hst in Hat. change ("approved" =? "approved") with true in Hat.
    rewrite andb_true_r in Hat.
    exists d'. repeat (split; [assumption|]). split; [|split].
    + intros Hnone Hne. rewrite Hat.
      apply approvedAt_after; [exact Hnone|].
      destruct (String.eqb_spec "approved" (Donation.status d));
        [congruence | reflexivity].
    + intros Hsome. rewrite Hat. apply approvedAt_after. exact Hsome.
    + intros now2 uid2 user2 b2 Hty2 Hs2.
      destruct (donation_claim_succeeds now2 uid2 user2 b2 d' "approved")
        as (d'' & Ht2 & Hst2); auto.
      { apply valid_only_status.
        unfold donation_transition in Ht.
        destruct (donation_apply now uid user b d) as [e|d1]; simpl in Ht;
          [discriminate|].
        apply donation_save_inr in Ht as [Hv1 ->].
        rewrite <- Hv1. apply donation_validate_ext;
          match goal with |- context [Donation.pre_save now ?m ?x] =>
            unfold Donation.pre_save; destruct m; simpl;
            repeat match goal with |- context [if ?c then _ else _] =>
              destruct c; simpl end; reflexivity
          end. }
      destruct (Hfields _ _ _ _ _ _ Hty2 Hs2 Ht2) as (_ & Hh2 & _).
      destruct (donation_transition_timestamps _ _ _ _ _ _ Ht2) as [Hat2 _].
      rewrite Hst2, Hst in Hat2. simpl in Hat2.
      exists d''. auto.
  - intros now uid user reason r Hv.
    destruct (request_claim_succeeds now uid user reason r "approved")
      as (r' & Ht & Hst); auto.
    destruct (request_transition_status now uid user "approved" reason r r'
                eq_refl Ht) as [(_ & _ & Hh & Hn & Ha) | (H & _)];
      [|discriminate H].
    rewrite callerName_eq in Hn.
    destruct (request_transition_timestamps now uid user "approved" reason
                r r' eq_refl Ht) as [Hat _].
    rewrite Hst in Hat. change ("approved" =? "approved") with true in Hat.
    rewrite andb_true_r in Hat.
    exists r'. repeat (split; [assumption|]). split; [|split].
    + intros Hnone Hne. rewrite Hat.
      apply approvedAt_after; [exact Hnone|].
      destruct (String.eqb_spec "approved" (Request.status r));
        [congruence | reflexivity].
    + intros Hsome. rewrite Hat. apply approvedAt_after. exact Hsome.
    + intros now2 uid2 user2 reason2.
      destruct (request_claim_succeeds now2 uid2 user2 reason2 r' "approved")
        as (r'' & Ht2 & Hst2); auto.
      { apply valid_only_status.
        unfold request_transition in Ht.
        apply request_save_inr in Ht as [Hv1 ->].
        rewrite <- Hv1. apply request_validate_ext;
          match goal with |- context [Request.pre_save now ?m ?x] =>
            unfold Request.pre_save; destruct m; simpl;
            repeat match goal with |- context [if ?c then _ else _] =>
              destruct c; simpl end; reflexivity
          end. }
      destruct (request_transition_status now2 uid2 user2 "approved" reason2
                  r' r'' eq_refl Ht2) as [(_ & _ & Hh2 & _) | (H & _)];
        [|discriminate H].
      destruct (request_transition_timestamps now2 uid2 user2 "approved"
                  reason2 r' r'' eq_refl Ht2) as [Hat2 _].
      rewrite Hst2, Hst in Hat2. simpl in Hat2.
      exists r''. auto.
  - intros now token id b db uid user d Ha Hd. split.
    + intros Hty Hs Hv.
      destruct (donation_claim_succeeds now uid user b d "approved")
        as (d' & Ht & _); auto.
      destruct (Hfields _ _ _ _ _ _ Hty Hs Ht) as (Hst & Hh & Hn & Hb).
      rewrite callerName_eq in Hn.
      exists d'. split; [exact Ht|]. split; [|auto].
      rewrite (donations_patch_run _ _ _ _ _ _ _ _ Ha Hd), Ht. reflexivity.
    + intros Hty Hv.
      destruct (donation_admin_update now uid user b d Hty Hv) as (d' & Ht).
      exists d'. split; [|exact (Hadmin _ _ _ _ _ _ Hty Ht)].
      rewrite (donations_patch_run _ _ _ _ _ _ _ _ Ha Hd), Ht. reflexivity.
  - intros now token id b db uid user r Ha Hrole Hr Hs Hv.
    destruct (request_claim_succeeds now uid user (pb_rejectionReason b) r
                "approved") as (r' & Ht & Hst); auto.
    assert (Request.updatedAt r' = now) as Hu.
    { pose proof Ht as Ht'. unfold request_transition in Ht'.
      apply request_save_inr in Ht' as [_ ->].
      match goal with |- context [Request.pre_save now ?m ?x] =>
        destruct (request_pre_save_frame now m x) as (_ & _ & _ & _ & _ & H)
      end. exact H. }
    destruct (request_transition_status now uid user "approved"
                (pb_rejectionReason b) r r' eq_refl Ht)
      as [(_ & _ & Hh & Hn & Hb) | (H & _)]; [|discriminate H].
    rewrite callerName_eq in Hn.
    exists r'. split; [exact Ht|]. split; [|auto].
    rewrite (requests_patch_run now token id b db uid user r "approved" Ha);
      [|destruct Hrole as [-> | ->]; reflexivity|exact Hr|exact Hs
       |reflexivity].
    rewrite Ht, Hst, Hu. reflexivity.
Qed.

Lemma approve_assigns_caller_once_witness :
  let db := with_donations {[ 10%N := pending_donation ]} sample_db in
  auth (Some 2%N) db = Some (2%N, hospitalA)
  /\ User.type hospitalA = "hospital"
  /\ pb_status approve_body = Some "approved"
  /\ Donation.validate pending_donation = []
  /\ Donation.approvedAt pending_donation = None
  /\ Donation.status pending_donation <> "approved"
  /\ exists d',
       donations_patch 2000 (Some 2%N) 10 approve_body db
       = (with_donations (<[10%N := d']> (donations db)) db,
          mkResponse 200 (inr (10%N, d')))
       /\ Donation.status d' = "approved"
       /\ Donation.hospitalId d' = Some 2%N
       /\ Donation.hospitalName d' = Some "City Hospital"
       /\ Donation.approvedBy d' = Some 2%N
       /\ Donation.approvedAt d' = Some 2000%Z.
Proof.
  cbv zeta.
  set (db := with_donations {[ 10%N := pending_donation ]} sample_db).
  assert (auth (Some 2%N) db = Some (2%N, hospitalA)) as Ha
    by (vm_compute; reflexivity).
  assert (donations db !! 10%N = Some pending_donation) as Hd
    by (vm_compute; reflexivity).
  split; [exact Ha|].
  split; [reflexivity|]. split; [reflexivity|]. split; [reflexivity|].
  split; [reflexivity|]. split; [discriminate|].
  destruct (proj1 approve_assigns_caller_once 2000%Z 2%N hospitalA
              approve_body pending_donation eq_refl eq_refl
              (valid_only_status _ eq_refl))
    as (d' & Ht & Hs & Hh & Hn & Hb & Hat & _).
  destruct (proj1 (proj1 (proj2 (proj2 (proj2 approve_assigns_caller_once)))
                     2000%Z (Some 2%N) 10%N approve_body db 2%N hospitalA
                     pending_donation Ha Hd)
              eq_refl eq_refl (valid_only_status _ eq_refl))
    as (d1 & Ht1 & Hroute & _).
  pose proof (eq_trans (eq_sym Ht1) Ht) as [= ->].
  exists d'. split; [exact Hroute|]. split; [exact Hs|]. split; [exact Hh|].
  split; [exact Hn|]. split; [exact Hb|].
  apply Hat; [reflexivity | discriminate].
Defined.

(** C6 as stated fails for an admin on a donation: the admin (id 4)
    approves the pending donation, the route answers 200, and the stored
    entry is still pending, unassigned and without [approvedAt]. *)
Lemma admin_approve_of_donation_is_a_no_op :
  let db := with_donations {[ 10%N := pending_donation ]} sample_db in
  let out := donations_patch 2000 (Some 4%N) 10 approve_body db in
  User.type admin1 = "admin"
  /\ code (snd out) = 200
  /\ exists d',
       donations (fst out) !! 10%N = Some d'
       /\ Donation.status d' = "pending"
       /\ Donation.hospitalId d' = None
       /\ Donation.approvedBy d' = None
       /\ Donation.approvedAt d' = None.
Proof.
  cbv zeta. split; [reflexivity|]. split; [vm_compute; reflexivity|].
  eexists. split; [vm_compute; reflexivity|]. repeat split; reflexivity.
Qed.

(** ** What a hospital is shown *)

(** The [$or] filter of the routes is the visibility rule. *)
Lemma hospital_query_visible `{Entry A} (h : ObjectId) (e : A) :
  matches (hospital_query h) e = true <-> visible_to_hospital h e.
Proof.
  unfold visible_to_hospital. simpl.
  rewrite !orb_true_iff, !andb_true_iff, !String.eqb_eq, !id_is_true,
    negb_true_iff, <- !rejected_by_elem, not_true_iff_false.
  intuition discriminate.
Qed.

Lemma find_elem `{Entry A} (q : Query) (coll : gmap ObjectId A) id e :
  (id, e) ∈ find q coll <-> coll !! id = Some e /\ matches q e = true.
Proof.
  unfold find. rewrite list_elem_of_In, filter_In, <- list_elem_of_In.
  rewrite elem_of_map_to_list. reflexivity.
Qed.

Lemma find_NoDup `{Entry A} (q : Query) (coll : gmap ObjectId A) :
  NoDup (find q coll).
Proof.
  unfold find. apply NoDup_ListNoDup, List.NoDup_filter, NoDup_ListNoDup.
  apply NoDup_map_to_list.
Qed.

Lemma newer_first_total `{Entry A} : Total (newer_first (A := A)).
Proof. intros x y. unfold newer_first. lia. Qed.

(** C7. For a caller of type hospital, both list routes answer 200 with
    exactly the entries of the collection that are pending and not rejected
    by the caller, or approved or rejected and assigned to the caller, or
    rejected by the caller whatever their status; each such entry is listed
    once, and requests come newest first. Rejected by the caller means that
    the caller's id is the [hospitalId] of an element of the entry's
    [rejectedByHospitals]. In particular an entry the hospital has rejected
    is listed whatever its status has become and whoever it is assigned
    to. *)
Theorem hospital_list_is_visibility_union token db h user :
  auth token db = Some (h, user) ->
  User.type user = "hospital" ->
  (exists l,
     donations_get token db = (db, mkResponse 200 (inr l))
     /\ NoDup l
     /\ (forall id d,
           (id, d) ∈ l <->
           donations db !! id = Some d /\ visible_to_hospital h d)
     /\ (forall id d,
           donations db !! id = Some d ->
           h ∈ rej_hospitalId <$> Donation.rejectedByHospitals d ->
           (id, d) ∈ l))
  /\ (exists l,
        requests_get token db = (db, mkResponse 200 (inr l))
        /\ NoDup l
        /\ Sorted newer_first l
        /\ (forall id r,
              (id, r) ∈ l <->
              requests db !! id = Some r /\ visible_to_hospital h r)
        /\ (forall id r,
              requests db !! id = Some r ->
              h ∈ rej_hospitalId <$> Request.rejectedByHospitals r ->
              (id, r) ∈ l)).
Proof.
  intros Ha Hty. split.
  - exists (find (hospital_query h) (donations db)).
    assert (forall id d,
      (id, d) ∈ find (hospital_query h) (donations db) <->
      donations db !! id = Some d /\ visible_to_hospital h d) as Hmem.
    { intros id d. rewrite find_elem, hospital_query_visible. reflexivity. }
    split; [|split; [apply find_NoDup|split; [exact Hmem|]]].
    + unfold donations_get, donations_query. rewrite Ha, Hty. reflexivity.
    + intros id d Hd Hr. apply Hmem. split; [exact Hd|].
      right. right. exact Hr.
  - exists (sort_newest_first (find (hospital_query h) (requests db))).
    assert (forall id r,
      (id, r) ∈ sort_newest_first (find (hospital_query h) (requests db)) <->
      requests db !! id = Some r /\ visible_to_hospital h r) as Hmem.
    { intros id r. unfold sort_newest_first.
      rewrite merge_sort_Permutation, find_elem, hospital_query_visible.
      reflexivity. }
    split; [|split; [|split; [|split; [exact Hmem|]]]].
    + unfold requests_get, requests_query. rewrite Ha, Hty. reflexivity.
    + unfold sort_newest_first. rewrite merge_sort_Permutation.
      apply find_NoDup.
    + unfold sort_newest_first.
      apply (@Sorted_merge_sort _ _ _ newer_first_total).
    + intros id r Hr Hrej. apply Hmem. split; [exact Hr|].
      right. right. exact Hrej.
Qed.

Lemma hospital_list_is_visibility_union_witness :
  auth (Some 2%N) visibility_db = Some (2%N, hospitalA)
  /\ User.type hospitalA = "hospital"
  /\ exists l d10 d11 d12,
       donations_get (Some 2%N) visibility_db
       = (visibility_db, mkResponse 200 (inr l))
       /\ donations visibility_db !! 10%N = Some d10
       /\ Donation.status d10 = "approved"
       /\ Donation.hospitalId d10 = Some 3%N
       /\ rej_hospitalId <$> Donation.rejectedByHospitals d10 = [2%N]
       /\ (10%N, d10) ∈ l
       /\ donations visibility_db !! 11%N = Some d11
       /\ Donation.status d11 = "approved"
       /\ Donation.hospitalId d11 = Some 3%N
       /\ Donation.rejectedByHospitals d11 = []
       /\ ((11%N, d11) ∉ l)
       /\ donations visibility_db !! 12%N = Some d12
       /\ Donation.status d12 = "pending"
       /\ (12%N, d12) ∈ l.
Proof.
  assert (auth (Some 2%N) visibility_db = Some (2%N, hospitalA)) as Ha
    by (vm_compute; reflexivity).
  split; [exact Ha|]. split; [reflexivity|].
  destruct (proj1 (hospital_list_is_visibility_union _ _ _ _ Ha eq_refl))
    as (l & Hget & _ & Hmem & Hrej).
  assert (exists d10,
    donations visibility_db !! 10%N = Some d10
    /\ Donation.status d10 = "approved"
    /\ Donation.hospitalId d10 = Some 3%N
    /\ rej_hospitalId <$> Donation.rejectedByHospitals d10 = [2%N])
    as (d10 & H10 & Hs10 & Hh10 & Hr10).
  { eexists. split; [vm_compute; reflexivity|].
    split; [reflexivity|]. split; reflexivity. }
  assert (exists d11,
    donations visibility_db !! 11%N = Some d11
    /\ Donation.status d11 = "approved"
    /\ Donation.hospitalId d11 = Some 3%N
    /\ Donation.rejectedByHospitals d11 = [])
    as (d11 & H11 & Hs11 & Hh11 & Hr11).
  { eexists. split; [vm_compute; reflexivity|].
    split; [reflexivity|]. split; reflexivity. }
  assert (exists d12,
    donations visibility_db !! 12%N = Some d12
    /\ Donation.status d12 = "pending"
    /\ Donation.rejectedByHospitals d12 = [])
    as (d12 & H12 & Hs12 & Hr12).
  { eexists. split; [vm_compute; reflexivity|]. split; reflexivity. }
  exists l, d10, d11, d12.
  split; [exact Hget|]. split; [exact H10|]. split; [exact Hs10|].
  split; [exact Hh10|]. split; [exact Hr10|].
  split; [apply (Hrej _ _ H10); rewrite Hr10; apply list_elem_of_here|].
  split; [exact H11|]. split; [exact Hs11|]. split; [exact Hh11|].
  split; [exact Hr11|].
  split.
  { intros Hin. apply Hmem in Hin as [_ Hvis].
    unfold visible_to_hospital in Hvis. simpl in Hvis.
    rewrite Hs11, Hh11, Hr11 in Hvis.
    destruct Hvis as [[Hp _] | [[_ Hid] | Hin]];
      [discriminate Hp | discriminate Hid | inversion Hin]. }
  split; [exact H12|]. split; [exact Hs12|].
  apply Hmem. split; [exact H12|]. left. split; [exact Hs12|].
  simpl. rewrite Hr12. intros Hin. inversion Hin.
Defined.

(** ** Creation and the statistics *)

(** A donation create that answers 201 has stored the donation and added
    one to [totalDonations]. *)
Lemma donations_post_counts now newId fault token b db :
  let out := donations_post now newId fault token b db in
  code (snd out) = 201 ->
  exists s ss,
    stats db = s :: ss
    /\ stats (fst out)
       = Stats.mk (Stats.totalUsers s) (Stats.totalDonors s)
           (Stats.totalHospitals s) (Stats.totalPatients s)
           (Stats.totalDonations s + 1) now :: ss
    /\ is_Some (donations (fst out) !! newId).
Proof.
  unfold donations_post.
  destruct (auth token db) as [[uid user]|] eqn:Ha; [|discriminate].
  destruct (auth_Some _ _ _ _ Ha) as [_ Hu].
  run_handler. destruct (User.type user =? "donor"); simpl; [|discriminate].
  rewrite Hu.
  destruct (Donation.save now true (new_donation now uid user b))
    as [e|saved]; simpl; [discriminate|].
  destruct (donations db !! newId); simpl; [discriminate|].
  destruct (stats db) as [|s ss] eqn:Hst; simpl; [discriminate|].
  destruct fault; simpl; [discriminate|]. intros _. rewrite Hst.
  exists s, ss. split; [reflexivity|]. split; [reflexivity|].
  rewrite lookup_insert_eq. eauto.
Qed.

(** Create is not atomic: when the statistics cannot be updated (there is
    no Stats document, or the write fails) the donation that was saved
    first stays in the ledger and the call answers 400. *)
Lemma donations_post_not_atomic now newId fault token uid donor b db :
  auth token db = Some (uid, donor) ->
  User.type donor = "donor" ->
  Donation.validate (new_donation now uid donor b) = [] ->
  donations db !! newId = None ->
  stats db = [] \/ is_Some fault ->
  let out := donations_post now newId fault token b db in
  code (snd out) = 400
  /\ donations (fst out) !! newId
     = Some (Donation.pre_save now true (new_donation now uid donor b))
  /\ stats (fst out) = stats db.
Proof.
  intros Ha Hty Hv Hn Hfail. unfold donations_post. rewrite Ha.
  destruct (auth_Some _ _ _ _ Ha) as [_ Hu].
  run_handler. rewrite Hty. simpl. rewrite Hu.
  assert (Donation.save now true (new_donation now uid donor b)
          = inr (Donation.pre_save now true (new_donation now uid donor b)))
    as -> by (apply donation_save_inr; auto).
  simpl. rewrite Hn. simpl.
  destruct (stats db) as [|s ss] eqn:Hst; simpl.
  - rewrite lookup_insert_eq. auto.
  - destruct Hfail as [Hfail | [e ->]]; [discriminate Hfail|]. simpl.
    rewrite lookup_insert_eq. auto.
Qed.

(** A request create that answers 201 has stored the request; the Stats
    document it wrote has the counters it had before (or zeros, when it was
    made by this call). *)
Lemma requests_post_counts now newId fault token b db :
  let out := requests_post now newId fault token b db in
  code (snd out) = 201 ->
  is_Some (requests (fst out) !! newId)
  /\ stats (fst out)
     = match stats db with
       | s :: ss => Stats.pre_save now s :: ss
       | [] => [Stats.mk 0 0 0 0 0 now]
       end.
Proof.
  unfold requests_post.
  destruct (auth token db) as [[uid user]|] eqn:Ha; [|discriminate].
  destruct (auth_Some _ _ _ _ Ha) as [_ Hu].
  run_handler. destruct (User.type user =? "patient"); simpl; [|discriminate].
  rewrite Hu.
  destruct (Request.save now true (new_request now uid user b))
    as [e|saved]; simpl; [discriminate|].
  destruct (requests db !! newId); simpl; [discriminate|].
  destruct (stats db) as [|s ss] eqn:Hst; destruct fault; simpl;
    try discriminate; intros _; rewrite ?Hst, lookup_insert_eq; eauto.
Qed.

(** C8, at the input where the code departs from it. The patient (id 5)
    posts a blood request on the sample store. The route answers 201 and
    the request is stored, but no persisted counter has moved: the Stats
    document has the five counters it had, only [lastUpdated] is new. *)
Theorem request_create_counts_nothing :
  let out := requests_post 1000 20 None (Some 5%N)
               (mkRequestPost (Some "blood") None) sample_db in
  code (snd out) = 201
  /\ requests sample_db !! 20%N = None
  /\ is_Some (requests (fst out) !! 20%N)
  /\ stats sample_db = [Stats.mk 5 1 2 1 0 0]
  /\ stats (fst out) = [Stats.mk 5 1 2 1 0 1000].
Proof.
  cbv zeta. split; [vm_compute; reflexivity|]. split; [reflexivity|].
  split; [eexists; vm_compute; reflexivity|].
  split; [reflexivity | vm_compute; reflexivity].
Qed.

(** The sibling route does count: the donor's create on the same store
    moves [totalDonations] from 0 to 1. *)
Example donation_create_counts_one :
  let out := donations_post 1000 10 None (Some 1%N)
               (mkDonationPost (Some "blood") None) sample_db in
  code (snd out) = 201
  /\ stats (fst out) = [Stats.mk 5 1 2 1 1 1000].
Proof. cbv zeta. split; vm_compute; reflexivity. Qed.

(** With no Stats document the donor's create answers 400 and the
    donation is in the ledger all the same. *)
Example donation_create_without_stats :
  let out := donations_post 1000 10 None (Some 1%N)
               (mkDonationPost (Some "blood") None)
               (with_stats [] sample_db) in
  code (snd out) = 400
  /\ donations (fst out) !! 10%N = Some pending_donation.
Proof. cbv zeta. split; vm_compute; reflexivity. Qed.

(** ** Completion of a request *)

(** C9. A request update by a hospital or an admin whose target status is
    allowed and is neither [approved] nor [rejected] is a completion, and
    its branch overwrites [hospitalId] and [approvedBy] with the caller's
    id and [hospitalName] with the caller's name (the name of the caller's
    profile, or the legacy [data[<type>-name]] when that name is missing or
    empty), whoever held them before. Whatever is stored under the id
    afterwards is the loaded request or carries the caller in the three
    fields; and when the loaded request has no invalid path other than
    [status], the update is written, answered with 200 and the caller's
    name, and the stored request is completed and assigned to the
    caller. *)
Theorem request_completion_reassigns now token id b db uid user r status :
  auth token db = Some (uid, user) ->
  includes ["hospital"; "admin"] (Some (User.type user)) = true ->
  requests db !! id = Some r ->
  pb_status b = Some status ->
  includes ["approved"; "rejected"; "completed"] (Some status) = true ->
  status <> "approved" ->
  status <> "rejected" ->
  let name :=
    match User.name (User.profile user) with
    | Some n =>
        if n =? "" then User.data user !! (User.type user ++ "-name")
        else Some n
    | None => User.data user !! (User.type user ++ "-name")
    end in
  status = "completed"
  /\ (let r1 := request_apply now uid user status (pb_rejectionReason b) r in
      Request.status r1 = "completed"
      /\ Request.hospitalId r1 = Some uid
      /\ Request.hospitalName r1 = name
      /\ Request.approvedBy r1 = Some uid)
  /\ (exists r',
        requests (fst (requests_patch now token id b db)) !! id = Some r'
        /\ (r' = r
            \/ (Request.status r' = "completed"
                /\ Request.hospitalId r' = Some uid
                /\ Request.hospitalName r' = name
                /\ Request.approvedBy r' = Some uid)))
  /\ ((forall p, p ∈ Request.validate r -> p = "status") ->
      exists r',
        requests_patch now token id b db
        = (with_requests (<[id := r']> (requests db)) db,
           mkResponse 200 (inr (mkRequestUpdated id "completed" name now)))
        /\ Request.status r' = "completed"
        /\ Request.hospitalId r' = Some uid
        /\ Request.hospitalName r' = name
        /\ Request.approvedBy r' = Some uid).
Proof.
  intros Ha Hrole Hr Hs Hi Hna Hnr name.
  assert (name = callerName user) as -> by (symmetry; apply callerName_eq).
  assert (status = "completed") as ->.
  { apply allowed_status in Hi as [[= E] | [[= E] | [= E]]]; congruence. }
  split; [reflexivity|]. split; [repeat split; reflexivity|].
  assert (forall r',
    request_transition now uid user "completed" (pb_rejectionReason b) r
    = inr r' ->
    Request.status r' = "completed"
    /\ Request.hospitalId r' = Some uid
    /\ Request.hospitalName r' = callerName user
    /\ Request.approvedBy r' = Some uid) as Hfields.
  { intros r' Ht.
    destruct (request_transition_status now uid user "completed"
                (pb_rejectionReason b) r r' eq_refl Ht)
      as [(_ & Hst & Hh & Hn & Hb) | (H & _)]; [auto|discriminate H]. }
  split.
  - destruct (requests_patch_effect now token id b db)
      as [-> | (uid0 & user0 & status0 & r0 & r' & Ha0 & _ & Hr0 & Hs0 & _
                & Ht & ->)].
    + exists r. auto.
    + rewrite Ha in Ha0. injection Ha0 as <- <-.
      rewrite Hr in Hr0. injection Hr0 as <-.
      rewrite Hs in Hs0. injection Hs0 as <-.
      exists r'. split; [simpl; apply lookup_insert_eq|].
      right. apply Hfields. exact Ht.
  - intros Hv.
    destruct (request_claim_succeeds now uid user (pb_rejectionReason b) r
                "completed") as (r' & Ht & Hst); auto.
    destruct (Hfields r' Ht) as (_ & Hh & Hn & Hb).
    assert (Request.updatedAt r' = now) as Hu.
    { pose proof Ht as Ht'. unfold request_transition in Ht'.
      apply request_save_inr in Ht' as [_ ->].
      match goal with |- context [Request.pre_save now ?m ?x] =>
        destruct (request_pre_save_frame now m x) as (_ & _ & _ & _ & _ & H)
      end. exact H. }
    exists r'. split; [|auto].
    unfold requests_patch. rewrite Ha. run_handler.
    rewrite Hrole. simpl. rewrite Hr, Hs.
    change (includes ["approved"; "rejected"; "completed"] (Some "completed"))
      with true.
    simpl. rewrite Ht. simpl. rewrite Hst, Hn, Hu. reflexivity.
Qed.

(** The approved request of the patient, assigned to hospital A (id 2). *)
Lemma request_completion_reassigns_witness :
  let r := Request.set_approvedAt (Some 2000%Z)
             (Request.set_updatedAt 2000
                (request_approve 2 hospitalA pending_request)) in
  let db := with_requests {[ 20%N := r ]} sample_db in
  auth (Some 3%N) db = Some (3%N, hospitalB)
  /\ Request.hospitalId r = Some 2%N
  /\ Request.validate r = []
  /\ Request.hospitalName r = Some "City Hospital"
  /\ exists r',
       requests_patch 3000 (Some 3%N) 20 complete_body db
       = (with_requests (<[20%N := r']> (requests db)) db,
          mkResponse 200
            (inr (mkRequestUpdated 20 "completed" (Some "Lake Clinic") 3000)))
       /\ requests (fst (requests_patch 3000 (Some 3%N) 20 complete_body db))
          !! 20%N = Some r'
       /\ Request.status r' = "completed"
       /\ Request.hospitalId r' = Some 3%N
       /\ Request.hospitalName r' = Some "Lake Clinic"
       /\ Request.approvedBy r' = Some 3%N.
Proof.
  cbv zeta.
  set (r := Request.set_approvedAt (Some 2000%Z)
              (Request.set_updatedAt 2000
                 (request_approve 2 hospitalA pending_request))).
  set (db := with_requests {[ 20%N := r ]} sample_db).
  assert (auth (Some 3%N) db = Some (3%N, hospitalB)) as Ha
    by (vm_compute; reflexivity).
  assert (requests db !! 20%N = Some r) as Hr by (vm_compute; reflexivity).
  split; [exact Ha|]. split; [reflexivity|]. split; [reflexivity|].
  split; [reflexivity|].
  destruct (proj2 (proj2 (proj2
              (request_completion_reassigns 3000 (Some 3%N) 20 complete_body
                 db 3 hospitalB r "completed" Ha eq_refl Hr eq_refl eq_refl
                 ltac:(discriminate) ltac:(discriminate))))
              (valid_only_status _ eq_refl))
    as (r' & Hp & Hst & Hh & Hn & Hb).
  exists r'. split; [exact Hp|]. rewrite Hp. simpl.
  rewrite lookup_insert_eq. split; [reflexivity|]. split; [exact Hst|].
  split; [exact Hh|]. split; [exact Hn | exact Hb].
Defined.

(** ** Registration and login *)

#[local] Arguments truthy : simpl never.
#[local] Arguments test : simpl never.
#[local] Arguments new_user : simpl never.
#[local] Arguments String.length : simpl never.
#[local] Arguments findOne_user : simpl never.
#[local] Arguments User.save : simpl never.
#[local] Arguments Nat.ltb : simpl never.

Ltac run_auth_handler :=
  cbv [try_catch bindM gets modify liftE ret throw write_fault
       save_found_stats save_new_stats insert_user bad_request]; simpl.


Lemma user_validate_nil_type u :
  User.validate u = [] -> User.type u ∈ User.types.
Proof.
  unfold User.validate. intros H.
  apply app_eq_nil in H as [_ H]. apply app_eq_nil in H as [_ H].
  apply app_eq_nil in H as [H _].
  destruct (User.type u =? ""); [discriminate|].
  destruct (existsb (String.eqb (User.type u)) User.types) eqn:E;
    [|discriminate].
  apply existsb_exists in E as (s & Hs & E). apply String.eqb_eq in E.
  subst s. apply list_elem_of_In. exact Hs.
Qed.


(** [save()] pairs each message of the validation with its path. *)
Lemma user_error_paths_length u :
  List.length (User.error_paths u) = List.length (User.validate u).
Proof.
  unfold User.error_paths, User.validate, User.required_then.
  rewrite !length_app.
  f_equal.
  { destruct (User.email u =? ""), (test emailRegex (User.email u));
      reflexivity. }
  f_equal.
  { cbv zeta. destruct (truthy (User.googleId u)), (User.password u) as [p|];
      try reflexivity;
      destruct (p =? ""), (String.length p <? 8)%nat; reflexivity. }
  f_equal.
  { destruct (User.type u =? ""),
      (existsb (String.eqb (User.type u)) User.types); reflexivity. }
  f_equal.
  { destruct (existsb (String.eqb (User.status u)) User.statuses);
      reflexivity. }
  f_equal.
  { destruct (User.name (User.profile u)) as [s|]; [|reflexivity].
    destruct (s =? ""), (String.length s <? 2)%nat; reflexivity. }
  f_equal.
  { destruct (User.phone (User.profile u)) as [s|]; [|reflexivity].
    destruct (s =? ""), (test phoneRegex s); reflexivity. }
  f_equal.
  { destruct ((User.type u =? "hospital")
              && negb (truthy (User.address (User.profile u))));
      reflexivity. }
  f_equal.
  { destruct (User.bloodGroup (User.profile u)) as [g|];
      [|destruct (User.type u =? "donor"); reflexivity].
    destruct (g =? ""), (User.type u =? "donor"),
      (existsb (String.eqb g) bloodGroups); reflexivity. }
  destruct (enum_ok User.genders (User.gender (User.profile u)));
    reflexivity.
Qed.

Lemma register_catch_code e : code (register_catch e) <> 201.
Proof.
  destruct e as [m|m|mo ms|c]; simpl; try discriminate.
  repeat (match goal with
          | |- context [match ?x with _ => _ end] => destruct x
          end; simpl; try discriminate).
Qed.

Section Credentials.
Variable bcrypt_hash : string -> string -> string.
Variable bcrypt_compare : string -> string -> bool.

Lemma user_save_new now salt type name email phone password b a :
  User.save bcrypt_hash now salt true
    (new_user now type name email phone password b) = inr a ->
  User.validate (new_user now type name email phone password b) = []
  /\ a = User.set_hashed (bcrypt_hash salt password)
           (User.pre_save_profile now
              (new_user now type name email phone password b)).
Proof.
  unfold User.save.
  destruct (User.validate (new_user now type name email phone password b));
    [|discriminate].
  intros H. split; [reflexivity|].
  unfold User.pre_save_password in H.
  assert (User.googleId (User.pre_save_profile now
            (new_user now type name email phone password b)) = None
          /\ User.password (User.pre_save_profile now
               (new_user now type name email phone password b))
             = Some password) as [Hg Hp].
  { unfold User.pre_save_profile.
    match goal with |- context [if ?c then _ else _] => destruct c end;
      split; reflexivity. }
  rewrite Hg, Hp in H. simpl in H. congruence.
Qed.


Lemma findOne_user_Some filter (coll : gmap ObjectId User.t) id u :
  findOne_user filter coll = Some (id, u) ->
  coll !! id = Some u /\ filter u = true.
Proof.
  unfold findOne_user. intros H. apply find_some in H as [Hin Hf].
  split; [|exact Hf].
  apply elem_of_map_to_list, list_elem_of_In. exact Hin.
Qed.

Lemma user_save_loaded now salt u saved :
  User.save bcrypt_hash now salt false u = inr saved ->
  saved = User.pre_save_profile now u.
Proof.
  unfold User.save. destruct (User.validate u); [|discriminate].
  unfold User.pre_save_password.
  destruct (truthy (User.googleId (User.pre_save_profile now u))
            && negb (truthy (User.password (User.pre_save_profile now u))));
    simpl; congruence.
Qed.




End Credentials.


(** The registered hospital logs in and is sent its password back. *)
Example login_returns_plaintext_password :
  let db := fst (register sample_hash 5000 9 "s1" None sample_registration
                   sample_db) in
  let out := login sample_hash sample_compare 6000
               (mkLoginBody (Some "hill@example.org") (Some "hunter2hunter2")
                  (Some "hospital")) db in
  code (snd out) = 200
  /\ exists ok,
       body (snd out) = inr ok
       /\ uv_data (ao_user ok) !! "hospital-password" = Some "hunter2hunter2".
Proof.
  cbv zeta. split; [vm_compute; reflexivity|].
  eexists. split; [vm_compute; reflexivity|]. vm_compute. reflexivity.
Qed.

(** * Further properties

    ** The regular expressions of the auth router *)

Lemma test_nil r : test r "" = nullable r.
Proof. reflexivity. Qed.

Lemma test_cons r c s : test r (String c s) = test (deriv c r) s.
Proof. reflexivity. Qed.

Lemma test_alt r1 r2 s : test (RAlt r1 r2) s = test r1 s || test r2 s.
Proof.
  revert r1 r2. induction s as [|c s IH]; intros r1 r2; [reflexivity|].
  rewrite !test_cons. simpl. apply IH.
Qed.

Lemma is_void_nullable r : is_void r = true -> nullable r = false.
Proof.
  induction r as [| |p|r1 IH1 r2 IH2|r1 IH1 r2 IH2|r1 IH1]; simpl;
    try discriminate; try reflexivity.
  - intros H. apply orb_true_iff in H as [H|H].
    + rewrite IH1 by exact H. reflexivity.
    + rewrite IH2 by exact H. apply andb_false_r.
  - intros H. apply andb_true_iff in H as [H1 H2].
    rewrite IH1, IH2 by assumption. reflexivity.
Qed.

Lemma is_void_deriv c r : is_void r = true -> is_void (deriv c r) = true.
Proof.
  induction r as [| |p|r1 IH1 r2 IH2|r1 IH1 r2 IH2|r1 IH1]; simpl;
    try discriminate; try reflexivity.
  - intros H. destruct (nullable r1) eqn:Hn; simpl.
    + apply orb_true_iff in H as [H|H].
      * rewrite (is_void_nullable _ H) in Hn. discriminate Hn.
      * rewrite H, (IH2 H), orb_true_r. reflexivity.
    + apply orb_true_iff in H as [H|H].
      * rewrite (IH1 H). reflexivity.
      * rewrite H. apply orb_true_r.
  - intros H. apply andb_true_iff in H as [H1 H2].
    rewrite IH1, IH2 by assumption. reflexivity.
Qed.

(** A void expression matches no string. *)
Lemma is_void_test r s : is_void r = true -> test r s = false.
Proof.
  revert r. induction s as [|c s IH]; intros r H.
  - apply is_void_nullable. exact H.
  - rewrite test_cons. apply IH, is_void_deriv. exact H.
Qed.

Lemma test_eps_cat r s : test (RCat REps r) s = test r s.
Proof.
  destruct s as [|c s]; [reflexivity|].
  rewrite !test_cons. simpl. rewrite test_alt.
  rewrite is_void_test by reflexivity. reflexivity.
Qed.

(** A character class followed by [r]: the first character is in the
    class and the rest matches [r]. *)
Lemma test_class_cat p r s :
  test (RCat (RClass p) r) s
  = match s with
    | EmptyString => false
    | String c s' => p c && test r s'
    end.
Proof.
  destruct s as [|c s]; [reflexivity|].
  rewrite test_cons. simpl. destruct (p c); simpl.
  - apply test_eps_cat.
  - apply is_void_test. reflexivity.
Qed.

Lemma test_class p s :
  test (RClass p) s
  = match s with
    | String c EmptyString => p c
    | _ => false
    end.
Proof.
  destruct s as [|c s]; [reflexivity|].
  rewrite test_cons. simpl. destruct (p c).
  - destruct s; [reflexivity|]. rewrite test_cons. simpl.
    apply is_void_test. reflexivity.
  - destruct s; [reflexivity|]. apply is_void_test. reflexivity.
Qed.

Lemma classes_within_deriv P c r :
  classes_within P r -> classes_within P (deriv c r).
Proof.
  induction r as [| |p|r1 IH1 r2 IH2|r1 IH1 r2 IH2|r1 IH1]; simpl; auto.
  - intros _. destruct (p c); exact I.
  - intros [H1 H2]. destruct (nullable r1); simpl; auto.
  - intros [H1 H2]. auto.
Qed.

Lemma deriv_outside_void P c r :
  classes_within P r -> P c = false -> is_void (deriv c r) = true.
Proof.
  intros Hr Hc.
  induction r as [| |p|r1 IH1 r2 IH2|r1 IH1 r2 IH2|r1 IH1]; simpl in *;
    try reflexivity.
  - destruct (p c) eqn:E; [|reflexivity].
    rewrite (Hr c E) in Hc. discriminate Hc.
  - destruct Hr as [H1 H2]. destruct (nullable r1); simpl.
    + rewrite (IH1 H1), (IH2 H2). reflexivity.
    + rewrite (IH1 H1). reflexivity.
  - destruct Hr as [H1 H2]. rewrite (IH1 H1), (IH2 H2). reflexivity.
  - rewrite (IH1 Hr). reflexivity.
Qed.

(** A string that matches consists of characters of the classes of the
    expression. *)
Lemma test_within P r s :
  classes_within P r -> test r s = true -> string_forall P s = true.
Proof.
  revert r. induction s as [|c s IH]; intros r Hr Ht; [reflexivity|].
  rewrite test_cons in Ht. simpl.
  destruct (P c) eqn:Hc.
  - simpl. apply (IH (deriv c r)); [apply classes_within_deriv|]; assumption.
  - rewrite is_void_test in Ht by (eapply deriv_outside_void; eauto).
    discriminate Ht.
Qed.

Lemma string_forall_impl (p q : ascii -> bool) s :
  (forall c, p c = true -> q c = true) ->
  string_forall p s = true -> string_forall q s = true.
Proof.
  intros Hpq. induction s as [|c s IH]; simpl; [reflexivity|].
  intros H. apply andb_true_iff in H as [H1 H2].
  rewrite (Hpq c H1), (IH H2). reflexivity.
Qed.

Lemma email_char_not_space c : email_char c = true -> is_space c = false.
Proof.
  destruct c as [[] [] [] [] [] [] [] []]; vm_compute; congruence.
Qed.

Lemma email_char_lower c :
  email_char c = true -> email_char (lower_char c) = true.
Proof.
  destruct c as [[] [] [] [] [] [] [] []]; vm_compute; congruence.
Qed.

Lemma lower_char_idem c : lower_char (lower_char c) = lower_char c.
Proof. destruct c as [[] [] [] [] [] [] [] []]; reflexivity. Qed.

Lemma toLowerCase_idem s : toLowerCase (toLowerCase s) = toLowerCase s.
Proof.
  induction s as [|c s IH]; simpl; [reflexivity|].
  rewrite lower_char_idem, IH. reflexivity.
Qed.

Lemma string_forall_lower s :
  string_forall email_char s = true ->
  string_forall email_char (toLowerCase s) = true.
Proof.
  induction s as [|c s IH]; simpl; [reflexivity|].
  intros H. apply andb_true_iff in H as [H1 H2].
  rewrite (email_char_lower c H1), (IH H2). reflexivity.
Qed.

Lemma trimEnd_no_space s :
  string_forall (fun c => negb (is_space c)) s = true -> trimEnd s = s.
Proof.
  induction s as [|c s IH]; simpl; [reflexivity|].
  intros H. apply andb_true_iff in H as [H1 H2].
  rewrite (IH H2). destruct s; [|reflexivity].
  apply negb_true_iff in H1. rewrite H1. reflexivity.
Qed.

(** [trim] leaves a string without white space as it is. *)
Lemma trim_no_space s :
  string_forall (fun c => negb (is_space c)) s = true -> trim s = s.
Proof.
  intros H. unfold trim.
  assert (trimStart s = s) as ->.
  { destruct s as [|c s]; [reflexivity|]. simpl in *.
    apply andb_true_iff in H as [H _]. apply negb_true_iff in H.
    rewrite H. reflexivity. }
  apply trimEnd_no_space. exact H.
Qed.

Lemma emailRegex_classes : classes_within email_char emailRegex.
Proof.
  assert (forall c, is_word c = true -> email_char c = true) as Hw.
  { intros c H. unfold email_char. rewrite H. reflexivity. }
  assert (forall c, Ascii.eqb c "." || Ascii.eqb c "-" = true ->
                    email_char c = true) as Hd.
  { intros c H. unfold email_char.
    apply orb_true_iff in H as [-> | ->]; rewrite ?orb_true_r; reflexivity. }
  assert (forall c, Ascii.eqb "@" c = true -> email_char c = true) as Ha.
  { intros c H. apply Ascii.eqb_eq in H. subst c. reflexivity. }
  assert (forall c, Ascii.eqb "." c = true -> email_char c = true) as Hp.
  { intros c H. apply Ascii.eqb_eq in H. subst c. reflexivity. }
  unfold emailRegex, RPlus, ROpt, RChar. simpl. auto 20.
Qed.

(** X1. An address that passes the email check of the routes consists of
    word characters, dots, dashes and at-signs only; it has no white space,
    so [trim] leaves it as it is, and so it does its lower-case form. *)
Theorem email_check_alphabet s :
  test emailRegex s = true ->
  string_forall email_char s = true
  /\ trim s = s
  /\ trim (toLowerCase s) = toLowerCase s.
Proof.
  intros H.
  assert (string_forall email_char s = true) as Hs
    by exact (test_within _ _ _ emailRegex_classes H).
  assert (forall t, string_forall email_char t = true -> trim t = t) as Ht.
  { intros t Hc. apply trim_no_space.
    apply (string_forall_impl email_char); [|exact Hc].
    intros c Hc'. rewrite (email_char_not_space c Hc'). reflexivity. }
  split; [exact Hs|]. split; [apply Ht; exact Hs|].
  apply Ht, string_forall_lower. exact Hs.
Qed.

Lemma email_check_alphabet_witness :
  test emailRegex "Hill@Example.org" = true
  /\ trim (toLowerCase "Hill@Example.org") = "hill@example.org".
Proof.
  assert (test emailRegex "Hill@Example.org" = true) as H
    by (vm_compute; reflexivity).
  split; [exact H|].
  exact (proj2 (proj2 (email_check_alphabet _ H))).
Defined.

(** X2. The phone check accepts exactly the strings of ten decimal
    digits. *)
Theorem phone_check_exact s :
  test phoneRegex s = true <->
  String.length s = 10 /\ string_forall is_digit s = true.
Proof.
  unfold phoneRegex.
  repeat (rewrite test_class_cat; destruct s as [|? s];
          [split; [rewrite ?andb_false_r; discriminate | intros [[=] _]]|]).
  rewrite test_class. destruct s as [|? s];
    [split; [rewrite ?andb_false_r; discriminate | intros [[=] _]]|].
  destruct s as [|? s]; simpl.
  - rewrite andb_true_r.
    split; [intros H; split; [reflexivity | exact H] | intros [_ H]; exact H].
  - rewrite ?andb_false_r. split; [discriminate|].
    intros [H _]. cbv [String.length] in H. discriminate H.
Qed.

Lemma phone_check_exact_witness :
  String.length "5551234567" = 10
  /\ string_forall is_digit "5551234567" = true
  /\ test phoneRegex "5551234567" = true.
Proof.
  split; [reflexivity|]. split; [reflexivity|].
  apply (proj2 (phone_check_exact "5551234567")). split; reflexivity.
Defined.

(** ** Deleting entries *)

Lemma donations_delete_spec token id db :
  let out := donations_delete token id db in
  (code (snd out) = 200 <->
   exists uid user d,
     auth token db = Some (uid, user)
     /\ donations db !! id = Some d
     /\ (User.type user = "admin"
         \/ (User.type user = "donor" /\ Donation.donorId d = uid)))
  /\ (code (snd out) = 200 ->
      fst out = with_donations (delete id (donations db)) db)
  /\ (code (snd out) <> 200 -> fst out = db).
Proof.
  unfold donations_delete.
  destruct (auth token db) as [[uid user]|] eqn:Ha.
  2:{ simpl. split; [|split]; try (intros; congruence || reflexivity).
      split; [discriminate | intros (? & ? & ? & [=] & _)]. }
  run_handler. destruct (donations db !! id) as [d|] eqn:Hd; simpl.
  2:{ split; [|split]; try (intros; congruence || reflexivity).
      split; [discriminate | intros (? & ? & ? & _ & [=] & _)]. }
  destruct (String.eqb_spec (User.type user) "donor") as [Hty|Hty]; simpl.
  + destruct (N.eqb_spec (Donation.donorId d) uid) as [Ho|Ho]; simpl.
    * split; [|split]; try (intros; congruence || reflexivity).
      split; [intros _; exists uid, user, d; auto|reflexivity].
    * split; [|split]; try (intros; congruence || reflexivity).
      split; [discriminate|].
      intros (uid' & user' & d' & [= <- <-] & [= <-] & [H | [_ H]]);
        [rewrite Hty in H; discriminate H | contradiction].
  + destruct (String.eqb_spec (User.type user) "admin") as [Hadm|Hadm];
      simpl.
    * split; [|split]; try (intros; congruence || reflexivity).
      split; [intros _; exists uid, user, d; auto|reflexivity].
    * split; [|split]; try (intros; congruence || reflexivity).
      split; [discriminate|].
      intros (uid' & user' & d' & [= <- <-] & _ & [H | [H _]]);
        contradiction.
Qed.

Lemma requests_delete_spec token id db :
  let out := requests_delete token id db in
  (code (snd out) = 200 <->
   exists uid user r,
     auth token db = Some (uid, user)
     /\ requests db !! id = Some r
     /\ (User.type user = "admin"
         \/ (User.type user = "patient" /\ Request.patientId r = uid)))
  /\ (code (snd out) = 200 ->
      fst out = with_requests (delete id (requests db)) db)
  /\ (code (snd out) <> 200 -> fst out = db).
Proof.
  unfold requests_delete.
  destruct (auth token db) as [[uid user]|] eqn:Ha.
  2:{ simpl. split; [|split]; try (intros; congruence || reflexivity).
      split; [discriminate | intros (? & ? & ? & [=] & _)]. }
  run_handler. destruct (requests db !! id) as [r|] eqn:Hr; simpl.
  2:{ split; [|split]; try (intros; congruence || reflexivity).
      split; [discriminate | intros (? & ? & ? & _ & [=] & _)]. }
  destruct (String.eqb_spec (User.type user) "patient") as [Hty|Hty]; simpl.
  + destruct (N.eqb_spec (Request.patientId r) uid) as [Ho|Ho]; simpl.
    * split; [|split]; try (intros; congruence || reflexivity).
      split; [intros _; exists uid, user, r; auto|reflexivity].
    * split; [|split]; try (intros; congruence || reflexivity).
      split; [discriminate|].
      intros (uid' & user' & r' & [= <- <-] & [= <-] & [H | [_ H]]);
        [rewrite Hty in H; discriminate H | contradiction].
  + destruct (String.eqb_spec (User.type user) "admin") as [Hadm|Hadm];
      simpl.
    * split; [|split]; try (intros; congruence || reflexivity).
      split; [intros _; exists uid, user, r; auto|reflexivity].
    * split; [|split]; try (intros; congruence || reflexivity).
      split; [discriminate|].
      intros (uid' & user' & r' & [= <- <-] & _ & [H | [H _]]);
        contradiction.
Qed.

(** X3. A donation is deleted exactly when it exists and the caller is an
    admin or the donor who owns it; a request exactly when it exists and the
    caller is an admin or the patient who owns it. A hospital can delete
    neither. A delete that is refused leaves the store as it was, and one
    that is granted removes the entry and nothing else. *)
Theorem delete_needs_owner_or_admin token id db :
  (let out := donations_delete token id db in
   (code (snd out) = 200 <->
    exists uid user d,
      auth token db = Some (uid, user)
      /\ donations db !! id = Some d
      /\ (User.type user = "admin"
          \/ (User.type user = "donor" /\ Donation.donorId d = uid)))
   /\ (code (snd out) = 200 ->
       fst out = with_donations (delete id (donations db)) db)
   /\ (code (snd out) <> 200 -> fst out = db))
  /\ (let out := requests_delete token id db in
      (code (snd out) = 200 <->
       exists uid user r,
         auth token db = Some (uid, user)
         /\ requests db !! id = Some r
         /\ (User.type user = "admin"
             \/ (User.type user = "patient" /\ Request.patientId r = uid)))
      /\ (code (snd out) = 200 ->
          fst out = with_requests (delete id (requests db)) db)
      /\ (code (snd out) <> 200 -> fst out = db)).
Proof.
  split.
  - apply donations_delete_spec.
  - apply requests_delete_spec.
Qed.

Lemma delete_needs_owner_or_admin_witness :
  let db := with_donations {[ 10%N := pending_donation ]} sample_db in
  code (snd (donations_delete (Some 1%N) 10 db)) = 200
  /\ fst (donations_delete (Some 1%N) 10 db)
     = with_donations (delete 10%N (donations db)) db
  /\ code (snd (donations_delete (Some 2%N) 10 db)) <> 200
  /\ fst (donations_delete (Some 2%N) 10 db) = db.
Proof.
  cbv zeta.
  set (db := with_donations {[ 10%N := pending_donation ]} sample_db).
  assert (code (snd (donations_delete (Some 1%N) 10 db)) = 200) as H1
    by (vm_compute; reflexivity).
  assert (code (snd (donations_delete (Some 2%N) 10 db)) <> 200) as H2
    by (vm_compute; discriminate).
  split; [exact H1|].
  split; [exact (proj1 (proj2 (proj1
                   (delete_needs_owner_or_admin (Some 1%N) 10 db))) H1)|].
  split; [exact H2|].
  exact (proj2 (proj2 (proj1
           (delete_needs_owner_or_admin (Some 2%N) 10 db))) H2).
Defined.

Lemma donations_get_list token db l :
  body (snd (donations_get token db)) = inr l ->
  exists uid user q,
    auth token db = Some (uid, user)
    /\ donations_query uid user = inr q
    /\ l = find q (donations db).
Proof.
  unfold donations_get.
  destruct (auth token db) as [[uid user]|]; [|discriminate].
  run_handler.
  destruct (donations_query uid user) as [e|q] eqn:Hq; simpl;
    [discriminate|].
  intros [= <-]. exists uid, user, q. auto.
Qed.

Lemma requests_get_list token db l :
  body (snd (requests_get token db)) = inr l ->
  exists uid user q,
    auth token db = Some (uid, user)
    /\ requests_query uid user = Some q
    /\ l = sort_newest_first (find q (requests db)).
Proof.
  unfold requests_get.
  destruct (auth token db) as [[uid user]|]; [|discriminate].
  run_handler.
  destruct (requests_query uid user) as [q|] eqn:Hq; simpl; [|discriminate].
  intros [= <-]. exists uid, user, q. auto.
Qed.

Lemma sorted_elem `{Entry A} (l : list (ObjectId * A)) x :
  x ∈ sort_newest_first l <-> x ∈ l.
Proof. unfold sort_newest_first. rewrite merge_sort_Permutation. reflexivity. Qed.

(** X4. Once a delete has answered 200 the entry is gone for everyone: a
    lookup by its id finds nothing and no list of either route contains it
    for any caller. A later update of it by an authenticated caller writes
    nothing and is answered "not found": 400 with "Donation not found" on
    the donation route, whoever calls; on the request route 404 with
    "Request not found" for a hospital or an admin, while any other caller
    is refused with 403 before the lookup. The statistics are not touched by
    the delete. *)
Theorem deleted_entry_is_gone token id db :
  (let db' := fst (donations_delete token id db) in
   code (snd (donations_delete token id db)) = 200 ->
   donations db' !! id = None
   /\ (forall token' l d,
         body (snd (donations_get token' db')) = inr l -> (id, d) ∉ l)
   /\ (forall now token' b,
         auth token' db' <> None ->
         donations_patch now token' id b db'
         = (db', mkResponse 400 (inl "Donation not found")))
   /\ stats db' = stats db)
  /\ (let db' := fst (requests_delete token id db) in
      code (snd (requests_delete token id db)) = 200 ->
      requests db' !! id = None
      /\ (forall token' l r,
            body (snd (requests_get token' db')) = inr l -> (id, r) ∉ l)
      /\ (forall now token' b uid user,
            auth token' db' = Some (uid, user) ->
            (User.type user = "hospital" \/ User.type user = "admin" ->
             requests_patch now token' id b db'
             = (db', mkResponse 404 (inl "Request not found")))
            /\ (User.type user <> "hospital" ->
                User.type user <> "admin" ->
                requests_patch now token' id b db'
                = (db',
                   mkResponse 403
                     (inl "Only hospitals and admins can update request status"))))
      /\ stats db' = stats db).
Proof.
  split.
  - intros db' H.
    pose proof (proj1 (proj2 (donations_delete_spec token id db)) H) as E.
    fold db' in E. rewrite E. simpl.
    split; [apply lookup_delete_eq|]. split; [|split; [|reflexivity]].
    + intros token' l d Hl.
      apply donations_get_list in Hl as (uid & user & q & _ & _ & ->).
      rewrite find_elem. simpl. rewrite lookup_delete_eq. intros [[=] _].
    + intros now token' b Ha. unfold donations_patch.
      destruct (auth token' (with_donations (delete id (donations db)) db))
        as [[uid user]|]; [|contradiction].
      run_handler. rewrite lookup_delete_eq. reflexivity.
  - intros db' H.
    pose proof (proj1 (proj2 (requests_delete_spec token id db)) H) as E.
    fold db' in E. rewrite E. simpl.
    split; [apply lookup_delete_eq|]. split; [|split; [|reflexivity]].
    + intros token' l r Hl.
      apply requests_get_list in Hl as (uid & user & q & _ & _ & ->).
      rewrite sorted_elem, find_elem. simpl. rewrite lookup_delete_eq.
      intros [[=] _].
    + intros now token' b uid user Ha. unfold requests_patch. rewrite Ha.
      run_handler. split.
      * intros [-> | ->]; simpl; rewrite lookup_delete_eq; reflexivity.
      * intros Hnh Hna.
        assert (includes ["hospital"; "admin"] (Some (User.type user))
                = false) as ->; [|reflexivity].
        unfold includes. simpl.
        destruct (String.eqb_spec (User.type user) "hospital");
          [contradiction|].
        destruct (String.eqb_spec (User.type user) "admin");
          [contradiction|reflexivity].
Qed.

Lemma deleted_entry_is_gone_witness :
  (let db := with_donations {[ 10%N := pending_donation ]} sample_db in
   let db' := fst (donations_delete (Some 1%N) 10 db) in
   code (snd (donations_delete (Some 1%N) 10 db)) = 200
   /\ donations db' !! 10%N = None
   /\ stats db' = stats db)
  /\ (let db := with_requests {[ 20%N := pending_request ]} sample_db in
      let db' := fst (requests_delete (Some 5%N) 20 db) in
      code (snd (requests_delete (Some 5%N) 20 db)) = 200
      /\ requests db' !! 20%N = None
      /\ requests_patch 3000 (Some 2%N) 20 approve_body db'
         = (db', mkResponse 404 (inl "Request not found"))
      /\ requests_patch 3000 (Some 5%N) 20 approve_body db'
         = (db',
            mkResponse 403
              (inl "Only hospitals and admins can update request status"))).
Proof.
  cbv zeta. split.
  - set (db := with_donations {[ 10%N := pending_donation ]} sample_db).
    assert (code (snd (donations_delete (Some 1%N) 10 db)) = 200) as H
      by (vm_compute; reflexivity).
    destruct (proj1 (deleted_entry_is_gone (Some 1%N) 10 db) H)
      as (Hl & _ & _ & Hs).
    split; [exact H|]. split; [exact Hl | exact Hs].
  - set (db := with_requests {[ 20%N := pending_request ]} sample_db).
    assert (code (snd (requests_delete (Some 5%N) 20 db)) = 200) as H
      by (vm_compute; reflexivity).
    destruct (proj2 (deleted_entry_is_gone (Some 5%N) 20 db) H)
      as (Hl & _ & Hp & _).
    assert (auth (Some 2%N) (fst (requests_delete (Some 5%N) 20 db))
            = Some (2%N, hospitalA)) as Ha2 by (vm_compute; reflexivity).
    assert (auth (Some 5%N) (fst (requests_delete (Some 5%N) 20 db))
            = Some (5%N, patient1)) as Ha5 by (vm_compute; reflexivity).
    split; [exact H|]. split; [exact Hl|]. split.
    + apply (proj1 (Hp 3000%Z (Some 2%N) approve_body 2%N hospitalA Ha2)).
      left. reflexivity.
    + apply (proj2 (Hp 3000%Z (Some 5%N) approve_body 5%N patient1 Ha5));
        distinct.
Defined.

(** ** The lists of the other roles *)

(** X5. What the list routes return to the callers that are not
    hospitals. A donor is listed exactly the donations they own and is
    refused the requests (403); a patient is listed exactly the donations
    linked to them and exactly the requests they own, newest first; an
    admin is listed every entry. Each entry is listed once. *)
Theorem lists_by_role token db uid user :
  auth token db = Some (uid, user) ->
  (User.type user = "donor" ->
   (exists l,
      donations_get token db = (db, mkResponse 200 (inr l))
      /\ NoDup l
      /\ forall id d,
           (id, d) ∈ l <->
           donations db !! id = Some d /\ Donation.donorId d = uid)
   /\ requests_get token db
      = (db, mkResponse 403 (inl "Not authorized to view requests")))
  /\ (User.type user = "patient" ->
      (exists l,
         donations_get token db = (db, mkResponse 200 (inr l))
         /\ NoDup l
         /\ forall id d,
              (id, d) ∈ l <->
              donations db !! id = Some d /\ Donation.patientId d = Some uid)
      /\ (exists l,
            requests_get token db = (db, mkResponse 200 (inr l))
            /\ NoDup l
            /\ Sorted newer_first l
            /\ forall id r,
                 (id, r) ∈ l <->
                 requests db !! id = Some r /\ Request.patientId r = uid))
  /\ (User.type user = "admin" ->
      (exists l,
         donations_get token db = (db, mkResponse 200 (inr l))
         /\ NoDup l
         /\ forall id d, (id, d) ∈ l <-> donations db !! id = Some d)
      /\ (exists l,
            requests_get token db = (db, mkResponse 200 (inr l))
            /\ NoDup l
            /\ Sorted newer_first l
            /\ forall id r, (id, r) ∈ l <-> requests db !! id = Some r)).
Proof.
  intros Ha.
  assert (forall q : Query, NoDup (sort_newest_first (find q (requests db))))
    as Hnd.
  { intros q. unfold sort_newest_first. rewrite merge_sort_Permutation.
    apply find_NoDup. }
  assert (forall q : Query,
            Sorted newer_first (sort_newest_first (find q (requests db))))
    as Hsorted.
  { intros q. unfold sort_newest_first.
    apply (@Sorted_merge_sort _ _ _ newer_first_total). }
  split; [|split]; intros Hty.
  - split.
    + exists (find (QFields [DonorIdIs uid]) (donations db)).
      split; [|split; [apply find_NoDup|]].
      * unfold donations_get, donations_query. rewrite Ha, Hty. reflexivity.
      * intros id d. rewrite find_elem. simpl.
        rewrite andb_true_r, N.eqb_eq. reflexivity.
    + unfold requests_get, requests_query. rewrite Ha, Hty. reflexivity.
  - split.
    + exists (find (QFields [PatientIdIs uid]) (donations db)).
      split; [|split; [apply find_NoDup|]].
      * unfold donations_get, donations_query. rewrite Ha, Hty. reflexivity.
      * intros id d. rewrite find_elem. simpl.
        rewrite andb_true_r, id_is_true. reflexivity.
    + exists (sort_newest_first
                (find (QFields [PatientIdIs uid]) (requests db))).
      split; [|split; [apply Hnd|split; [apply Hsorted|]]].
      * unfold requests_get, requests_query. rewrite Ha, Hty. reflexivity.
      * intros id r. rewrite sorted_elem, find_elem. simpl.
        rewrite andb_true_r, N.eqb_eq. reflexivity.
  - split.
    + exists (find (QFields []) (donations db)).
      split; [|split; [apply find_NoDup|]].
      * unfold donations_get, donations_query. rewrite Ha, Hty. reflexivity.
      * intros id d. rewrite find_elem. simpl. tauto.
    + exists (sort_newest_first (find (QFields []) (requests db))).
      split; [|split; [apply Hnd|split; [apply Hsorted|]]].
      * unfold requests_get, requests_query. rewrite Ha, Hty. reflexivity.
      * intros id r. rewrite sorted_elem, find_elem. simpl. tauto.
Qed.

Lemma lists_by_role_witness :
  let db :=
    with_donations {[ 10%N := pending_donation; 11%N := approved_donation ]}
      sample_db in
  auth (Some 1%N) db = Some (1%N, donor1)
  /\ User.type donor1 = "donor"
  /\ exists l,
       donations_get (Some 1%N) db = (db, mkResponse 200 (inr l))
       /\ (10%N, pending_donation) ∈ l
       /\ requests_get (Some 1%N) db
          = (db, mkResponse 403 (inl "Not authorized to view requests")).
Proof.
  cbv zeta.
  set (db := with_donations
               {[ 10%N := pending_donation; 11%N := approved_donation ]}
               sample_db).
  assert (auth (Some 1%N) db = Some (1%N, donor1)) as Ha
    by (vm_compute; reflexivity).
  split; [exact Ha|]. split; [reflexivity|].
  destruct (proj1 (lists_by_role (Some 1%N) db 1 donor1 Ha) eq_refl)
    as ((l & Hget & _ & Hmem) & Hreq).
  exists l. split; [exact Hget|]. split; [|exact Hreq].
  apply Hmem. split; [vm_compute; reflexivity | reflexivity].
Defined.

(** ** Creating entries *)

Lemma donations_post_created now newId fault token b db :
  let out := donations_post now newId fault token b db in
  code (snd out) = 201 ->
  exists uid donor s ss,
    auth token db = Some (uid, donor)
    /\ User.type donor = "donor"
    /\ Donation.validate (new_donation now uid donor b) = []
    /\ donations db !! newId = None
    /\ stats db = s :: ss
    /\ fault = None
    /\ out
       = (with_stats
            (Stats.mk (Stats.totalUsers s) (Stats.totalDonors s)
               (Stats.totalHospitals s) (Stats.totalPatients s)
               (Stats.totalDonations s + 1) now :: ss)
            (with_donations
               (<[newId := Donation.pre_save now true
                             (new_donation now uid donor b)]> (donations db))
               db),
          mkResponse 201
            (inr (newId,
                  Donation.pre_save now true (new_donation now uid donor b)))).
Proof.
  unfold donations_post.
  destruct (auth token db) as [[uid user]|] eqn:Ha; [|discriminate].
  destruct (auth_Some _ _ _ _ Ha) as [_ Hu].
  run_handler.
  destruct (String.eqb_spec (User.type user) "donor") as [Hty|]; simpl;
    [|discriminate].
  rewrite Hu.
  destruct (Donation.save now true (new_donation now uid user b))
    as [e|saved] eqn:Hs; simpl; [discriminate|].
  apply donation_save_inr in Hs as [Hv ->].
  destruct (donations db !! newId) eqn:Hn; simpl; [discriminate|].
  destruct (stats db) as [|s ss] eqn:Hst; simpl; [discriminate|].
  destruct fault; simpl; [discriminate|]. intros _. rewrite Hst.
  exists uid, user, s, ss. auto 10.
Qed.

Lemma requests_post_created now newId fault token b db :
  let out := requests_post now newId fault token b db in
  code (snd out) = 201 ->
  exists uid patient,
    auth token db = Some (uid, patient)
    /\ User.type patient = "patient"
    /\ Request.validate (new_request now uid patient b) = []
    /\ requests db !! newId = None
    /\ fault = None
    /\ users (fst out) = users db
    /\ donations (fst out) = donations db
    /\ requests (fst out)
       = <[newId := Request.pre_save now true
                      (new_request now uid patient b)]> (requests db).
Proof.
  unfold requests_post.
  destruct (auth token db) as [[uid user]|] eqn:Ha; [|discriminate].
  destruct (auth_Some _ _ _ _ Ha) as [_ Hu].
  run_handler.
  destruct (String.eqb_spec (User.type user) "patient") as [Hty|]; simpl;
    [|discriminate].
  rewrite Hu.
  destruct (Request.save now true (new_request now uid user b))
    as [e|saved] eqn:Hs; simpl; [discriminate|].
  apply request_save_inr in Hs as [Hv ->].
  destruct (requests db !! newId) eqn:Hn; simpl; [discriminate|].
  destruct (stats db) as [|s ss] eqn:Hst; destruct fault; simpl;
    try discriminate; intros _; exists uid, user; auto 10.
Qed.

Lemma hospital_sees_pending `{Entry A} (h : ObjectId) (e : A) :
  entry_status e = "pending" ->
  entry_rejections e = [] ->
  matches (hospital_query h) e = true.
Proof.
  intros Hs Hr. apply hospital_query_visible. left.
  rewrite Hr. split; [exact Hs|]. intros Hin. inversion Hin.
Qed.

(** X6. A create that answers 201 has stored, under the new id, an entry
    that is pending, unassigned, without rejections or audit timestamps,
    owned by the caller and created at the current time. From then on the
    entry is in the list of its owner, of every hospital and of every
    admin. *)
Theorem new_entry_is_pending_and_listed now newId fault token db :
  (forall b,
     let out := donations_post now newId fault token b db in
     code (snd out) = 201 ->
     exists uid d,
       fst <$> auth token db = Some uid
       /\ donations db !! newId = None
       /\ donations (fst out) !! newId = Some d
       /\ body (snd out) = inr (newId, d)
       /\ Donation.status d = "pending"
       /\ Donation.donorId d = uid
       /\ Donation.hospitalId d = None
       /\ Donation.rejectedByHospitals d = []
       /\ Donation.approvedAt d = None
       /\ Donation.completedAt d = None
       /\ Donation.createdAt d = now
       /\ forall token' h hu,
            auth token' (fst out) = Some (h, hu) ->
            User.type hu = "hospital" \/ User.type hu = "admin" \/ h = uid ->
            exists l,
              donations_get token' (fst out)
              = (fst out, mkResponse 200 (inr l))
              /\ (newId, d) ∈ l)
  /\ (forall b,
        let out := requests_post now newId fault token b db in
        code (snd out) = 201 ->
        exists uid r,
          fst <$> auth token db = Some uid
          /\ requests db !! newId = None
          /\ requests (fst out) !! newId = Some r
          /\ Request.status r = "pending"
          /\ Request.patientId r = uid
          /\ Request.hospitalId r = None
          /\ Request.rejectedByHospitals r = []
          /\ Request.approvedAt r = None
          /\ Request.completedAt r = None
          /\ Request.createdAt r = now
          /\ forall token' h hu,
               auth token' (fst out) = Some (h, hu) ->
               User.type hu = "hospital" \/ User.type hu = "admin"
               \/ h = uid ->
               exists l,
                 requests_get token' (fst out)
                 = (fst out, mkResponse 200 (inr l))
                 /\ (newId, r) ∈ l).
Proof.
  split.
  - intros b out H.
    destruct (donations_post_created now newId fault token b db H)
      as (uid & donor & s & ss & Ha & Hty & Hv & Hn & Hst & _ & Hout).
    fold out in Hout.
    set (d := Donation.pre_save now true (new_donation now uid donor b)) in *.
    assert (Donation.status d = "pending"
            /\ Donation.donorId d = uid
            /\ Donation.hospitalId d = None
            /\ Donation.rejectedByHospitals d = []
            /\ Donation.approvedAt d = None
            /\ Donation.completedAt d = None
            /\ Donation.createdAt d = now) as Hd
      by (repeat split; reflexivity).
    clearbody d. rewrite Hout. simpl.
    exists uid, d. rewrite Ha. simpl.
    split; [reflexivity|]. split; [exact Hn|].
    split; [apply lookup_insert_eq|]. split; [reflexivity|].
    destruct Hd as (Hs & Ho & Hh0 & Hr & Hap & Hco & Hcr).
    repeat (split; [assumption|]).
    intros token' h hu Ha' Hcase.
    match goal with |- context [donations_get token' ?x] =>
      set (db' := x) in *
    end.
    assert (forall q,
      donations_query h hu = inr q -> matches q d = true ->
      exists l, donations_get token' db' = (db', mkResponse 200 (inr l))
                /\ (newId, d) ∈ l) as Hlist.
    { intros q Hq Hm. exists (find q (donations db')). split.
      - unfold donations_get. rewrite Ha'. run_handler. rewrite Hq.
        reflexivity.
      - apply find_elem. split; [apply lookup_insert_eq | exact Hm]. }
    destruct Hcase as [Hh | [Hh | ->]].
    + apply (Hlist (hospital_query h)).
      * unfold donations_query. rewrite Hh. reflexivity.
      * apply hospital_sees_pending; assumption.
    + apply (Hlist (QFields [])).
      * unfold donations_query. rewrite Hh. reflexivity.
      * reflexivity.
    + apply auth_Some in Ha as [_ Hu]. apply auth_Some in Ha' as [_ Hu'].
      simpl in Hu'. rewrite Hu in Hu'. injection Hu' as <-.
      apply (Hlist (QFields [DonorIdIs uid])).
      * unfold donations_query. rewrite Hty. reflexivity.
      * simpl. rewrite Ho, N.eqb_refl. reflexivity.
  - intros b out H.
    destruct (requests_post_created now newId fault token b db H)
      as (uid & patient & Ha & Hty & Hv & Hn & _ & Hus & _ & Hreq).
    fold out in Hus, Hreq.
    set (r := Request.pre_save now true (new_request now uid patient b)) in *.
    assert (Request.status r = "pending"
            /\ Request.patientId r = uid
            /\ Request.hospitalId r = None
            /\ Request.rejectedByHospitals r = []
            /\ Request.approvedAt r = None
            /\ Request.completedAt r = None
            /\ Request.createdAt r = now) as Hd
      by (repeat split; reflexivity).
    clearbody r.
    exists uid, r. rewrite Ha, Hreq. simpl.
    split; [reflexivity|]. split; [exact Hn|].
    split; [apply lookup_insert_eq|].
    destruct Hd as (Hs & Ho & Hh0 & Hr & Hap & Hco & Hcr).
    repeat (split; [assumption|]).
    intros token' h hu Ha' Hcase.
    assert (forall q,
      requests_query h hu = Some q -> matches q r = true ->
      exists l, requests_get token' out.1 = (out.1, mkResponse 200 (inr l))
                /\ (newId, r) ∈ l) as Hlist.
    { intros q Hq Hm. exists (sort_newest_first (find q (requests out.1))).
      split.
      - unfold requests_get. rewrite Ha'. run_handler. rewrite Hq.
        reflexivity.
      - apply sorted_elem, find_elem. rewrite Hreq.
        split; [apply lookup_insert_eq | exact Hm]. }
    destruct Hcase as [Hh | [Hh | ->]].
    + apply (Hlist (hospital_query h)).
      * unfold requests_query. rewrite Hh. reflexivity.
      * apply hospital_sees_pending; assumption.
    + apply (Hlist (QFields [])).
      * unfold requests_query. rewrite Hh. reflexivity.
      * reflexivity.
    + apply auth_Some in Ha as [_ Hu]. apply auth_Some in Ha' as [_ Hu'].
      rewrite Hus, Hu in Hu'. injection Hu' as <-.
      apply (Hlist (QFields [PatientIdIs uid])).
      * unfold requests_query. rewrite Hty. reflexivity.
      * simpl. rewrite Ho, N.eqb_refl. reflexivity.
Qed.

Lemma new_entry_is_pending_and_listed_witness :
  let out := requests_post 1000 20 None (Some 5%N)
               (mkRequestPost (Some "blood") None) sample_db in
  code (snd out) = 201
  /\ exists r l,
       requests (fst out) !! 20%N = Some r
       /\ Request.status r = "pending"
       /\ requests_get (Some 3%N) (fst out)
          = (fst out, mkResponse 200 (inr l))
       /\ (20%N, r) ∈ l.
Proof.
  cbv zeta.
  set (out := requests_post 1000 20 None (Some 5%N)
                (mkRequestPost (Some "blood") None) sample_db).
  assert (code (snd out) = 201) as H by (vm_compute; reflexivity).
  split; [exact H|].
  destruct (proj2 (new_entry_is_pending_and_listed 1000 20 None (Some 5%N)
                     sample_db) (mkRequestPost (Some "blood") None) H)
    as (uid & r & _ & _ & Hr & Hs & _ & _ & _ & _ & _ & _ & Hl).
  assert (auth (Some 3%N) (fst out) = Some (3%N, hospitalB)) as Ha
    by (vm_compute; reflexivity).
  destruct (Hl (Some 3%N) 3%N hospitalB Ha (or_introl eq_refl))
    as (l & Hget & Hin).
  exists r, l. auto.
Defined.

(** ** Updates: what is answered and what is written *)

Lemma donations_patch_ok now token id b db :
  code (snd (donations_patch now token id b db)) = 200 ->
  exists uid user d d',
    auth token db = Some (uid, user)
    /\ donations db !! id = Some d
    /\ donation_transition now uid user b d = inr d'
    /\ donations_patch now token id b db
       = (with_donations (<[id := d']> (donations db)) db,
          mkResponse 200 (inr (id, d'))).
Proof.
  destruct (auth token db) as [[uid user]|] eqn:Ha.
  2:{ unfold donations_patch. rewrite Ha. discriminate. }
  destruct (donations db !! id) as [d|] eqn:Hd.
  2:{ unfold donations_patch. rewrite Ha. run_handler. rewrite Hd.
      discriminate. }
  rewrite (donations_patch_run _ _ _ _ _ _ _ _ Ha Hd).
  destruct (donation_transition now uid user b d) as [e|d'] eqn:Ht;
    [discriminate|].
  intros _. exists uid, user, d, d'. auto.
Qed.

Lemma requests_patch_ok now token id b db :
  code (snd (requests_patch now token id b db)) = 200 ->
  exists uid user status r r',
    auth token db = Some (uid, user)
    /\ includes ["hospital"; "admin"] (Some (User.type user)) = true
    /\ requests db !! id = Some r
    /\ pb_status b = Some status
    /\ includes ["approved"; "rejected"; "completed"] (Some status) = true
    /\ request_transition now uid user status (pb_rejectionReason b) r
       = inr r'
    /\ fst (requests_patch now token id b db)
       = with_requests (<[id := r']> (requests db)) db.
Proof.
  unfold requests_patch.
  destruct (auth token db) as [[uid user]|] eqn:Ha; [|discriminate].
  run_handler.
  destruct (includes ["hospital"; "admin"] (Some (User.type user))) eqn:Hr;
    simpl; [|discriminate].
  destruct (requests db !! id) as [r|] eqn:Hd; simpl; [|discriminate].
  destruct (pb_status b) as [status|] eqn:Hs; simpl; [|discriminate].
  destruct (includes ["approved"; "rejected"; "completed"] (Some status))
    eqn:Hi; simpl; [|discriminate].
  destruct (request_transition now uid user status (pb_rejectionReason b) r)
    as [e|r'] eqn:Ht; simpl; [discriminate|].
  intros _. exists uid, user, status, r, r'. auto 10.
Qed.

(** X7. The error answers of the two update routes, none of which writes:
    an unknown donation is a 400 and an unknown request a 404; a hospital
    that sends a donation status other than approved, rejected or completed
    gets "Invalid status update"; a caller that is neither hospital, donor
    nor admin cannot update a donation, nor can a donor update a donation of
    another donor or ask for anything but a cancellation; only hospitals and
    admins may update a request (403 otherwise, before the request is even
    looked up), and only to approved, rejected or completed. *)
Theorem update_errors now token id b db uid user :
  auth token db = Some (uid, user) ->
  (donations db !! id = None ->
   donations_patch now token id b db
   = (db, mkResponse 400 (inl "Donation not found")))
  /\ (forall d,
        donations db !! id = Some d ->
        User.type user = "hospital" ->
        includes ["approved"; "rejected"; "completed"] (pb_status b) = false ->
        donations_patch now token id b db
        = (db, mkResponse 400 (inl "Invalid status update")))
  /\ (forall d,
        donations db !! id = Some d ->
        User.type user <> "hospital" ->
        User.type user <> "admin" ->
        User.type user <> "donor"
        \/ Donation.donorId d <> uid
        \/ pb_status b <> Some "cancelled" ->
        donations_patch now token id b db
        = (db, mkResponse 400 (inl "Not authorized")))
  /\ (includes ["hospital"; "admin"] (Some (User.type user)) = false ->
      requests_patch now token id b db
      = (db, mkResponse 403
               (inl "Only hospitals and admins can update request status")))
  /\ (includes ["hospital"; "admin"] (Some (User.type user)) = true ->
      requests db !! id = None ->
      requests_patch now token id b db
      = (db, mkResponse 404 (inl "Request not found")))
  /\ (forall r,
        includes ["hospital"; "admin"] (Some (User.type user)) = true ->
        requests db !! id = Some r ->
        includes ["approved"; "rejected"; "completed"] (pb_status b) = false ->
        requests_patch now token id b db
        = (db, mkResponse 400
                 (inl "Invalid status. Must be approved, rejected, or completed"))).
Proof.
  intros Ha. split; [|split; [|split; [|split; [|split]]]].
  - intros Hd. unfold donations_patch. rewrite Ha. run_handler. rewrite Hd.
    reflexivity.
  - intros d Hd Hty Hi.
    rewrite (donations_patch_run _ _ _ _ _ _ _ _ Ha Hd).
    unfold donation_transition, donation_apply. rewrite Hty, Hi. reflexivity.
  - intros d Hd Hnh Hna Hcase.
    rewrite (donations_patch_run _ _ _ _ _ _ _ _ Ha Hd).
    unfold donation_transition, donation_apply.
    destruct (String.eqb_spec (User.type user) "hospital"); [contradiction|].
    destruct (String.eqb_spec (User.type user) "donor") as [Hd'|Hd'].
    + destruct Hcase as [H | [H | H]]; [contradiction| |].
      * destruct (N.eqb_spec (Donation.donorId d) uid); [contradiction|].
        reflexivity.
      * destruct (includes ["cancelled"] (pb_status b)) eqn:Hi.
        -- apply includes_elem in Hi as (s & Hs & Hin).
           apply list_elem_of_singleton in Hin. subst s. contradiction.
        -- rewrite orb_true_r. reflexivity.
    + destruct (String.eqb_spec (User.type user) "admin"); [contradiction|].
      reflexivity.
  - intros Hrole. unfold requests_patch. rewrite Ha. run_handler.
    rewrite Hrole. reflexivity.
  - intros Hrole Hr. unfold requests_patch. rewrite Ha. run_handler.
    rewrite Hrole. simpl. rewrite Hr. reflexivity.
  - intros r Hrole Hr Hi. unfold requests_patch. rewrite Ha. run_handler.
    rewrite Hrole. simpl. rewrite Hr.
    destruct (pb_status b) as [s|]; [|reflexivity]. rewrite Hi. reflexivity.
Qed.

Lemma update_errors_witness :
  let db := with_donations {[ 10%N := pending_donation ]} sample_db in
  auth (Some 5%N) db = Some (5%N, patient1)
  /\ donations_patch 2000 (Some 5%N) 10 approve_body db
     = (db, mkResponse 400 (inl "Not authorized"))
  /\ requests_patch 2000 (Some 5%N) 20 approve_body db
     = (db, mkResponse 403
              (inl "Only hospitals and admins can update request status")).
Proof.
  cbv zeta.
  set (db := with_donations {[ 10%N := pending_donation ]} sample_db).
  assert (auth (Some 5%N) db = Some (5%N, patient1)) as Ha
    by (vm_compute; reflexivity).
  assert (donations db !! 10%N = Some pending_donation) as Hd
    by (vm_compute; reflexivity).
  destruct (update_errors 2000 (Some 5%N) 10 approve_body db 5 patient1 Ha)
    as (_ & _ & H3 & _).
  destruct (update_errors 2000 (Some 5%N) 20 approve_body db 5 patient1 Ha)
    as (_ & _ & _ & H4 & _).
  split; [exact Ha|]. split.
  - apply (H3 pending_donation Hd); [discriminate | discriminate |].
    left. discriminate.
  - apply H4. reflexivity.
Defined.

Lemma donation_cancelled_invalid d :
  Donation.status d = "cancelled" -> Donation.validate d <> [].
Proof.
  intros Hs Hv. apply donation_validate_nil_status in Hv.
  rewrite Hs in Hv. unfold Donation.statuses in Hv.
  repeat (apply elem_of_cons in Hv as [Hv | Hv]; [discriminate Hv|]).
  inversion Hv.
Qed.

(** X8. An update sent by a donor never changes the store and is always
    answered with 400: a donation of another donor and every target other
    than [cancelled] are refused, and the cancellation of an own donation
    fails in [save()], because [cancelled] is not among the statuses of the
    Donation schema. *)
Theorem donor_update_never_writes now token id b db uid user :
  auth token db = Some (uid, user) ->
  User.type user = "donor" ->
  fst (donations_patch now token id b db) = db
  /\ code (snd (donations_patch now token id b db)) = 400.
Proof.
  intros Ha Hty.
  destruct (donations db !! id) as [d|] eqn:Hd.
  2:{ unfold donations_patch. rewrite Ha. run_handler. rewrite Hd.
      split; reflexivity. }
  rewrite (donations_patch_run _ _ _ _ _ _ _ _ Ha Hd).
  destruct (donation_transition now uid user b d) as [e|d'] eqn:Ht;
    [split; reflexivity|].
  exfalso. unfold donation_transition in Ht.
  destruct (donation_apply now uid user b d) as [e|d1] eqn:Hap; simpl in Ht;
    [discriminate|].
  apply donation_apply_inr in Hap as (d0 & -> & Hcase).
  apply donation_save_inr in Ht as [Hv _].
  destruct Hcase as [(H & _) | [(H & _) | [(H & _) | [(_ & _ & _ & ->)
    | (H & _)]]]]; try (rewrite Hty in H; discriminate H).
  apply donation_cancelled_invalid in Hv; [exact Hv|].
  destruct (defined (pb_patientId b)); reflexivity.
Qed.

Lemma donor_update_never_writes_witness :
  let db := with_donations {[ 10%N := pending_donation ]} sample_db in
  auth (Some 1%N) db = Some (1%N, donor1)
  /\ User.type donor1 = "donor"
  /\ fst (donations_patch 2000 (Some 1%N) 10
            (mkPatchBody (Some "cancelled") None None) db) = db.
Proof.
  cbv zeta.
  set (db := with_donations {[ 10%N := pending_donation ]} sample_db).
  assert (auth (Some 1%N) db = Some (1%N, donor1)) as Ha
    by (vm_compute; reflexivity).
  split; [exact Ha|]. split; [reflexivity|].
  exact (proj1 (donor_update_never_writes 2000 (Some 1%N) 10
                  (mkPatchBody (Some "cancelled") None None) db 1 donor1
                  Ha eq_refl)).
Defined.

(** ** What an update never touches *)

Lemma donation_pre_save_origin now m d :
  let d' := Donation.pre_save now m d in
  Donation.donorId d' = Donation.donorId d
  /\ Donation.donorName d' = Donation.donorName d
  /\ Donation.donorEmail d' = Donation.donorEmail d
  /\ Donation.donorPhone d' = Donation.donorPhone d
  /\ Donation.type d' = Donation.type d
  /\ Donation.details d' = Donation.details d
  /\ Donation.createdAt d' = Donation.createdAt d
  /\ Donation.patientName d' = Donation.patientName d
  /\ Donation.rejectionReason d' = Donation.rejectionReason d.
Proof.
  unfold Donation.pre_save. destruct m; simpl; [|auto 10].
  destruct (_ && _); simpl; destruct (_ && _); simpl; auto 10.
Qed.

Lemma request_pre_save_origin now m r :
  let r' := Request.pre_save now m r in
  Request.patientId r' = Request.patientId r
  /\ Request.patientName r' = Request.patientName r
  /\ Request.patientEmail r' = Request.patientEmail r
  /\ Request.patientPhone r' = Request.patientPhone r
  /\ Request.type r' = Request.type r
  /\ Request.details r' = Request.details r
  /\ Request.createdAt r' = Request.createdAt r
  /\ Request.fulfilledBy_donationId r' = Request.fulfilledBy_donationId r
  /\ Request.rejectionReason r' = Request.rejectionReason r.
Proof.
  unfold Request.pre_save. destruct m; simpl; [|auto 10].
  destruct (_ && _); simpl; destruct (_ && _); simpl; auto 10.
Qed.

Lemma donation_transition_origin now uid user b d d' :
  donation_transition now uid user b d = inr d' ->
  Donation.donorId d' = Donation.donorId d
  /\ Donation.donorName d' = Donation.donorName d
  /\ Donation.donorEmail d' = Donation.donorEmail d
  /\ Donation.donorPhone d' = Donation.donorPhone d
  /\ Donation.type d' = Donation.type d
  /\ Donation.details d' = Donation.details d
  /\ Donation.createdAt d' = Donation.createdAt d
  /\ Donation.patientName d' = Donation.patientName d
  /\ Donation.rejectionReason d' = Donation.rejectionReason d
  /\ Donation.updatedAt d' = now.
Proof.
  unfold donation_transition.
  destruct (donation_apply now uid user b d) as [e|d1] eqn:Hap; simpl;
    [discriminate|].
  intros Hs. apply donation_save_inr in Hs as [_ ->].
  pose proof (donation_pre_save_origin now
    (negb (Donation.status d1 =? Donation.status d)) d1) as Ho.
  pose proof (donation_pre_save_frame now
    (negb (Donation.status d1 =? Donation.status d)) d1) as Hf.
  cbv zeta in Ho, Hf.
  destruct Ho as (-> & -> & -> & -> & -> & -> & -> & -> & ->).
  destruct Hf as (_ & _ & _ & _ & _ & _ & ->).
  apply donation_apply_inr in Hap as (d0 & -> & Hcase).
  assert (Donation.donorId d0 = Donation.donorId d
          /\ Donation.donorName d0 = Donation.donorName d
          /\ Donation.donorEmail d0 = Donation.donorEmail d
          /\ Donation.donorPhone d0 = Donation.donorPhone d
          /\ Donation.type d0 = Donation.type d
          /\ Donation.details d0 = Donation.details d
          /\ Donation.createdAt d0 = Donation.createdAt d
          /\ Donation.patientName d0 = Donation.patientName d
          /\ Donation.rejectionReason d0 = Donation.rejectionReason d) as H0.
  { destruct Hcase as [(_ & _ & ->) | [(_ & _ & ->) | [(_ & _ & ->)
      | [(_ & _ & _ & ->) | (_ & ->)]]]]; simpl; auto 10. }
  destruct (defined (pb_patientId b)); simpl; intuition.
Qed.

Lemma request_transition_origin now uid user status reason r r' :
  request_transition now uid user status reason r = inr r' ->
  Request.patientId r' = Request.patientId r
  /\ Request.patientName r' = Request.patientName r
  /\ Request.patientEmail r' = Request.patientEmail r
  /\ Request.patientPhone r' = Request.patientPhone r
  /\ Request.type r' = Request.type r
  /\ Request.details r' = Request.details r
  /\ Request.createdAt r' = Request.createdAt r
  /\ Request.fulfilledBy_donationId r' = Request.fulfilledBy_donationId r
  /\ Request.rejectionReason r' = Request.rejectionReason r
  /\ Request.updatedAt r' = now.
Proof.
  unfold request_transition. intros Hs.
  apply request_save_inr in Hs as [_ ->].
  set (r1 := request_apply now uid user status reason r).
  pose proof (request_pre_save_origin now
    (negb (Request.status r1 =? Request.status r)) r1) as Ho.
  pose proof (request_pre_save_frame now
    (negb (Request.status r1 =? Request.status r)) r1) as Hf.
  cbv zeta in Ho, Hf.
  destruct Ho as (-> & -> & -> & -> & -> & -> & -> & -> & ->).
  destruct Hf as (_ & _ & _ & _ & _ & ->).
  unfold r1, request_apply.
  destruct (status =? "approved"); [simpl; auto 10|].
  destruct (status =? "rejected"); simpl; auto 10.
Qed.

(** X9. An update that answers 200 rewrites one entry and nothing else: the
    other entries, the other collection, the users and the statistics are as
    before. In the entry itself the owner and the snapshot of the owner's
    contact data, the type, the details, [createdAt] and the top-level
    [rejectionReason] are never changed (a rejection reason is only recorded
    inside [rejectedByHospitals]), and [updatedAt] is the time of the
    update. *)
Theorem update_rewrites_one_entry now token id b db :
  (let out := donations_patch now token id b db in
   code (snd out) = 200 ->
   exists d d',
     donations db !! id = Some d
     /\ donations (fst out) !! id = Some d'
     /\ (forall id', id' <> id ->
           donations (fst out) !! id' = donations db !! id')
     /\ requests (fst out) = requests db
     /\ users (fst out) = users db
     /\ stats (fst out) = stats db
     /\ Donation.donorId d' = Donation.donorId d
     /\ Donation.donorName d' = Donation.donorName d
     /\ Donation.donorEmail d' = Donation.donorEmail d
     /\ Donation.donorPhone d' = Donation.donorPhone d
     /\ Donation.type d' = Donation.type d
     /\ Donation.details d' = Donation.details d
     /\ Donation.createdAt d' = Donation.createdAt d
     /\ Donation.rejectionReason d' = Donation.rejectionReason d
     /\ Donation.updatedAt d' = now)
  /\ (let out := requests_patch now token id b db in
      code (snd out) = 200 ->
      exists r r',
        requests db !! id = Some r
        /\ requests (fst out) !! id = Some r'
        /\ (forall id', id' <> id ->
              requests (fst out) !! id' = requests db !! id')
        /\ donations (fst out) = donations db
        /\ users (fst out) = users db
        /\ stats (fst out) = stats db
        /\ Request.patientId r' = Request.patientId r
        /\ Request.patientName r' = Request.patientName r
        /\ Request.patientEmail r' = Request.patientEmail r
        /\ Request.patientPhone r' = Request.patientPhone r
        /\ Request.type r' = Request.type r
        /\ Request.details r' = Request.details r
        /\ Request.createdAt r' = Request.createdAt r
        /\ Request.rejectionReason r' = Request.rejectionReason r
        /\ Request.updatedAt r' = now).
Proof.
  split; cbv zeta; intros Hc.
  - apply donations_patch_ok in Hc
      as (uid & user & d & d' & _ & Hd & Ht & ->).
    apply donation_transition_origin in Ht
      as (? & ? & ? & ? & ? & ? & ? & _ & ? & ?).
    exists d, d'. simpl. rewrite lookup_insert_eq.
    repeat split; try assumption.
    intros id' Hne. apply lookup_insert_ne. congruence.
  - apply requests_patch_ok in Hc
      as (uid & user & status & r & r' & _ & _ & Hr & _ & _ & Ht & ->).
    apply request_transition_origin in Ht
      as (? & ? & ? & ? & ? & ? & ? & _ & ? & ?).
    exists r, r'. simpl. rewrite lookup_insert_eq.
    repeat split; try assumption.
    intros id' Hne. apply lookup_insert_ne. congruence.
Qed.

Lemma update_rewrites_one_entry_witness :
  let db := with_donations {[ 10%N := pending_donation ]} sample_db in
  let out := donations_patch 2000 (Some 2%N) 10 approve_body db in
  code (snd out) = 200
  /\ exists d',
       donations (fst out) !! 10%N = Some d'
       /\ Donation.donorId d' = 1%N
       /\ Donation.updatedAt d' = 2000%Z
       /\ stats (fst out) = stats db.
Proof.
  cbv zeta.
  set (db := with_donations {[ 10%N := pending_donation ]} sample_db).
  assert (code (snd (donations_patch 2000 (Some 2%N) 10 approve_body db))
          = 200) as Hc by (vm_compute; reflexivity).
  split; [exact Hc|].
  destruct (proj1 (update_rewrites_one_entry 2000 (Some 2%N) 10 approve_body
                     db) Hc)
    as (d & d' & Hd & Hd' & _ & _ & _ & Hst & Hid & _ & _ & _ & _ & _ & _ & _
        & Hu).
  exists d'. split; [exact Hd'|]. split; [|split; [exact Hu | exact Hst]].
  rewrite Hid.
  assert (donations db !! 10%N = Some pending_donation) as Hp
    by (vm_compute; reflexivity).
  pose proof (eq_trans (eq_sym Hd) Hp) as [= ->]. reflexivity.
Defined.

(** ** The statistics of the ledger *)

Lemma sum_list_add {A} (g h : A -> nat) (fs : list A) :
  sum_list ((fun f => g f + h f)%nat <$> fs)
  = (sum_list (g <$> fs) + sum_list (h <$> fs))%nat.
Proof. induction fs as [|f fs IH]; csimpl; [reflexivity|]. rewrite IH. lia. Qed.

Lemma count_partition {A} (fs : list (A -> bool)) (l : list A) :
  Forall (fun x => sum_list ((fun f => Nat.b2n (f x)) <$> fs) = 1%nat) l ->
  List.length l
  = sum_list ((fun f => List.length (List.filter f l)) <$> fs).
Proof.
  induction 1 as [|x l Hx _ IH].
  - induction fs as [|f fs IHfs]; simpl; [reflexivity|]. exact IHfs.
  - transitivity
      (sum_list ((fun f => Nat.b2n (f x) + List.length (List.filter f l))%nat
                 <$> fs)).
    + rewrite sum_list_add, Hx, <- IH. reflexivity.
    + f_equal. apply list_fmap_ext. intros i f _. simpl.
      destruct (f x); reflexivity.
Qed.

Lemma count_none {A} (f : A -> bool) (l : list A) :
  Forall (fun x => f x = false) l -> List.length (List.filter f l) = 0%nat.
Proof.
  induction 1 as [|x l Hx _ IH]; simpl; [reflexivity|]. rewrite Hx. exact IH.
Qed.

Lemma countDocuments_total {A} (coll : gmap ObjectId A) :
  countDocuments (fun _ => true) coll = size coll.
Proof.
  unfold countDocuments. rewrite <- length_map_to_list.
  induction (map_to_list coll) as [|x l IH]; simpl; congruence.
Qed.

Lemma countDocuments_partition {A} (fs : list (A -> bool))
    (coll : gmap ObjectId A) :
  map_Forall
    (fun _ x => sum_list ((fun f => Nat.b2n (f x)) <$> fs) = 1%nat) coll ->
  size coll = sum_list ((fun f => countDocuments f coll) <$> fs).
Proof.
  intros H. apply map_Forall_to_list in H.
  rewrite <- length_map_to_list. unfold countDocuments.
  rewrite (count_partition ((fun f kd => f (snd kd)) <$> fs)).
  - rewrite <- list_fmap_compose. reflexivity.
  - eapply Forall_impl; [exact H|]. intros [k x] Hx. simpl in *.
    rewrite <- list_fmap_compose. exact Hx.
Qed.

Lemma countDocuments_none {A} (f : A -> bool) (coll : gmap ObjectId A) :
  map_Forall (fun _ x => f x = false) coll -> countDocuments f coll = 0%nat.
Proof.
  intros H. apply map_Forall_to_list in H. unfold countDocuments.
  apply count_none. eapply Forall_impl; [exact H|]. intros [k x] Hx.
  exact Hx.
Qed.

Lemma countDocuments_le {A} (f : A -> bool) (coll : gmap ObjectId A) :
  (countDocuments f coll <= size coll)%nat.
Proof.
  unfold countDocuments. rewrite <- length_map_to_list.
  induction (map_to_list coll) as [|x l IH]; simpl; [lia|].
  destruct (f x.2); simpl; lia.
Qed.

Lemma donation_validate_nil_type d :
  Donation.validate d = [] ->
  Donation.type d = Some "blood" \/ Donation.type d = Some "medicine".
Proof.
  unfold Donation.validate. intros H. apply app_eq_nil in H as [H _].
  destruct (Donation.type d) as [ty|]; [|discriminate].
  destruct (existsb (String.eqb ty) Donation.types) eqn:E; [|discriminate].
  apply existsb_exists in E as (x & Hin & Hx).
  apply String.eqb_eq in Hx. subst x.
  unfold Donation.types in Hin. simpl in Hin.
  destruct Hin as [<- | [<- | []]]; auto.
Qed.

Lemma request_validate_nil_type r :
  Request.validate r = [] ->
  Request.type r = Some "blood" \/ Request.type r = Some "medicine"
  \/ Request.type r = Some "bed" \/ Request.type r = Some "doctor".
Proof.
  unfold Request.validate. intros H. apply app_eq_nil in H as [H _].
  destruct (Request.type r) as [ty|]; [|discriminate].
  destruct (existsb (String.eqb ty) Request.types) eqn:E; [|discriminate].
  apply existsb_exists in E as (x & Hin & Hx).
  apply String.eqb_eq in Hx. subst x.
  unfold Request.types in Hin. simpl in Hin.
  destruct Hin as [<- | [<- | [<- | [<- | []]]]]; auto.
Qed.

(** The statuses and types that entries of a ledger grown from an empty one
    can have. *)
Lemma reachable_statuses db :
  reachable db ->
  ledger_all
    (fun d =>
       (Donation.status d = "pending" \/ Donation.status d = "approved"
        \/ Donation.status d = "completed")
       /\ (Donation.type d = Some "blood"
           \/ Donation.type d = Some "medicine"))
    (fun r =>
       (Request.status r = "pending" \/ Request.status r = "approved"
        \/ Request.status r = "completed")
       /\ (Request.type r = Some "blood" \/ Request.type r = Some "medicine"
           \/ Request.type r = Some "bed" \/ Request.type r = Some "doctor"))
    db.
Proof.
  apply reachable_ledger_all.
  - intros now uid donor b Hv. split.
    + left.
      destruct (donation_pre_save_frame now true (new_donation now uid donor b))
        as (-> & _). reflexivity.
    + destruct (donation_pre_save_origin now true
                  (new_donation now uid donor b))
        as (_ & _ & _ & _ & -> & _).
      apply donation_validate_nil_type. exact Hv.
  - intros now uid user b d d' [Hs Hty] Ht. split.
    + destruct (donation_transition_status _ _ _ _ _ _ Ht)
        as [(_ & _ & -> & _) | [(_ & _ & -> & _) | (-> & _)]]; auto.
    + apply donation_transition_origin in Ht
        as (_ & _ & _ & _ & -> & _). exact Hty.
  - intros now uid patient b Hv. split.
    + left.
      destruct (request_pre_save_frame now true (new_request now uid patient b))
        as (-> & _). reflexivity.
    + destruct (request_pre_save_origin now true
                  (new_request now uid patient b))
        as (_ & _ & _ & _ & -> & _).
      apply request_validate_nil_type. exact Hv.
  - intros now uid user status reason r r' Hi [Hs Hty] Ht. split.
    + destruct (request_transition_status _ _ _ _ _ _ _ Hi Ht)
        as [([-> | ->] & -> & _) | (_ & -> & _)]; auto.
    + apply request_transition_origin in Ht
        as (_ & _ & _ & _ & -> & _). exact Hty.
Qed.

(** X10. The two [/stats] routes of the ledger never write. On a ledger
    that the workflow has grown from an empty one, every entry is pending,
    approved or completed, so the counts by status that the routes report
    add up to the total, and the [cancelled] count of donations and the
    [rejected] count of requests are always 0; likewise the counts by type
    add up to the total. *)
Theorem ledger_stats_add_up token db :
  reachable db ->
  (fst (donations_stats token db) = db
   /\ forall s,
        body (snd (donations_stats token db)) = inr s ->
        ds_total s = size (donations db)
        /\ ds_total s = (ds_pending s + ds_approved s + ds_completed s)%nat
        /\ ds_cancelled s = 0%nat
        /\ ds_total s = (ds_blood s + ds_medicine s)%nat)
  /\ (fst (requests_stats token db) = db
      /\ forall s,
           body (snd (requests_stats token db)) = inr s ->
           rs_total s = size (requests db)
           /\ rs_total s = (rs_pending s + rs_approved s + rs_completed s)%nat
           /\ rs_rejected s = 0%nat
           /\ rs_total s
              = (rs_blood s + rs_medicine s + rs_bed s + rs_doctor s)%nat).
Proof.
  intros Hr. apply reachable_statuses in Hr as [HD HR].
  split.
  - unfold donations_stats.
    destruct (auth token db) as [[uid user]|]; [|split; [reflexivity|]];
      [|intros s [=]].
    run_handler. split; [reflexivity|]. intros s [= <-]. simpl.
    rewrite countDocuments_total. split; [reflexivity|].
    split; [|split].
    + rewrite (countDocuments_partition
                 [fun d => Donation.status d =? "pending";
                  fun d => Donation.status d =? "approved";
                  fun d => Donation.status d =? "completed"]).
      * simpl. lia.
      * eapply map_Forall_impl; [exact HD|]. simpl.
        intros _ d [[-> | [-> | ->]] _]; reflexivity.
    + apply countDocuments_none. eapply map_Forall_impl; [exact HD|]. simpl.
      intros _ d [[-> | [-> | ->]] _]; reflexivity.
    + rewrite (countDocuments_partition
                 [fun d => is_lit (Donation.type d) "blood";
                  fun d => is_lit (Donation.type d) "medicine"]).
      * simpl. lia.
      * eapply map_Forall_impl; [exact HD|]. simpl.
        intros _ d [_ [-> | ->]]; reflexivity.
  - unfold requests_stats.
    destruct (auth token db) as [[uid user]|]; [|split; [reflexivity|]];
      [|intros s [=]].
    run_handler. split; [reflexivity|]. intros s [= <-]. simpl.
    rewrite countDocuments_total. split; [reflexivity|].
    split; [|split].
    + rewrite (countDocuments_partition
                 [fun r => Request.status r =? "pending";
                  fun r => Request.status r =? "approved";
                  fun r => Request.status r =? "completed"]).
      * simpl. lia.
      * eapply map_Forall_impl; [exact HR|]. simpl.
        intros _ r [[-> | [-> | ->]] _]; reflexivity.
    + apply countDocuments_none. eapply map_Forall_impl; [exact HR|]. simpl.
      intros _ r [[-> | [-> | ->]] _]; reflexivity.
    + rewrite (countDocuments_partition
                 [fun r => is_lit (Request.type r) "blood";
                  fun r => is_lit (Request.type r) "medicine";
                  fun r => is_lit (Request.type r) "bed";
                  fun r => is_lit (Request.type r) "doctor"]).
      * simpl. lia.
      * eapply map_Forall_impl; [exact HR|]. simpl.
        intros _ r [_ [-> | [-> | [-> | ->]]]]; reflexivity.
Qed.

Lemma ledger_stats_add_up_witness :
  reachable completed_unassigned_db
  /\ exists s,
       body (snd (donations_stats (Some 2%N) completed_unassigned_db)) = inr s
       /\ ds_total s = 1%nat
       /\ ds_completed s = 1%nat
       /\ ds_cancelled s = 0%nat.
Proof.
  assert (reachable completed_unassigned_db) as Hr.
  { exists sample_db. split; [split; reflexivity|].
    exact sample_db_reaches_completed. }
  split; [exact Hr|].
  destruct (ledger_stats_add_up (Some 2%N) completed_unassigned_db Hr)
    as [[_ H] _].
  destruct (body (snd (donations_stats (Some 2%N) completed_unassigned_db)))
    as [e|s] eqn:Hb; [vm_compute in Hb; discriminate Hb|].
  exists s. split; [reflexivity|].
  destruct (H s eq_refl) as (_ & _ & Hc & _).
  assert (inr s = (inr (mkDonationStats 1 0 0 1 0 1 0 None (Some 0%nat))
                   : string + DonationStats)) as [= ->]
    by (rewrite <- Hb; vm_compute; reflexivity).
  split; [reflexivity|]. split; [reflexivity | exact Hc].
Defined.

(** ** Logging in *)

Lemma findOne_user_unique filter (coll : gmap ObjectId User.t) id u :
  coll !! id = Some u ->
  filter u = true ->
  (forall j v, coll !! j = Some v -> filter v = true -> j = id) ->
  findOne_user filter coll = Some (id, u).
Proof.
  intros Hu Hf Huniq. unfold findOne_user.
  destruct (List.find (fun kd => filter kd.2) (map_to_list coll))
    as [[j v]|] eqn:E.
  - apply find_some in E as [Hin Hv]. simpl in Hv.
    apply list_elem_of_In, elem_of_map_to_list in Hin.
    pose proof (Huniq j v Hin Hv) as ->. congruence.
  - exfalso.
    assert (In (id, u) (map_to_list coll)) as Hin
      by (apply list_elem_of_In, elem_of_map_to_list; exact Hu).
    pose proof (find_none _ _ E (id, u) Hin) as Hn. simpl in Hn. congruence.
Qed.

Lemma findOne_user_None filter (coll : gmap ObjectId User.t) :
  findOne_user filter coll = None <->
  forall id u, coll !! id = Some u -> filter u = false.
Proof.
  unfold findOne_user. split.
  - intros E id u Hu. apply (find_none _ _ E (id, u)).
    apply list_elem_of_In, elem_of_map_to_list. exact Hu.
  - intros H.
    destruct (List.find (fun kd => filter kd.2) (map_to_list coll))
      as [[j v]|] eqn:E; [|reflexivity].
    apply find_some in E as [Hin Hv]. simpl in Hv.
    apply list_elem_of_In, elem_of_map_to_list in Hin.
    rewrite (H j v Hin) in Hv. discriminate.
Qed.

Lemma findOne_login (coll : gmap ObjectId User.t) email type id u :
  unique_emails coll ->
  coll !! id = Some u ->
  User.email u = cast_email (toLowerCase email) ->
  User.type u = toLowerCase type ->
  findOne_user (login_filter email type) coll = Some (id, u).
Proof.
  intros Huniq Hu He Ht. apply findOne_user_unique; [exact Hu| |].
  - unfold login_filter. rewrite He, Ht, !String.eqb_refl. reflexivity.
  - intros j v Hv Hf. unfold login_filter in Hf.
    apply andb_true_iff in Hf as [Hf _]. apply String.eqb_eq in Hf.
    apply (Huniq j id v u Hv Hu). congruence.
Qed.

Lemma truthy_Some s : truthy (Some s) = true <-> s <> "".
Proof.
  unfold truthy. destruct (String.eqb_spec s ""); simpl; split; intros H;
    congruence.
Qed.

Section Accounts.
Variable bcrypt_hash : string -> string -> string.
Variable bcrypt_compare : string -> string -> bool.

(** The login of a request that carries the three fields, by what the
    [findOne] returns. *)
Lemma login_run now b db email password type :
  lb_email b = Some email -> lb_password b = Some password ->
  lb_type b = Some type ->
  email <> "" -> password <> "" -> type <> "" ->
  login bcrypt_hash bcrypt_compare now b db
  = match findOne_user (login_filter email type) (users db) with
    | None => (db, mkResponse 400 (inl "Invalid login credentials"))
    | Some (id, user) =>
        if User.isLocked now user
        then (db, mkResponse 423
                    (inl "Account is temporarily locked due to too many failed login attempts. Please try again later."))
        else if User.status user =? "deactivated"
        then (db, mkResponse 403
                    (inl "Account has been deactivated. Please contact support."))
        else
          match User.comparePassword bcrypt_compare password user with
          | inl e => (db, mkResponse 500 (inl "Login failed. Please try again."))
          | inr false =>
              (with_users (<[id := User.incLoginAttempts now user]> (users db))
                 db,
               mkResponse 400 (inl "Invalid login credentials"))
          | inr true =>
              let db1 :=
                if (0 <? User.loginAttempts user)%Z
                then with_users
                       (<[id := User.resetLoginAttempts now user]> (users db))
                       db
                else db in
              match User.save bcrypt_hash now "" false
                      (User.set_lastLogin (Some now) user) with
              | inl e =>
                  (db1, mkResponse 500 (inl "Login failed. Please try again."))
              | inr saved =>
                  (with_users (alter (write_login saved) id (users db1)) db1,
                   mkResponse 200
                     (inr (mkAuthOk
                             (user_view id saved (User.lastLogin saved)) id)))
              end
          end
    end.
Proof.
  intros He Hp Ht Hne Hnp Hnt. unfold login. rewrite He, Hp, Ht.
  apply truthy_Some in Hne, Hnp, Hnt. rewrite Hne, Hnp, Hnt.
  run_auth_handler. unfold login_filter.
  destruct (findOne_user _ (users db)) as [[id u]|]; simpl; [|reflexivity].
  destruct (User.isLocked now u); simpl; [reflexivity|].
  destruct (User.status u =? "deactivated"); simpl; [reflexivity|].
  destruct (User.comparePassword bcrypt_compare password u) as [e|[|]];
    simpl; [reflexivity| |reflexivity].
  destruct (0 <? User.loginAttempts u)%Z; simpl;
    destruct (User.save bcrypt_hash now "" false
                (User.set_lastLogin (Some now) u)); reflexivity.
Qed.

(** A login that is answered 200 carried the three fields. *)
Lemma login_fields now b db :
  code (snd (login bcrypt_hash bcrypt_compare now b db)) = 200 ->
  exists email password type,
    lb_email b = Some email /\ lb_password b = Some password
    /\ lb_type b = Some type
    /\ email <> "" /\ password <> "" /\ type <> "".
Proof.
  unfold login.
  destruct (lb_email b) as [email|]; run_auth_handler; [|discriminate].
  destruct (lb_password b) as [password|]; simpl; [|discriminate].
  destruct (lb_type b) as [type|]; simpl; [|discriminate].
  destruct (truthy (Some email)) eqn:He; simpl; [|discriminate].
  destruct (truthy (Some password)) eqn:Hp; simpl; [|discriminate].
  destruct (truthy (Some type)) eqn:Ht; simpl; [|discriminate].
  intros _. exists email, password, type.
  apply truthy_Some in He, Hp, Ht. auto 10.
Qed.

Lemma user_pre_save_profile_frame now u :
  let u' := User.pre_save_profile now u in
  User.email u' = User.email u
  /\ User.password u' = User.password u
  /\ User.googleId u' = User.googleId u
  /\ User.type u' = User.type u
  /\ User.status u' = User.status u
  /\ User.lastLogin u' = User.lastLogin u
  /\ User.loginAttempts u' = User.loginAttempts u
  /\ User.accountLocked u' = User.accountLocked u
  /\ User.lockUntil u' = User.lockUntil u
  /\ User.updatedAt u' = now.
Proof.
  unfold User.pre_save_profile.
  match goal with |- context [if ?c then _ else _] => destruct c end;
    simpl; auto 10.
Qed.

(** X11. A login is answered 200 only with the right credentials: the
    request names the type and, up to case and surrounding white space (the
    address of the request in lower case, cast by the setters of the [email]
    path as the query does), the email of a stored account that is not
    locked and not deactivated and has a password hash against which the
    submitted password compares equal. The token and the user of the
    response are for that account. The login then records the time as
    [lastLogin], clears the failed attempts, and leaves the account's email,
    type and password hash and every other account as they were. *)
Theorem login_checks_credentials now b db :
  let out := login bcrypt_hash bcrypt_compare now b db in
  code (snd out) = 200 ->
  exists id u email password type ok,
    lb_email b = Some email /\ lb_password b = Some password
    /\ lb_type b = Some type
    /\ users db !! id = Some u
    /\ User.email u = cast_email (toLowerCase email)
    /\ User.type u = toLowerCase type
    /\ User.isLocked now u = false
    /\ User.status u <> "deactivated"
    /\ (exists h, User.password u = Some h
                  /\ bcrypt_compare password h = true)
    /\ body (snd out) = inr ok
    /\ ao_token ok = id
    /\ uv_id (ao_user ok) = id
    /\ uv_lastLogin (ao_user ok) = Some now
    /\ (exists u',
          users (fst out) !! id = Some u'
          /\ User.lastLogin u' = Some now
          /\ User.loginAttempts u'
             = (if (0 <? User.loginAttempts u)%Z then 0%Z
                else User.loginAttempts u)
          /\ User.email u' = User.email u
          /\ User.type u' = User.type u
          /\ User.password u' = User.password u)
    /\ (forall j, j <> id -> users (fst out) !! j = users db !! j)
    /\ donations (fst out) = donations db
    /\ requests (fst out) = requests db
    /\ stats (fst out) = stats db.
Proof.
  cbv zeta. intros Hc.
  destruct (login_fields _ _ _ Hc)
    as (email & password & type & He & Hp & Ht & Hne & Hnp & Hnt).
  rewrite (login_run _ _ _ _ _ _ He Hp Ht Hne Hnp Hnt) in Hc |- *.
  destruct (findOne_user (login_filter email type) (users db))
    as [[id u]|] eqn:Hf; [|discriminate].
  apply findOne_user_Some in Hf as [Hu Hf]. unfold login_filter in Hf.
  apply andb_true_iff in Hf as [Hfe Hft].
  apply String.eqb_eq in Hfe, Hft.
  destruct (User.isLocked now u) eqn:Hl; [discriminate|].
  destruct (String.eqb_spec (User.status u) "deactivated") as [|Hst];
    [discriminate|].
  destruct (User.comparePassword bcrypt_compare password u) as [e|[|]]
    eqn:Hcmp; [discriminate| |discriminate].
  assert (exists h, User.password u = Some h
                    /\ bcrypt_compare password h = true) as Hpw.
  { unfold User.comparePassword in Hcmp.
    destruct (truthy (User.googleId u) && negb (truthy (User.password u)));
      [discriminate|].
    destruct (User.password u) as [h|]; [|discriminate].
    exists h. split; [reflexivity|]. congruence. }
  cbv zeta in Hc |- *.
  destruct (User.save bcrypt_hash now "" false
              (User.set_lastLogin (Some now) u)) as [e|saved] eqn:Hs;
    [destruct (0 <? User.loginAttempts u)%Z; discriminate|].
  apply user_save_loaded in Hs.
  destruct (user_pre_save_profile_frame now (User.set_lastLogin (Some now) u))
    as (_ & _ & _ & _ & _ & Hll & _).
  rewrite <- Hs in Hll. simpl in Hll.
  exists id, u, email, password, type,
    (mkAuthOk (user_view id saved (User.lastLogin saved)) id).
  do 8 (split; [assumption|]).
  split; [exact Hpw|]. split; [reflexivity|]. split; [reflexivity|].
  split; [reflexivity|]. split; [exact Hll|].
  destruct (0 <? User.loginAttempts u)%Z; simpl.
  - rewrite lookup_alter_eq, lookup_insert_eq. simpl.
    split; [eexists; split; [reflexivity|]; simpl; auto 10|].
    split; [|auto].
    intros j Hj. rewrite lookup_alter_ne, lookup_insert_ne by congruence.
    reflexivity.
  - rewrite lookup_alter_eq, Hu. simpl.
    split; [eexists; split; [reflexivity|]; simpl; auto 10|].
    split; [|auto].
    intros j Hj. rewrite lookup_alter_ne by congruence. reflexivity.
Qed.

(** X12. The refusals of the login. The account a request names is the one
    whose type is that of the request and whose email is the address of the
    request in lower case, cast by the setters of the [email] path (trimmed)
    as the query does. A request that names no stored account is answered
    400 and nothing is written. For a request that names a stored account:
    a locked account is answered 423 and a deactivated one 403, whatever the
    password, and nothing is written; a password that does not compare equal
    is answered 400 with the message that an unknown email gets, and the
    failed attempt is recorded on the account by [incLoginAttempts], whose
    update also sets [updatedAt]. *)
Theorem login_refusals now b db email password type :
  lb_email b = Some email -> lb_password b = Some password ->
  lb_type b = Some type ->
  email <> "" -> password <> "" -> type <> "" ->
  let out := login bcrypt_hash bcrypt_compare now b db in
  ((forall id u, users db !! id = Some u ->
      User.email u = cast_email (toLowerCase email) ->
      User.type u <> toLowerCase type) ->
   out = (db, mkResponse 400 (inl "Invalid login credentials")))
  /\ (forall id u,
        unique_emails (users db) ->
        users db !! id = Some u ->
        User.email u = cast_email (toLowerCase email) ->
        User.type u = toLowerCase type ->
        (User.isLocked now u = true -> fst out = db /\ code (snd out) = 423)
        /\ (User.isLocked now u = false ->
            User.status u = "deactivated" ->
            fst out = db /\ code (snd out) = 403)
        /\ (User.isLocked now u = false ->
            User.status u <> "deactivated" ->
            User.comparePassword bcrypt_compare password u = inr false ->
            exists u',
              out = (with_users (<[id := u']> (users db)) db,
                     mkResponse 400 (inl "Invalid login credentials"))
              /\ u' = User.incLoginAttempts now u
              /\ User.updatedAt u' = now
              /\ User.loginAttempts u'
                 = match User.lockUntil u with
                   | Some t => if (t <? now)%Z then 1%Z
                               else (User.loginAttempts u + 1)%Z
                   | None => (User.loginAttempts u + 1)%Z
                   end
              /\ User.email u' = User.email u
              /\ User.type u' = User.type u
              /\ User.password u' = User.password u)).
Proof.
  intros He Hp Ht Hne Hnp Hnt. cbv zeta.
  rewrite (login_run _ _ _ _ _ _ He Hp Ht Hne Hnp Hnt). split.
  - intros Hnone.
    assert (findOne_user (login_filter email type) (users db) = None) as ->;
      [|reflexivity].
    apply findOne_user_None. intros id u Hu. unfold login_filter.
    destruct (String.eqb_spec (User.email u) (cast_email (toLowerCase email)))
      as [E|]; [|reflexivity].
    destruct (String.eqb_spec (User.type u) (toLowerCase type)) as [E'|];
      [|reflexivity].
    destruct (Hnone id u Hu E E').
  - intros id u Huniq Hu Hue Hut.
    rewrite (findOne_login _ _ _ _ _ Huniq Hu Hue Hut).
    split; [intros ->; split; reflexivity|].
    split.
    + intros -> ->. simpl. split; reflexivity.
    + intros -> Hst ->.
      destruct (String.eqb_spec (User.status u) "deactivated");
        [contradiction|].
      eexists. split; [reflexivity|]. split; [reflexivity|].
      unfold User.incLoginAttempts.
      destruct (User.lockUntil u) as [t|]; [destruct (t <? now)%Z|];
        try destruct (_ && _); simpl; auto 10.
Qed.

End Accounts.

Lemma NoDup_fmap_eq {A B} (f : A -> B) (l : list A) x y :
  NoDup (f <$> l) -> x ∈ l -> y ∈ l -> f x = f y -> x = y.
Proof.
  induction l as [|a l IH]; csimpl; intros Hnd Hx Hy Hf.
  - inversion Hx.
  - apply NoDup_cons in Hnd as [Ha Hnd].
    apply elem_of_cons in Hx as [-> | Hx];
      apply elem_of_cons in Hy as [-> | Hy]; auto.
    + exfalso. apply Ha. rewrite Hf. apply list_elem_of_fmap_2. exact Hy.
    + exfalso. apply Ha. rewrite <- Hf. apply list_elem_of_fmap_2. exact Hx.
Qed.

Lemma unique_emails_NoDup (coll : gmap ObjectId User.t) :
  NoDup ((fun kd => User.email kd.2) <$> map_to_list coll) ->
  unique_emails coll.
Proof.
  intros Hnd i j u v Hi Hj He.
  apply elem_of_map_to_list in Hi, Hj.
  pose proof (NoDup_fmap_eq (fun kd : ObjectId * User.t => User.email kd.2)
                _ (i, u) (j, v) Hnd Hi Hj He) as [= -> _].
  reflexivity.
Qed.

Lemma unique_emails_insert_same (coll : gmap ObjectId User.t) id u u' :
  unique_emails coll ->
  coll !! id = Some u ->
  User.email u' = User.email u ->
  unique_emails (<[id := u']> coll).
Proof.
  intros Huniq Hu He i j a c Hi Hj Hac.
  destruct (decide (i = id)) as [->|Hni];
    destruct (decide (j = id)) as [->|Hnj]; [reflexivity| | |].
  - rewrite lookup_insert_eq in Hi. rewrite lookup_insert_ne in Hj by auto.
    injection Hi as <-. symmetry. apply (Huniq j id c u Hj Hu). congruence.
  - rewrite lookup_insert_eq in Hj. rewrite lookup_insert_ne in Hi by auto.
    injection Hj as <-. apply (Huniq i id a u Hi Hu). congruence.
  - rewrite lookup_insert_ne in Hi, Hj by auto. exact (Huniq i j a c Hi Hj Hac).
Qed.

Lemma login_checks_credentials_witness :
  let out := login sample_hash sample_compare 6000 padded_login registered_db in
  code (snd out) = 200
  /\ exists ok u',
       body (snd out) = inr ok
       /\ ao_token ok = 9%N
       /\ users (fst out) !! 9%N = Some u'
       /\ User.email u' = "hill@example.org"
       /\ User.lastLogin u' = Some 6000%Z.
Proof.
  cbv zeta.
  assert (code (snd (login sample_hash sample_compare 6000 padded_login
                       registered_db)) = 200) as Hc
    by (vm_compute; reflexivity).
  split; [exact Hc|].
  destruct (login_checks_credentials sample_hash sample_compare 6000
              padded_login registered_db Hc)
    as (id & u & email & password & type & ok & He & _ & Hty & Hu & Hue & _
        & _ & _ & _ & Hb & Htok & _ & _ & (u' & Hu' & Hll & _ & Hue' & _) & _).
  injection He as <-.
  assert (id = 9%N) as ->.
  { assert (unique_emails (users registered_db)) as Huniq
      by (apply unique_emails_NoDup, (bool_decide_unpack _); vm_compute;
          reflexivity).
    assert (users registered_db !! 9%N = Some registered_hospital) as H9
      by (vm_compute; reflexivity).
    apply (Huniq id 9%N u registered_hospital Hu H9). rewrite Hue.
    vm_compute. reflexivity. }
  exists ok, u'. rewrite Hue', Hue. auto 10.
Defined.

Lemma login_refusals_witness :
  let out := login sample_hash sample_compare 6001 wrong_login registered_db in
  User.updatedAt registered_hospital = 5000%Z
  /\ exists u',
       out = (with_users (<[9%N := u']> (users registered_db)) registered_db,
              mkResponse 400 (inl "Invalid login credentials"))
       /\ User.updatedAt u' = 6001%Z
       /\ User.loginAttempts u' = 1%Z.
Proof.
  cbv zeta. split; [reflexivity|].
  assert (unique_emails (users registered_db)) as Huniq
    by (apply unique_emails_NoDup, (bool_decide_unpack _); vm_compute;
        reflexivity).
  assert (users registered_db !! 9%N = Some registered_hospital) as H9
    by (vm_compute; reflexivity).
  assert (User.status registered_hospital <> "deactivated") as Hst
    by (vm_compute; distinct).
  assert (exists u',
    login sample_hash sample_compare 6001 wrong_login registered_db
    = (with_users (<[9%N := u']> (users registered_db)) registered_db,
       mkResponse 400 (inl "Invalid login credentials"))
    /\ u' = User.incLoginAttempts 6001 registered_hospital
    /\ User.updatedAt u' = 6001%Z
    /\ User.loginAttempts u'
       = match User.lockUntil registered_hospital with
         | Some t => if (t <? 6001)%Z then 1%Z
                     else (User.loginAttempts registered_hospital + 1)%Z
         | None => (User.loginAttempts registered_hospital + 1)%Z
         end
    /\ User.email u' = User.email registered_hospital
    /\ User.type u' = User.type registered_hospital
    /\ User.password u' = User.password registered_hospital)
    as (u' & Hout & _ & Hup & Hatt & _).
  { refine (proj2 (proj2 (proj2
      (login_refusals sample_hash sample_compare 6001 wrong_login
         registered_db "hill@example.org" "letmein-letmein" "hospital"
         eq_refl eq_refl eq_refl _ _ _)
      9%N registered_hospital Huniq H9 _ _)) _ Hst _);
      try distinct; vm_compute; reflexivity. }
  exists u'. split; [exact Hout|]. split; [exact Hup | exact Hatt].
Defined.

Section Lockout.
Variable bcrypt_hash : string -> string -> string.
Variable bcrypt_compare : string -> string -> bool.

(** X13. The fifth failed login locks the account for two hours. When an
    account without a lock that already has four or more failed attempts
    fails once more, the attempt is counted, [accountLocked] is set and
    [lockUntil] is two hours after the attempt; until then every login for
    the account, also one with the right password, is answered 423 and
    writes nothing. The account a login names is the one with the type of
    the request and with its address in lower case as the setters of the
    [email] path cast it. *)
Theorem lockout_after_fifth_failure now b db email password type id u :
  lb_email b = Some email -> lb_password b = Some password ->
  lb_type b = Some type ->
  email <> "" -> password <> "" -> type <> "" ->
  unique_emails (users db) ->
  users db !! id = Some u ->
  User.email u = cast_email (toLowerCase email) ->
  User.type u = toLowerCase type ->
  User.status u <> "deactivated" ->
  User.lockUntil u = None ->
  (4 <= User.loginAttempts u)%Z ->
  User.comparePassword bcrypt_compare password u = inr false ->
  let db1 := fst (login bcrypt_hash bcrypt_compare now b db) in
  (exists u1,
     users db1 !! id = Some u1
     /\ User.accountLocked u1 = true
     /\ User.lockUntil u1 = Some (now + 7200000)%Z
     /\ User.loginAttempts u1 = (User.loginAttempts u + 1)%Z)
  /\ (forall now' b' password',
        lb_email b' = Some email -> lb_password b' = Some password' ->
        lb_type b' = Some type -> password' <> "" ->
        (now' < now + 7200000)%Z ->
        fst (login bcrypt_hash bcrypt_compare now' b' db1) = db1
        /\ code (snd (login bcrypt_hash bcrypt_compare now' b' db1)) = 423).
Proof.
  intros He Hp Ht Hne Hnp Hnt Huniq Hu Hue Hut Hst Hlu Hla Hcmp. cbv zeta.
  assert (User.isLocked now u = false) as Hl
    by (unfold User.isLocked; rewrite Hlu; apply andb_false_r).
  rewrite (login_run _ _ _ _ _ _ _ _ He Hp Ht Hne Hnp Hnt).
  rewrite (findOne_login _ _ _ _ _ Huniq Hu Hue Hut), Hl, Hcmp.
  destruct (String.eqb_spec (User.status u) "deactivated"); [contradiction|].
  assert (User.incLoginAttempts now u
          = User.set_updatedAt now
              (User.set_lock (User.loginAttempts u + 1) true
                 (Some (now + 7200000)%Z) u)) as Hinc.
  { unfold User.incLoginAttempts. rewrite Hlu, Hl.
    assert ((5 <=? User.loginAttempts u + 1)%Z = true) as ->
      by (apply Z.leb_le; lia).
    reflexivity. }
  rewrite Hinc. simpl. rewrite lookup_insert_eq. split.
  - eexists. split; [reflexivity|]. simpl. auto.
  - intros now' b' password' He' Hp' Ht' Hnp' Hnow.
    rewrite (login_run _ _ _ _ _ _ _ _ He' Hp' Ht' Hne Hnp' Hnt). simpl.
    erewrite findOne_login;
      [| eapply unique_emails_insert_same; [exact Huniq | exact Hu
                                            | reflexivity]
       | apply lookup_insert_eq | exact Hue | exact Hut].
    unfold User.isLocked. simpl.
    assert ((now' <? now + 7200000)%Z = true) as ->
      by (apply Z.ltb_lt; lia).
    split; reflexivity.
Qed.

End Lockout.

Lemma lockout_after_fifth_failure_witness :
  let db1 := fst (login sample_hash sample_compare 6005 wrong_login
                    four_failures_db) in
  fst (login sample_hash sample_compare 7000 sample_login db1) = db1
  /\ code (snd (login sample_hash sample_compare 7000 sample_login db1)) = 423.
Proof.
  cbv zeta.
  assert (unique_emails (users four_failures_db)) as Huniq
    by (apply unique_emails_NoDup, (bool_decide_unpack _); vm_compute;
        reflexivity).
  assert (users four_failures_db !! 9%N
          = Some (User.set_updatedAt 6004
                    (User.set_lock 4 false None registered_hospital))) as Hu
    by (vm_compute; reflexivity).
  assert (User.status (User.set_updatedAt 6004
                         (User.set_lock 4 false None registered_hospital))
          <> "deactivated") as Hst by (vm_compute; distinct).
  refine (proj2
    (lockout_after_fifth_failure sample_hash sample_compare 6005 wrong_login
       four_failures_db "hill@example.org" "letmein-letmein" "hospital" 9 _
       eq_refl eq_refl eq_refl _ _ _ Huniq Hu _ _ Hst _ _ _)
    7000%Z sample_login "hunter2hunter2" eq_refl eq_refl eq_refl _ _);
    try distinct; try (vm_compute; reflexivity); lia.
Defined.

(** ** Registration *)

Lemma email_trim_lower s :
  test emailRegex s = true ->
  toLowerCase (trim (toLowerCase s)) = toLowerCase s.
Proof.
  intros H.
  assert (string_forall email_char (toLowerCase s) = true) as Hs
    by exact (string_forall_lower _ (test_within _ _ _ emailRegex_classes H)).
  rewrite trim_no_space; [apply toLowerCase_idem|].
  apply (string_forall_impl email_char); [|exact Hs].
  intros c Hc. rewrite (email_char_not_space c Hc). reflexivity.
Qed.

Lemma user_type_lower type : type ∈ User.types -> toLowerCase type = type.
Proof.
  unfold User.types. intros H.
  repeat (apply elem_of_cons in H as [-> | H]); [..|inversion H]; reflexivity.
Qed.

Lemma user_validate_pieces u :
  User.validate u = [] ->
  test emailRegex (User.email u) = true
  /\ User.type u ∈ User.types
  /\ truthy (User.name (User.profile u)) = true.
Proof.
  intros H. split; [|split; [exact (user_validate_nil_type u H)|]].
  - unfold User.validate in H. apply app_eq_nil in H as [H _].
    destruct (User.email u =? ""); [discriminate|].
    destruct (test emailRegex (User.email u)); [reflexivity|discriminate].
  - unfold User.validate in H.
    do 4 (apply app_eq_nil in H as [_ H]). apply app_eq_nil in H as [H _].
    unfold User.required_then in H. unfold truthy.
    destruct (User.name (User.profile u)) as [s|]; [|discriminate].
    destruct (s =? ""); [discriminate|reflexivity].
Qed.

Lemma user_validate_ext u1 u2 :
  User.email u2 = User.email u1 ->
  User.password u2 = User.password u1 ->
  User.googleId u2 = User.googleId u1 ->
  User.type u2 = User.type u1 ->
  User.status u2 = User.status u1 ->
  User.profile u2 = User.profile u1 ->
  User.validate u2 = User.validate u1.
Proof.
  unfold User.validate. intros -> -> -> -> -> ->. reflexivity.
Qed.

(** Validation of a document whose password was replaced by a hash of at
    least eight characters. *)
Lemma user_validate_hashed u h :
  User.validate u = [] ->
  (8 <= String.length h)%nat ->
  User.validate (User.set_hashed h u) = [].
Proof.
  intros H Hlen. unfold User.validate in *.
  apply app_eq_nil in H as [H1 H]. apply app_eq_nil in H as [_ H].
  cbn [User.set_hashed User.email User.password User.googleId User.type
       User.status User.profile].
  rewrite H1, H. rewrite app_nil_r. simpl.
  assert ((String.length h <? 8)%nat = false) as ->
    by (apply Nat.ltb_ge; exact Hlen).
  destruct (String.eqb_spec h "") as [->|_]; [|reflexivity].
  simpl in Hlen. cbv [String.length] in Hlen. lia.
Qed.

Lemma user_pre_save_profile_named now u :
  truthy (User.name (User.profile u)) = true ->
  User.pre_save_profile now u = User.set_updatedAt now u.
Proof.
  intros H. unfold User.pre_save_profile.
  cbn [User.set_updatedAt User.profile]. rewrite H. reflexivity.
Qed.

Section Registration.
Variable bcrypt_hash : string -> string -> string.
Variable bcrypt_compare : string -> string -> bool.

(** What a registration that is answered 201 has checked and written. *)
Lemma register_accepted now newId salt fault b db :
  let out := register bcrypt_hash now newId salt fault b db in
  code (snd out) = 201 ->
  exists type name email phone password,
    let user := User.set_hashed (bcrypt_hash salt password)
                  (User.set_updatedAt now
                     (new_user now type name email phone password b)) in
    rb_type b = Some type /\ rb_name b = Some name
    /\ rb_email b = Some email /\ rb_phone b = Some phone
    /\ rb_password b = Some password
    /\ type <> "" /\ email <> "" /\ password <> ""
    /\ test emailRegex email = true
    /\ findOne_user
         (fun u => User.email u =? cast_email (toLowerCase email)) (users db)
       = None
    /\ users db !! newId = None
    /\ User.validate (new_user now type name email phone password b) = []
    /\ out
       = (mkDB (<[newId := user]> (users db)) (donations db) (requests db)
            (match stats db with
             | s :: ss => Stats.pre_save now (count_user type s) :: ss
             | [] => [Stats.pre_save now
                        (count_user type (Stats.mk 0 0 0 0 0 now))]
             end),
          mkResponse 201 (inr (mkAuthOk (user_view newId user None) newId))).
Proof.
  unfold register.
  destruct (rb_email b) as [email|]; run_auth_handler; [|discriminate].
  destruct (findOne_user
              (fun u => User.email u =? cast_email (toLowerCase email))
              (users db))
    as [found|] eqn:Hfind; simpl; [discriminate|].
  destruct (rb_type b) as [type|]; simpl; [|discriminate].
  destruct (rb_name b) as [name|]; simpl; [|discriminate].
  destruct (rb_password b) as [password|]; simpl; [|discriminate].
  destruct (rb_phone b) as [phone|]; simpl; [|discriminate].
  destruct (truthy (Some type)) eqn:Hty; simpl; [|discriminate].
  destruct (truthy (Some name)) eqn:Hna; simpl; [|discriminate].
  destruct (truthy (Some email)) eqn:Hem; simpl; [|discriminate].
  destruct (truthy (Some password)) eqn:Hpw; simpl; [|discriminate].
  destruct (truthy (Some phone)) eqn:Hph; simpl; [|discriminate].
  destruct (test emailRegex email) eqn:Hre; simpl; [|discriminate].
  repeat match goal with
  | |- context [if ?c then (fun _ => _) else _] =>
      destruct c; simpl; [discriminate|]
  end.
  destruct (User.save bcrypt_hash now salt true
              (new_user now type name email phone password b))
    as [e|a] eqn:Hs; simpl.
  { intros H. destruct (register_catch_code e H). }
  apply user_save_new in Hs as [Hv ->].
  destruct (user_validate_pieces _ Hv) as (_ & _ & Hname).
  rewrite (user_pre_save_profile_named _ _ Hname).
  destruct (users db !! newId) eqn:Hnew; simpl.
  { intros H. discriminate H. }
  match goal with
  | |- context [if ?c then (fun _ => _) else _] => destruct c eqn:Hclash; simpl
  end.
  { intros H. discriminate H. }
  apply truthy_Some in Hty, Hem, Hpw.
  destruct (stats db) as [|s ss] eqn:Hst; simpl;
    (destruct fault as [e|]; simpl;
     [intros H; destruct (register_catch_code e H)|]);
    intros _; exists type, name, email, phone, password; cbv zeta;
    do 12 (split; [first [assumption | reflexivity]|]);
    simpl; rewrite Hst; reflexivity.
Qed.

(** A registration that is not answered 201, and whose write of the
    statistics did not fail, has written nothing. *)
Lemma register_refused now newId salt b db :
  code (snd (register bcrypt_hash now newId salt None b db)) <> 201 ->
  fst (register bcrypt_hash now newId salt None b db) = db.
Proof.
  unfold register.
  destruct (rb_email b) as [email|]; run_auth_handler; [|reflexivity].
  destruct (defined (findOne_user
              (fun u => User.email u =? cast_email (toLowerCase email))
              (users db)));
    simpl; [reflexivity|].
  destruct (rb_type b) as [type|]; simpl; [|reflexivity].
  destruct (rb_name b) as [name|]; simpl; [|reflexivity].
  destruct (rb_password b) as [password|]; simpl; [|reflexivity].
  destruct (rb_phone b) as [phone|]; simpl; [|reflexivity].
  repeat match goal with
  | |- context [if ?c then (fun _ => _) else _] =>
      destruct c; simpl; [reflexivity|]
  end.
  destruct (User.save bcrypt_hash now salt true
              (new_user now type name email phone password b))
    as [e|a]; simpl; [reflexivity|].
  match goal with
  | |- context [if ?c then (fun _ => _) else _] => destruct c; simpl
  end; [reflexivity|].
  destruct (stats db) as [|s ss]; simpl; intros H; destruct (H eq_refl).
Qed.

(** A failure of the write of the statistics comes after the account was
    stored: the registration that would have been answered 201 leaves the
    new account and is answered by the [catch]; every other registration
    runs as without the failure. *)
Lemma register_faulty now newId salt e b db :
  let ok := register bcrypt_hash now newId salt None b db in
  register bcrypt_hash now newId salt (Some e) b db
  = if decide (code (snd ok) = 201)
    then (with_users (users (fst ok)) db, register_catch e)
    else ok.
Proof.
  cbv zeta. unfold register.
  destruct (rb_email b) as [email|]; run_auth_handler; [|reflexivity].
  destruct (defined (findOne_user
              (fun u => User.email u =? cast_email (toLowerCase email))
              (users db)));
    simpl; [reflexivity|].
  destruct (rb_type b) as [type|]; simpl; [|reflexivity].
  destruct (rb_name b) as [name|]; simpl; [|reflexivity].
  destruct (rb_password b) as [password|]; simpl; [|reflexivity].
  destruct (rb_phone b) as [phone|]; simpl; [|reflexivity].
  repeat match goal with
  | |- context [if ?c then (fun _ => _) else _] =>
      destruct c; simpl; [reflexivity|]
  end.
  destruct (User.save bcrypt_hash now salt true
              (new_user now type name email phone password b))
    as [e'|a]; simpl.
  { destruct (decide (code (register_catch e') = 201)) as [H|];
      [destruct (register_catch_code e' H) | reflexivity]. }
  match goal with
  | |- context [if ?c then (fun _ => _) else _] => destruct c; simpl
  end; [reflexivity|].
  destruct (stats db) as [|s ss]; simpl; reflexivity.
Qed.

(** X14. What a registration refuses, and what a refusal writes. A request
    without an email is answered 500, because the address is lower-cased
    before the required fields are checked; an address that a stored
    account already has, compared in lower case and trimmed as the query
    casts it, is answered 400; in both cases nothing is written. Whenever
    the answer is not 201 and the write of the statistics did not fail, the
    store is as it was before. The registration is not atomic: when the
    write of the statistics fails, the answer is never 201; a request that
    would have been answered 201 leaves its account stored, with the
    statistics unchanged, and is answered by the [catch] of the route (500
    for a plain error); any other request runs as without the failure. *)
Theorem register_refusals now newId salt fault b db :
  let out := register bcrypt_hash now newId salt fault b db in
  let ok := register bcrypt_hash now newId salt None b db in
  (rb_email b = None ->
   out = (db, mkResponse 500 (inl "Registration failed. Please try again.")))
  /\ (forall email id u,
        rb_email b = Some email ->
        users db !! id = Some u ->
        User.email u = cast_email (toLowerCase email) ->
        out = (db, mkResponse 400
                     (inl "Account already exists with this email address")))
  /\ (fault = None -> code (snd out) <> 201 -> fst out = db)
  /\ (forall e, fault = Some e ->
        code (snd out) <> 201
        /\ (code (snd ok) <> 201 -> out = ok /\ fst out = db)
        /\ (code (snd ok) = 201 ->
            exists u,
              users db !! newId = None
              /\ users (fst ok) !! newId = Some u
              /\ out = (with_users (<[newId := u]> (users db)) db,
                        register_catch e))).
Proof.
  cbv zeta. split; [|split; [|split]].
  - intros He. unfold register. rewrite He. reflexivity.
  - intros email id u He Hu Hue. unfold register. rewrite He.
    run_auth_handler.
    destruct (findOne_user
                (fun u => User.email u =? cast_email (toLowerCase email))
                (users db))
      as [found|] eqn:Hfind; [reflexivity|].
    exfalso. pose proof (proj1 (findOne_user_None _ _) Hfind id u Hu) as Hn.
    simpl in Hn. rewrite Hue, String.eqb_refl in Hn. discriminate.
  - intros ->. apply register_refused.
  - intros e ->. rewrite register_faulty.
    destruct (decide (code (snd (register bcrypt_hash now newId salt None b
                                   db)) = 201)) as [Hc|Hc].
    + split; [apply register_catch_code|].
      split; [intros Hn; destruct (Hn Hc)|]. intros _.
      destruct (register_accepted _ _ _ _ _ _ Hc)
        as (type & name & email & phone & password & _ & _ & _ & _ & _ & _
            & _ & _ & _ & _ & Hnew & _ & Hok).
      rewrite Hok. simpl. eexists. split; [exact Hnew|].
      split; [apply lookup_insert_eq | reflexivity].
    + split; [exact Hc|].
      split; [|intros H; destruct (Hc H)].
      intros _. split; [reflexivity | apply register_refused; exact Hc].
Qed.

(** X15. The counters of a registration that is answered 201: the
    statistics document (a new one, starting from 0, when the collection is
    empty) has [totalUsers] one higher, the counter of the registered type
    one higher for a donor, a hospital or a patient and no counter of a type
    changed for an admin, [totalDonations] unchanged, and the time of the
    registration as [lastUpdated]. The ledger is not touched, and the new
    account is stored under the new id with the status [active]. *)
Theorem register_counts_user now newId salt fault b db :
  let out := register bcrypt_hash now newId salt fault b db in
  code (snd out) = 201 ->
  exists (type : string) (s' : Stats.t),
    let s := default (Stats.mk 0 0 0 0 0 now) (head (stats db)) in
    let one (t : string) : Z := if type =? t then 1%Z else 0%Z in
    rb_type b = Some type
    /\ type ∈ User.types
    /\ stats (fst out) = s' :: tail (stats db)
    /\ Stats.totalUsers s' = (Stats.totalUsers s + 1)%Z
    /\ Stats.totalDonors s' = (Stats.totalDonors s + one "donor")%Z
    /\ Stats.totalHospitals s' = (Stats.totalHospitals s + one "hospital")%Z
    /\ Stats.totalPatients s' = (Stats.totalPatients s + one "patient")%Z
    /\ Stats.totalDonations s' = Stats.totalDonations s
    /\ Stats.lastUpdated s' = now
    /\ donations (fst out) = donations db
    /\ requests (fst out) = requests db
    /\ (exists u, users (fst out) !! newId = Some u
                  /\ User.type u = type /\ User.status u = "active").
Proof.
  cbv zeta. intros Hc.
  destruct (register_accepted _ _ _ _ _ _ Hc)
    as (type & name & email & phone & password & Hty & _ & _ & _ & _ & _ & _
        & _ & _ & _ & _ & Hv & ->).
  apply user_validate_pieces in Hv as (_ & Htypes & _).
  assert (User.type (new_user now type name email phone password b) = type)
    as Hnt by reflexivity.
  rewrite Hnt in Htypes.
  exists type. simpl.
  destruct (stats db) as [|s ss]; simpl.
  - eexists. split; [exact Hty|]. split; [exact Htypes|].
    split; [reflexivity|].
    unfold User.types in Htypes.
    repeat (apply elem_of_cons in Htypes as [-> | Htypes]);
      [..|inversion Htypes]; simpl; rewrite lookup_insert_eq;
      repeat split;
      (eexists; split; [reflexivity | split; reflexivity]).
  - eexists. split; [exact Hty|]. split; [exact Htypes|].
    split; [reflexivity|].
    unfold User.types in Htypes.
    repeat (apply elem_of_cons in Htypes as [-> | Htypes]);
      [..|inversion Htypes]; simpl; rewrite lookup_insert_eq;
      repeat split; try lia;
      (eexists; split; [reflexivity | split; reflexivity]).
Qed.

End Registration.

Lemma register_refusals_witness :
  (users sample_db !! 1%N = Some donor1
   /\ register sample_hash 5000 9 "s1" None
        (mkRegisterBody (Some "donor") (Some "Dana")
           (Some " Dana@Example.com ") (Some "5550003333")
           (Some "correct horse") None (Some "A+") None None)
        sample_db
      = (sample_db,
         mkResponse 400
           (inl "Account already exists with this email address")))
  /\ (let out := register sample_hash 5000 9 "s1" (Some (Error "disk full"))
                   sample_registration sample_db in
      snd out = mkResponse 500 (inl "Registration failed. Please try again.")
      /\ users (fst out) !! 9%N = Some registered_hospital
      /\ stats (fst out) = stats sample_db).
Proof.
  assert (users sample_db !! 1%N = Some donor1) as Hu
    by (vm_compute; reflexivity).
  split.
  - split; [exact Hu|].
    exact (proj1 (proj2
      (register_refusals sample_hash 5000 9 "s1" None
         (mkRegisterBody (Some "donor") (Some "Dana")
            (Some " Dana@Example.com ") (Some "5550003333")
            (Some "correct horse") None (Some "A+") None None)
         sample_db))
      " Dana@Example.com " 1%N donor1 eq_refl Hu eq_refl).
  - cbv zeta.
    assert (code (snd (register sample_hash 5000 9 "s1" None
                         sample_registration sample_db)) = 201) as Hc
      by (vm_compute; reflexivity).
    destruct (proj2 (proj2
      (proj2 (proj2 (proj2
         (register_refusals sample_hash 5000 9 "s1"
            (Some (Error "disk full")) sample_registration sample_db)))
         (Error "disk full") eq_refl)) Hc) as (u & _ & Hu9 & Hout).
    assert (u = registered_hospital) as ->.
    { assert (users (fst (register sample_hash 5000 9 "s1" None
                            sample_registration sample_db)) !! 9%N
              = Some registered_hospital) as H9 by (vm_compute; reflexivity).
      pose proof (eq_trans (eq_sym Hu9) H9) as [= ->]. reflexivity. }
    rewrite Hout. simpl. rewrite lookup_insert_eq.
    split; [reflexivity|]. split; reflexivity.
Defined.

Lemma register_counts_user_witness :
  code (snd (register sample_hash 5000 9 "s1" None sample_registration
               sample_db))
  = 201
  /\ exists s',
       stats registered_db = [s']
       /\ Stats.totalUsers s' = 6%Z
       /\ Stats.totalHospitals s' = 3%Z
       /\ Stats.totalDonors s' = 1%Z.
Proof.
  assert (code (snd (register sample_hash 5000 9 "s1" None
                       sample_registration sample_db)) = 201) as Hc
    by (vm_compute; reflexivity).
  split; [exact Hc|].
  destruct (register_counts_user sample_hash 5000 9 "s1" None
              sample_registration sample_db Hc)
    as (type & s' & Hty & _ & Hst & Hu & Hd & Hh & _).
  injection Hty as <-.
  exists s'. split; [exact Hst|]. split; [exact Hu|].
  split; [exact Hh | exact Hd].
Defined.

Section RoundTrip.
Variable bcrypt_hash : string -> string -> string.
Variable bcrypt_compare : string -> string -> bool.

Lemma user_save_unmodified now salt u :
  User.validate u = [] ->
  User.save bcrypt_hash now salt false u = inr (User.pre_save_profile now u).
Proof.
  intros Hv. unfold User.save. rewrite Hv. unfold User.pre_save_password.
  destruct (truthy (User.googleId (User.pre_save_profile now u))
            && negb (truthy (User.password (User.pre_save_profile now u))));
    reflexivity.
Qed.

(** X16. Registration and login fit together. Provided bcrypt accepts a
    password against its own hash and its hashes have at least eight
    characters, the account of a registration that was answered 201 can log
    in at once with the email, password and type that were registered: the
    login is answered 200 with a token for the new account. *)
Theorem register_then_login now newId salt fault b db now' :
  (forall p, bcrypt_compare p (bcrypt_hash salt p) = true) ->
  (forall p, (8 <= String.length (bcrypt_hash salt p))%nat) ->
  code (snd (register bcrypt_hash now newId salt fault b db)) = 201 ->
  let db' := fst (register bcrypt_hash now newId salt fault b db) in
  let out := login bcrypt_hash bcrypt_compare now'
               (mkLoginBody (rb_email b) (rb_password b) (rb_type b)) db' in
  exists ok u,
    snd out = mkResponse 200 (inr ok)
    /\ ao_token ok = newId
    /\ uv_id (ao_user ok) = newId
    /\ users db' !! newId = Some u
    /\ uv_email (ao_user ok) = User.email u
    /\ uv_type (ao_user ok) = User.type u.
Proof.
  intros Hcmp Hlen Hc. cbv zeta.
  destruct (register_accepted _ _ _ _ _ _ _ Hc)
    as (type & name & email & phone & password & Hty & Hna & Hem & Hph & Hpw
        & Hnty & Hnem & Hnpw & Hre & Hfind & Hnew & Hv & ->).
  cbv zeta. simpl fst.
  set (nu := new_user now type name email phone password b) in *.
  set (u := User.set_hashed (bcrypt_hash salt password)
              (User.set_updatedAt now nu)).
  destruct (user_validate_pieces _ Hv) as (_ & Htypes & _).
  assert (User.type nu = type) as Hnut by reflexivity.
  rewrite Hnut in Htypes.
  assert (User.validate u = []) as Hvu.
  { apply user_validate_hashed; [|apply Hlen].
    rewrite <- Hv. apply user_validate_ext; reflexivity. }
  rewrite (login_run bcrypt_hash bcrypt_compare now' _ _ email password type);
    [|rewrite Hem; reflexivity|rewrite Hpw; reflexivity
     |rewrite Hty; reflexivity|assumption..].
  simpl users.
  assert (findOne_user (login_filter email type) (<[newId := u]> (users db))
          = Some (newId, u)) as ->.
  { apply findOne_user_unique.
    - apply lookup_insert_eq.
    - unfold login_filter.
      assert (User.email u = cast_email (toLowerCase email)) as ->
        by reflexivity.
      assert (User.type u = type) as -> by reflexivity.
      rewrite (user_type_lower _ Htypes), !String.eqb_refl. reflexivity.
    - intros j v Hj Hf. destruct (decide (j = newId)) as [|Hne]; [assumption|].
      exfalso. rewrite lookup_insert_ne in Hj by congruence.
      unfold login_filter in Hf. apply andb_true_iff in Hf as [Hf _].
      pose proof (proj1 (findOne_user_None _ _) Hfind j v Hj) as Hn.
      simpl in Hn. congruence. }
  assert (User.isLocked now' u = false) as -> by reflexivity.
  assert ((User.status u =? "deactivated") = false) as -> by reflexivity.
  assert (User.comparePassword bcrypt_compare password u = inr true) as ->.
  { unfold User.comparePassword.
    assert (User.googleId u = None) as -> by reflexivity.
    assert (User.password u = Some (bcrypt_hash salt password)) as ->
      by reflexivity.
    rewrite Hcmp. reflexivity. }
  assert ((0 <? User.loginAttempts u)%Z = false) as -> by reflexivity.
  rewrite user_save_unmodified
    by (rewrite <- Hvu; apply user_validate_ext; reflexivity).
  cbv zeta. simpl snd.
  eexists. exists u. split; [reflexivity|].
  split; [reflexivity|]. split; [reflexivity|].
  split; [apply lookup_insert_eq|].
  destruct (user_pre_save_profile_frame now'
              (User.set_lastLogin (Some now') u))
    as (He' & _ & _ & Ht' & _).
  unfold user_view. cbn [ao_user uv_email uv_type].
  rewrite He', Ht'. split; reflexivity.
Qed.

End RoundTrip.

Lemma register_then_login_witness :
  exists ok,
    snd (login sample_hash sample_compare 6000
           (mkLoginBody (Some "Hill@Example.org") (Some "hunter2hunter2")
              (Some "hospital"))
           registered_db)
    = mkResponse 200 (inr ok)
    /\ ao_token ok = 9%N.
Proof.
  assert (forall p, sample_compare p (sample_hash "s1" p) = true) as Hcmp.
  { intros p. unfold sample_compare. simpl.
    rewrite String.eqb_refl. reflexivity. }
  assert (forall p, (8 <= String.length (sample_hash "s1" p))%nat) as Hlen.
  { intros p. change (8 <= 9 + String.length p)%nat. lia. }
  assert (code (snd (register sample_hash 5000 9 "s1" None
                       sample_registration sample_db)) = 201) as Hc
    by (vm_compute; reflexivity).
  destruct (register_then_login sample_hash sample_compare 5000 9 "s1" None
              sample_registration sample_db 6000 Hcmp Hlen Hc)
    as (ok & u & Hok & Htok & _).
  exists ok. split; [exact Hok | exact Htok].
Defined.

(** ** Deleting accounts *)

Lemma users_delete_run now fault token userId db uid user :
  auth token db = Some (uid, user) ->
  users_delete now fault token userId db
  = if negb (User.type user =? "admin")
    then (db, mkResponse 400 (inl "Not authorized"))
    else
      match users db !! userId with
      | None => (db, mkResponse 400 (inl "User not found"))
      | Some target =>
          if (User.type target =? "admin")
             && negb (User.email user =? main_admin)
          then (db, mkResponse 400
                      (inl "Only main admin can delete admin users"))
          else if User.email target =? main_admin
          then (db, mkResponse 400 (inl "Main admin cannot be deleted"))
          else
            let db1 := with_users (delete userId (users db)) db in
            match stats db with
            | [] =>
                (db1, mkResponse 400
                        (inl "Cannot read properties of null (reading 'totalUsers')"))
            | s :: ss =>
                match fault with
                | Some e => (db1, mkResponse 400 (inl (message_of e)))
                | None =>
                    (with_stats
                       (Stats.pre_save now
                          (uncount_user (User.type target) s) :: ss) db1,
                     mkResponse 200 (inr "User deleted successfully"))
                end
            end
      end.
Proof.
  intros Ha. unfold users_delete. rewrite Ha. run_handler.
  destruct (User.type user =? "admin"); simpl; [|reflexivity].
  destruct (users db !! userId) as [target|]; simpl; [|reflexivity].
  destruct ((User.type target =? "admin")
            && negb (User.email user =? main_admin)); simpl; [reflexivity|].
  destruct (User.email target =? main_admin); simpl; [reflexivity|].
  destruct (stats db) as [|s ss] eqn:Hst; simpl; [reflexivity|].
  destruct fault as [e|]; simpl; [reflexivity|]. rewrite Hst. reflexivity.
Qed.

(** X17. Who may delete an account. The delete is answered 200 exactly when
    the caller is an admin, the account exists and is not the main admin's,
    an admin account is deleted by the main admin only, and the statistics
    document exists and is written. Then the account is removed, the
    statistics count one user less and one less of the account's type, and
    the ledger keeps the entries of the deleted account. No caller can
    delete their own account. *)
Theorem user_delete_rules now fault token userId db :
  let out := users_delete now fault token userId db in
  (code (snd out) = 200 <->
   exists uid user target s ss,
     auth token db = Some (uid, user)
     /\ User.type user = "admin"
     /\ users db !! userId = Some target
     /\ (User.type target = "admin" -> User.email user = main_admin)
     /\ User.email target <> main_admin
     /\ stats db = s :: ss
     /\ fault = None)
  /\ (code (snd out) = 200 ->
      exists target s ss,
        users db !! userId = Some target
        /\ stats db = s :: ss
        /\ users (fst out) = delete userId (users db)
        /\ stats (fst out)
           = Stats.pre_save now (uncount_user (User.type target) s) :: ss
        /\ donations (fst out) = donations db
        /\ requests (fst out) = requests db)
  /\ (forall uid user,
        auth token db = Some (uid, user) ->
        code (snd (users_delete now fault token uid db)) <> 200).
Proof.
  cbv zeta.
  assert (forall userId,
    code (snd (users_delete now fault token userId db)) = 200 ->
    exists uid user target s ss,
      auth token db = Some (uid, user)
      /\ User.type user = "admin"
      /\ users db !! userId = Some target
      /\ (User.type target = "admin" -> User.email user = main_admin)
      /\ User.email target <> main_admin
      /\ stats db = s :: ss
      /\ fault = None
      /\ users_delete now fault token userId db
         = (with_stats
              (Stats.pre_save now (uncount_user (User.type target) s) :: ss)
              (with_users (delete userId (users db)) db),
            mkResponse 200 (inr "User deleted successfully"))) as Hok.
  { intros uid'.
    destruct (auth token db) as [[uid user]|] eqn:Ha.
    2:{ unfold users_delete. rewrite Ha. discriminate. }
    rewrite (users_delete_run _ _ _ _ _ _ _ Ha).
    destruct (String.eqb_spec (User.type user) "admin") as [Hadm|];
      simpl; [|discriminate].
    destruct (users db !! uid') as [target|] eqn:Ht; [|discriminate].
    destruct (String.eqb_spec (User.type target) "admin") as [Hta|Hta];
      destruct (String.eqb_spec (User.email user) main_admin) as [Hm|Hm];
      simpl; try discriminate;
      (destruct (String.eqb_spec (User.email target) main_admin) as [Htm|Htm];
       [discriminate|]);
      (destruct (stats db) as [|s ss]; [discriminate|]);
      (destruct fault as [e|]; [discriminate|]);
      intros _; exists uid, user, target, s, ss;
      repeat split; auto; intros; contradiction. }
  split; [split|split].
  - intros Hc. destruct (Hok _ Hc)
      as (uid & user & target & s & ss & ? & ? & ? & ? & ? & ? & ? & _).
    exists uid, user, target, s, ss. auto 10.
  - intros (uid & user & target & s & ss & Ha & Hadm & Ht & Hmain & Htm & Hst
            & ->).
    rewrite (users_delete_run _ _ _ _ _ _ _ Ha), Hadm, Ht, Hst. simpl.
    destruct (String.eqb_spec (User.email target) main_admin);
      [contradiction|].
    destruct (String.eqb_spec (User.type target) "admin") as [Hta|];
      simpl; [|reflexivity].
    rewrite (Hmain Hta). reflexivity.
  - intros Hc. destruct (Hok _ Hc)
      as (uid & user & target & s & ss & _ & _ & Ht & _ & _ & Hst & _ & ->).
    exists target, s, ss. simpl. auto 10.
  - intros uid user Ha Hc.
    destruct (Hok _ Hc)
      as (uid' & user' & target & s & ss & Ha' & Hadm & Ht & Hmain & Htm & _).
    rewrite Ha in Ha'. injection Ha' as <- <-.
    apply auth_Some in Ha as [_ Hu]. rewrite Hu in Ht. injection Ht as <-.
    apply Htm, Hmain, Hadm.
Qed.

Lemma user_delete_rules_witness :
  let out := users_delete 7000 None (Some 4%N) 5 sample_db in
  code (snd out) = 200
  /\ users (fst out) = delete 5%N (users sample_db)
  /\ stats (fst out) = [Stats.mk 4 1 2 0 0 7000].
Proof.
  cbv zeta.
  assert (code (snd (users_delete 7000 None (Some 4%N) 5 sample_db)) = 200)
    as Hc by (vm_compute; reflexivity).
  split; [exact Hc|].
  destruct (proj1 (proj2 (user_delete_rules 7000 None (Some 4%N) 5 sample_db))
              Hc)
    as (target & s & ss & Ht & Hst & Hu & Hs & _).
  split; [exact Hu|]. rewrite Hs.
  assert (Some target = Some patient1) as [= ->]
    by (rewrite <- Ht; vm_compute; reflexivity).
  assert (s :: ss = [Stats.mk 5 1 2 1 0 0]) as [= -> ->]
    by (rewrite <- Hst; reflexivity).
  reflexivity.
Defined.

(** X18. The delete of an account is not atomic. When the checks pass but
    there is no statistics document, or the write of the statistics fails,
    the request is answered 400 and yet the account is gone; the statistics
    then still count it. *)
Theorem user_delete_is_not_atomic now fault token userId db uid user target :
  auth token db = Some (uid, user) ->
  User.type user = "admin" ->
  users db !! userId = Some target ->
  User.type target <> "admin" ->
  User.email target <> main_admin ->
  stats db = [] \/ is_Some fault ->
  let out := users_delete now fault token userId db in
  code (snd out) = 400
  /\ users (fst out) !! userId = None
  /\ stats (fst out) = stats db.
Proof.
  intros Ha Hadm Ht Hta Htm Hfail. cbv zeta.
  rewrite (users_delete_run _ _ _ _ _ _ _ Ha), Hadm, Ht. simpl.
  destruct (String.eqb_spec (User.type target) "admin"); [contradiction|].
  destruct (String.eqb_spec (User.email target) main_admin);
    [contradiction|].
  simpl.
  destruct (stats db) as [|s ss] eqn:Hst; simpl.
  - rewrite lookup_delete_eq. auto.
  - destruct Hfail as [Hf | [e ->]]; [discriminate|]. simpl.
    rewrite lookup_delete_eq. auto.
Qed.

Lemma user_delete_is_not_atomic_witness :
  let db := with_stats [] sample_db in
  let out := users_delete 7000 None (Some 4%N) 5 db in
  code (snd out) = 400 /\ users (fst out) !! 5%N = None.
Proof.
  cbv zeta.
  assert (auth (Some 4%N) (with_stats [] sample_db) = Some (4%N, admin1))
    as Ha by (vm_compute; reflexivity).
  assert (users (with_stats [] sample_db) !! 5%N = Some patient1) as Ht
    by (vm_compute; reflexivity).
  assert (User.type patient1 <> "admin") as Hta by distinct.
  assert (User.email patient1 <> main_admin) as Htm by distinct.
  destruct (user_delete_is_not_atomic 7000 None (Some 4%N) 5
              (with_stats [] sample_db) 4 admin1 patient1 Ha eq_refl Ht Hta
              Htm (or_introl eq_refl))
    as (Hc & Hu & _).
  split; [exact Hc | exact Hu].
Defined.

(** ** Admins *)

Lemma users_get_all_run token db uid user :
  auth token db = Some (uid, user) ->
  users_get_all token db
  = if User.type user =? "admin"
    then (db, mkResponse 200
                (inr ((fun kd => toJSON kd.1 kd.2) <$> map_to_list (users db))))
    else (db, mkResponse 400 (inl "Not authorized")).
Proof.
  intros Ha. unfold users_get_all. rewrite Ha. run_handler.
  destruct (User.type user =? "admin"); reflexivity.
Qed.

Section AdminRegistration.
Variable bcrypt_hash : string -> string -> string.

(** X19. Registration needs no token and accepts the type [admin]. The
    account of such a registration, once it is answered 201, passes the
    admin checks of the other routes: with its token the list of all
    accounts is returned, and every account that is not an admin's is
    deleted on request. *)
Theorem registered_admin_has_admin_rights now newId salt fault b db :
  code (snd (register bcrypt_hash now newId salt fault b db)) = 201 ->
  rb_type b = Some "admin" ->
  let db' := fst (register bcrypt_hash now newId salt fault b db) in
  (exists l,
     users_get_all (Some newId) db' = (db', mkResponse 200 (inr l))
     /\ List.length l = S (size (users db))
     /\ forall id u, users db !! id = Some u -> toJSON id u ∈ l)
  /\ (forall now' id u,
        users db !! id = Some u ->
        User.type u <> "admin" ->
        User.email u <> main_admin ->
        code (snd (users_delete now' None (Some newId) id db')) = 200
        /\ users (fst (users_delete now' None (Some newId) id db')) !! id
           = None).
Proof.
  intros Hc Hadm. cbv zeta.
  destruct (register_accepted _ _ _ _ _ _ _ Hc)
    as (type & name & email & phone & password & Hty & _ & _ & _ & _ & _ & _
        & _ & _ & _ & Hnew & _ & ->).
  rewrite Hadm in Hty. injection Hty as <-. simpl fst.
  set (u0 := User.set_hashed (bcrypt_hash salt password)
               (User.set_updatedAt now
                  (new_user now "admin" name email phone password b))).
  set (st := match stats db with
             | [] => _
             | s :: ss => _
             end).
  set (db' := mkDB (<[newId := u0]> (users db)) (donations db) (requests db)
                st).
  assert (auth (Some newId) db' = Some (newId, u0)) as Ha.
  { unfold auth, db'. simpl. rewrite lookup_insert_eq. reflexivity. }
  split.
  - eexists. split; [rewrite (users_get_all_run _ _ _ _ Ha); reflexivity|].
    split.
    + rewrite length_fmap, length_map_to_list. unfold db'. simpl.
      rewrite map_size_insert_None by exact Hnew. reflexivity.
    + intros id u Hu.
      apply (list_elem_of_fmap_2 (fun kd : ObjectId * User.t =>
                                    toJSON kd.1 kd.2) _ (id, u)).
      apply elem_of_map_to_list. unfold db'. simpl.
      rewrite lookup_insert_ne; [exact Hu|]. congruence.
  - intros now' id u Hu Hnadm Hnmain.
    assert (users db' !! id = Some u) as Hu'.
    { unfold db'. simpl. rewrite lookup_insert_ne; [exact Hu|]. congruence. }
    assert (exists s ss, stats db' = s :: ss) as (s & ss & Hst).
    { unfold db', st. simpl. destruct (stats db); eauto. }
    rewrite (users_delete_run _ _ _ _ _ _ _ Ha), Hu', Hst.
    assert ((User.type u0 =? "admin") = true) as -> by reflexivity.
    destruct (String.eqb_spec (User.type u) "admin"); [contradiction|].
    destruct (String.eqb_spec (User.email u) main_admin); [contradiction|].
    simpl. rewrite lookup_delete_eq. auto.
Qed.

End AdminRegistration.

Lemma registered_admin_has_admin_rights_witness :
  let b := mkRegisterBody (Some "admin") (Some "Mallory")
             (Some "mallory@example.net") (Some "5550009999")
             (Some "password123") None None None None in
  let db' := fst (register sample_hash 5000 9 "s1" None b sample_db) in
  code (snd (register sample_hash 5000 9 "s1" None b sample_db)) = 201
  /\ code (snd (users_delete 6000 None (Some 9%N) 1 db')) = 200
  /\ users (fst (users_delete 6000 None (Some 9%N) 1 db')) !! 1%N = None.
Proof.
  cbv zeta.
  set (b := mkRegisterBody (Some "admin") (Some "Mallory")
              (Some "mallory@example.net") (Some "5550009999")
              (Some "password123") None None None None).
  assert (code (snd (register sample_hash 5000 9 "s1" None b sample_db))
          = 201)
    as Hc by (vm_compute; reflexivity).
  assert (users sample_db !! 1%N = Some donor1) as Hu
    by (vm_compute; reflexivity).
  assert (User.type donor1 <> "admin") as Hta by distinct.
  assert (User.email donor1 <> main_admin) as Htm by distinct.
  split; [exact Hc|].
  exact (proj2 (registered_admin_has_admin_rights sample_hash 5000 9 "s1"
                  None b sample_db Hc eq_refl)
           6000%Z 1%N donor1 Hu Hta Htm).
Defined.

Section AdminCreation.
Variable bcrypt_hash : string -> string -> string.

Lemma user_save_new_admin now salt name email password a :
  User.save bcrypt_hash now salt true (new_admin now name email password)
  = inr a ->
  User.validate (new_admin now name email password) = []
  /\ a = User.set_hashed (bcrypt_hash salt password)
           (User.pre_save_profile now (new_admin now name email password)).
Proof.
  unfold User.save.
  destruct (User.validate (new_admin now name email password));
    [|discriminate].
  intros H. split; [reflexivity|].
  unfold User.pre_save_password in H.
  destruct (user_pre_save_profile_frame now
              (new_admin now name email password))
    as (_ & Hp & Hg & _).
  rewrite Hg, Hp in H. simpl in H. congruence.
Qed.

(** X20. Creating an admin. The route checks the caller's email alone:
    every caller whose address is not admin@lifelink.com is answered 403 and
    nothing is written, whatever the caller's type. When the route answers
    201 the caller has that address, and the new account is an active
    admin, stored under the new id with the phone number 0000000000, the
    bcrypt hash of the submitted password, and the submitted password
    itself, unhashed, in its legacy [data]. The other accounts and the
    ledger are unchanged. *)
Theorem create_admin_rules now newId salt fault token b db :
  let out := create_admin bcrypt_hash now newId salt fault token b db in
  (forall uid user,
     auth token db = Some (uid, user) ->
     User.email user <> main_admin ->
     out = (db, mkResponse 403
                  (inl "Only main admin can perform this action")))
  /\ (code (snd out) = 201 ->
      exists uid user password u,
        auth token db = Some (uid, user)
        /\ User.email user = main_admin
        /\ ca_password b = Some password
        /\ users db !! newId = None
        /\ users (fst out) = <[newId := u]> (users db)
        /\ User.type u = "admin"
        /\ User.status u = "active"
        /\ User.phone (User.profile u) = Some "0000000000"
        /\ User.password u = Some (bcrypt_hash salt password)
        /\ User.data u !! "admin-password" = Some password
        /\ donations (fst out) = donations db
        /\ requests (fst out) = requests db).
Proof.
  cbv zeta. split.
  - intros uid user Ha Hne. unfold create_admin, mainAdminAuth. rewrite Ha.
    destruct (String.eqb_spec (User.email user) main_admin);
      [contradiction|reflexivity].
  - unfold create_admin, mainAdminAuth.
    destruct (auth token db) as [[uid user]|] eqn:Ha; [|discriminate].
    destruct (String.eqb_spec (User.email user) main_admin) as [Hm|];
      simpl; [|discriminate].
    destruct (ca_email b) as [email|]; run_auth_handler; [|discriminate].
    destruct (ca_password b) as [password|]; simpl; [|discriminate].
    destruct (ca_name b) as [name|]; simpl; [|discriminate].
    repeat match goal with
    | |- context [if ?c then (fun _ => _) else _] =>
        destruct c; simpl; [discriminate|]
    end.
    destruct (User.save bcrypt_hash now salt true
                (new_admin now name email password)) as [e|a] eqn:Hs; simpl.
    { destruct e; discriminate. }
    apply user_save_new_admin in Hs as [Hv ->].
    destruct (user_validate_pieces _ Hv) as (_ & _ & Hname).
    rewrite (user_pre_save_profile_named _ _ Hname).
    destruct (users db !! newId) eqn:Hnew; simpl; [discriminate|].
    match goal with
    | |- context [if ?c then (fun _ => _) else _] => destruct c; simpl
    end; [discriminate|].
    destruct (stats db) as [|s ss] eqn:Hst; simpl;
      (destruct fault as [[]|]; simpl; [distinct..|]);
      intros _; exists uid, user, password; eexists;
      (split; [reflexivity|]); (split; [exact Hm|]);
      (split; [reflexivity|]); (split; [reflexivity|]);
      (split; [reflexivity|]); repeat split.
Qed.

End AdminCreation.

Lemma create_admin_rules_witness :
  let b := mkCreateAdminBody (Some "second@lifelink.com")
             (Some "password123") (Some "Second") in
  code (snd (create_admin sample_hash 5000 9 "s1" None (Some 4%N) b
               sample_db))
  = 201
  /\ exists u,
       users (fst (create_admin sample_hash 5000 9 "s1" None (Some 4%N) b
                     sample_db)) !! 9%N = Some u
       /\ User.type u = "admin"
       /\ User.data u !! "admin-password" = Some "password123".
Proof.
  cbv zeta.
  set (b := mkCreateAdminBody (Some "second@lifelink.com")
              (Some "password123") (Some "Second")).
  assert (code (snd (create_admin sample_hash 5000 9 "s1" None (Some 4%N) b
                       sample_db)) = 201) as Hc
    by (vm_compute; reflexivity).
  split; [exact Hc|].
  destruct (proj2 (create_admin_rules sample_hash 5000 9 "s1" None (Some 4%N)
                     b sample_db) Hc)
    as (uid & user & password & u & _ & _ & Hp & _ & Hu & Hty & _ & _ & _
        & Hd & _).
  injection Hp as <-.
  exists u. rewrite Hu, lookup_insert_eq. auto.
Defined.

(** ** Updating the own profile *)

Lemma option_string_eqb_refl o : option_string_eqb o o = true.
Proof. destruct o as [s|]; simpl; [apply String.eqb_refl|reflexivity]. Qed.

(** A valid account stays valid when its type is set to [admin]. *)
Lemma user_validate_as_admin u :
  User.validate u = [] ->
  User.validate (set_user_path u (UType "admin")) = [].
Proof.
  intros H. unfold User.validate in *.
  apply app_eq_nil in H as [H1 H]. apply app_eq_nil in H as [H2 H].
  apply app_eq_nil in H as [_ H]. apply app_eq_nil in H as [H4 H].
  apply app_eq_nil in H as [H5 H]. apply app_eq_nil in H as [H6 H].
  apply app_eq_nil in H as [_ H]. apply app_eq_nil in H as [H8 H9].
  cbn [set_user_path User.email User.password User.googleId User.type
       User.status User.profile].
  rewrite H1, H2, H4, H5, H6, H9. simpl.
  destruct (User.bloodGroup (User.profile u)) as [g|]; [|reflexivity].
  rewrite andb_false_r.
  destruct ((g =? "") && (User.type u =? "donor")); [discriminate|].
  rewrite app_nil_r. exact H8.
Qed.

Lemma unique_emails_others (coll : gmap ObjectId User.t) id u email :
  unique_emails coll ->
  coll !! id = Some u ->
  User.email u = email ->
  findOne_user (fun v => User.email v =? email) (delete id coll) = None.
Proof.
  intros Huniq Hu He. apply findOne_user_None. intros j v Hj.
  apply lookup_delete_Some in Hj as [Hne Hj].
  destruct (String.eqb_spec (User.email v) email) as [E|]; [|reflexivity].
  exfalso. apply Hne. symmetry. apply (Huniq j id v u Hj Hu). congruence.
Qed.

Section Profile.
Variable bcrypt_hash : string -> string -> string.

(** X21. [PATCH /profile] assigns every key of the body to the caller's own
    document, the type included. Any caller with a valid account can
    therefore turn the account into an admin: the request is answered 200,
    the stored type is [admin] while email and password are as before, and
    with the same token [GET /all] is then answered 200. *)
Theorem profile_update_grants_admin now salt token db uid user :
  auth token db = Some (uid, user) ->
  User.validate user = [] ->
  unique_emails (users db) ->
  let out := users_patch_profile bcrypt_hash now salt token [UType "admin"]
               db in
  code (snd out) = 200
  /\ (exists u',
        users (fst out) !! uid = Some u'
        /\ User.type u' = "admin"
        /\ User.email u' = User.email user
        /\ User.password u' = User.password user)
  /\ (forall j, j <> uid -> users (fst out) !! j = users db !! j)
  /\ code (snd (users_get_all token (fst out))) = 200.
Proof.
  intros Ha Hv Huniq. cbv zeta.
  pose proof (auth_Some _ _ _ _ Ha) as [Htok Hu].
  unfold users_patch_profile. rewrite Ha.
  cbv [try_catch bindM gets modify liftE ret throw save_user apply_updates
       fold_left].
  change (User.password (set_user_path user (UType "admin")))
    with (User.password user).
  rewrite option_string_eqb_refl. simpl negb.
  rewrite (user_save_unmodified bcrypt_hash now salt
             (set_user_path user (UType "admin"))
             (user_validate_as_admin _ Hv)).
  destruct (user_validate_pieces _ (user_validate_as_admin _ Hv))
    as (_ & _ & Hname).
  rewrite (user_pre_save_profile_named _ _ Hname).
  set (saved := User.set_updatedAt now (set_user_path user (UType "admin"))).
  assert (findOne_user (fun v => User.email v =? User.email saved)
            (delete uid (users db)) = None) as ->
    by (apply (unique_emails_others _ _ user); auto).
  change (User.googleId saved) with (User.googleId user).
  rewrite option_string_eqb_refl.
  simpl. rewrite lookup_insert_eq.
  split; [reflexivity|]. split; [exists saved; auto|].
  split; [intros j Hj; apply lookup_insert_ne; congruence|].
  assert (auth token
            (with_users (<[uid := saved]> (users db)) db)
          = Some (uid, saved)) as Ha'.
  { subst token. unfold auth. simpl. rewrite lookup_insert_eq. reflexivity. }
  rewrite (users_get_all_run _ _ _ _ Ha'). reflexivity.
Qed.

End Profile.

Lemma profile_update_grants_admin_witness :
  let out := users_patch_profile sample_hash 7000 "s2" (Some 5%N)
               [UType "admin"] sample_db in
  code (snd (users_get_all (Some 5%N) sample_db)) = 400
  /\ code (snd out) = 200
  /\ code (snd (users_get_all (Some 5%N) (fst out))) = 200.
Proof.
  cbv zeta.
  assert (code (snd (users_get_all (Some 5%N) sample_db)) = 400) as H0
    by (vm_compute; reflexivity).
  assert (auth (Some 5%N) sample_db = Some (5%N, patient1)) as Ha
    by (vm_compute; reflexivity).
  assert (User.validate patient1 = []) as Hv by (vm_compute; reflexivity).
  assert (unique_emails (users sample_db)) as Huniq
    by (apply unique_emails_NoDup, (bool_decide_unpack _); vm_compute;
        reflexivity).
  destruct (profile_update_grants_admin sample_hash 7000 "s2" (Some 5%N)
              sample_db 5 patient1 Ha Hv Huniq)
    as (Hc & _ & _ & Hall).
  split; [exact H0|]. split; [exact Hc | exact Hall].
Defined.

(** ** Removing the Google accounts *)

(** X22. [GET /cleanup-google-users] asks for no token. It removes exactly
    the accounts that have a [googleId] and keeps every other account as it
    is; the count it reports is the number of accounts removed. The
    statistics and the ledger are not touched, so the user counters keep
    counting the removed accounts. *)
Theorem cleanup_removes_google_accounts db :
  let out := cleanup_google_users db in
  (forall id u,
     users (fst out) !! id = Some u <->
     users db !! id = Some u /\ User.googleId u = None)
  /\ (exists n,
        snd out = mkResponse 200 (inr n)
        /\ (n + size (users (fst out)) = size (users db))%nat)
  /\ stats (fst out) = stats db
  /\ donations (fst out) = donations db
  /\ requests (fst out) = requests db.
Proof.
  cbv zeta. unfold cleanup_google_users. simpl.
  split; [|split; [|auto]].
  - intros id u. rewrite map_lookup_filter_Some. reflexivity.
  - eexists. split; [reflexivity|].
    pose proof (map_subseteq_size _ _
      (map_filter_subseteq
         (fun kv : ObjectId * User.t => User.googleId kv.2 = None)
         (users db))) as Hle.
    lia.
Qed.

Lemma cleanup_removes_google_accounts_witness :
  users google_db !! 12%N <> None
  /\ users (fst (cleanup_google_users google_db)) !! 12%N = None
  /\ users (fst (cleanup_google_users google_db)) !! 1%N = Some donor1
  /\ stats (fst (cleanup_google_users google_db)) = stats google_db.
Proof.
  destruct (cleanup_removes_google_accounts google_db)
    as (Hl & _ & Hst & _).
  assert (exists u, users google_db !! 12%N = Some u
                    /\ User.googleId u = Some "g-1017") as (u & Hu & Hg).
  { eexists. split; vm_compute; reflexivity. }
  split; [rewrite Hu; distinct|].
  split; [|split; [|exact Hst]].
  - destruct (users (fst (cleanup_google_users google_db)) !! 12%N)
      as [v|] eqn:Hv; [|reflexivity].
    apply Hl in Hv as [Hv Hn].
    pose proof (eq_trans (eq_sym Hv) Hu) as [= ->].
    rewrite Hg in Hn. discriminate Hn.
  - apply Hl. split; vm_compute; reflexivity.
Defined.

(** ** Google accounts *)

Section Google.
Variable bcrypt_hash : string -> string -> string.
Variable bcrypt_compare : string -> string -> bool.

(** The account behind the token of a login has a password hash. *)
Lemma login_token_password now b db ok :
  body (snd (login bcrypt_hash bcrypt_compare now b db)) = inr ok ->
  exists u h,
    users db !! ao_token ok = Some u /\ User.password u = Some h.
Proof.
  unfold login.
  destruct (lb_email b) as [email|]; run_auth_handler; [|discriminate].
  destruct (lb_password b) as [password|]; simpl; [|discriminate].
  destruct (lb_type b) as [type|]; simpl; [|discriminate].
  match goal with
  | |- context [if ?c then (fun _ => _) else _] =>
      destruct c; simpl; [discriminate|]
  end.
  destruct (findOne_user
              (fun u => (User.email u =? cast_email (toLowerCase email))
                        && (User.type u =? toLowerCase type)) (users db))
    as [[id u]|] eqn:Hf; simpl; [|discriminate].
  apply findOne_user_Some in Hf as [Hu _].
  destruct (User.isLocked now u); simpl; [discriminate|].
  destruct (User.status u =? "deactivated"); simpl; [discriminate|].
  unfold User.comparePassword.
  destruct (truthy (User.googleId u) && negb (truthy (User.password u)));
    simpl; [discriminate|].
  destruct (User.password u) as [h|] eqn:Hp; simpl; [|discriminate].
  destruct (bcrypt_compare password h); simpl; [|discriminate].
  destruct (0 <? User.loginAttempts u)%Z; simpl;
    (destruct (User.save bcrypt_hash now "" false
                 (User.set_lastLogin (Some now) u)) as [e|saved];
     simpl; [discriminate|]);
    intros [= <-]; exists u, h; auto.
Qed.

(** What a Google signup that is answered 200 has stored. *)
Lemma google_signup_accepted now newId fault b db :
  code (snd (complete_google_signup bcrypt_hash now newId fault b db)) = 200 ->
  exists email name googleId type phone,
    let u := User.set_updatedAt now
               (new_google_user now type name email phone googleId b) in
    gs_email b = Some email /\ gs_name b = Some name
    /\ gs_googleId b = Some googleId /\ gs_type b = Some type
    /\ gs_phone b = Some phone
    /\ googleId <> ""
    /\ users db !! newId = None
    /\ findOne_user (fun v => User.email v =? User.email u) (users db) = None
    /\ users (fst (complete_google_signup bcrypt_hash now newId fault b db))
       = <[newId := u]> (users db).
Proof.
  unfold complete_google_signup.
  destruct (gs_email b) as [email|]; run_auth_handler; [|discriminate].
  destruct (gs_name b) as [name|]; simpl; [|discriminate].
  destruct (gs_googleId b) as [googleId|]; simpl; [|discriminate].
  destruct (gs_type b) as [type|]; simpl; [|discriminate].
  destruct (gs_phone b) as [phone|]; simpl; [|discriminate].
  destruct (truthy (Some email)); simpl; [|discriminate].
  destruct (truthy (Some name)); simpl; [|discriminate].
  destruct (truthy (Some googleId)) eqn:Hg; simpl; [|discriminate].
  repeat match goal with
  | |- context [if ?c then (fun _ => _) else _] =>
      destruct c; simpl; [discriminate|]
  end.
  cbv [insert_google_user bindM liftE gets modify ret throw]. simpl.
  destruct (User.save bcrypt_hash now "" false
              (new_google_user now type name email phone googleId b))
    as [e|a] eqn:Hs; simpl; [discriminate|].
  pose proof Hs as Hv. unfold User.save in Hv.
  destruct (User.validate
              (new_google_user now type name email phone googleId b))
    eqn:Hval; [clear Hv|discriminate].
  apply user_save_loaded in Hs. subst a.
  destruct (user_validate_pieces _ Hval) as (_ & _ & Hname).
  rewrite (user_pre_save_profile_named _ _ Hname).
  destruct (users db !! newId) eqn:Hnew; simpl; [discriminate|].
  destruct (findOne_user
              (fun v => User.email v
                        =? toLowerCase (trim (toLowerCase email)))
              (users db)) eqn:Hfind; simpl; [discriminate|].
  match goal with
  | |- context [if ?c then (fun _ => _) else _] => destruct c; simpl
  end; [discriminate|].
  apply truthy_Some in Hg.
  destruct (stats db); simpl; (destruct fault; simpl; [distinct|]);
    intros _; exists email, name, googleId, type, phone; cbv zeta;
    do 7 (split; [first [assumption | reflexivity]|]);
    (split; [exact Hfind | reflexivity]).
Qed.

(** X23. An account made by the completion of a Google signup has a
    [googleId], no password, a verified email and the status [active], and
    the signup asks for no token. No login with a password is ever answered
    with a token for an account that has no password, so such an account
    cannot be entered through [/login]. *)
Theorem google_account_has_no_password_login now newId fault b db :
  code (snd (complete_google_signup bcrypt_hash now newId fault b db)) = 200 ->
  let db' := fst (complete_google_signup bcrypt_hash now newId fault b db) in
  (exists u g,
     gs_googleId b = Some g /\ g <> ""
     /\ users db !! newId = None
     /\ users db' !! newId = Some u
     /\ User.googleId u = Some g
     /\ User.password u = None
     /\ User.emailVerified u = true
     /\ User.status u = "active"
     /\ gs_type b = Some (User.type u))
  /\ (forall now' lb ok,
        body (snd (login bcrypt_hash bcrypt_compare now' lb db')) = inr ok ->
        ao_token ok <> newId).
Proof.
  intros Hc. cbv zeta.
  destruct (google_signup_accepted _ _ _ _ _ Hc)
    as (email & name & googleId & type & phone & _ & _ & Hg & Hty & _ & Hne
        & Hnew & _ & Hu).
  split.
  - eexists. exists googleId. split; [exact Hg|]. split; [exact Hne|].
    split; [exact Hnew|]. rewrite Hu, lookup_insert_eq.
    split; [reflexivity|]. rewrite Hty. repeat split.
  - intros now' lb ok Hb Htok.
    apply login_token_password in Hb as (u & h & Hlook & Hp).
    rewrite Htok, Hu, lookup_insert_eq in Hlook. injection Hlook as <-.
    discriminate Hp.
Qed.

End Google.

Lemma google_account_has_no_password_login_witness :
  code (snd (complete_google_signup sample_hash 5000 12 None
               sample_google_signup sample_db)) = 200
  /\ exists u,
       users google_db !! 12%N = Some u
       /\ User.password u = None
       /\ User.emailVerified u = true.
Proof.
  assert (code (snd (complete_google_signup sample_hash 5000 12 None
                       sample_google_signup sample_db)) = 200) as Hc
    by (vm_compute; reflexivity).
  split; [exact Hc|].
  destruct (proj1 (google_account_has_no_password_login sample_hash
                     sample_compare 5000 12 None sample_google_signup
                     sample_db Hc))
    as (u & g & _ & _ & _ & Hu & _ & Hp & Hev & _).
  exists u. auto.
Defined.

(** ** The email addresses stay unique *)

Lemma unique_emails_insert_checked (coll : gmap ObjectId User.t) id u :
  unique_emails coll ->
  findOne_user (fun v => User.email v =? User.email u) (delete id coll)
  = None ->
  unique_emails (<[id := u]> coll).
Proof.
  intros Huniq Hnone.
  assert (forall j v, coll !! j = Some v -> j <> id ->
                      User.email v <> User.email u) as Hfresh.
  { intros j v Hj Hne He.
    pose proof (proj1 (findOne_user_None _ _) Hnone j v) as Hf.
    rewrite lookup_delete_ne in Hf by congruence.
    specialize (Hf Hj). simpl in Hf. rewrite He, String.eqb_refl in Hf.
    discriminate Hf. }
  intros i j a c Hi Hj Hac.
  destruct (decide (i = id)) as [->|Hni];
    destruct (decide (j = id)) as [->|Hnj]; [reflexivity| | |].
  - rewrite lookup_insert_eq in Hi. rewrite lookup_insert_ne in Hj by auto.
    injection Hi as <-. destruct (Hfresh j c Hj Hnj). congruence.
  - rewrite lookup_insert_eq in Hj. rewrite lookup_insert_ne in Hi by auto.
    injection Hj as <-. destruct (Hfresh i a Hi Hni). congruence.
  - rewrite lookup_insert_ne in Hi, Hj by auto.
    exact (Huniq i j a c Hi Hj Hac).
Qed.

Lemma unique_emails_insert_fresh (coll : gmap ObjectId User.t) id u :
  unique_emails coll ->
  findOne_user (fun v => User.email v =? User.email u) coll = None ->
  unique_emails (<[id := u]> coll).
Proof.
  intros Huniq Hnone. apply unique_emails_insert_checked; [exact Huniq|].
  apply findOne_user_None. intros j v Hj.
  apply lookup_delete_Some in Hj as [_ Hj].
  exact (proj1 (findOne_user_None _ _) Hnone j v Hj).
Qed.

Lemma unique_emails_embed (coll coll' : gmap ObjectId User.t) :
  unique_emails coll ->
  (forall j v', coll' !! j = Some v' ->
     exists v, coll !! j = Some v /\ User.email v' = User.email v) ->
  unique_emails coll'.
Proof.
  intros Huniq Hemb i j a c Hi Hj Hac.
  destruct (Hemb i a Hi) as (a0 & Hi0 & Ha).
  destruct (Hemb j c Hj) as (c0 & Hj0 & Hc).
  apply (Huniq i j a0 c0 Hi0 Hj0). congruence.
Qed.

Section UniqueEmails.
Variable bcrypt_hash : string -> string -> string.
Variable bcrypt_compare : string -> string -> bool.

Lemma register_users now newId salt fault b db :
  let users' := users (fst (register bcrypt_hash now newId salt fault b db)) in
  users' = users db
  \/ exists u,
       users' = <[newId := u]> (users db)
       /\ findOne_user (fun v => User.email v =? User.email u) (users db)
          = None.
Proof.
  cbv zeta.
  assert (users (fst (register bcrypt_hash now newId salt fault b db))
          = users (fst (register bcrypt_hash now newId salt None b db)))
    as ->.
  { destruct fault as [e|]; [|reflexivity]. rewrite register_faulty.
    destruct (decide _); reflexivity. }
  destruct (decide (code (snd (register bcrypt_hash now newId salt None b db))
                    = 201)) as [Hc|Hc].
  - destruct (register_accepted _ _ _ _ _ _ _ Hc)
      as (type & name & email & phone & password & _ & _ & _ & _ & _ & _
          & _ & _ & _ & Hfind & _ & _ & ->).
    right. eexists. split; [reflexivity | exact Hfind].
  - left. rewrite (register_refused _ _ _ _ _ _ Hc). reflexivity.
Qed.

Lemma google_signup_users now newId fault b db :
  let users' := users (fst (complete_google_signup bcrypt_hash now newId fault
                              b db)) in
  users' = users db
  \/ exists u,
       users' = <[newId := u]> (users db)
       /\ findOne_user (fun v => User.email v =? User.email u) (users db)
          = None.
Proof.
  cbv zeta. unfold complete_google_signup.
  destruct (gs_email b) as [email|]; run_auth_handler; [|left; reflexivity].
  destruct (gs_name b) as [name|]; simpl; [|left; reflexivity].
  destruct (gs_googleId b) as [googleId|]; simpl; [|left; reflexivity].
  destruct (gs_type b) as [type|]; simpl; [|left; reflexivity].
  destruct (gs_phone b) as [phone|]; simpl; [|left; reflexivity].
  repeat match goal with
  | |- context [if ?c then (fun _ => _) else _] =>
      destruct c; simpl; [left; reflexivity|]
  end.
  cbv [insert_google_user bindM liftE gets modify ret throw]. simpl.
  destruct (User.save bcrypt_hash now "" false
              (new_google_user now type name email phone googleId b))
    as [e|a]; simpl; [left; reflexivity|].
  destruct (users db !! newId); simpl; [left; reflexivity|].
  destruct (findOne_user (fun v => User.email v =? User.email a) (users db))
    eqn:Hfind; simpl; [left; reflexivity|].
  match goal with
  | |- context [if ?c then (fun _ => _) else _] => destruct c; simpl
  end; [left; reflexivity|].
  right. exists a. split; [|exact Hfind].
  destruct (stats db); destruct fault; reflexivity.
Qed.

Lemma create_admin_users now newId salt fault token b db :
  let users' := users (fst (create_admin bcrypt_hash now newId salt fault
                              token b db)) in
  users' = users db
  \/ exists u,
       users' = <[newId := u]> (users db)
       /\ findOne_user (fun v => User.email v =? User.email u) (users db)
          = None.
Proof.
  cbv zeta. unfold create_admin, mainAdminAuth.
  destruct (auth token db) as [[uid user]|]; [|left; reflexivity].
  destruct (negb (User.email user =? main_admin)); [left; reflexivity|].
  destruct (ca_email b) as [email|]; run_auth_handler; [|left; reflexivity].
  destruct (ca_password b) as [password|]; simpl; [|left; reflexivity].
  destruct (ca_name b) as [name|]; simpl; [|left; reflexivity].
  repeat match goal with
  | |- context [if ?c then (fun _ => _) else _] =>
      destruct c; simpl; [left; reflexivity|]
  end.
  destruct (User.save bcrypt_hash now salt true
              (new_admin now name email password)) as [e|a]; simpl;
    [left; reflexivity|].
  destruct (users db !! newId); simpl; [left; reflexivity|].
  destruct (findOne_user (fun v => User.email v =? User.email a) (users db))
    eqn:Hfind; simpl; [left; reflexivity|].
  right. exists a. split; [|exact Hfind].
  destruct (stats db); destruct fault; reflexivity.
Qed.

Lemma patch_profile_users now salt token updates db :
  let users' := users (fst (users_patch_profile bcrypt_hash now salt token
                              updates db)) in
  users' = users db
  \/ exists uid u,
       users' = <[uid := u]> (users db)
       /\ findOne_user (fun v => User.email v =? User.email u)
            (delete uid (users db)) = None.
Proof.
  cbv zeta. unfold users_patch_profile.
  destruct (auth token db) as [[uid user]|]; [|left; reflexivity].
  cbv [try_catch bindM gets modify liftE ret throw save_user].
  destruct (User.save bcrypt_hash now salt _ (apply_updates updates user))
    as [e|a]; simpl; [left; reflexivity|].
  destruct (findOne_user (fun v => User.email v =? User.email a)
              (delete uid (users db))) eqn:Hfind; simpl;
    [left; reflexivity|].
  match goal with
  | |- context [if ?c then _ else _] => destruct c; simpl
  end; [left; reflexivity|].
  right. exists uid, a. auto.
Qed.

Lemma login_users now b db j v' :
  users (fst (login bcrypt_hash bcrypt_compare now b db)) !! j = Some v' ->
  exists v, users db !! j = Some v /\ User.email v' = User.email v.
Proof.
  unfold login.
  destruct (lb_email b) as [email|]; run_auth_handler; [|eauto].
  destruct (lb_password b) as [password|]; simpl; [|eauto].
  destruct (lb_type b) as [type|]; simpl; [|eauto].
  match goal with
  | |- context [if ?c then (fun _ => _) else _] =>
      destruct c; simpl; [eauto|]
  end.
  destruct (findOne_user
              (fun u => (User.email u =? cast_email (toLowerCase email))
                        && (User.type u =? toLowerCase type)) (users db))
    as [[id u]|] eqn:Hf; simpl; [|eauto].
  apply findOne_user_Some in Hf as [Hu _].
  destruct (User.isLocked now u); simpl; [eauto|].
  destruct (User.status u =? "deactivated"); simpl; [eauto|].
  destruct (User.comparePassword bcrypt_compare password u) as [e|[|]];
    simpl; [eauto| |].
  - destruct (0 <? User.loginAttempts u)%Z; simpl;
      (destruct (User.save bcrypt_hash now "" false
                   (User.set_lastLogin (Some now) u)) as [e|saved];
       simpl);
      destruct (decide (j = id)) as [->|Hne];
      rewrite ?lookup_alter_eq, ?lookup_alter_ne, ?lookup_insert_eq,
        ?lookup_insert_ne by congruence;
      rewrite ?Hu; simpl; intros H; try (injection H as <-); eauto.
  - destruct (decide (j = id)) as [->|Hne];
      rewrite ?lookup_insert_eq, ?lookup_insert_ne by congruence;
      intros H; try (injection H as <-); eauto.
    exists u. split; [exact Hu|].
    unfold User.incLoginAttempts.
    destruct (User.lockUntil u) as [t|]; [destruct (t <? now)%Z|];
      try destruct (_ && _); reflexivity.
Qed.

(** X24. No route lets two accounts share an email address. If the
    addresses of the stored accounts are pairwise different, they still are
    after a registration, a login, the creation of an admin, an update of
    the own profile (which may change the address), the delete of an
    account, the completion of a Google signup and the removal of the
    Google accounts, whatever the request; and the routes of the ledger do
    not write to the accounts at all. *)
Theorem emails_stay_unique db :
  unique_emails (users db) ->
  (forall now newId salt fault b,
     unique_emails
       (users (fst (register bcrypt_hash now newId salt fault b db))))
  /\ (forall now b,
        unique_emails
          (users (fst (login bcrypt_hash bcrypt_compare now b db))))
  /\ (forall now newId salt fault token b,
        unique_emails
          (users (fst (create_admin bcrypt_hash now newId salt fault token b
                         db))))
  /\ (forall now salt token updates,
        unique_emails
          (users (fst (users_patch_profile bcrypt_hash now salt token updates
                         db))))
  /\ (forall now fault token userId,
        unique_emails (users (fst (users_delete now fault token userId db))))
  /\ (forall now newId fault b,
        unique_emails
          (users (fst (complete_google_signup bcrypt_hash now newId fault b
                         db))))
  /\ unique_emails (users (fst (cleanup_google_users db)))
  /\ (forall db', step db db' -> users db' = users db).
Proof.
  intros Huniq. repeat split.
  - intros now newId salt fault b.
    destruct (register_users now newId salt fault b db)
      as [-> | (u & -> & Hfind)]; [exact Huniq|].
    apply unique_emails_insert_fresh; assumption.
  - intros now b. apply (unique_emails_embed _ _ Huniq).
    intros j v'. apply login_users.
  - intros now newId salt fault token b.
    destruct (create_admin_users now newId salt fault token b db)
      as [-> | (u & -> & Hfind)]; [exact Huniq|].
    apply unique_emails_insert_fresh; assumption.
  - intros now salt token updates.
    destruct (patch_profile_users now salt token updates db)
      as [-> | (uid & u & -> & Hfind)]; [exact Huniq|].
    apply unique_emails_insert_checked; assumption.
  - intros now fault token userId.
    apply (unique_emails_embed _ _ Huniq). intros j v' Hj.
    exists v'. split; [|reflexivity].
    destruct (auth token db) as [[uid user]|] eqn:Ha.
    2:{ unfold users_delete in Hj. rewrite Ha in Hj. exact Hj. }
    rewrite (users_delete_run _ _ _ _ _ _ _ Ha) in Hj.
    destruct (negb (User.type user =? "admin")); [exact Hj|].
    destruct (users db !! userId) as [target|]; [|exact Hj].
    destruct (_ && _); [exact Hj|].
    destruct (User.email target =? main_admin); [exact Hj|].
    cbv zeta in Hj.
    destruct (stats db) as [|s ss]; [|destruct fault]; simpl in Hj;
      apply lookup_delete_Some in Hj as [_ Hj]; exact Hj.
  - intros now newId fault b.
    destruct (google_signup_users now newId fault b db)
      as [-> | (u & -> & Hfind)]; [exact Huniq|].
    apply unique_emails_insert_fresh; assumption.
  - apply (unique_emails_embed _ _ Huniq). intros j v' Hj.
    exists v'. split; [|reflexivity].
    unfold cleanup_google_users in Hj. simpl in Hj.
    apply map_lookup_filter_Some in Hj as [Hj _]. exact Hj.
  - intros db' Hstep.
    destruct Hstep as [now newId fault token b db|now token id b db
                      |token id db|now newId fault token b db
                      |now token id b db|token id db].
    + exact (proj1 (donations_post_effect now newId fault token b db)).
    + destruct (donations_patch_effect now token id b db)
        as [-> | (uid & user & d & d' & _ & _ & _ & ->)]; reflexivity.
    + exact (proj1 (donations_delete_effect token id db)).
    + exact (proj1 (requests_post_effect now newId fault token b db)).
    + destruct (requests_patch_effect now token id b db)
        as [-> | (uid & user & status & r & r' & _ & _ & _ & _ & _ & _ & ->)];
        reflexivity.
    + exact (proj1 (requests_delete_effect token id db)).
Qed.

End UniqueEmails.

Lemma emails_stay_unique_witness :
  unique_emails (users sample_db)
  /\ unique_emails (users registered_db)
  /\ unique_emails
       (users (fst (users_patch_profile sample_hash 7000 "s2" (Some 5%N)
                      [UEmail "Dana@Example.com"] sample_db))).
Proof.
  assert (unique_emails (users sample_db)) as Huniq
    by (apply unique_emails_NoDup, (bool_decide_unpack _); vm_compute;
        reflexivity).
  destruct (emails_stay_unique sample_hash sample_compare sample_db Huniq)
    as (Hreg & _ & _ & Hpatch & _).
  split; [exact Huniq|]. split; [apply Hreg | apply Hpatch].
Defined.

(** ** Who is shown a claimed entry *)

Lemma donation_claim_result now uid user b d d' s :
  User.type user = "hospital" ->
  pb_status b = Some s ->
  s = "approved" \/ s = "completed" ->
  donation_transition now uid user b d = inr d' ->
  Donation.status d' = s
  /\ Donation.rejectedByHospitals d' = Donation.rejectedByHospitals d
  /\ (s = "approved" -> Donation.hospitalId d' = Some uid).
Proof.
  intros Hty Hs Hcase Ht.
  destruct Hcase as [-> | ->].
  - rewrite (donation_transition_approve _ _ _ _ _ Hty Hs) in Ht.
    cbv zeta in Ht. apply donation_save_inr in Ht as [_ ->].
    match goal with
    | |- context [Donation.pre_save ?n ?m ?x] =>
        destruct (donation_pre_save_frame n m x)
          as (-> & -> & _ & _ & _ & -> & _)
    end.
    destruct (defined (pb_patientId b)); simpl; auto.
  - rewrite (donation_transition_complete _ _ _ _ _ Hty Hs) in Ht.
    cbv zeta in Ht. apply donation_save_inr in Ht as [_ ->].
    match goal with
    | |- context [Donation.pre_save ?n ?m ?x] =>
        destruct (donation_pre_save_frame n m x)
          as (-> & -> & _ & _ & _ & -> & _)
    end.
    destruct (defined (pb_patientId b)); simpl;
      (split; [reflexivity|]); (split; [reflexivity|]); intros H;
      discriminate H.
Qed.

Lemma request_claim_result now uid user reason r r' s :
  s = "approved" \/ s = "completed" ->
  request_transition now uid user s reason r = inr r' ->
  Request.status r' = s
  /\ Request.rejectedByHospitals r' = Request.rejectedByHospitals r
  /\ Request.hospitalId r' = Some uid.
Proof.
  intros Hcase Ht. unfold request_transition in Ht.
  apply request_save_inr in Ht as [_ ->].
  match goal with
  | |- context [Request.pre_save ?n ?m ?x] =>
      destruct (request_pre_save_frame n m x)
        as (-> & -> & _ & _ & -> & _)
  end.
  destruct Hcase as [-> | ->]; simpl; auto.
Qed.

Lemma visible_claimed `{Entry A} (h h' : ObjectId) (e : A) s :
  s = "approved" \/ s = "completed" ->
  entry_status e = s ->
  (s = "approved" -> entry_hospitalId e = Some h) ->
  visible_to_hospital h' e <->
  (s = "approved" /\ h' = h) \/ rejected_by h' (entry_rejections e) = true.
Proof.
  intros Hcase Hs Hh. unfold visible_to_hospital.
  rewrite Hs, <- !rejected_by_elem. split.
  - intros [[Hp _] | [[[Ha | Hr] Hid] | Hrej]].
    + destruct Hcase as [-> | ->]; discriminate Hp.
    + left. split; [exact Ha|]. rewrite (Hh Ha) in Hid. congruence.
    + destruct Hcase as [-> | ->]; discriminate Hr.
    + right. exact Hrej.
  - intros [[Ha ->] | Hrej]; [|auto].
    right. left. split; [left; exact Ha|]. exact (Hh Ha).
Qed.

(** X25. Who is shown an entry that a hospital has claimed. After a
    hospital has approved an entry (200), the entry is in the list of the
    approving hospital and of the hospitals that rejected it earlier, and of
    no other hospital. After a hospital has set an entry to completed, the
    entry is in the list of the hospitals that rejected it earlier only: the
    hospital that completed it no longer sees it, unless it had rejected
    it. *)
Theorem visibility_after_claim now token id b db h hu s :
  auth token db = Some (h, hu) ->
  User.type hu = "hospital" ->
  pb_status b = Some s ->
  s = "approved" \/ s = "completed" ->
  (let db' := fst (donations_patch now token id b db) in
   code (snd (donations_patch now token id b db)) = 200 ->
   exists d d',
     donations db !! id = Some d
     /\ donations db' !! id = Some d'
     /\ Donation.status d' = s
     /\ forall token' h' hu' l,
          auth token' db' = Some (h', hu') ->
          User.type hu' = "hospital" ->
          body (snd (donations_get token' db')) = inr l ->
          ((id, d') ∈ l <->
           (s = "approved" /\ h' = h)
           \/ rejected_by h' (Donation.rejectedByHospitals d) = true))
  /\ (let db' := fst (requests_patch now token id b db) in
      code (snd (requests_patch now token id b db)) = 200 ->
      exists r r',
        requests db !! id = Some r
        /\ requests db' !! id = Some r'
        /\ Request.status r' = s
        /\ forall token' h' hu' l,
             auth token' db' = Some (h', hu') ->
             User.type hu' = "hospital" ->
             body (snd (requests_get token' db')) = inr l ->
             ((id, r') ∈ l <->
              (s = "approved" /\ h' = h)
              \/ rejected_by h' (Request.rejectedByHospitals r) = true)).
Proof.
  intros Ha Hty Hs Hcase. split; cbv zeta; intros Hc.
  - apply donations_patch_ok in Hc
      as (uid & user & d & d' & Ha' & Hd & Ht & ->).
    rewrite Ha in Ha'. injection Ha' as <- <-.
    destruct (donation_claim_result _ _ _ _ _ _ _ Hty Hs Hcase Ht)
      as (Hst & Hrej & Hh).
    exists d, d'. simpl. rewrite lookup_insert_eq.
    split; [exact Hd|]. split; [reflexivity|]. split; [exact Hst|].
    intros token' h' hu' l Ha' Hty' Hl.
    apply donations_get_list in Hl as (uid & user & q & Ha'' & Hq & ->).
    rewrite Ha' in Ha''. injection Ha'' as <- <-.
    unfold donations_query in Hq. rewrite Hty' in Hq. injection Hq as <-.
    rewrite find_elem, hospital_query_visible. simpl.
    rewrite lookup_insert_eq.
    rewrite (@visible_claimed Donation.t donation_entry h h' d' s Hcase Hst Hh).
    change (entry_rejections d') with (Donation.rejectedByHospitals d').
    rewrite Hrej. intuition.
  - apply requests_patch_ok in Hc
      as (uid & user & status & r & r' & Ha' & _ & Hr & Hs' & _ & Ht & ->).
    rewrite Ha in Ha'. injection Ha' as <- <-.
    rewrite Hs in Hs'. injection Hs' as <-.
    destruct (request_claim_result _ _ _ _ _ _ _ Hcase Ht)
      as (Hst & Hrej & Hh).
    exists r, r'. simpl. rewrite lookup_insert_eq.
    split; [exact Hr|]. split; [reflexivity|]. split; [exact Hst|].
    intros token' h' hu' l Ha' Hty' Hl.
    apply requests_get_list in Hl as (uid & user & q & Ha'' & Hq & ->).
    rewrite Ha' in Ha''. injection Ha'' as <- <-.
    unfold requests_query in Hq. rewrite Hty' in Hq. injection Hq as <-.
    rewrite sorted_elem, find_elem, hospital_query_visible. simpl.
    rewrite lookup_insert_eq.
    rewrite (@visible_claimed Request.t request_entry h h' r' s Hcase Hst (fun _ => Hh)).
    change (entry_rejections r') with (Request.rejectedByHospitals r').
    rewrite Hrej. intuition.
Qed.

Lemma visibility_after_claim_witness :
  let db := with_donations {[ 10%N := rejected_donation ]} sample_db in
  let db' := fst (donations_patch 3000 (Some 3%N) 10 complete_body db) in
  code (snd (donations_patch 3000 (Some 3%N) 10 complete_body db)) = 200
  /\ exists d' l2 l3,
       donations db' !! 10%N = Some d'
       /\ body (snd (donations_get (Some 2%N) db')) = inr l2
       /\ body (snd (donations_get (Some 3%N) db')) = inr l3
       /\ (10%N, d') ∈ l2
       /\ (10%N, d') ∉ l3.
Proof.
  cbv zeta.
  set (db := with_donations {[ 10%N := rejected_donation ]} sample_db).
  assert (code (snd (donations_patch 3000 (Some 3%N) 10 complete_body db))
          = 200) as Hc by (vm_compute; reflexivity).
  assert (auth (Some 3%N) db = Some (3%N, hospitalB)) as Ha
    by (vm_compute; reflexivity).
  split; [exact Hc|].
  destruct (proj1 (visibility_after_claim 3000 (Some 3%N) 10 complete_body db
                     3 hospitalB "completed" Ha eq_refl eq_refl
                     (or_intror eq_refl)) Hc)
    as (d & d' & Hd & Hd' & _ & Hlist).
  assert (Some d = Some rejected_donation) as [= ->]
    by (rewrite <- Hd; vm_compute; reflexivity).
  set (db' := fst (donations_patch 3000 (Some 3%N) 10 complete_body db)) in *.
  assert (auth (Some 2%N) db' = Some (2%N, hospitalA)) as Ha2
    by (vm_compute; reflexivity).
  assert (auth (Some 3%N) db' = Some (3%N, hospitalB)) as Ha3
    by (vm_compute; reflexivity).
  destruct (body (snd (donations_get (Some 2%N) db'))) as [e|l2] eqn:Hl2;
    [vm_compute in Hl2; discriminate Hl2|].
  destruct (body (snd (donations_get (Some 3%N) db'))) as [e|l3] eqn:Hl3;
    [vm_compute in Hl3; discriminate Hl3|].
  exists d', l2, l3. split; [exact Hd'|].
  split; [reflexivity|]. split; [reflexivity|]. split.
  - apply (Hlist (Some 2%N) 2%N hospitalA l2 Ha2 eq_refl Hl2).
    right. vm_compute. reflexivity.
  - intros Hin.
    apply (Hlist (Some 3%N) 3%N hospitalB l3 Ha3 eq_refl Hl3) in Hin
      as [[Hcontra _] | Hrej]; [discriminate Hcontra|].
    vm_compute in Hrej. discriminate Hrej.
Defined.

(** ** What a create refuses *)

Lemma donation_validate_type d :
  Donation.type d <> Some "blood" ->
  Donation.type d <> Some "medicine" ->
  Donation.validate d <> [].
Proof.
  intros Hb Hm Hv. apply donation_validate_nil_type in Hv as [Hv | Hv];
    contradiction.
Qed.

Lemma request_validate_type r :
  ~ (exists ty, Request.type r = Some ty /\ ty ∈ Request.types) ->
  Request.validate r <> [].
Proof.
  intros Hn Hv. apply Hn.
  apply request_validate_nil_type in Hv as [Hv | [Hv | [Hv | Hv]]];
    rewrite Hv; eexists; (split; [reflexivity|]); unfold Request.types;
    set_solver.
Qed.

(** X26. What the two create routes refuse, always without writing. Only a
    donor creates a donation (400 for everyone else) and only a patient a
    request (403 for everyone else); and a body whose type is not one the
    schema allows (blood or medicine for a donation; blood, medicine, bed or
    doctor for a request) fails the validation of [save()] and is answered
    400. *)
Theorem create_refusals now newId fault token db uid user :
  auth token db = Some (uid, user) ->
  (forall b,
     User.type user <> "donor" ->
     donations_post now newId fault token b db
     = (db, mkResponse 400 (inl "Only donors can create donations")))
  /\ (forall b,
        User.type user <> "patient" ->
        requests_post now newId fault token b db
        = (db, mkResponse 403 (inl "Only patients can create requests")))
  /\ (forall b,
        dp_type b <> Some "blood" -> dp_type b <> Some "medicine" ->
        fst (donations_post now newId fault token b db) = db
        /\ code (snd (donations_post now newId fault token b db)) = 400)
  /\ (forall b,
        ~ (exists ty, rp_type b = Some ty /\ ty ∈ Request.types) ->
        fst (requests_post now newId fault token b db) = db
        /\ code (snd (requests_post now newId fault token b db)) <> 201)
  /\ (forall b,
        code (snd (donations_post now newId fault token b db)) = 201 ->
        User.type user = "donor")
  /\ (forall b,
        code (snd (requests_post now newId fault token b db)) = 201 ->
        User.type user = "patient").
Proof.
  intros Ha. pose proof (auth_Some _ _ _ _ Ha) as [_ Hu].
  assert (forall b, User.type user <> "donor" ->
            donations_post now newId fault token b db
            = (db, mkResponse 400 (inl "Only donors can create donations")))
    as Hnd.
  { intros b Hty. unfold donations_post. rewrite Ha. run_handler.
    destruct (String.eqb_spec (User.type user) "donor"); [contradiction|].
    reflexivity. }
  assert (forall b, User.type user <> "patient" ->
            requests_post now newId fault token b db
            = (db, mkResponse 403 (inl "Only patients can create requests")))
    as Hnp.
  { intros b Hty. unfold requests_post. rewrite Ha. run_handler.
    destruct (String.eqb_spec (User.type user) "patient"); [contradiction|].
    reflexivity. }
  split; [exact Hnd|]. split; [exact Hnp|]. split; [|split; [|split]].
  - intros b Hb Hm.
    destruct (String.eqb_spec (User.type user) "donor") as [Hty|Hty];
      [|rewrite (Hnd b Hty); split; reflexivity].
    unfold donations_post. rewrite Ha. run_handler. rewrite Hty. simpl.
    rewrite Hu. simpl.
    pose proof (donation_validate_type (new_donation now uid user b) Hb Hm)
      as Hv.
    unfold Donation.save.
    destruct (Donation.validate (new_donation now uid user b));
      [contradiction|]. split; reflexivity.
  - intros b Hn.
    destruct (String.eqb_spec (User.type user) "patient") as [Hty|Hty];
      [|rewrite (Hnp b Hty); split; [reflexivity|distinct]].
    unfold requests_post. rewrite Ha. run_handler. rewrite Hty. simpl.
    rewrite Hu. simpl.
    pose proof (request_validate_type (new_request now uid user b) Hn) as Hv.
    unfold Request.save.
    destruct (Request.validate (new_request now uid user b));
      [contradiction|]. split; [reflexivity|distinct].
  - intros b Hc.
    destruct (String.eqb_spec (User.type user) "donor") as [Hty|Hty];
      [exact Hty|].
    rewrite (Hnd b Hty) in Hc. discriminate Hc.
  - intros b Hc.
    destruct (String.eqb_spec (User.type user) "patient") as [Hty|Hty];
      [exact Hty|].
    rewrite (Hnp b Hty) in Hc. discriminate Hc.
Qed.

Lemma create_refusals_witness :
  donations_post 1000 10 None (Some 2%N) (mkDonationPost (Some "blood") None)
    sample_db
  = (sample_db, mkResponse 400 (inl "Only donors can create donations"))
  /\ fst (donations_post 1000 10 None (Some 1%N)
            (mkDonationPost (Some "plasma") None) sample_db) = sample_db.
Proof.
  assert (auth (Some 2%N) sample_db = Some (2%N, hospitalA)) as Ha2
    by (vm_compute; reflexivity).
  assert (auth (Some 1%N) sample_db = Some (1%N, donor1)) as Ha1
    by (vm_compute; reflexivity).
  split.
  - apply (proj1 (create_refusals 1000 10 None (Some 2%N) sample_db 2
                    hospitalA Ha2)).
    distinct.
  - apply (proj1 (proj2 (proj2 (create_refusals 1000 10 None (Some 1%N)
                                  sample_db 1 donor1 Ha1)))
             (mkDonationPost (Some "plasma") None)); distinct.
Defined.

(** ** Registration and the admin routes *)

Lemma uncount_count_user type s now now' :
  Stats.pre_save now' (uncount_user type (Stats.pre_save now (count_user type s)))
  = Stats.pre_save now' s.
Proof.
  destruct s as [tu td th tp tdn lu].
  unfold count_user, uncount_user, Stats.pre_save.
  destruct (type =? "donor"); [simpl; f_equal; lia|].
  destruct (type =? "hospital"); [simpl; f_equal; lia|].
  destruct (type =? "patient"); simpl; f_equal; lia.
Qed.

Section RegistrationAndAdmins.
Variable bcrypt_hash : string -> string -> string.

(** X27. Registering an account and deleting it again restores the store:
    when an admin deletes the account of a registration that was answered
    201 (not an admin's, and not under the main admin's address), the
    delete is answered 200, the accounts and the ledger are as they were
    before the registration, and so are the counters of the statistics
    document; only its [lastUpdated] is the time of the delete. *)
Theorem register_then_delete now newId salt fault b db now' token uid admin s
  ss :
  code (snd (register bcrypt_hash now newId salt fault b db)) = 201 ->
  auth token db = Some (uid, admin) ->
  User.type admin = "admin" ->
  rb_type b <> Some "admin" ->
  (forall email, rb_email b = Some email -> toLowerCase email <> main_admin) ->
  stats db = s :: ss ->
  let db1 := fst (register bcrypt_hash now newId salt fault b db) in
  users_delete now' None token newId db1
  = (with_stats (Stats.pre_save now' s :: ss) db,
     mkResponse 200 (inr "User deleted successfully")).
Proof.
  intros Hc Ha Hadm Hnadm Hnmain Hst. cbv zeta.
  destruct (register_accepted _ _ _ _ _ _ _ Hc)
    as (type & name & email & phone & password & Hty & _ & Hem & _ & _ & _
        & _ & _ & Hre & _ & Hnew & _ & ->).
  simpl fst. rewrite Hst.
  set (u := User.set_hashed (bcrypt_hash salt password)
              (User.set_updatedAt now
                 (new_user now type name email phone password b))).
  pose proof (auth_Some _ _ _ _ Ha) as [-> Hu].
  assert (uid <> newId) as Hne by congruence.
  erewrite users_delete_run;
    [|unfold auth; simpl; rewrite lookup_insert_ne by congruence;
      rewrite Hu; reflexivity].
  rewrite Hadm. simpl. rewrite lookup_insert_eq.
  assert (User.type u = type) as -> by reflexivity.
  assert (User.email u = toLowerCase email) as ->
    by (rewrite <- (email_trim_lower _ Hre); reflexivity).
  destruct (String.eqb_spec type "admin") as [->|_];
    [destruct (Hnadm Hty)|].
  destruct (String.eqb_spec (toLowerCase email) main_admin) as [E|_];
    [destruct (Hnmain _ Hem E)|].
  simpl. rewrite uncount_count_user, delete_insert_id by exact Hnew.
  destruct db; reflexivity.
Qed.

(** X28. The main admin is whoever holds the address admin@lifelink.com.
    The account of a registration under that address (in any case of the
    letters, and of any type) that was answered 201 passes the main-admin
    check of [/create-admin], which never answers it 401 or 403, and no
    request to delete that account removes it. *)
Theorem main_admin_is_an_address now newId salt fault b db email :
  code (snd (register bcrypt_hash now newId salt fault b db)) = 201 ->
  rb_email b = Some email ->
  toLowerCase email = main_admin ->
  let db' := fst (register bcrypt_hash now newId salt fault b db) in
  (forall now' newId' salt' fault' cb,
     let out := create_admin bcrypt_hash now' newId' salt' fault' (Some newId)
                  cb db' in
     code (snd out) <> 401 /\ code (snd out) <> 403)
  /\ (forall now' fault' token,
        users (fst (users_delete now' fault' token newId db')) !! newId
        <> None).
Proof.
  intros Hc Hem Hmain. cbv zeta.
  destruct (register_accepted _ _ _ _ _ _ _ Hc)
    as (type & name & email' & phone & password & _ & _ & Hem' & _ & _ & _
        & _ & _ & Hre & _ & _ & _ & ->).
  rewrite Hem in Hem'. injection Hem' as <-. simpl fst.
  set (u := User.set_hashed (bcrypt_hash salt password)
              (User.set_updatedAt now
                 (new_user now type name email phone password b))).
  set (st := match stats db with
             | [] => _
             | s :: ss => _
             end).
  set (db' := mkDB (<[newId := u]> (users db)) (donations db) (requests db)
                st).
  assert (User.email u = main_admin) as Hue.
  { rewrite <- Hmain, <- (email_trim_lower _ Hre). reflexivity. }
  assert (users db' !! newId = Some u) as Hu by apply lookup_insert_eq.
  split.
  - intros now' newId' salt' fault' cb.
    assert (auth (Some newId) db' = Some (newId, u)) as Ha.
    { unfold auth, db'. simpl. rewrite lookup_insert_eq. reflexivity. }
    unfold create_admin, mainAdminAuth. rewrite Ha, Hue.
    rewrite String.eqb_refl. simpl negb. cbv iota.
    destruct (ca_email cb) as [e1|]; run_auth_handler;
      [|split; distinct].
    destruct (ca_password cb) as [p1|]; simpl; [|split; distinct].
    destruct (ca_name cb) as [n1|]; simpl; [|split; distinct].
    repeat match goal with
    | |- context [if ?c then (fun _ => _) else _] =>
        destruct c; simpl; [split; distinct|]
    end.
    destruct (User.save bcrypt_hash now' salt' true
                (new_admin now' n1 e1 p1)) as [e|a]; simpl.
    { destruct e; split; distinct. }
    match goal with
    | |- context [if ?c then (fun _ => _) else _] => destruct c; simpl
    end; [split; distinct|].
    destruct (head st); simpl; destruct fault' as [[]|]; simpl;
      split; distinct.
  - intros now' fault' token.
    destruct (auth token db') as [[uid user]|] eqn:Ha.
    2:{ unfold users_delete. rewrite Ha. cbn [fst]. rewrite Hu. distinct. }
    rewrite (users_delete_run _ _ _ _ _ _ _ Ha), Hu, Hue.
    rewrite String.eqb_refl.
    destruct (negb (User.type user =? "admin")); cbn [fst];
      [rewrite Hu; distinct|].
    destruct (_ && _); cbn [fst]; rewrite Hu; distinct.
Qed.

End RegistrationAndAdmins.

Lemma register_then_delete_witness :
  users_delete 6000 None (Some 4%N) 9 registered_db
  = (with_stats [Stats.mk 5 1 2 1 0 6000] sample_db,
     mkResponse 200 (inr "User deleted successfully")).
Proof.
  assert (code (snd (register sample_hash 5000 9 "s1" None
                       sample_registration sample_db)) = 201) as Hc
    by (vm_compute; reflexivity).
  assert (auth (Some 4%N) sample_db = Some (4%N, admin1)) as Ha
    by (vm_compute; reflexivity).
  refine (register_then_delete sample_hash 5000 9 "s1" None
            sample_registration sample_db 6000 (Some 4%N) 4 admin1
            (Stats.mk 5 1 2 1 0 0) [] Hc Ha eq_refl _ _ eq_refl).
  - distinct.
  - intros email [= <-]. vm_compute. distinct.
Defined.

Lemma main_admin_is_an_address_witness :
  let b := mkRegisterBody (Some "patient") (Some "Eve")
             (Some "Admin@LifeLink.com") (Some "5550007777")
             (Some "password123") None None None None in
  let db := with_users (delete 4%N sample_users) sample_db in
  let db' := fst (register sample_hash 5000 9 "s1" None b db) in
  code (snd (register sample_hash 5000 9 "s1" None b db)) = 201
  /\ code (snd (create_admin sample_hash 6000 13 "s2" None (Some 9%N)
                  (mkCreateAdminBody (Some "eve2@example.net")
                     (Some "password123") (Some "Eve Two")) db')) <> 403.
Proof.
  cbv zeta.
  set (b := mkRegisterBody (Some "patient") (Some "Eve")
              (Some "Admin@LifeLink.com") (Some "5550007777")
              (Some "password123") None None None None).
  set (db := with_users (delete 4%N sample_users) sample_db).
  assert (code (snd (register sample_hash 5000 9 "s1" None b db)) = 201)
    as Hc by (vm_compute; reflexivity).
  split; [exact Hc|].
  exact (proj2 (proj1 (main_admin_is_an_address sample_hash 5000 9 "s1" None
                         b db "Admin@LifeLink.com" Hc eq_refl eq_refl)
                  6000%Z 13%N "s2" None
                  (mkCreateAdminBody (Some "eve2@example.net")
                     (Some "password123") (Some "Eve Two")))).
Defined.

(** ** After a login *)

Section AfterLogin.
Variable bcrypt_hash : string -> string -> string.
Variable bcrypt_compare : string -> string -> bool.

(** X29. A login that is answered 200 stores the account unlocked: the
    account as the login leaves it in the store is not locked, by
    [isLocked], at the time of the login nor at any later time, whether the
    login has cleared the lock together with the failed attempts or an old
    lock had already run out. This is a statement about the document the
    login has written; a later request (a failed login, an update of the
    own profile) can lock the account again. *)
Theorem login_leaves_account_unlocked now b db :
  let out := login bcrypt_hash bcrypt_compare now b db in
  code (snd out) = 200 ->
  exists ok u',
    body (snd out) = inr ok
    /\ users (fst out) !! ao_token ok = Some u'
    /\ forall t, (now <= t)%Z -> User.isLocked t u' = false.
Proof.
  cbv zeta. intros Hc.
  destruct (login_fields _ _ _ _ _ Hc)
    as (email & password & type & He & Hp & Ht & Hne & Hnp & Hnt).
  rewrite (login_run _ _ _ _ _ _ _ _ He Hp Ht Hne Hnp Hnt) in Hc |- *.
  destruct (findOne_user (login_filter email type) (users db))
    as [[id u]|] eqn:Hf; [|discriminate Hc].
  apply findOne_user_Some in Hf as [Hu _].
  destruct (User.isLocked now u) eqn:Hl; [discriminate Hc|].
  destruct (User.status u =? "deactivated"); [discriminate Hc|].
  destruct (User.comparePassword bcrypt_compare password u) as [e|[|]];
    [discriminate Hc| |discriminate Hc].
  cbv zeta in Hc |- *.
  destruct (User.save bcrypt_hash now "" false
              (User.set_lastLogin (Some now) u)) as [e|saved];
    [destruct (0 <? User.loginAttempts u)%Z; discriminate Hc|].
  clear Hc.
  exists (mkAuthOk (user_view id saved (User.lastLogin saved)) id).
  destruct (0 <? User.loginAttempts u)%Z; simpl.
  - rewrite lookup_alter_eq, lookup_insert_eq. simpl.
    eexists. split; [reflexivity|]. split; [reflexivity|].
    intros t _. reflexivity.
  - rewrite lookup_alter_eq, Hu. simpl.
    eexists. split; [reflexivity|]. split; [reflexivity|].
    intros t Hle. unfold User.isLocked in *. simpl.
    destruct (User.accountLocked u); [|reflexivity].
    destruct (User.lockUntil u) as [tl|]; [|reflexivity].
    simpl in *. apply Z.ltb_ge in Hl. apply Z.ltb_ge. lia.
Qed.

End AfterLogin.

Lemma login_leaves_account_unlocked_witness :
  let out := login sample_hash sample_compare 6005 sample_login
               four_failures_db in
  code (snd out) = 200
  /\ exists u',
       users (fst out) !! 9%N = Some u'
       /\ User.isLocked 6006 u' = false
       /\ User.loginAttempts u' = 0%Z.
Proof.
  cbv zeta.
  assert (code (snd (login sample_hash sample_compare 6005 sample_login
                       four_failures_db)) = 200) as Hc
    by (vm_compute; reflexivity).
  split; [exact Hc|].
  destruct (login_leaves_account_unlocked sample_hash sample_compare 6005
              sample_login four_failures_db Hc)
    as (ok & u' & Hb & Hu' & Hunl).
  pose proof (f_equal (fun x : string + AuthOk =>
                         match x with
                         | inr o => ao_token o
                         | inl _ => 0%N
                         end) Hb) as Htok.
  vm_compute in Htok. change (9%N = ao_token ok) in Htok.
  rewrite <- Htok in Hu'.
  exists u'. split; [exact Hu'|]. split; [apply Hunl; lia|].
  assert (Some u' = Some (User.set_lastLogin (Some 6005%Z)
                            (User.set_updatedAt 6005
                               (User.set_lock 0 false None
                                  registered_hospital)))) as [= ->]
    by (rewrite <- Hu'; vm_compute; reflexivity).
  reflexivity.
Defined.

(** The own profile can lock the account again: the patient (id 5) sends
    [accountLocked] and [lockUntil] to [PATCH /profile], the update is
    answered 200, and the stored account is locked until that time. *)
Example profile_update_can_lock :
  let out := users_patch_profile sample_hash 7000 "s2" (Some 5%N)
               [UAccountLocked true; ULockUntil (Some 99999%Z)] sample_db in
  User.isLocked 7001 patient1 = false
  /\ code (snd out) = 200
  /\ exists u',
       users (fst out) !! 5%N = Some u'
       /\ User.isLocked 7001 u' = true.
Proof.
  cbv zeta. split; [reflexivity|]. split; [vm_compute; reflexivity|].
  eexists. split; [vm_compute; reflexivity|]. reflexivity.
Qed.

(** ** The donor's contact data on a donation *)

Lemma js_or_lit_truthy a lit : lit <> "" -> truthy (Some (js_or_lit a lit)) = true.
Proof.
  intros Hl. apply truthy_Some. unfold js_or_lit.
  destruct a as [s|]; [|exact Hl].
  destruct (String.eqb_spec s ""); [exact Hl|assumption].
Qed.

(** X30. The snapshot of the donor's contact data. On every ledger that the
    workflow has grown from an empty one, each donation carries a name, an
    email and a phone of the donor that are non-empty strings (the words
    "Unknown Donor", "No Email" and "No Phone" stand in for missing ones).
    When a donation is created with contact details and the preference
    [email], the details become the email of the snapshot; with the
    preference [phone] or [sms] they become its phone. *)
Theorem donor_snapshot_is_never_empty :
  (forall db,
     reachable db ->
     forall id d,
       donations db !! id = Some d ->
       truthy (Donation.donorName d) = true
       /\ truthy (Donation.donorEmail d) = true
       /\ truthy (Donation.donorPhone d) = true)
  /\ (forall now newId fault token b db details c pref,
        code (snd (donations_post now newId fault token b db)) = 201 ->
        dp_details b = Some details ->
        Donation.contactDetails details = Some c ->
        c <> "" ->
        Donation.contactPreference details = Some pref ->
        exists d,
          donations (fst (donations_post now newId fault token b db)) !! newId
          = Some d
          /\ (pref = "email" -> Donation.donorEmail d = Some c)
          /\ (pref = "phone" \/ pref = "sms" -> Donation.donorPhone d = Some c)).
Proof.
  split.
  - intros db Hr id d Hd.
    assert (ledger_all
              (fun d => truthy (Donation.donorName d) = true
                        /\ truthy (Donation.donorEmail d) = true
                        /\ truthy (Donation.donorPhone d) = true)
              (fun _ => True) db) as [HD _].
    { apply reachable_ledger_all; [ | |auto|auto|exact Hr].
      - intros now uid donor b _.
        destruct (donation_pre_save_origin now true
                    (new_donation now uid donor b))
          as (_ & -> & -> & -> & _).
        unfold new_donation. cbn [Donation.donorName Donation.donorEmail
                                  Donation.donorPhone].
        repeat split; apply js_or_lit_truthy; distinct.
      - intros now uid user b d0 d' Hp Ht.
        apply donation_transition_origin in Ht as (_ & -> & -> & -> & _).
        exact Hp. }
    exact (HD id d Hd).
  - intros now newId fault token b db details c pref Hc Hdet Hcd Hne Hpref.
    destruct (donations_post_created now newId fault token b db Hc)
      as (uid & donor & s & ss & _ & _ & _ & _ & _ & _ & ->).
    exists (Donation.pre_save now true (new_donation now uid donor b)).
    split; [simpl; apply lookup_insert_eq|].
    destruct (donation_pre_save_origin now true
                (new_donation now uid donor b))
      as (_ & _ & -> & -> & _).
    unfold new_donation. cbn [Donation.donorEmail Donation.donorPhone].
    rewrite Hdet. unfold opt_field. rewrite Hcd, Hpref.
    apply truthy_Some in Hne. rewrite Hne.
    unfold is_lit, js_or_lit.
    apply truthy_Some in Hne.
    split.
    + intros ->. simpl.
      destruct (String.eqb_spec c ""); [contradiction|reflexivity].
    + intros [-> | ->]; simpl;
        (destruct (String.eqb_spec c ""); [contradiction|reflexivity]).
Qed.

Lemma donor_snapshot_is_never_empty_witness :
  reachable completed_unassigned_db
  /\ exists d,
       donations completed_unassigned_db !! 10%N = Some d
       /\ truthy (Donation.donorName d) = true
       /\ truthy (Donation.donorEmail d) = true.
Proof.
  assert (reachable completed_unassigned_db) as Hr.
  { exists sample_db. split; [split; reflexivity|].
    exact sample_db_reaches_completed. }
  split; [exact Hr|].
  destruct (donations completed_unassigned_db !! 10%N) as [d|] eqn:Hd;
    [|vm_compute in Hd; discriminate Hd].
  exists d. split; [reflexivity|].
  destruct (proj1 donor_snapshot_is_never_empty completed_unassigned_db Hr
              10%N d Hd) as (Hn & He & _).
  split; [exact Hn | exact He].
Defined.
